(** * mmts: the commit coordinator, GIDs, the increasing clock and the
      apply-pool check, embedded from [commit.c], [multimaster.c] and [ddl.c].

    Conventions of the embedding.
    - C integers are [Z]; fixed-width arithmetic has its wrap-around written
      out ([wrap64], [int64_wrap], [int32_wrap]).
    - [nodemask_t] is an unsigned 64-bit word; bit [i-1] stands for node [i].
    - Shared memory ([Mtm]) is observed through snapshots handed in by the
      environment, one per place where the code reads it.
    - Calls into the host (PostgreSQL, DMQ) are recorded as events of a trace;
      their answers come from an environment script. *)

From Stdlib Require Import ZArith Lia Bool List String Ascii Sorted.
From stdpp Require Import base list.
Import ListNotations.
Local Open Scope Z_scope.

(* ===================================================================== *)
(** ** Node masks *)
(* ===================================================================== *)

Module NodeMask.

(** Modelled from the spec: [multimaster.h] is absent; the spec says that a
    membership set fits in a machine-word bitmask with bit [i-1] for node [i].
    [nodemask_t] is taken as an unsigned 64-bit integer. *)
Definition nodemask_bits : Z := 64.

Definition wrap64 (z : Z) : Z := z mod 2 ^ nodemask_bits.

(** [(nodemask_t)1 << n] *)
Definition shl1 (n : Z) : Z := wrap64 (Z.shiftl 1 n).

(** [~m] on a 64-bit word *)
Definition not64 (m : Z) : Z := wrap64 (Z.lnot m).

(** [a & b] *)
Definition and64 (a b : Z) : Z := Z.land a b.

(** Modelled from the spec: the macro [BIT_CHECK(mask, bit)] of the absent
    header, [(mask & ((nodemask_t)1 << bit)) != 0]. *)
Definition BIT_CHECK (mask bit : Z) : bool :=
  negb (and64 mask (shl1 bit) =? 0).

(** Modelled from the spec: the macro [BIT_CLEAR(mask, bit)] of the absent
    header, [mask &= ~((nodemask_t)1 << bit)]. *)
Definition BIT_CLEAR (mask bit : Z) : Z :=
  and64 mask (not64 (shl1 bit)).

(** A shift count is defined in C only inside the width of the type. *)
Definition shift_ok (bit : Z) : bool := (0 <=? bit) && (bit <? nodemask_bits).

(** Number of nodes of a mask (bits set among the first [n]). *)
Fixpoint popcount (n : nat) (mask : Z) : Z :=
  match n with
  | O => 0
  | S k => (if Z.testbit mask (Z.of_nat k) then 1 else 0) + popcount k mask
  end.

End NodeMask.

(* ===================================================================== *)
(** ** The shared state [Mtm] *)
(* ===================================================================== *)

(** Modelled from the spec: the enum of node statuses is declared in the
    absent [multimaster.h]; the spec lists the five states. *)
Inductive MtmNodeStatus : Type :=
| MTM_INITIALIZATION
| MTM_DISABLED
| MTM_RECOVERY
| MTM_RECOVERED
| MTM_ONLINE.

Definition status_eqb (a b : MtmNodeStatus) : bool :=
  match a, b with
  | MTM_INITIALIZATION, MTM_INITIALIZATION
  | MTM_DISABLED, MTM_DISABLED
  | MTM_RECOVERY, MTM_RECOVERY
  | MTM_RECOVERED, MTM_RECOVERED
  | MTM_ONLINE, MTM_ONLINE => true
  | _, _ => false
  end.

(** Counters of a per-peer pool of apply workers ([Mtm->pools[i]]). *)
Record BgwPool : Type := { active : Z; pending : Z }.

(** The fields of [MtmState] that the embedded functions read. *)
Record MtmState : Type := {
  extension_created : bool;
  stop_new_commits : bool;
  status : MtmNodeStatus;
  nAllNodes : Z;
  my_node_id : Z;
  disabledNodeMask : Z;
  pools : list BgwPool
}.

(** 32- and 64-bit signed wrap-around (the host is built with [-fwrapv]). *)
Definition int32_wrap (z : Z) : Z := (z + 2 ^ 31) mod 2 ^ 32 - 2 ^ 31.
Definition int64_wrap (z : Z) : Z := (z + 2 ^ 63) mod 2 ^ 64 - 2 ^ 63.

Definition INT64_MIN : Z := - 2 ^ 63.
Definition INT64_MAX : Z := 2 ^ 63 - 1.

(* ===================================================================== *)
(** ** The increasing clock ([multimaster.c], MtmGetIncreasingTimestamp) *)
(* ===================================================================== *)

Module Clock.

(** [MtmTime]: the spinlock only serialises the callers and is not modelled;
    a call is one atomic step on [last_timestamp]. *)
Record MtmTime : Type := { last_timestamp : Z }.

(** [real_now] is what [GetCurrentTimestamp()] returned to this call. *)
Definition MtmGetIncreasingTimestamp (real_now : Z) (mtm_time : MtmTime)
  : Z * MtmTime :=
  let now := real_now in
  if now <=? last_timestamp mtm_time then
    (* now = ++mtm_time->last_timestamp; *)
    let l := int64_wrap (last_timestamp mtm_time + 1) in
    (l, {| last_timestamp := l |})
  else
    (* mtm_time->last_timestamp = now; *)
    (now, {| last_timestamp := now |}).

(** A sequence of calls in one process; the clock readings are the inputs. *)
Fixpoint calls (readings : list Z) (mtm_time : MtmTime) : list Z * MtmTime :=
  match readings with
  | [] => ([], mtm_time)
  | real_now :: rest =>
      let '(t, mtm_time') := MtmGetIncreasingTimestamp real_now mtm_time in
      let '(ts, final) := calls rest mtm_time' in
      (t :: ts, final)
  end.

(** The spec's words: every call yields [max(real_now, last+1)], and that
    value is the next [last]. *)
Fixpoint spec_calls (readings : list Z) (last : Z) : list Z :=
  match readings with
  | [] => []
  | real_now :: rest =>
      let t := Z.max real_now (last + 1) in t :: spec_calls rest t
  end.

(** Strictly increasing, starting above [lo]. *)
Fixpoint increasing_from (lo : Z) (ts : list Z) : Prop :=
  match ts with
  | [] => True
  | t :: rest => lo < t /\ increasing_from t rest
  end.

Definition last_of (ts : list Z) (d : Z) : Z := List.last ts d.

(** *** Notions used to state the properties *)

(** The readings and the stored value leave room for [n] increments. *)
Definition room (n : Z) (v : Z) : Prop := INT64_MIN <= v /\ v + n <= INT64_MAX.

End Clock.

(* ===================================================================== *)
(** ** The apply pools ([multimaster.c], MtmAllApplyWorkersFinished) *)
(* ===================================================================== *)

Module Pools.

(** What a statement of a loop body does to the control flow. *)
Inductive control : Type :=
| Next                     (* fall through to the next statement *)
| Return (b : bool).       (* [return b;] *)

(** An expression statement [e;]: the value is computed and dropped. *)
Definition expr_stmt (e : bool) : control := Next.

(** The body of the [for] loop for index [i]; [None] is an access outside
    [Mtm->pools]. The logged [ntasks] are collected. *)
Definition loop_body (Mtm : MtmState) (i : Z) (logs : list Z)
  : option (control * list Z) :=
  if i =? my_node_id Mtm - 1 then Some (Next, logs)           (* continue; *)
  else
    match pools Mtm !! Z.to_nat i with
    | None => None
    | Some pool =>
        let ntasks := int32_wrap (active pool + pending pool) in
        let logs := logs ++ [ntasks] in                        (* mtm_log *)
        (* if (ntasks != 0) false; *)
        Some (if negb (ntasks =? 0) then expr_stmt false else Next, logs)
    end.

(** [for (i = 0; i < Mtm->nAllNodes; i++)], then [return true]. *)
Fixpoint loop (n : nat) (Mtm : MtmState) (i : Z) (logs : list Z)
  : option (list Z * bool) :=
  match n with
  | O => Some (logs, true)
  | S n' =>
      match loop_body Mtm i logs with
      | None => None
      | Some (Return b, logs') => Some (logs', b)
      | Some (Next, logs') => loop n' Mtm (i + 1) logs'
      end
  end.

Definition MtmAllApplyWorkersFinished (Mtm : MtmState) : option (list Z * bool) :=
  loop (Z.to_nat (nAllNodes Mtm)) Mtm 0 [].

(** Tasks of pool [i] as the loop computes them. *)
Definition ntasks_of (pool : BgwPool) : Z := int32_wrap (active pool + pending pool).

(** *** Notions used to state the properties *)

Definition busy_cluster : MtmState :=
  {| extension_created := true; stop_new_commits := false; status := MTM_ONLINE;
     nAllNodes := 3; my_node_id := 1; disabledNodeMask := 0;
     pools := [ {| active := 0; pending := 0 |};
                {| active := 2; pending := 5 |};
                {| active := 0; pending := 1 |} ] |}.

End Pools.

(* ===================================================================== *)
(** ** Formatted output and input ([sprintf], [sscanf]) *)
(* ===================================================================== *)

Module Stdio.

Definition code_of (c : ascii) : Z := Z.of_nat (nat_of_ascii c).

Definition digit_char (d : Z) : ascii := ascii_of_nat (Z.to_nat (48 + d)).
Definition is_digit (c : ascii) : bool := (48 <=? code_of c) && (code_of c <=? 57).
Definition digit_val (c : ascii) : Z := code_of c - 48.

(** [isspace] in the C locale: space, and [\t \n \v \f \r]. *)
Definition isspace (c : ascii) : bool :=
  (code_of c =? 32) || ((9 <=? code_of c) && (code_of c <=? 13)).

(** Decimal digits of [n], most significant first, put in front of [acc]. *)
Fixpoint print_digits (fuel : nat) (n : Z) (acc : string) : string :=
  match fuel with
  | O => acc
  | S fuel' =>
      let acc' := String (digit_char (n mod 10)) acc in
      if n / 10 =? 0 then acc' else print_digits fuel' (n / 10) acc'
  end.

(** [%u]: an unsigned decimal number. *)
Definition print_unsigned (n : Z) : string :=
  print_digits (S (Z.to_nat (Z.log2 n))) n EmptyString.

(** [%d]: a signed decimal number. *)
Definition print_signed (z : Z) : string :=
  if z <? 0 then String "-" (print_unsigned (- z)) else print_unsigned z.

(** A conversion specification or a literal character of a format. *)
Inductive directive : Type :=
| Lit (c : ascii)
| Conv (signed : bool) (suppress : bool).   (* %d %u, and %*d %*u *)

(** Reads a format string: [%], an optional [*], length modifiers [l], then
    [d] or [u]. Anything else is a literal character. *)
Fixpoint skip_modifiers (fmt : string) : string :=
  match fmt with
  | String "l" rest => skip_modifiers rest
  | _ => fmt
  end.

Definition conversion (suppress : bool) (fmt : string) : option (directive * string) :=
  match skip_modifiers fmt with
  | String "d" rest => Some (Conv true suppress, rest)
  | String "u" rest => Some (Conv false suppress, rest)
  | _ => None
  end.

Fixpoint parse_format_fuel (fuel : nat) (fmt : string) : list directive :=
  match fuel with
  | O => []
  | S fuel' =>
      match fmt with
      | EmptyString => []
      | String "%" rest =>
          let spec :=
            match rest with
            | String "*" rest' => conversion true rest'
            | _ => conversion false rest
            end in
          match spec with
          | Some (d, rest') => d :: parse_format_fuel fuel' rest'
          | None => Lit "%" :: parse_format_fuel fuel' rest
          end
      | String c rest => Lit c :: parse_format_fuel fuel' rest
      end
  end.

Definition parse_format (fmt : string) : list directive :=
  parse_format_fuel (String.length fmt) fmt.

(** [sprintf]: the arguments are consumed by the conversions in order. *)
Fixpoint format (ds : list directive) (args : list Z) : string :=
  match ds with
  | [] => EmptyString
  | Lit c :: ds' => String c (format ds' args)
  | Conv signed _ :: ds' =>
      match args with
      | [] => format ds' []
      | a :: args' =>
          String.append (if signed then print_signed a else print_unsigned a)
                        (format ds' args')
      end
  end.

Definition sprintf (fmt : string) (args : list Z) : string :=
  format (parse_format fmt) args.

Fixpoint skip_space (s : string) : string :=
  match s with
  | String c rest => if isspace c then skip_space rest else s
  | EmptyString => s
  end.

(** The longest run of digits at the head of [s], as a number. *)
Fixpoint scan_digits (s : string) (acc : Z) : Z * string :=
  match s with
  | String c rest =>
      if is_digit c then scan_digits rest (acc * 10 + digit_val c) else (acc, s)
  | EmptyString => (acc, s)
  end.

(** A decimal conversion of [sscanf]: white space, an optional sign, at least
    one digit. [None] is a matching failure. A value outside the range of the
    receiving C type is undefined in C; the number itself is returned here. *)
Definition scan_integer (s : string) : option (Z * string) :=
  let s := skip_space s in
  let '(neg, s) :=
    match s with
    | String c rest =>
        if Ascii.eqb c "-" then (true, rest)
        else if Ascii.eqb c "+" then (false, rest)
        else (false, s)
    | EmptyString => (false, s)
    end in
  match s with
  | String c _ =>
      if is_digit c then
        let '(v, rest) := scan_digits s 0 in
        Some (if neg then - v else v, rest)
      else None
  | EmptyString => None
  end.

(** [sscanf]: the values stored through the pointer arguments, in order.
    Scanning stops at the first directive that does not match. *)
Fixpoint scan (ds : list directive) (s : string) : list Z :=
  match ds with
  | [] => []
  | Lit c :: ds' =>
      match s with
      | String c' rest => if Ascii.eqb c c' then scan ds' rest else []
      | EmptyString => []
      end
  | Conv _ suppress :: ds' =>
      match scan_integer s with
      | None => []
      | Some (v, rest) => if suppress then scan ds' rest else v :: scan ds' rest
      end
  end.

Definition sscanf (s : string) (fmt : string) : list Z :=
  scan (parse_format fmt) s.

(** *** Notions used to state the properties *)

(** Decimal numerals: digits only, at least one, no leading zero except for
    the numeral [0] itself, read from the left in base ten. *)
Fixpoint all_digits (s : string) : bool :=
  match s with
  | EmptyString => true
  | String c rest => is_digit c && all_digits rest
  end.

Fixpoint value_of (s : string) (acc : Z) : Z :=
  match s with
  | EmptyString => acc
  | String c rest => value_of rest (acc * 10 + digit_val c)
  end.

Definition decimal_of (n : Z) (s : string) : Prop :=
  all_digits s = true
  /\ s <> EmptyString
  /\ value_of s 0 = n
  /\ (forall rest, s = String "0" rest -> rest = EmptyString).

(** A string that does not go on with a digit. *)
Definition no_digit_ahead (s : string) : Prop :=
  match s with
  | String c _ => is_digit c = false
  | EmptyString => True
  end.

End Stdio.

(* ===================================================================== *)
(** ** Global transaction identifiers ([multimaster.c]) *)
(* ===================================================================== *)

Module Gid.
Import Stdio.

(** [XID_FMT] and [TransactionId] come from the host's headers, which are
    not part of the repository: a transaction id is an unsigned 64-bit number
    printed and scanned in decimal. *)
Definition XID_FMT : string := "%lu".
Definition xid_bits : Z := 64.
Definition InvalidTransactionId : Z := 0.
Definition TransactionIdIsValid (xid : Z) : bool := negb (xid =? InvalidTransactionId).

Definition INT_MIN : Z := - 2 ^ 31.
Definition INT_MAX : Z := 2 ^ 31 - 1.

(** [sprintf(gid, "MTM-%d-" XID_FMT, node_id, xid)] *)
Definition MtmGenerateGid (xid : Z) (node_id : Z) : string :=
  sprintf (String.append "MTM-%d-" XID_FMT) [node_id; xid].

(** [node_id] starts as [-1] and is overwritten when the conversion matches. *)
Definition MtmGidParseNodeId (gid : string) : Z :=
  let node_id := -1 in
  match sscanf gid "MTM-%d-%*d" with
  | v :: _ => v
  | [] => node_id
  end.

(** [None] is a failed [Assert(TransactionIdIsValid(xid))] in a build that
    checks assertions. *)
Definition MtmGidParseXid (assert_checking : bool) (gid : string) : option Z :=
  let xid :=
    match sscanf gid (String.append "MTM-%*d-" XID_FMT) with
    | v :: _ => v
    | [] => InvalidTransactionId
    end in
  if assert_checking && negb (TransactionIdIsValid xid) then None else Some xid.

(** *** Notions used to state the properties *)

Definition gid_text (node_id xid : Z) : string :=
  String.append "MTM-"
    (String.append (print_signed node_id)
       (String "-" (String.append (print_unsigned xid) EmptyString))).

(** [MTM-<node_id>-<xid>] with both numbers as decimal numerals, the first
    with a minus sign when it is negative. *)
Definition gid_shape (node_id xid : Z) (gid : string) : Prop :=
  exists dn dx,
    decimal_of (Z.abs node_id) dn /\ decimal_of xid dx
    /\ gid = String.append "MTM-"
               (String.append (if node_id <? 0 then "-" else "")
                  (String.append dn (String "-" dx))).

End Gid.

(* ===================================================================== *)
(** ** The commit coordinator ([commit.c]) and the executor hook ([ddl.c]) *)
(* ===================================================================== *)

Module Commit.
Import NodeMask Stdio Gid.

(** Modelled from the spec: the message codes of the absent header, as the
    spec lists them for the wire format. *)
Inductive MtmMessageCode : Type :=
| MSG_PREPARE | MSG_PREPARED | MSG_ABORTED | MSG_PRECOMMIT | MSG_PRECOMMITTED
| MSG_COMMITTED | MSG_ABORT | MSG_HEARTBEAT | MSG_POLL_STATUS | MSG_STATUS.

Definition code_eqb (a b : MtmMessageCode) : bool :=
  match a, b with
  | MSG_PREPARE, MSG_PREPARE | MSG_PREPARED, MSG_PREPARED
  | MSG_ABORTED, MSG_ABORTED | MSG_PRECOMMIT, MSG_PRECOMMIT
  | MSG_PRECOMMITTED, MSG_PRECOMMITTED | MSG_COMMITTED, MSG_COMMITTED
  | MSG_ABORT, MSG_ABORT | MSG_HEARTBEAT, MSG_HEARTBEAT
  | MSG_POLL_STATUS, MSG_POLL_STATUS | MSG_STATUS, MSG_STATUS => true
  | _, _ => false
  end.

(** The fields of [MtmArbiterMessage] that the gather loops look at. *)
Record MtmArbiterMessage : Type := {
  code : MtmMessageCode;
  node : Z;
  dxid : Z
}.

(** [MtmCurrentTrans]: the fields used by the embedded functions. *)
Record MtmCurrentTrans : Type := {
  xid : Z;
  isDistributed : bool;
  containsDML : bool
}.

Inductive LWLockMode : Type := LW_EXCLUSIVE | LW_SHARED.

(** [MtmLock]/[MtmUnlock] work on [Mtm->locks[MTM_STATE_LOCK_ID]]. *)
Inductive lwlock : Type := MtmStateLock | MtmCommitBarrier.

(** State names of a prepared transaction. *)
Inductive prepared_state : Type := MULTIMASTER_PRECOMMITTED.

Definition USECS_PER_SEC : Z := 1000000.

(** Calls into the host and the DMQ, and observations of shared memory, in
    the order in which they happen. Log lines below ERROR are left out. *)
Inductive event : Type :=
| EvMtmDDLResetStatement
| EvDmqAttachReceiver (name : string) (mask_pos : Z)
| EvBeginTransactionBlock
| EvCommitTransactionCommand
| EvStartTransactionCommand
| EvDmqStreamSubscribe (stream : string)
| EvDmqStreamUnsubscribe (stream : string)
| EvMtmSleep (usec : Z)
| EvLWLockAcquire (l : lwlock) (mode : LWLockMode)
| EvLWLockRelease (l : lwlock)
| EvMtmRead (Mtm : MtmState)
| EvPrepareTransactionBlock (gid : string)
| EvDmqPop (mask : Z)
| EvSetPreparedTransactionState (gid : string) (st : prepared_state)
| EvFinishPreparedTransaction (gid : string) (isCommit : bool)
| EvMaybeLogSyncpoint
| EvMtmMakeRelationLocal (relid : Z)
| EvExecutorFinish
| EvMtmFinishDDLCommand.

(** [mtm_log(ERROR, ...)] and [elog(ERROR, ...)]: the call does not return. *)
Inductive mtm_error : Type :=
| NodeNotOnline (st : MtmNodeStatus)
    (* "Multimaster node is not online: current status %s" *)
| WentOffline
    (* "This node became offline during current transaction" *)
| PrepareFailed (gid : string) (failed_at : Z)
    (* "Failed to prepare transaction %s at node %d" *)
| NodeDisabledDuringCommit.
    (* "our node was disabled during transaction commit" *)

Inductive fault : Type :=
| AssertFailed      (* a failed [Assert] in a build with assertion checking *)
| Undefined.        (* array index or shift count out of range, or a read of
                       a variable that was never written *)

(** What [dmq_pop] hands back. For a detached sender ([dmq_pop] returns
    false) the snapshot of [Mtm] that the loop then reads under the lock
    comes with it. *)
Inductive dmq_answer : Type :=
| DmqMessage (sender_id : Z) (msg : MtmArbiterMessage)
| DmqDetached (sender_id : Z) (Mtm : MtmState).

(** Build and configuration constants. The two application names are macros
    of the absent header. *)
Record config : Type := {
  MtmNodeId : Z;
  assert_checking : bool;
  MULTIMASTER_ADMIN : string;
  MULTIMASTER_BROADCAST_SERVICE : string;
  MtmIgnoreTablesWithoutPk : bool
}.

(** Answers of the host for one transaction. *)
Record host : Type := {
  MtmIsUserTransaction : bool;
  application_name : string;
  debug_query_string : option string;      (* [None] is a NULL pointer *)
  IsTransactionBlock : bool;
  GetTopTransactionId : Z;
  PrepareTransactionBlock : bool
}.

(** The process and its surroundings: what is left of the environment
    script, the trace so far, and the statics of [commit.c]. *)
Record world : Type := {
  mtm_reads : list MtmState;      (* next observations of [Mtm] *)
  dmq_input : list dmq_answer;    (* next answers of [dmq_pop] *)
  trace : list event;
  DmqSubscribed : bool;
  sender_to_node : list Z;        (* [MTM_MAX_NODES] entries *)
  MtmTx : MtmCurrentTrans
}.

Definition set_mtm_reads (w : world) (r : list MtmState) : world :=
  {| mtm_reads := r; dmq_input := dmq_input w; trace := trace w;
     DmqSubscribed := DmqSubscribed w; sender_to_node := sender_to_node w;
     MtmTx := MtmTx w |}.

Definition set_dmq_input (w : world) (d : list dmq_answer) : world :=
  {| mtm_reads := mtm_reads w; dmq_input := d; trace := trace w;
     DmqSubscribed := DmqSubscribed w; sender_to_node := sender_to_node w;
     MtmTx := MtmTx w |}.

Definition set_trace (w : world) (t : list event) : world :=
  {| mtm_reads := mtm_reads w; dmq_input := dmq_input w; trace := t;
     DmqSubscribed := DmqSubscribed w; sender_to_node := sender_to_node w;
     MtmTx := MtmTx w |}.

Definition set_DmqSubscribed (w : world) (b : bool) : world :=
  {| mtm_reads := mtm_reads w; dmq_input := dmq_input w; trace := trace w;
     DmqSubscribed := b; sender_to_node := sender_to_node w;
     MtmTx := MtmTx w |}.

Definition set_sender_to_node (w : world) (a : list Z) : world :=
  {| mtm_reads := mtm_reads w; dmq_input := dmq_input w; trace := trace w;
     DmqSubscribed := DmqSubscribed w; sender_to_node := a;
     MtmTx := MtmTx w |}.

Definition set_MtmTx (w : world) (x : MtmCurrentTrans) : world :=
  {| mtm_reads := mtm_reads w; dmq_input := dmq_input w; trace := trace w;
     DmqSubscribed := DmqSubscribed w; sender_to_node := sender_to_node w;
     MtmTx := x |}.

(** *** The monad: state, errors, faults and a finite script *)

Inductive result (A : Type) : Type :=
| Done (a : A) (w : world)               (* the code returned [a] *)
| Raised (e : mtm_error) (w : world)     (* ERROR was raised *)
| Crashed (f : fault) (w : world)
| NoAnswer (w : world).                  (* the script has no answer left:
                                            the code is still waiting *)
Arguments Done {A} a w.
Arguments Raised {A} e w.
Arguments Crashed {A} f w.
Arguments NoAnswer {A} w.

Definition M (A : Type) : Type := world -> result A.

Definition ret {A} (a : A) : M A := fun w => Done a w.

Definition bind {A B} (m : M A) (f : A -> M B) : M B :=
  fun w =>
    match m w with
    | Done a w' => f a w'
    | Raised e w' => Raised e w'
    | Crashed f' w' => Crashed f' w'
    | NoAnswer w' => NoAnswer w'
    end.

Notation "x <- m ;; k" := (bind m (fun x => k))
  (at level 100, m at next level, right associativity).
Notation "m ;; k" := (bind m (fun _ => k))
  (at level 100, right associativity).

Definition raise {A} (e : mtm_error) : M A := fun w => Raised e w.
Definition crash {A} (f : fault) : M A := fun w => Crashed f w.

Definition world_of {A} (r : result A) : world :=
  match r with
  | Done _ w | Raised _ w | Crashed _ w | NoAnswer w => w
  end.

Definition emit (e : event) : M unit :=
  fun w => Done tt (set_trace w (trace w ++ [e])).

(** One observation of the shared state. *)
Definition read_Mtm : M MtmState :=
  fun w =>
    match mtm_reads w with
    | [] => NoAnswer w
    | Mtm :: rest =>
        Done Mtm (set_trace (set_mtm_reads w rest) (trace w ++ [EvMtmRead Mtm]))
    end.

(** [dmq_pop(&sender_id, &buffer, mask)] *)
Definition dmq_pop (mask : Z) : M dmq_answer :=
  emit (EvDmqPop mask) ;;
  fun w =>
    match dmq_input w with
    | [] => NoAnswer w
    | a :: rest => Done a (set_dmq_input w rest)
    end.

Definition get_MtmTx : M MtmCurrentTrans := fun w => Done (MtmTx w) w.
Definition put_MtmTx (x : MtmCurrentTrans) : M unit :=
  fun w => Done tt (set_MtmTx w x).

(** [Assert(c)]: checked only in a build with assertion checking. *)
Definition Assert (cfg : config) (c : bool) : M unit :=
  if assert_checking cfg && negb c then crash AssertFailed else ret tt.

(** A shift by [bit] is defined only for [0 <= bit < 64]. *)
Definition shift_guard (bit : Z) : M unit :=
  if shift_ok bit then ret tt else crash Undefined.

(** [sender_to_node[sender_id]] *)
Definition sender_to_node_at (sender_id : Z) : M Z :=
  fun w =>
    if sender_id <? 0 then Crashed Undefined w
    else match sender_to_node w !! Z.to_nat sender_id with
         | Some n => Done n w
         | None => Crashed Undefined w
         end.

(** [sender_to_node[sender_id] = v] *)
Definition sender_to_node_store (sender_id v : Z) : M unit :=
  fun w =>
    if (0 <=? sender_id) && (sender_id <? Z.of_nat (length (sender_to_node w)))
    then Done tt (set_sender_to_node w (<[Z.to_nat sender_id := v]> (sender_to_node w)))
    else Crashed Undefined w.

(** [while (cond) body]. Every turn of a loop of [commit.c] takes an answer
    from the script, so the length of the script bounds the number of turns. *)
Fixpoint while_fuel {S : Type} (fuel : nat) (cond : S -> M bool)
    (body : S -> M S) (s : S) : M S :=
  match fuel with
  | O => fun w => NoAnswer w
  | S fuel' =>
      c <- cond s ;;
      if c then (s' <- body s ;; while_fuel fuel' cond body s') else ret s
  end.

Definition fuel_of (w : world) : nat :=
  S (length (mtm_reads w) + length (dmq_input w)).

Definition while {S : Type} (cond : S -> M bool) (body : S -> M S) (s : S) : M S :=
  fun w => while_fuel (fuel_of w) cond body s w.

(** *** [pg_strcasecmp] (host) *)

(** ASCII case folding; the locale-dependent folding of bytes above 127 is
    left out. *)
Definition ascii_lower (c : ascii) : ascii :=
  let n := code_of c in
  if (65 <=? n) && (n <=? 90) then ascii_of_nat (Z.to_nat (n + 32)) else c.

(** The end of a string stands for the terminating NUL. *)
Fixpoint pg_strcasecmp (s1 s2 : string) : Z :=
  match s1, s2 with
  | EmptyString, EmptyString => 0
  | EmptyString, String c2 _ => 0 - code_of (ascii_lower c2)
  | String c1 _, EmptyString => code_of (ascii_lower c1) - 0
  | String c1 r1, String c2 r2 =>
      if Ascii.eqb c1 c2 then pg_strcasecmp r1 r2
      else
        let ch1 := ascii_lower c1 in
        let ch2 := ascii_lower c2 in
        if Ascii.eqb ch1 ch2 then pg_strcasecmp r1 r2
        else code_of ch1 - code_of ch2
  end.

(** [strcmp(a, b) != 0] *)
Definition strcmp_ne (a b : string) : bool := negb (String.eqb a b).

(** *** [MtmBeginTransaction] *)

(** The condition of the [if]: [&&] evaluates from the left, so [Mtm->status]
    is read only for a distributed transaction. The result carries the status
    to report. *)
Definition begin_must_reject (cfg : config) (h : host) (x : MtmCurrentTrans)
  : M (option MtmNodeStatus) :=
  if isDistributed x then
    Mtm <- read_Mtm ;;
    ret (if negb (status_eqb (status Mtm) MTM_ONLINE)
            && strcmp_ne (application_name h) (MULTIMASTER_ADMIN cfg)
            && strcmp_ne (application_name h) (MULTIMASTER_BROADCAST_SERVICE cfg)
            && match debug_query_string h with
               | None => false
               | Some q => negb (pg_strcasecmp q "create extension multimaster;" =? 0)
               end
         then Some (status Mtm) else None)
  else ret None.

Definition MtmBeginTransaction (cfg : config) (h : host) : M unit :=
  x <- get_MtmTx ;;
  (* x->isDistributed = MtmIsUserTransaction(); x->containsDML = false; *)
  let x := {| xid := xid x; isDistributed := MtmIsUserTransaction h;
              containsDML := false |} in
  put_MtmTx x ;;
  emit EvMtmDDLResetStatement ;;
  reject <- begin_must_reject cfg h x ;;
  match reject with
  | Some st => raise (NodeNotOnline st)
  | None => ret tt
  end.

(** *** [MtmExecutorFinish] ([ddl.c]) *)

Inductive CmdType : Type :=
| CMD_UNKNOWN | CMD_SELECT | CMD_UPDATE | CMD_INSERT | CMD_DELETE
| CMD_UTILITY | CMD_NOTHING.

Definition is_dml (operation : CmdType) : bool :=
  match operation with
  | CMD_INSERT | CMD_UPDATE | CMD_DELETE => true
  | _ => false
  end.

(** A result relation: what the hook asks of it. *)
Record Relation : Type := {
  RelationGetRelid : Z;
  RelationNeedsWAL : bool;
  has_replident_index : bool     (* [rel->rd_replidindex != InvalidOid] *)
}.

Record QueryDesc : Type := {
  operation : CmdType;
  es_processed : Z;
  es_result_relations : list Relation;
  is_MtmDDLStatement : bool      (* [MtmDDLStatement == queryDesc] *)
}.

(** The [for] loop over the result relations; [break] ends it. *)
Fixpoint executor_finish_scan (cfg : config) (rels : list Relation) : M unit :=
  match rels with
  | [] => ret tt
  | rel :: rest =>
      if RelationNeedsWAL rel then
        if MtmIgnoreTablesWithoutPk cfg && negb (has_replident_index rel) then
          emit (EvMtmMakeRelationLocal (RelationGetRelid rel)) ;;
          executor_finish_scan cfg rest                          (* continue; *)
        else
          x <- get_MtmTx ;;
          put_MtmTx {| xid := xid x; isDistributed := isDistributed x;
                       containsDML := true |}                    (* break; *)
      else executor_finish_scan cfg rest
  end.

Definition MtmExecutorFinish (cfg : config) (queryDesc : QueryDesc) : M unit :=
  (if negb (es_processed queryDesc =? 0) && is_dml (operation queryDesc)
   then executor_finish_scan cfg (es_result_relations queryDesc)
   else ret tt) ;;
  emit EvExecutorFinish ;;
  if is_MtmDDLStatement queryDesc then emit EvMtmFinishDDLCommand else ret tt.

(** *** [GatherPrepares] *)

Record gather_state : Type := {
  participantsMask : Z;
  prepared : bool;
  failed_at : option Z           (* [None]: not written yet *)
}.

Definition GatherPrepares_body (cfg : config) (st : gather_state) : M gather_state :=
  a <- dmq_pop (participantsMask st) ;;
  match a with
  | DmqMessage sender_id msg =>
      n <- sender_to_node_at sender_id ;;
      x <- get_MtmTx ;;
      Assert cfg (node msg =? n) ;;
      Assert cfg (code_eqb (code msg) MSG_PREPARED || code_eqb (code msg) MSG_ABORTED) ;;
      Assert cfg (dxid msg =? xid x) ;;
      shift_guard (n - 1) ;;
      Assert cfg (BIT_CHECK (participantsMask st) (n - 1)) ;;
      let mask := BIT_CLEAR (participantsMask st) (n - 1) in
      if code_eqb (code msg) MSG_ABORTED then
        ret {| participantsMask := mask; prepared := false;
               failed_at := Some (node msg) |}
      else
        ret {| participantsMask := mask; prepared := prepared st;
               failed_at := failed_at st |}
  | DmqDetached sender_id Mtm =>
      emit (EvLWLockAcquire MtmStateLock LW_SHARED) ;;
      emit (EvMtmRead Mtm) ;;
      n <- sender_to_node_at sender_id ;;
      shift_guard (n - 1) ;;
      st' <- (if BIT_CHECK (disabledNodeMask Mtm) (n - 1) then
                if negb (status_eqb (status Mtm) MTM_ONLINE) then
                  raise NodeDisabledDuringCommit
                else
                  ret {| participantsMask := BIT_CLEAR (participantsMask st) (n - 1);
                         prepared := false; failed_at := Some n |}
              else ret st) ;;
      emit (EvLWLockRelease MtmStateLock) ;;
      ret st'
  end.

Definition mask_not_empty (st : gather_state) : M bool :=
  ret (negb (participantsMask st =? 0)).

Definition GatherPrepares (cfg : config) (mask : Z) : M (bool * option Z) :=
  Assert cfg (negb (mask =? 0)) ;;
  st <- while mask_not_empty (GatherPrepares_body cfg)
          {| participantsMask := mask; prepared := true; failed_at := None |} ;;
  (* XXX: assert that majority has responded *)
  ret (prepared st, failed_at st).

(** *** [GatherPrecommits] *)

Definition GatherPrecommits_body (cfg : config) (expected : MtmMessageCode)
    (mask : Z) : M Z :=
  a <- dmq_pop mask ;;
  match a with
  | DmqMessage sender_id msg =>
      n <- sender_to_node_at sender_id ;;
      x <- get_MtmTx ;;
      Assert cfg (node msg =? n) ;;
      Assert cfg (code_eqb (code msg) expected) ;;
      Assert cfg (dxid msg =? xid x) ;;
      shift_guard (n - 1) ;;
      Assert cfg (BIT_CHECK mask (n - 1)) ;;
      ret (BIT_CLEAR mask (n - 1))
  | DmqDetached sender_id Mtm =>
      emit (EvLWLockAcquire MtmStateLock LW_SHARED) ;;
      emit (EvMtmRead Mtm) ;;
      n <- sender_to_node_at sender_id ;;
      shift_guard (n - 1) ;;
      mask' <- (if BIT_CHECK (disabledNodeMask Mtm) (n - 1) then
                  if negb (status_eqb (status Mtm) MTM_ONLINE) then
                    raise NodeDisabledDuringCommit
                  else ret (BIT_CLEAR mask (n - 1))
                else ret mask) ;;
      emit (EvLWLockRelease MtmStateLock) ;;
      ret mask'
  end.

Definition GatherPrecommits (cfg : config) (mask : Z) (expected : MtmMessageCode)
  : M unit :=
  Assert cfg (negb (mask =? 0)) ;;
  while (fun m => ret (negb (m =? 0))) (GatherPrecommits_body cfg expected) mask ;;
  (* XXX: assert that majority has responded *)
  ret tt.

(** *** [MtmTwoPhaseCommit] *)

(** [if (!x->isDistributed || !x->containsDML || !Mtm->extension_created)
    return false;] -- [||] evaluates from the left, so [Mtm] is read only
    when both flags of the transaction are set. [true]: go on with 3PC. *)
Definition commit_guard : M bool :=
  x <- get_MtmTx ;;
  if negb (isDistributed x) then ret false
  else if negb (containsDML x) then ret false
  else Mtm <- read_Mtm ;; ret (extension_created Mtm).

(** The [for] loop that attaches the receivers, [n] turns left. *)
Fixpoint attach_loop (cfg : config) (n : nat) (i sender_id : Z) : M unit :=
  match n with
  | O => ret tt
  | S n' =>
      sender_id' <-
        (if negb (i + 1 =? MtmNodeId cfg) then
           emit (EvDmqAttachReceiver (sprintf "node%d" [i + 1]) i) ;;
           sender_to_node_store sender_id (i + 1) ;;
           ret (sender_id + 1)
         else ret sender_id) ;;
      attach_loop cfg n' (i + 1) sender_id'
  end.

(** [if (!DmqSubscribed) { ... DmqSubscribed = true; }]. [Mtm->nAllNodes] is
    a configuration value: the reads of the loop are one observation. *)
Definition attach_receivers (cfg : config) : M unit :=
  fun w =>
    if negb (DmqSubscribed w) then
      (Mtm <- read_Mtm ;;
       attach_loop cfg (Z.to_nat (nAllNodes Mtm)) 0 0 ;;
       (fun w' => Done tt (set_DmqSubscribed w' true))) w
    else Done tt w.

(** [if (!IsTransactionBlock()) { ... }] *)
Definition begin_block (h : host) : M unit :=
  if negb (IsTransactionBlock h) then
    emit EvBeginTransactionBlock ;;
    emit EvCommitTransactionCommand ;;
    emit EvStartTransactionCommand
  else ret tt.

(** [while (Mtm->stop_new_commits) MtmSleep(USECS_PER_SEC);] *)
Definition wait_stop_new_commits : M unit :=
  while (fun _ => Mtm <- read_Mtm ;; ret (stop_new_commits Mtm))
        (fun _ => emit (EvMtmSleep USECS_PER_SEC)) tt.

(** The participants, taken under the state lock. A raised ERROR leaves the
    function with the lock held (the host releases it while aborting). *)
Definition snapshot_participants (cfg : config) : M Z :=
  emit (EvLWLockAcquire MtmStateLock LW_SHARED) ;;
  Mtm <- read_Mtm ;;
  shift_guard (nAllNodes Mtm) ;;
  shift_guard (MtmNodeId cfg - 1) ;;
  let participantsMask :=
    and64 (and64 (wrap64 (shl1 (nAllNodes Mtm) - 1))
                 (not64 (disabledNodeMask Mtm)))
          (not64 (shl1 (MtmNodeId cfg - 1))) in
  (if negb (status_eqb (status Mtm) MTM_ONLINE) then raise WentOffline else ret tt) ;;
  emit (EvLWLockRelease MtmStateLock) ;;
  ret participantsMask.

(** From the top of the function to [LWLockAcquire(MtmCommitBarrier)]:
    attach, open a transaction block, subscribe, wait for the barrier. The
    call [MtmGenerateGid(gid, xid)] of [commit.c] gives no node id; the
    definition in [multimaster.c] takes one, and the node's own id is used. *)
Definition commit_prologue (cfg : config) (h : host) : M (string * string) :=
  attach_receivers cfg ;;
  begin_block h ;;
  let xid' := GetTopTransactionId h in
  let gid := MtmGenerateGid xid' (MtmNodeId cfg) in
  let stream := sprintf (String.append "xid" XID_FMT) [xid'] in
  emit (EvDmqStreamSubscribe stream) ;;
  x <- get_MtmTx ;;
  put_MtmTx {| xid := xid'; isDistributed := isDistributed x;
               containsDML := containsDML x |} ;;
  wait_stop_new_commits ;;
  emit (EvLWLockAcquire MtmCommitBarrier LW_SHARED) ;;
  ret (gid, stream).

(** A read of [failed_at] by the caller. *)
Definition read_failed_at (failed_at : option Z) : M Z :=
  match failed_at with
  | Some n => ret n
  | None => crash Undefined
  end.

(** After [GatherPrepares] has returned true: precommit, commit, release. *)
Definition commit_after_prepares (cfg : config) (gid stream : string)
    (participantsMask : Z) : M bool :=
  emit (EvSetPreparedTransactionState gid MULTIMASTER_PRECOMMITTED) ;;
  GatherPrecommits cfg participantsMask MSG_PRECOMMITTED ;;
  emit EvStartTransactionCommand ;;
  emit (EvFinishPreparedTransaction gid true) ;;
  GatherPrecommits cfg participantsMask MSG_COMMITTED ;;
  emit (EvLWLockRelease MtmCommitBarrier) ;;
  emit (EvDmqStreamUnsubscribe stream) ;;
  emit EvMaybeLogSyncpoint ;;
  ret true.

(** From [PrepareTransactionBlock] to the end of the function. *)
Definition commit_epilogue (cfg : config) (h : host) (gid stream : string)
    (participantsMask : Z) : M bool :=
  emit (EvPrepareTransactionBlock gid) ;;
  if negb (PrepareTransactionBlock h) then ret true
  else
    emit EvCommitTransactionCommand ;;
    r <- GatherPrepares cfg participantsMask ;;
    if negb (fst r) then
      emit (EvDmqStreamUnsubscribe stream) ;;
      emit (EvFinishPreparedTransaction gid false) ;;
      n <- read_failed_at (snd r) ;;
      raise (PrepareFailed gid n)
    else commit_after_prepares cfg gid stream participantsMask.

Definition MtmTwoPhaseCommit (cfg : config) (h : host) : M bool :=
  go <- commit_guard ;;
  if negb go then ret false
  else
    gs <- commit_prologue cfg h ;;
    participantsMask <- snapshot_participants cfg ;;
    commit_epilogue cfg h (fst gs) (snd gs) participantsMask.

(** *** Notions used to state the properties *)

(** Whatever the outcome of [m], the events it adds to the trace all
    satisfy [P]. *)
Definition emits {A} (P : event -> Prop) (m : M A) : Prop :=
  forall w, exists evs,
    trace (world_of (m w)) = trace w ++ evs /\ Forall P evs.

(** Events of a gather loop: [dmq_pop], and the look at [Mtm] under the
    state lock when a sender is detached. *)
Definition gather_event (e : event) : Prop :=
  match e with
  | EvDmqPop _ => True
  | EvLWLockAcquire MtmStateLock LW_SHARED => True
  | EvLWLockRelease MtmStateLock => True
  | EvMtmRead _ => True
  | _ => False
  end.

(** Events before the subscription: the first look at [Mtm], attaching the
    receivers, opening a transaction block. *)
Definition setup_event (e : event) : Prop :=
  match e with
  | EvMtmRead _ => True
  | EvDmqAttachReceiver _ _ => True
  | EvBeginTransactionBlock => True
  | EvCommitTransactionCommand => True
  | EvStartTransactionCommand => True
  | _ => False
  end.

(** Polling [stop_new_commits]: one look at [Mtm] and a sleep of one second
    for every snapshot that has the flag set. *)
Definition polls (ms : list MtmState) : list event :=
  flat_map (fun Mtm => [EvMtmRead Mtm; EvMtmSleep USECS_PER_SEC]) ms.

Definition gid_of (cfg : config) (h : host) : string :=
  MtmGenerateGid (GetTopTransactionId h) (MtmNodeId cfg).

Definition stream_of (h : host) : string :=
  sprintf (String.append "xid" XID_FMT) [GetTopTransactionId h].

(** The mask of the participants as the source computes it. *)
Definition participants_of (cfg : config) (Mtm : MtmState) : Z :=
  and64 (and64 (wrap64 (shl1 (nAllNodes Mtm) - 1)) (not64 (disabledNodeMask Mtm)))
        (not64 (shl1 (MtmNodeId cfg - 1))).

Definition is_barrier_event (e : event) : bool :=
  match e with
  | EvLWLockAcquire MtmCommitBarrier _ => true
  | EvLWLockRelease MtmCommitBarrier => true
  | _ => false
  end.

(** The events of a commit that went through all three phases. *)
Definition commit_events (gid stream : string) (pre : list event)
    (ms : list MtmState) (last snap : MtmState) (g1 g2 g3 : list event)
  : list event :=
  pre
  ++ [EvDmqStreamSubscribe stream]
  ++ polls ms ++ [EvMtmRead last]
  ++ [EvLWLockAcquire MtmCommitBarrier LW_SHARED]
  ++ [EvLWLockAcquire MtmStateLock LW_SHARED; EvMtmRead snap;
      EvLWLockRelease MtmStateLock]
  ++ [EvPrepareTransactionBlock gid; EvCommitTransactionCommand]
  ++ g1
  ++ [EvSetPreparedTransactionState gid MULTIMASTER_PRECOMMITTED]
  ++ g2
  ++ [EvStartTransactionCommand; EvFinishPreparedTransaction gid true]
  ++ g3
  ++ [EvLWLockRelease MtmCommitBarrier; EvDmqStreamUnsubscribe stream;
      EvMaybeLogSyncpoint].

Definition not_prepare (e : event) : Prop :=
  forall gid, e <> EvPrepareTransactionBlock gid.

(** The node that an answer of [dmq_pop] is about:
    [sender_to_node[sender_id]]. *)
Definition node_of (s2n : list Z) (a : dmq_answer) : option Z :=
  match a with
  | DmqMessage s _ | DmqDetached s _ =>
      if s <? 0 then None else s2n !! Z.to_nat s
  end.

(** The answer takes its sender out of the awaited mask: a reply, or a
    detached sender that the snapshot of [Mtm] shows in [disabledNodeMask]. *)
Definition clears (s2n : list Z) (a : dmq_answer) : bool :=
  match a with
  | DmqMessage _ _ => true
  | DmqDetached _ Mtm =>
      match node_of s2n a with
      | Some n => BIT_CHECK (disabledNodeMask Mtm) (n - 1)
      | None => false
      end
  end.

(** The answer makes [GatherPrepares] fail: an ABORTED reply, or a detached
    sender that is dropped. *)
Definition fails (s2n : list Z) (a : dmq_answer) : bool :=
  match a with
  | DmqMessage _ msg => code_eqb (code msg) MSG_ABORTED
  | DmqDetached _ _ => clears s2n a
  end.

(** What is written to [*failed_at] for a failing answer. *)
Definition failure_node (s2n : list Z) (a : dmq_answer) : option Z :=
  match a with
  | DmqMessage _ msg => Some (node msg)
  | DmqDetached _ _ => node_of s2n a
  end.

(** A detached sender is dropped only while this node is ONLINE. *)
Definition dropped_online (s2n : list Z) (a : dmq_answer) : Prop :=
  match a with
  | DmqMessage _ _ => True
  | DmqDetached _ Mtm => clears s2n a = true -> status Mtm = MTM_ONLINE
  end.

(** [*failed_at] after the answers [consumed]: the node of the last one
    that fails. *)
Fixpoint failed_at_after (s2n : list Z) (consumed : list dmq_answer)
    (fa : option Z) : option Z :=
  match consumed with
  | [] => fa
  | a :: rest =>
      failed_at_after s2n rest (if fails s2n a then failure_node s2n a else fa)
  end.

(** What the assertions of the loop check of a reply. *)
Definition reply_checked (s2n : list Z) (a : dmq_answer) : Prop :=
  match a with
  | DmqMessage _ msg =>
      node_of s2n a = Some (node msg)
      /\ (code msg = MSG_PREPARED \/ code msg = MSG_ABORTED)
  | DmqDetached _ _ => True
  end.

Definition nodemask_range (mask : Z) : Prop := 0 <= mask < 2 ^ nodemask_bits.

(** The run of [MtmTwoPhaseCommit] from [w] has come to the call of
    [GatherPrepares]: the guard let it pass, the participants [mask] were
    taken and the local PREPARE went through. *)
Definition reaches_gather (cfg : config) (h : host) (w : world)
    (gid stream : string) (mask : Z) (w3 : world) : Prop :=
  exists w0 w1 w2,
    commit_guard w = Done true w0
    /\ commit_prologue cfg h w0 = Done (gid, stream) w1
    /\ snapshot_participants cfg w1 = Done mask w2
    /\ PrepareTransactionBlock h = true
    /\ w3 = set_trace w2 (trace w2 ++ [EvPrepareTransactionBlock gid;
                                       EvCommitTransactionCommand]).



(** The condition under which [MtmBeginTransaction] refuses a transaction. *)
Definition refused_at_start (cfg : config) (h : host) (Mtm : MtmState) : Prop :=
  MtmIsUserTransaction h = true
  /\ status Mtm <> MTM_ONLINE
  /\ application_name h <> MULTIMASTER_ADMIN cfg
  /\ application_name h <> MULTIMASTER_BROADCAST_SERVICE cfg
  /\ exists q, debug_query_string h = Some q
               /\ pg_strcasecmp q "create extension multimaster;" <> 0.

(** The transaction state that [MtmBeginTransaction] leaves behind. *)
Definition tx_at_start (h : host) (w : world) : MtmCurrentTrans :=
  {| xid := xid (MtmTx w); isDistributed := MtmIsUserTransaction h;
     containsDML := false |}.

(** What is left of the script. *)
Definition script_left (w : world) : nat :=
  (length (mtm_reads w) + length (dmq_input w))%nat.

(** A result relation whose change makes the transaction one to replicate. *)
Definition replicated (cfg : config) (rel : Relation) : bool :=
  RelationNeedsWAL rel
  && negb (MtmIgnoreTablesWithoutPk cfg && negb (has_replident_index rel)).

End Commit.

(* ===================================================================== *)
(** ** Concrete clusters and runs *)
(* ===================================================================== *)

Module Scenario.
Import Commit.

(** Node 1 of the cluster, built with assertion checking. *)
Definition cfg1 : config :=
  {| MtmNodeId := 1; assert_checking := true;
     MULTIMASTER_ADMIN := "mtm_admin";
     MULTIMASTER_BROADCAST_SERVICE := "mtm_broadcast";
     MtmIgnoreTablesWithoutPk := false |}.

(** The same node in a production build. *)
Definition cfg1_release : config :=
  {| MtmNodeId := 1; assert_checking := false;
     MULTIMASTER_ADMIN := "mtm_admin";
     MULTIMASTER_BROADCAST_SERVICE := "mtm_broadcast";
     MtmIgnoreTablesWithoutPk := false |}.

(** A client session that inserts a row; its transaction has xid 700. *)
Definition user_insert : host :=
  {| MtmIsUserTransaction := true; application_name := "psql";
     debug_query_string := Some "insert into t values (1, 10);"%string;
     IsTransactionBlock := false; GetTopTransactionId := 700;
     PrepareTransactionBlock := true |}.

(** A client session that creates the extension. *)
Definition user_create_extension : host :=
  {| MtmIsUserTransaction := true; application_name := "psql";
     debug_query_string := Some "CREATE EXTENSION multimaster;"%string;
     IsTransactionBlock := false; GetTopTransactionId := 3;
     PrepareTransactionBlock := true |}.

Definition cluster (n disabled : Z) (st : MtmNodeStatus) : MtmState :=
  {| extension_created := true; stop_new_commits := false; status := st;
     nAllNodes := n; my_node_id := 1; disabledNodeMask := disabled;
     pools := [] |}.

Definition not_configured (n : Z) : MtmState :=
  {| extension_created := false; stop_new_commits := false; status := MTM_ONLINE;
     nAllNodes := n; my_node_id := 1; disabledNodeMask := 0; pools := [] |}.

Definition reply (c : MtmMessageCode) (n : Z) : MtmArbiterMessage :=
  {| code := c; node := n; dxid := 700 |}.

(** A backend that has not committed yet, with a transaction that changed
    rows, and what the environment is going to answer. *)
Definition backend (reads : list MtmState) (input : list dmq_answer) : world :=
  {| mtm_reads := reads; dmq_input := input; trace := [];
     DmqSubscribed := false; sender_to_node := [0; 0; 0; 0; 0; 0];
     MtmTx := {| xid := 0; isDistributed := true; containsDML := true |} |}.

Definition online3 : MtmState := cluster 3 0 MTM_ONLINE.

(** A receiver is starting: new commits have to wait. *)
Definition closed3 : MtmState :=
  {| extension_created := true; stop_new_commits := true; status := MTM_ONLINE;
     nAllNodes := 3; my_node_id := 1; disabledNodeMask := 0; pools := [] |}.

(** Three nodes, everybody answers. *)
Definition commit3 : world :=
  backend [online3; online3; online3; online3]
    [DmqMessage 0 (reply MSG_PREPARED 2); DmqMessage 1 (reply MSG_PREPARED 3);
     DmqMessage 1 (reply MSG_PRECOMMITTED 3); DmqMessage 0 (reply MSG_PRECOMMITTED 2);
     DmqMessage 0 (reply MSG_COMMITTED 2); DmqMessage 1 (reply MSG_COMMITTED 3)].

(** Node 3 votes against the transaction. *)
Definition abort3 : world :=
  backend [online3; online3; online3; online3]
    [DmqMessage 0 (reply MSG_PREPARED 2); DmqMessage 1 (reply MSG_ABORTED 3)].

(** This node is found DISABLED when the participants are taken. *)
Definition offline3 : world :=
  backend [online3; online3; online3; cluster 3 0 MTM_DISABLED] [].

(** Node 3 goes away after its PREPARED: both later gathers find it
    detached and disabled. *)
Definition late_failure3 : world :=
  backend [online3; online3; online3; online3]
    [DmqMessage 0 (reply MSG_PREPARED 2); DmqMessage 1 (reply MSG_PREPARED 3);
     DmqMessage 0 (reply MSG_PRECOMMITTED 2);
     DmqDetached 1 (cluster 3 4 MTM_ONLINE);
     DmqMessage 0 (reply MSG_COMMITTED 2);
     DmqDetached 1 (cluster 3 4 MTM_ONLINE)].

(** Five nodes of which 3, 4 and 5 are disabled; node 2 answers. *)
Definition minority5 : world :=
  backend [cluster 5 28 MTM_ONLINE; cluster 5 28 MTM_ONLINE;
           cluster 5 28 MTM_ONLINE; cluster 5 28 MTM_ONLINE]
    [DmqMessage 0 (reply MSG_PREPARED 2); DmqMessage 0 (reply MSG_PRECOMMITTED 2);
     DmqMessage 0 (reply MSG_COMMITTED 2)].

(** Two nodes; node 2 is disabled and this node is ONLINE alone (the
    referee's grant). *)
Definition lone2 : world :=
  backend [cluster 2 2 MTM_ONLINE; cluster 2 2 MTM_ONLINE;
           cluster 2 2 MTM_ONLINE; cluster 2 2 MTM_ONLINE] [].

(** The extension has not been created. *)
Definition unconfigured3 : world :=
  backend [not_configured 3] [].

(** The world at the call of [GatherPrepares] of a commit started in [w]. *)
Definition at_gather (cfg : config) (h : host) (w : world) : world :=
  let w0 := world_of (commit_guard w) in
  let w1 := world_of (commit_prologue cfg h w0) in
  let w2 := world_of (snapshot_participants cfg w1) in
  set_trace w2
    (trace w2 ++ [EvPrepareTransactionBlock
                    (Gid.MtmGenerateGid (GetTopTransactionId h) (MtmNodeId cfg));
                  EvCommitTransactionCommand]).

End Scenario.

(* ===================================================================== *)
(** ** The peers of a backend ([commit.c], the attach loop) *)
(* ===================================================================== *)

Module Peers.
Import Stdio Commit.

(** The nodes [first], [first + 1], ... ([count] of them) other than [self]. *)
Fixpoint peers_from (self : Z) (count : nat) (first : Z) : list Z :=
  match count with
  | O => []
  | S k => (if first =? self then [] else [first]) ++ peers_from self k (first + 1)
  end.

(** The nodes [1 .. nAllNodes] other than [self], in ascending order. *)
Definition peers (self nAllNodes : Z) : list Z :=
  peers_from self (Z.to_nat nAllNodes) 1.

(** [dmq_attach_receiver(psprintf("node%d", node), node - 1)] *)
Definition attach_event (node : Z) : event :=
  EvDmqAttachReceiver (sprintf "node%d" [node]) (node - 1).

End Peers.

(* ===================================================================== *)
(** ** Calls into the host: a log of what was called, and how the function
       ended *)
(* ===================================================================== *)

Module Calls.

Inductive fault : Type :=
| AssertFailed      (* a failed [Assert] in a build with assertion checking *)
| Undefined         (* a NULL pointer is followed, or an array is left *)
| Stuck.            (* the process waits for a lock that it holds itself *)

(** What a function has done when it stops: the calls made so far, of a type
    [C], and the way it ended; [E] are the ERRORs it may raise. [do_call] is
    a call that returns; where the ERROR of a host function matters, the
    module has a call of its own that can raise. *)
Inductive outcome (C E A : Type) : Type :=
| Ok (a : A) (calls : list C)
| Error (e : E) (calls : list C)        (* [mtm_log(ERROR, ...)] *)
| Fault (f : fault) (calls : list C).
Arguments Ok {C E A} a calls.
Arguments Error {C E A} e calls.
Arguments Fault {C E A} f calls.

Definition calls_of {C E A} (o : outcome C E A) : list C :=
  match o with
  | Ok _ l | Error _ l | Fault _ l => l
  end.

Definition ret {C E A} (a : A) : outcome C E A := Ok a [].

Definition bind {C E A B} (m : outcome C E A) (f : A -> outcome C E B)
  : outcome C E B :=
  match m with
  | Ok a l =>
      match f a with
      | Ok b l' => Ok b (l ++ l')
      | Error e l' => Error e (l ++ l')
      | Fault x l' => Fault x (l ++ l')
      end
  | Error e l => Error e l
  | Fault x l => Fault x l
  end.

Notation "x <- m ;; k" := (bind m (fun x => k))
  (at level 100, m at next level, right associativity).
Notation "m ;; k" := (bind m (fun _ => k))
  (at level 100, right associativity).

Definition do_call {C E} (c : C) : outcome C E unit := Ok tt [c].
Definition raise {C E A} (e : E) : outcome C E A := Error e [].
Definition crash {C E A} (f : fault) : outcome C E A := Fault f [].

(** [Assert(c)]: checked only in a build with assertion checking. *)
Definition Assert {C E} (assert_checking : bool) (c : bool) : outcome C E unit :=
  if assert_checking && negb c then crash AssertFailed else ret tt.

End Calls.

(* ===================================================================== *)
(** ** Node management ([multimaster.c]): the configuration check, the
       triggers on [mtm.nodes] and the launcher *)
(* ===================================================================== *)

Module Nodes.
Import Stdio Calls.

(** Macros of the absent [multimaster.h], taken as parameters. *)
Record names : Type := {
  MULTIMASTER_NAME : string;
  MTM_SUBNAME_FMT : string;
  MULTIMASTER_SLOT_PATTERN : string;
  MULTIMASTER_RECOVERY_SLOT_PATTERN : string;
  MTM_MAX_NODES : Z
}.

(** [wal_level] of the host. *)
Inductive WalLevel : Type :=
| WAL_LEVEL_MINIMAL | WAL_LEVEL_REPLICA | WAL_LEVEL_LOGICAL.

Definition wal_level_eqb (a b : WalLevel) : bool :=
  match a, b with
  | WAL_LEVEL_MINIMAL, WAL_LEVEL_MINIMAL
  | WAL_LEVEL_REPLICA, WAL_LEVEL_REPLICA
  | WAL_LEVEL_LOGICAL, WAL_LEVEL_LOGICAL => true
  | _, _ => false
  end.

(** The settings that [check_config] reads. *)
Record settings : Type := {
  MtmMaxNodes : Z;
  max_prepared_xacts : Z;
  max_worker_processes : Z;
  wal_level : WalLevel;
  max_wal_senders : Z;
  max_replication_slots : Z
}.

(** The warnings of [check_config], with the numbers they print. *)
Inductive config_warning : Type :=
| NeedMaxNodes
    (* "multimaster requires multimaster.max_nodes > 0" *)
| NeedPreparedXacts
    (* "multimaster requires max_prepared_transactions > 0, ..." *)
| NeedWorkers (workers_required : Z)
    (* "multimaster requires max_worker_processes >= %d" *)
| NeedWalLevelLogical
    (* "multimaster requires wal_level = 'logical', ..." *)
| NeedWalSenders (n : Z)
    (* "multimaster requires max_wal_senders >= %d (multimaster.max_nodes), " *)
| NeedReplicationSlots (n : Z).
    (* "multimaster requires max_replication_slots >= %d (multimaster.max_nodes), " *)

(** Calls into the host that change something or are seen outside, in the
    order in which they happen. *)
Inductive call : Type :=
| mtm_log_WARNING (m : config_warning)
| CreatePublication (pubname : string) (for_all_tables : bool)
| MtmMonitorStart (dbid userid : Z)
| MtmReceiverCreateSlot (conninfo : string) (my_node_id : Z)
| CreateSubscription (subname conninfo publication : string)
    (options : list (string * string))
| ReplicationSlotCreate (name : string)
| ReplicationSlotReserveWal
| ReplicationSlotMarkDirty
| ReplicationSlotSave
| ReplicationSlotRelease
| replorigin_create (name : string)
| RemoveObjects (publication : string)   (* DROP PUBLICATION ... CASCADE *)
| DropSubscription (subname : string)
| StartTransactionCommand
| CommitTransactionCommand.

(** The ERRORs of the triggers. *)
Inductive node_error : Type :=
| NodeIdOutOfRange (max node_id : Z)
    (* "node_id should be in range from 1 to %d, but %d is given" *)
| ConfigRejected
    (* "multimaster can't start with current configs" *)
| NoSelfNode
    (* "please create node with is_self = 'true' first or set
        mtm.emerging_node_id" *)
| EmergingNodeIdOutOfRange (max : Z)
    (* "mtm.emerging_node_id should be in range from 1 to %d" *)
| RaisedByHost (c : call).
    (* the ERROR of a function of the host, raised inside the call [c] *)

Definition result (A : Type) : Type := outcome call node_error A.

(** *** [check_config] *)

(** One requirement: a warning and [ok = false] when it is violated. *)
Definition require (violated : bool) (m : config_warning) (ok : bool)
  : result bool :=
  if violated then do_call (mtm_log_WARNING m) ;; ret false else ret ok.

Definition check_config (s : settings) : result bool :=
  let ok := true in
  ok <- require (MtmMaxNodes s <? 1) NeedMaxNodes ok ;;
  ok <- require (max_prepared_xacts s <? 1) NeedPreparedXacts ok ;;
  let workers_required := int32_wrap (2 * MtmMaxNodes s + 1) in
  ok <- require (max_worker_processes s <? workers_required)
          (NeedWorkers workers_required) ok ;;
  ok <- require (negb (wal_level_eqb (wal_level s) WAL_LEVEL_LOGICAL))
          NeedWalLevelLogical ok ;;
  ok <- require (max_wal_senders s <? MtmMaxNodes s)
          (NeedWalSenders (MtmMaxNodes s)) ok ;;
  ok <- require (max_replication_slots s <? MtmMaxNodes s)
          (NeedReplicationSlots (MtmMaxNodes s)) ok ;;
  ret ok.

(** *** The triggers on [mtm.nodes] *)

(** The row the trigger fires for; [None] is SQL NULL. *)
Record nodes_tuple : Type := {
  tg_id : option Z;
  tg_conninfo : option string;
  tg_is_self : option bool
}.

(** What the backend that runs the trigger sees. *)
Record session : Type := {
  assert_checking : bool;
  Mtm_my_node_id : Z;                    (* [Mtm->my_node_id] *)
  emerging_node_id : option string;      (* [GetConfigOption("mtm.emerging_node_id", true, false)] *)
  MyDatabaseId : Z;
  GetUserId : Z;
  (* the calls in which the host raises an ERROR instead of returning: a
     publication or an origin of that name exists already, the neighbour
     does not accept the connection string, no replication slot is free *)
  host_raises : call -> bool
}.

(** A call of a function of the host that can raise an ERROR: the call is
    logged when it returns. *)
Definition host_call (ss : session) (c : call) : result unit :=
  if host_raises ss c then raise (RaisedByHost c) else do_call c.

(** [heap_getattr] gives a zero datum for NULL. *)
Definition DatumGetInt32 (d : option Z) : Z :=
  match d with Some v => v | None => 0 end.
Definition DatumGetBool (d : option bool) : bool :=
  match d with Some v => v | None => false end.
Definition is_null {A} (d : option A) : bool :=
  match d with Some _ => false | None => true end.

(** [text_to_cstring(DatumGetTextP(d))]: a NULL datum is a null pointer. *)
Definition text_to_cstring (d : option string) : result string :=
  match d with Some s => ret s | None => crash Undefined end.

(** [psprintf(fmt, node_id)] *)
Definition psprintf (fmt : string) (node_id : Z) : string := sprintf fmt [node_id].

(** The number this node goes by when it adds a neighbour: the one in shared
    memory, or else the one of [mtm.emerging_node_id]. [sscanf] leaves
    [my_node_id] as it is, zero, when the text is not a number. *)
Definition own_node_id (nm : names) (ss : session) : result Z :=
  let my_node_id := Mtm_my_node_id ss in
  if my_node_id =? 0 then
    match emerging_node_id ss with
    | None => raise NoSelfNode
    | Some em_node_id =>
        let my_node_id :=
          match sscanf em_node_id "%d" with
          | v :: _ => v
          | [] => my_node_id
          end in
        if (my_node_id <=? 0) || (MTM_MAX_NODES nm <? my_node_id)
        then raise (EmergingNodeIdOutOfRange (MTM_MAX_NODES nm))
        else ret my_node_id
    end
  else ret my_node_id.

(** The options of the dummy subscription. *)
Definition subscription_options : list (string * string) :=
  [("slot_name", "none"); ("create_slot", "false"); ("connect", "false");
   ("enabled", "false")]%string.

Definition mtm_after_node_create (nm : names) (s : settings) (ss : session)
    (tup : nodes_tuple) : result unit :=
  let node_id := DatumGetInt32 (tg_id tup) in
  Assert (assert_checking ss) (negb (is_null (tg_id tup))) ;;
  conninfo <- text_to_cstring (tg_conninfo tup) ;;
  let is_self := DatumGetBool (tg_is_self tup) in
  Assert (assert_checking ss) (negb (is_null (tg_is_self tup))) ;;
  (if (node_id <=? 0) || (MTM_MAX_NODES nm <? node_id)
   then raise (NodeIdOutOfRange (MTM_MAX_NODES nm) node_id) else ret tt) ;;
  ok <- check_config s ;;
  (if negb ok then raise ConfigRejected else ret tt) ;;
  if is_self then
    host_call ss (CreatePublication (MULTIMASTER_NAME nm) true) ;;
    host_call ss (MtmMonitorStart (MyDatabaseId ss) (GetUserId ss))
  else
    my_node_id <- own_node_id nm ss ;;
    (* Assert(!conninfo_isnull): a NULL conninfo has not come this far *)
    host_call ss (MtmReceiverCreateSlot conninfo my_node_id) ;;
    host_call ss (CreateSubscription (psprintf (MTM_SUBNAME_FMT nm) node_id) conninfo
                    (MULTIMASTER_NAME nm) subscription_options) ;;
    host_call ss (ReplicationSlotCreate
                    (psprintf (MULTIMASTER_RECOVERY_SLOT_PATTERN nm) node_id)) ;;
    host_call ss ReplicationSlotReserveWal ;;
    host_call ss ReplicationSlotMarkDirty ;;
    host_call ss ReplicationSlotSave ;;
    host_call ss ReplicationSlotRelease ;;
    host_call ss (replorigin_create (psprintf (MULTIMASTER_SLOT_PATTERN nm) node_id)).

Definition mtm_after_node_drop (nm : names) (ss : session) (tup : nodes_tuple)
  : result unit :=
  let node_id := DatumGetInt32 (tg_id tup) in
  Assert (assert_checking ss) (negb (is_null (tg_id tup))) ;;
  Assert (assert_checking ss) ((0 <? node_id) && (node_id <=? MTM_MAX_NODES nm)) ;;
  let is_self := DatumGetBool (tg_is_self tup) in
  Assert (assert_checking ss) (negb (is_null (tg_is_self tup))) ;;
  if is_self then do_call (RemoveObjects (MULTIMASTER_NAME nm))
  else do_call (DropSubscription (psprintf (MTM_SUBNAME_FMT nm) node_id)).

(** *** The launcher *)

(** A row of [pg_subscription]. *)
Record Form_pg_subscription : Type := {
  subdbid : Z;
  subname : string;
  subowner : Z;
  subenabled : bool
}.

(** [hash_search(already_started, &dbid, HASH_FIND, NULL)] on a table whose
    entries are the keys. *)
Definition hash_find (already_started : list Z) (dbid : Z) : bool :=
  existsb (Z.eqb dbid) already_started.

(** [hash_search(already_started, &dbid, HASH_ENTER, &found)] *)
Definition hash_enter (already_started : list Z) (dbid : Z) : list Z * bool :=
  if hash_find already_started dbid then (already_started, true)
  else (already_started ++ [dbid], false).

(** The [while] loop over the rows of the catalog. *)
Fixpoint launcher_scan (nm : names) (ac : bool) (subs : list Form_pg_subscription)
    (already_started : list Z) : result (list Z) :=
  match subs with
  | [] => ret already_started
  | subform :: rest =>
      if negb (subenabled subform)
         && (Z.of_nat (length (sscanf (subname subform) (MTM_SUBNAME_FMT nm))) =? 1)
         && negb (hash_find already_started (subdbid subform))
      then
        do_call (MtmMonitorStart (subdbid subform) (subowner subform)) ;;
        let '(already_started, found) := hash_enter already_started (subdbid subform) in
        Assert ac (negb found) ;;
        launcher_scan nm ac rest already_started
      else launcher_scan nm ac rest already_started
  end.

(** [pg_subscription] is what the scan of the catalog returns, row by row.
    The result is the table [already_started] at the end. *)
Definition launcher_main (nm : names) (ac : bool)
    (pg_subscription : list Form_pg_subscription) : result (list Z) :=
  let already_started := [] in
  do_call StartTransactionCommand ;;
  already_started <- launcher_scan nm ac pg_subscription already_started ;;
  do_call CommitTransactionCommand ;;
  ret already_started.

(** *** Notions used to state the properties *)

(** The call only writes to the log. *)
Definition is_warning (c : call) : Prop :=
  match c with
  | mtm_log_WARNING _ => True
  | _ => False
  end.

(** What creating the node's own row does. *)
Definition own_calls (nm : names) (ss : session) : list call :=
  [CreatePublication (MULTIMASTER_NAME nm) true;
   MtmMonitorStart (MyDatabaseId ss) (GetUserId ss)].

(** What creating the row of a neighbour does. *)
Definition neighbour_calls (nm : names) (conninfo : string)
    (my_node_id node_id : Z) : list call :=
  [MtmReceiverCreateSlot conninfo my_node_id;
   CreateSubscription (psprintf (MTM_SUBNAME_FMT nm) node_id) conninfo
     (MULTIMASTER_NAME nm) subscription_options;
   ReplicationSlotCreate (psprintf (MULTIMASTER_RECOVERY_SLOT_PATTERN nm) node_id);
   ReplicationSlotReserveWal; ReplicationSlotMarkDirty; ReplicationSlotSave;
   ReplicationSlotRelease;
   replorigin_create (psprintf (MULTIMASTER_SLOT_PATTERN nm) node_id)].

(** The calls of [cs] up to the first one in which the host raises, and that
    one. *)
Fixpoint until_raise (ss : session) (cs : list call) : list call * option call :=
  match cs with
  | [] => ([], None)
  | c :: rest =>
      if host_raises ss c then ([], Some c)
      else let '(done, stop) := until_raise ss rest in (c :: done, stop)
  end.

(** What [check_config] asks for. *)
Definition config_ok (s : settings) : Prop :=
  1 <= MtmMaxNodes s
  /\ 1 <= max_prepared_xacts s
  /\ int32_wrap (2 * MtmMaxNodes s + 1) <= max_worker_processes s
  /\ wal_level s = WAL_LEVEL_LOGICAL
  /\ MtmMaxNodes s <= max_wal_senders s
  /\ MtmMaxNodes s <= max_replication_slots s.

(** A subscription that the launcher takes for one of multimaster: not
    enabled, and named so that [sscanf] with [MTM_SUBNAME_FMT] stores one
    number. *)
Definition mtm_subscription (nm : names) (sub : Form_pg_subscription) : bool :=
  negb (subenabled sub)
  && (Z.of_nat (length (sscanf (subname sub) (MTM_SUBNAME_FMT nm))) =? 1).

(** [MtmMonitorStart(dbid, owner)] for a pair [(dbid, owner)]. *)
Definition monitor_start (m : Z * Z) : call := MtmMonitorStart (fst m) (snd m).

(** The owner of the first multimaster subscription of database [dbid]. *)
Definition first_owner (nm : names) (subs : list Form_pg_subscription) (dbid : Z)
  : option Z :=
  match List.find (fun sub => mtm_subscription nm sub && (subdbid sub =? dbid)) subs with
  | Some sub => Some (subowner sub)
  | None => None
  end.

(** A format that is a text without [%] followed by one [%d]. *)
Definition literal (prefix : string) : list directive :=
  map Lit (list_ascii_of_string prefix).

Definition number_format (fmt prefix : string) : Prop :=
  parse_format fmt = literal prefix ++ [Conv true false].

(** The subscription row that [CreateSubscription] of
    [mtm_after_node_create] leaves in [pg_subscription]. *)
Definition created_subscription (dbid owner : Z) (c : call)
  : option Form_pg_subscription :=
  match c with
  | CreateSubscription name _ _ options =>
      Some {| subdbid := dbid; subname := name; subowner := owner;
              subenabled := negb (existsb (fun o => String.eqb (fst o) "enabled"
                                                    && String.eqb (snd o) "false")
                                          options) |}
  | _ => None
  end.

(** *** A concrete installation *)

(** The names as the extension has them. *)
Definition names1 : names :=
  {| MULTIMASTER_NAME := "multimaster"; MTM_SUBNAME_FMT := "mtm_sub_%d";
     MULTIMASTER_SLOT_PATTERN := "mtm_slot_%d";
     MULTIMASTER_RECOVERY_SLOT_PATTERN := "mtm_recovery_slot_%d";
     MTM_MAX_NODES := 64 |}.

(** Settings that pass the check for six nodes. *)
Definition settings1 : settings :=
  {| MtmMaxNodes := 6; max_prepared_xacts := 100; max_worker_processes := 50;
     wal_level := WAL_LEVEL_LOGICAL; max_wal_senders := 10;
     max_replication_slots := 10 |}.

(** A backend of node 1 in database 16384, run by user 10. *)
Definition session1 : session :=
  {| assert_checking := true; Mtm_my_node_id := 1; emerging_node_id := None;
     MyDatabaseId := 16384; GetUserId := 10; host_raises := fun _ => false |}.

(** The same backend when a subscription of the name exists already. *)
Definition session1_taken : session :=
  {| assert_checking := true; Mtm_my_node_id := 1; emerging_node_id := None;
     MyDatabaseId := 16384; GetUserId := 10;
     host_raises := fun c => match c with
                             | CreateSubscription _ _ _ _ => true
                             | _ => false
                             end |}.

(** The row of node 2. *)
Definition tuple2 : nodes_tuple :=
  {| tg_id := Some 2; tg_conninfo := Some "host=node2 dbname=app"%string;
     tg_is_self := Some false |}.

End Nodes.

(* ===================================================================== *)
(** ** The configuration of a node ([multimaster.c]): loading [mtm.nodes],
       reloading, and looking a node up *)
(* ===================================================================== *)

Module Config.
Import Stdio Calls.

(** [MtmNode] and [MtmConfig] are declared in the absent header; these are
    the fields that [multimaster.c] reads and writes. [nodes] holds the
    entries that have been filled in; the array has room for
    [nodes_capacity] of them. *)
Record MtmNode : Type := {
  node_id : Z;
  conninfo : string;
  origin_id : Z
}.

Record MtmConfig : Type := {
  n_nodes : Z;
  my_node_id : Z;
  nodes : list MtmNode
}.

(** Host constants. *)
Definition SPI_OK_CONNECT : Z := 1.
Definition SPI_OK_SELECT : Z := 5.
Definition InvalidRepOriginId : Z := 0.

(** What the host answers while the configuration is loaded. *)
Record catalog : Type := {
  IsTransactionState : bool;
  SPI_connect_rc : Z;
  SPI_execute_rc : Z;
  (* the rows of "select * from mtm.nodes order by id asc" *)
  SPI_tuptable : list Nodes.nodes_tuple;
  (* [replorigin_by_name(name, true)] *)
  replorigin_by_name : string -> Z
}.

(** Build and configuration constants. *)
Record build : Type := {
  assert_checking : bool;
  MtmMaxNodes : Z;
  nodes_capacity : Z;                 (* elements of [cfg->nodes] *)
  MULTIMASTER_SLOT_PATTERN : string   (* macro of the absent header *)
}.

Inductive call : Type :=
| StartTransactionCommand
| SPI_connect
| PushActiveSnapshot
| SPI_execute (query : string)
| SPI_finish
| PopActiveSnapshot
| CommitTransactionCommand
| MtmStateFill (cfg : MtmConfig)
| node_add_cb (node_id : Z) (new_cfg : MtmConfig)
| node_drop_cb (node_id : Z) (new_cfg : MtmConfig)
| pfree (old_cfg : MtmConfig).

Inductive config_error : Type :=
| SpiConnectFailed      (* "could not connect using SPI" *)
| LoadFailed            (* "Failed to load saved nodes" *)
| NegativeMember.       (* bms_add_member: "negative bitmapset member not allowed" *)

Definition result (A : Type) : Type := outcome call config_error A.

(** *** [MtmLoadConfig] *)

(** The first loop, for one row. The assertions on the types of the columns
    are about the declaration of the table and are left out. *)
Definition load_row (b : build) (tup : Nodes.nodes_tuple) (cfg : MtmConfig)
  : result MtmConfig :=
  let node_id := Nodes.DatumGetInt32 (Nodes.tg_id tup) in
  Assert (assert_checking b) (negb (Nodes.is_null (Nodes.tg_id tup))) ;;
  let connstr := Nodes.tg_conninfo tup in
  let is_self := Nodes.DatumGetBool (Nodes.tg_is_self tup) in
  Assert (assert_checking b) (negb (Nodes.is_null (Nodes.tg_is_self tup))) ;;
  if is_self then
    Assert (assert_checking b) (my_node_id cfg =? 0) ;;
    ret {| n_nodes := n_nodes cfg; my_node_id := node_id; nodes := nodes cfg |}
  else
    (* cfg->nodes[cfg->n_nodes].conninfo = MemoryContextStrdup(..., connstr) *)
    match connstr with
    | None => crash Undefined
    | Some connstr =>
        if (n_nodes cfg <? 0) || (nodes_capacity b <=? n_nodes cfg)
        then crash Undefined
        else
          (* [origin_id] is written by the second loop *)
          ret {| n_nodes := int32_wrap (n_nodes cfg + 1);
                 my_node_id := my_node_id cfg;
                 nodes := nodes cfg ++ [{| node_id := node_id; conninfo := connstr;
                                           origin_id := InvalidRepOriginId |}] |}
    end.

Fixpoint load_rows (b : build) (rows : list Nodes.nodes_tuple) (cfg : MtmConfig)
  : result MtmConfig :=
  match rows with
  | [] => ret cfg
  | tup :: rest => cfg <- load_row b tup cfg ;; load_rows b rest cfg
  end.

(** The second loop, [count] turns from index [i]. *)
Fixpoint load_origins (b : build) (cat : catalog) (count : nat) (i : nat)
    (cfg : MtmConfig) : result MtmConfig :=
  match count with
  | O => ret cfg
  | S count' =>
      match nodes cfg !! i with
      | None => crash Undefined
      | Some n =>
          let origin_name := sprintf (MULTIMASTER_SLOT_PATTERN b) [node_id n] in
          let origin := replorigin_by_name cat origin_name in
          Assert (assert_checking b) (negb (origin =? InvalidRepOriginId)) ;;
          load_origins b cat count' (S i)
            {| n_nodes := n_nodes cfg; my_node_id := my_node_id cfg;
               nodes := <[i := {| node_id := node_id n; conninfo := conninfo n;
                                  origin_id := origin |}]> (nodes cfg) |}
      end
  end.

Definition MtmLoadConfig (b : build) (cat : catalog) : result MtmConfig :=
  let inside_tx := IsTransactionState cat in
  (if negb inside_tx then do_call StartTransactionCommand else ret tt) ;;
  do_call SPI_connect ;;
  (if negb (SPI_connect_rc cat =? SPI_OK_CONNECT) then raise SpiConnectFailed
   else ret tt) ;;
  do_call PushActiveSnapshot ;;
  do_call (SPI_execute "select * from mtm.nodes order by id asc") ;;
  let rc := SPI_execute_rc cat in
  (if (rc <? 0) || negb (rc =? SPI_OK_SELECT) then raise LoadFailed else ret tt) ;;
  let SPI_processed := Z.of_nat (length (SPI_tuptable cat)) in
  Assert (assert_checking b) (SPI_processed <=? MtmMaxNodes b) ;;
  cfg <- load_rows b (SPI_tuptable cat)
           {| n_nodes := 0; my_node_id := 0; nodes := [] |} ;;
  cfg <- load_origins b cat (Z.to_nat (n_nodes cfg)) 0 cfg ;;
  do_call SPI_finish ;;
  do_call PopActiveSnapshot ;;
  (if negb inside_tx then do_call CommitTransactionCommand else ret tt) ;;
  ret cfg.

(** *** [MtmNodeById] *)

(** The [for] loop, [count] turns from index [i]. [None] is NULL. *)
Fixpoint MtmNodeById_from (cfg : MtmConfig) (count : nat) (i : nat) (id : Z)
  : result (option MtmNode) :=
  match count with
  | O => ret None
  | S count' =>
      match nodes cfg !! i with
      | None => crash Undefined
      | Some n =>
          if node_id n =? id then ret (Some n)
          else MtmNodeById_from cfg count' (S i) id
      end
  end.

Definition MtmNodeById (cfg : MtmConfig) (id : Z) : result (option MtmNode) :=
  MtmNodeById_from cfg (Z.to_nat (n_nodes cfg)) 0 id.

(** *** Bitmap sets of the host ([nodes/bitmapset.c]) *)

(** A set of non-negative integers, as the number whose binary digits are
    the members; NULL is the empty set. *)
Definition Bitmapset : Type := Z.

Definition bms_add_member (a : Bitmapset) (x : Z) : result Bitmapset :=
  if x <? 0 then raise NegativeMember else ret (Z.lor a (Z.shiftl 1 x)).

(** The members of [a] that are not in [b]. *)
Definition bms_difference (a b : Bitmapset) : Bitmapset := Z.ldiff a b.

(** The first member among [i], [i + 1], ... ([count] positions), or [-2]. *)
Fixpoint next_member (a : Bitmapset) (count : nat) (i : Z) : Z :=
  match count with
  | O => -2
  | S count' => if Z.testbit a i then i else next_member a count' (i + 1)
  end.

(** The smallest member greater than [prevbit], or [-2] if there is none. *)
Definition bms_next_member (a : Bitmapset) (prevbit : Z) : Z :=
  next_member a (Z.to_nat (Z.log2 a - prevbit)) (prevbit + 1).

(** *** [MtmReloadConfig] *)

(** [for (i = 0; i < cfg->n_nodes; i++) bms = bms_add_member(bms,
    cfg->nodes[i].node_id);] *)
Fixpoint add_members (cfg : MtmConfig) (count : nat) (i : nat) (bms : Bitmapset)
  : result Bitmapset :=
  match count with
  | O => ret bms
  | S count' =>
      match nodes cfg !! i with
      | None => crash Undefined
      | Some n =>
          bms <- bms_add_member bms (node_id n) ;;
          add_members cfg count' (S i) bms
      end
  end.

(** [node_id = -1; while ((node_id = bms_next_member(set, node_id)) >= 0)
    cb(node_id, new_cfg, arg);] -- every turn finds a greater member, so the
    number of binary digits of [set] bounds the number of turns. *)
Fixpoint each_member (cb : Z -> call) (set : Bitmapset) (fuel : nat) (node_id : Z)
  : result unit :=
  match fuel with
  | O => ret tt
  | S fuel' =>
      let node_id := bms_next_member set node_id in
      if 0 <=? node_id then do_call (cb node_id) ;; each_member cb set fuel' node_id
      else ret tt
  end.

Definition turns (set : Bitmapset) : nat := S (S (Z.to_nat (Z.log2 set))).

(** [old_cfg = None] is a NULL pointer; [node_add_cb] and [node_drop_cb] say
    whether a callback was given. *)
Definition MtmReloadConfig (b : build) (cat : catalog) (old_cfg : option MtmConfig)
    (has_add_cb has_drop_cb : bool) : result MtmConfig :=
  let old_bms := 0 in
  let new_bms := 0 in
  new_cfg <- MtmLoadConfig b cat ;;
  do_call (MtmStateFill new_cfg) ;;
  old_bms <- match old_cfg with
             | Some old => add_members old (Z.to_nat (n_nodes old)) 0 old_bms
             | None => ret old_bms
             end ;;
  new_bms <- add_members new_cfg (Z.to_nat (n_nodes new_cfg)) 0 new_bms ;;
  let deleted := bms_difference old_bms new_bms in
  let created := bms_difference new_bms old_bms in
  (if has_add_cb
   then each_member (fun id => node_add_cb id new_cfg) created (turns created) (-1)
   else ret tt) ;;
  (if has_drop_cb
   then each_member (fun id => node_drop_cb id new_cfg) deleted (turns deleted) (-1)
   else ret tt) ;;
  match old_cfg with
  | Some old => do_call (pfree old) ;; ret new_cfg
  | None => ret new_cfg
  end.

(** *** Notions used to state the properties *)

(** The rows of the neighbours. *)
Definition is_neighbour (tup : Nodes.nodes_tuple) : bool :=
  negb (Nodes.DatumGetBool (Nodes.tg_is_self tup)).

(** The id of the last row with [is_self], or [d]. *)
Definition self_id (rows : list Nodes.nodes_tuple) (d : Z) : Z :=
  fold_left (fun acc tup =>
               if is_neighbour tup then acc
               else Nodes.DatumGetInt32 (Nodes.tg_id tup)) rows d.

(** The id of a row. *)
Definition row_id (tup : Nodes.nodes_tuple) : Z :=
  Nodes.DatumGetInt32 (Nodes.tg_id tup).

(** What the first loop writes for a row of a neighbour. *)
Definition loaded (tup : Nodes.nodes_tuple) (n : MtmNode) : Prop :=
  node_id n = Nodes.DatumGetInt32 (Nodes.tg_id tup)
  /\ Nodes.tg_conninfo tup = Some (conninfo n).

(** What the second loop makes of an entry. *)
Definition with_origin (b : build) (cat : catalog) (n : MtmNode) : MtmNode :=
  {| node_id := node_id n; conninfo := conninfo n;
     origin_id := replorigin_by_name cat
                    (sprintf (MULTIMASTER_SLOT_PATTERN b) [node_id n]) |}.

(** The entry of [cfg->nodes] for a row of a neighbour. *)
Definition node_of_row (b : build) (cat : catalog) (tup : Nodes.nodes_tuple)
  : option MtmNode :=
  match Nodes.tg_conninfo tup with
  | Some connstr =>
      let id := Nodes.DatumGetInt32 (Nodes.tg_id tup) in
      Some {| node_id := id; conninfo := connstr;
              origin_id := replorigin_by_name cat
                             (sprintf (MULTIMASTER_SLOT_PATTERN b) [id]) |}
  | None => None
  end.

(** The calls around the query, for a caller inside or outside a
    transaction. *)
Definition load_calls (inside_tx : bool) : list call :=
  (if inside_tx then [] else [StartTransactionCommand])
  ++ [SPI_connect; PushActiveSnapshot;
      SPI_execute "select * from mtm.nodes order by id asc";
      SPI_finish; PopActiveSnapshot]
  ++ (if inside_tx then [] else [CommitTransactionCommand]).

(** The ids of the neighbours of a configuration. *)
Definition ids (cfg : MtmConfig) : list Z := map node_id (nodes cfg).

Definition old_ids (old_cfg : option MtmConfig) : list Z :=
  match old_cfg with
  | Some old => ids old
  | None => []
  end.

(** Three nodes, seen from node 1 inside a transaction. *)
Definition build1 : build :=
  {| assert_checking := true; MtmMaxNodes := 6; nodes_capacity := 64;
     MULTIMASTER_SLOT_PATTERN := "mtm_slot_%d" |}.

Definition row (id : Z) (connstr : string) (is_self : bool) : Nodes.nodes_tuple :=
  {| Nodes.tg_id := Some id; Nodes.tg_conninfo := Some connstr;
     Nodes.tg_is_self := Some is_self |}.

Definition catalog3 : catalog :=
  {| IsTransactionState := false; SPI_connect_rc := SPI_OK_CONNECT;
     SPI_execute_rc := SPI_OK_SELECT;
     SPI_tuptable := [row 1 "host=node1" true; row 2 "host=node2" false;
                      row 3 "host=node3" false];
     replorigin_by_name := fun name =>
       if String.eqb name "mtm_slot_2" then 7
       else if String.eqb name "mtm_slot_3" then 8 else 0 |}.

Definition node2 : MtmNode := {| node_id := 2; conninfo := "host=node2"; origin_id := 7 |}.
Definition node3 : MtmNode := {| node_id := 3; conninfo := "host=node3"; origin_id := 8 |}.
Definition config3 : MtmConfig :=
  {| n_nodes := 2; my_node_id := 1; nodes := [node2; node3] |}.

(** What node 1 knew before: nodes 2 and 4. *)
Definition config_before : MtmConfig :=
  {| n_nodes := 2; my_node_id := 1;
     nodes := [node2; {| node_id := 4; conninfo := "host=node4"; origin_id := 9 |}] |}.

(** A configuration whose count is the number of its entries. *)
Definition counted (cfg : MtmConfig) : Prop :=
  n_nodes cfg = Z.of_nat (length (nodes cfg)).

(** What is freed at the end of a reload. *)
Definition freed (old_cfg : option MtmConfig) : list call :=
  match old_cfg with
  | Some old => [pfree old]
  | None => []
  end.

(** The callbacks of a reload: [added] get [node_add_cb], then [dropped] get
    [node_drop_cb]. *)
Definition callbacks (new_cfg : MtmConfig) (has_add_cb has_drop_cb : bool)
    (added dropped : list Z) : list call :=
  (if has_add_cb then map (fun id => node_add_cb id new_cfg) added else [])
  ++ (if has_drop_cb then map (fun id => node_drop_cb id new_cfg) dropped else []).

End Config.

(* ===================================================================== *)
(** ** What the hooks of [ddl.c] call, and the ERRORs they raise *)
(* ===================================================================== *)

Module DdlCalls.
Import Calls.

Inductive call : Type :=
| LogLogicalMessage (prefix : string) (message : string) (transactional : bool)
| XLogFlush
| pg_usleep (usec : Z)
| standard_ProcessUtility (stmt_string : string)
| standard_ExecutorStart (sourceText : string)
| elog_WARNING_no_primary_key
    (* "Table %s.%s without primary will not be replicated" *)
| mtm_log_WARNING_lookup (name : string)
    (* "Failed to lookup function %s" *)
| SetUserIdAndSecContext (escalated : bool).

Inductive ddl_error : Type :=
| DatabasesNotSupported
    (* "Multimaster doesn't support creating and dropping databases" *)
| AmbiguousFunction (name : string)
    (* "Ambigious function %s" *)
| CacheLookupFailed (func_oid : Z)
    (* "cache lookup failed for function %u" *)
| RaisedByHost.
    (* an ERROR that the host raises while it runs a statement *)

Definition result (A : Type) : Type := outcome call ddl_error A.

End DdlCalls.

(* ===================================================================== *)
(** ** The session's settings that go with replicated DDL ([ddl.c], "Guc
       handling") and the DDL messages *)
(* ===================================================================== *)

Module Guc.
Import Calls DdlCalls.

Notation "a +++ b" := (String.append a b) (at level 60, right associativity).

Definition GUC_KEY_MAXLEN : Z := 255.

(** [MtmGucHash] is a table of the host ([hash_create] without
    [HASH_BLOBS]) whose keys are strings stored in [keysize] bytes: a key is
    hashed, compared and copied up to its first [keysize - 1] characters. *)
Definition hash_key (key : string) : string :=
  String.substring 0 (Z.to_nat (GUC_KEY_MAXLEN - 1)) key.

(** An entry of the table. Its [list_node] links it into [MtmGucList]. *)
Record MtmGucEntry : Type := {
  key : string;
  value : string
}.

(** The two statics. The list links entries that live in the table: it is
    kept as the keys of the linked entries, head first, and an entry is
    read through the table. *)
Record state : Type := {
  MtmGucHash : option (list MtmGucEntry);      (* [None] is NULL *)
  MtmGucList : list string
}.

Definition has_key (k : string) (e : MtmGucEntry) : bool := String.eqb (key e) k.

(** [hash_search(MtmGucHash, key, HASH_FIND, &found)] *)
Definition hash_find (tab : list MtmGucEntry) (k : string) : option MtmGucEntry :=
  List.find (has_key (hash_key k)) tab.

(** [hash_search(..., HASH_ENTER, &found)] followed by [hentry->value = v]. *)
Definition hash_enter (tab : list MtmGucEntry) (k v : string) : list MtmGucEntry :=
  match hash_find tab k with
  | Some _ =>
      map (fun e => if has_key (hash_key k) e
                    then {| key := key e; value := v |} else e) tab
  | None => tab ++ [{| key := hash_key k; value := v |}]
  end.

(** [hash_search(..., HASH_REMOVE, NULL)] *)
Definition hash_remove (tab : list MtmGucEntry) (k : string) : list MtmGucEntry :=
  List.filter (fun e => negb (has_key (hash_key k) e)) tab.

(** [dlist_delete] of the node of the entry with key [k]. *)
Definition dlist_delete (l : list string) (k : string) : list string :=
  List.filter (fun k' => negb (String.eqb k' k)) l.

(** [dlist_push_tail] *)
Definition dlist_push_tail (l : list string) (k : string) : list string := l ++ [k].

(** Types of settings and the unit flags of the host ([guc.h]). *)
Inductive config_type : Type :=
| PGC_BOOL | PGC_INT | PGC_REAL | PGC_STRING | PGC_ENUM.

Record config_generic : Type := {
  name : string;
  vartype : config_type;
  flags : Z
}.

Definition GUC_UNIT_MEMORY : Z := 61440.      (* 0xF000 *)
Definition GUC_UNIT_TIME : Z := 983040.       (* 0xF0000 *)

(** What the host answers. *)
Record host : Type := {
  (* [GetConfigOptionByName("session_authorization", NULL, false)] *)
  session_authorization : option string;
  MtmDatabaseUser : string;
  (* [GetConfigOption("search_path", false, true)] *)
  search_path : string;
  (* [get_guc_variables()], [GetNumConfigOptions()] long, in the order in
     which the host keeps it *)
  guc_variables : list config_generic
}.


(** The part of [MtmGucUpdate] after the table is there. A NULL table is
    followed by [hash_search]. *)
Definition update_entry (k v : string) (st : state) : result state :=
  match MtmGucHash st with
  | None => crash Undefined
  | Some tab =>
      let found := match hash_find tab k with Some _ => true | None => false end in
      let l := if found then dlist_delete (MtmGucList st) (hash_key k)
               else MtmGucList st in
      ret {| MtmGucHash := Some (hash_enter tab k v);
             MtmGucList := dlist_push_tail l (hash_key k) |}
  end.

(** [MtmGucInit]. Its call of [MtmGucUpdate] finds the table just made. *)
Definition MtmGucInit (h : host) (st : state) : result state :=
  let st := {| MtmGucHash := Some []; MtmGucList := MtmGucList st |} in
  match session_authorization h with
  | Some current_role =>
      if negb (String.eqb current_role "")
         && negb (String.eqb (MtmDatabaseUser h) current_role)
      then update_entry "session_authorization" current_role st
      else ret st
  | None => ret st
  end.

(** [if (!MtmGucHash) MtmGucInit();] *)
Definition ensure_init (h : host) (st : state) : result state :=
  match MtmGucHash st with
  | None => MtmGucInit h st
  | Some _ => ret st
  end.

Definition MtmGucUpdate (h : host) (k v : string) (st : state) : result state :=
  st <- ensure_init h st ;;
  update_entry k v st.

Definition MtmGucRemove (h : host) (k : string) (st : state) : result state :=
  st <- ensure_init h st ;;
  match MtmGucHash st with
  | None => crash Undefined
  | Some tab =>
      match hash_find tab k with
      | Some _ =>
          ret {| MtmGucHash := Some (hash_remove tab k);
                 MtmGucList := dlist_delete (MtmGucList st) (hash_key k) |}
      | None => ret st
      end
  end.

(** The loop of [MtmGucDiscard] frees the value of every linked entry. *)
Fixpoint free_values (tab : option (list MtmGucEntry)) (l : list string)
  : result unit :=
  match l with
  | [] => ret tt
  | k :: rest =>
      match tab with
      | None => crash Undefined
      | Some t =>
          match List.find (has_key k) t with
          | None => crash Undefined
          | Some _ => free_values tab rest
          end
      end
  end.

Definition MtmGucDiscard (st : state) : result state :=
  match MtmGucList st with
  | [] => ret st
  | _ =>
      free_values (MtmGucHash st) (MtmGucList st) ;;
      ret {| MtmGucHash := None; MtmGucList := [] |}
  end.

Inductive VariableSetKind : Type :=
| VAR_SET_VALUE | VAR_SET_DEFAULT | VAR_SET_CURRENT | VAR_SET_MULTI
| VAR_RESET | VAR_RESET_ALL.

(** A SET or RESET statement; [ExtractSetVariableArgs] is what the host
    makes of its arguments. *)
Record VariableSetStmt : Type := {
  kind : VariableSetKind;
  stmt_name : string;
  ExtractSetVariableArgs : string
}.

Definition MtmGucSet (h : host) (stmt : VariableSetStmt) (st : state)
  : result state :=
  st <- ensure_init h st ;;
  match kind stmt with
  | VAR_SET_VALUE => MtmGucUpdate h (stmt_name stmt) (ExtractSetVariableArgs stmt) st
  | VAR_SET_DEFAULT => MtmGucRemove h (stmt_name stmt) st
  | VAR_RESET =>
      st <- (if String.eqb (stmt_name stmt) "session_authorization"
             then MtmGucRemove h "role" st else ret st) ;;
      MtmGucRemove h (stmt_name stmt) st
  | VAR_RESET_ALL => MtmGucDiscard st
  | VAR_SET_CURRENT | VAR_SET_MULTI => ret st
  end.

(** [strcmp] of the C library, by its sign: the strings are compared as
    sequences of bytes. *)
Definition strcmp (a b : string) : comparison := String.compare a b.

(** [bsearch] of the C library over the array [base], for a key that
    [compar] compares with an element: the binary search between [l]
    (included) and [u] (excluded), which looks at the element in the middle
    and goes on in the half that the sign of the comparison names. [fuel]
    bounds the turns of the loop. *)
Fixpoint bsearch_loop {A} (compar : A -> comparison) (base : list A)
    (fuel l u : nat) : option A :=
  match fuel with
  | O => None
  | S fuel =>
      if (l <? u)%nat then
        let idx := ((l + u) / 2)%nat in
        match nth_error base idx with
        | None => None
        | Some p =>
            match compar p with
            | Lt => bsearch_loop compar base fuel l idx
            | Gt => bsearch_loop compar base fuel (S idx) u
            | Eq => Some p
            end
        end
      else None
  end.

Definition bsearch {A} (compar : A -> comparison) (base : list A) : option A :=
  bsearch_loop compar base (S (length base)) 0 (length base).

(** [_var_name_cmp] where [a] is the key: [fing_guc_conf] passes the address
    of a pointer to the name, which this function reads as a
    [config_generic] whose first member, [name], is that name. *)
Definition _var_name_cmp (a : string) (confb : config_generic) : comparison :=
  strcmp a (name confb).

Definition fing_guc_conf (h : host) (k : string) : option config_generic :=
  bsearch (_var_name_cmp k) (guc_variables h).

(** The condition under which a value is written between quotes. *)
Definition quoted (gconf : option config_generic) : bool :=
  match gconf with
  | Some g =>
      match vartype g with
      | PGC_STRING | PGC_ENUM => true
      | _ => negb (Z.land (flags g) (Z.lor GUC_UNIT_MEMORY GUC_UNIT_TIME) =? 0)
      end
  | None => false
  end.

(** The loop of [MtmGucSerialize] over the list; [buf] is the text so far. *)
Fixpoint serialize_list (h : host) (tab : list MtmGucEntry) (l : list string)
    (buf : string) : result string :=
  match l with
  | [] => ret buf
  | k :: rest =>
      match List.find (has_key k) tab with
      | None => crash Undefined
      | Some cur_entry =>
          if String.eqb (key cur_entry) "search_path"
          then serialize_list h tab rest buf                      (* continue; *)
          else
            let buf := buf +++ "SET " +++ key cur_entry +++ " TO " in
            let gconf := fing_guc_conf h (key cur_entry) in
            let buf := if quoted gconf then buf +++ "'" +++ value cur_entry +++ "'"
                       else buf +++ value cur_entry in
            serialize_list h tab rest (buf +++ "; ")
      end
  end.

Definition MtmGucSerialize (h : host) (st : state) : result (string * state) :=
  st <- ensure_init h st ;;
  match MtmGucHash st with
  | None => crash Undefined
  | Some tab =>
      serialized_gucs <- serialize_list h tab (MtmGucList st) "" ;;
      ret (serialized_gucs +++ "SET search_path TO " +++ search_path h +++ "; ", st)
  end.

(** *** The DDL messages *)

(** [MtmProcessDDLCommand]; the result is the new [MtmTx.containsDML]. *)
Definition MtmProcessDDLCommand (h : host) (queryString : string)
    (transactional : bool) (containsDML : bool) (st : state)
  : result (bool * state) :=
  if transactional then
    r <- MtmGucSerialize h st ;;
    let gucCtx := fst r in
    let queryString :=
      "RESET SESSION AUTHORIZATION; reset all; " +++ gucCtx +++ " " +++ queryString in
    do_call (LogLogicalMessage "D" queryString true) ;;
    ret (true, snd r)
  else
    do_call (LogLogicalMessage "C" queryString false) ;;
    do_call XLogFlush ;;
    ret (containsDML, st).

Definition MtmFinishDDLCommand : result unit :=
  do_call (LogLogicalMessage "E" "" true).

(** *** Notions used to state the properties *)

(** A backend that has not touched its settings. *)
Definition fresh : state := {| MtmGucHash := None; MtmGucList := [] |}.

(** The list links every entry of the table once, and nothing else. *)
Definition linked (tab : list MtmGucEntry) (l : list string) : Prop :=
  NoDup l /\ NoDup (map key tab) /\ forall k, In k l <-> In k (map key tab).

Definition consistent (st : state) : Prop :=
  match MtmGucHash st with
  | None => MtmGucList st = []
  | Some tab => linked tab (MtmGucList st)
  end.

(** The entries in the order of the list. *)
Definition context (st : state) : list MtmGucEntry :=
  match MtmGucHash st with
  | None => []
  | Some tab =>
      flat_map (fun k => match List.find (has_key k) tab with
                         | Some e => [e]
                         | None => []
                         end) (MtmGucList st)
  end.

(** The table is in the order of [strcmp], every name once. *)
Definition strcmp_sorted (vars : list config_generic) : Prop :=
  StronglySorted (fun a b => strcmp (name a) (name b) = Lt) vars.

(** The text for one entry. *)
Definition entry_text (h : host) (e : MtmGucEntry) : string :=
  if String.eqb (key e) "search_path" then ""
  else "SET " +++ key e +++ " TO "
       +++ (if quoted (fing_guc_conf h (key e)) then "'" +++ value e +++ "'"
            else value e)
       +++ "; ".

Fixpoint context_text (h : host) (es : list MtmGucEntry) : string :=
  match es with
  | [] => ""
  | e :: rest => entry_text h e +++ context_text h rest
  end.

Definition search_path_text (h : host) : string :=
  "SET search_path TO " +++ search_path h +++ "; ".

(** The entries other than the one for [k]. *)
Definition without (k : string) (es : list MtmGucEntry) : list MtmGucEntry :=
  List.filter (fun e => negb (has_key (hash_key k) e)) es.

(** The entry that [SET k TO v] makes. *)
Definition entry_of (k v : string) : MtmGucEntry :=
  {| key := hash_key k; value := v |}.

(** What a statement makes of the entries [es]. *)
Definition after_stmt (stmt : VariableSetStmt) (es : list MtmGucEntry)
  : list MtmGucEntry :=
  match kind stmt with
  | VAR_SET_VALUE =>
      without (stmt_name stmt) es
      ++ [entry_of (stmt_name stmt) (ExtractSetVariableArgs stmt)]
  | VAR_SET_DEFAULT => without (stmt_name stmt) es
  | VAR_RESET =>
      without (stmt_name stmt)
        (if String.eqb (stmt_name stmt) "session_authorization"
         then without "role" es else es)
  | VAR_RESET_ALL => []
  | VAR_SET_CURRENT | VAR_SET_MULTI => es
  end.

(** The text of the message for a transactional DDL statement. *)
Definition ddl_text (h : host) (es : list MtmGucEntry) (queryString : string)
  : string :=
  "RESET SESSION AUTHORIZATION; reset all; "
  +++ (context_text h es +++ search_path_text h) +++ " " +++ queryString.

(** [SET name TO v] *)
Definition set_to (k v : string) : VariableSetStmt :=
  {| kind := VAR_SET_VALUE; stmt_name := k; ExtractSetVariableArgs := v |}.

(** A session of user [alice] on a node whose database user is [mtm]. *)
Definition host1 : host :=
  {| session_authorization := Some "alice"%string; MtmDatabaseUser := "mtm";
     search_path := "public";
     guc_variables :=
       [{| name := "session_authorization"; vartype := PGC_STRING; flags := 0 |};
        {| name := "statement_timeout"; vartype := PGC_INT; flags := 65536 |};
        {| name := "work_mem"; vartype := PGC_INT; flags := 4096 |}] |}.

(** The same session on a host whose table is in the order of the names
    without regard to case, which is not that of [strcmp]. *)
Definition host2 : host :=
  {| session_authorization := Some "alice"%string; MtmDatabaseUser := "mtm";
     search_path := "public";
     guc_variables :=
       [{| name := "application_name"; vartype := PGC_STRING; flags := 0 |};
        {| name := "DateStyle"; vartype := PGC_STRING; flags := 0 |};
        {| name := "IntervalStyle"; vartype := PGC_ENUM; flags := 0 |};
        {| name := "search_path"; vartype := PGC_STRING; flags := 0 |};
        {| name := "session_authorization"; vartype := PGC_STRING; flags := 0 |};
        {| name := "TimeZone"; vartype := PGC_STRING; flags := 0 |};
        {| name := "work_mem"; vartype := PGC_INT; flags := 4096 |}] |}.

(** The state of a backend when the table is there. *)
Definition started (h : host) (st : state) : state :=
  match ensure_init h st with
  | Ok st' _ => st'
  | _ => st
  end.

End Guc.

(* ===================================================================== *)
(** ** Sequences ([ddl.c], AdjustCreateSequence) *)
(* ===================================================================== *)

Module Sequences.

(** The argument of an option: the integers made here, and whatever the
    parser made. *)
Inductive Node : Type :=
| makeInteger (i : Z)
| parsed (text : string).

Record DefElem : Type := {
  defname : string;
  arg : Node
}.

Definition makeDefElem (name : string) (arg : Node) : DefElem :=
  {| defname := name; arg := arg |}.

(** A variable of type [List *] beside the list of the caller. NIL, the
    empty list, is the null pointer: [lappend] to it makes a new list, which
    the variable then points to; [lappend] to another list adds a cell to
    that list itself. *)
Record list_var : Type := {
  callers : list DefElem;        (* the list that [stmt->options] points to *)
  same_list : bool;              (* the variable points to the caller's list *)
  cells : list DefElem           (* the list the variable points to *)
}.

(** [options] on entry: a copy of the caller's pointer. *)
Definition parameter (options : list DefElem) : list_var :=
  {| callers := options; same_list := true; cells := options |}.

(** [options = lappend(options, defel)] *)
Definition lappend (v : list_var) (defel : DefElem) : list_var :=
  match cells v with
  | [] => {| callers := callers v; same_list := false; cells := [defel] |}
  | _ =>
      {| callers := if same_list v then callers v ++ [defel] else callers v;
         same_list := same_list v;
         cells := cells v ++ [defel] |}
  end.

(** The [foreach] loop. *)
Fixpoint scan_options (options : list DefElem) (has_increment has_start : bool)
  : bool * bool :=
  match options with
  | [] => (has_increment, has_start)
  | defel :: rest =>
      if String.eqb (defname defel) "increment" then scan_options rest true has_start
      else if String.eqb (defname defel) "start" then scan_options rest has_increment true
      else scan_options rest has_increment has_start
  end.

(** The result is the list of the caller after the call. *)
Definition AdjustCreateSequence (MtmMaxNodes MtmNodeId : Z) (options : list DefElem)
  : list DefElem :=
  let v := parameter options in
  let '(has_increment, has_start) := scan_options (cells v) false false in
  let v := if negb has_increment
           then lappend v (makeDefElem "increment" (makeInteger MtmMaxNodes))
           else v in
  let v := if negb has_start
           then lappend v (makeDefElem "start" (makeInteger MtmNodeId))
           else v in
  callers v.

(** *** Notions used to state the properties *)

Definition has_option (name : string) (options : list DefElem) : bool :=
  existsb (fun d => String.eqb (defname d) name) options.

(** The options that are missing from [options]. *)
Definition missing (MtmMaxNodes MtmNodeId : Z) (options : list DefElem)
  : list DefElem :=
  (if has_option "increment" options then []
   else [makeDefElem "increment" (makeInteger MtmMaxNodes)])
  ++ (if has_option "start" options then []
      else [makeDefElem "start" (makeInteger MtmNodeId)]).

End Sequences.

(* ===================================================================== *)
(** ** Local tables ([ddl.c], "Local tables handling") *)
(* ===================================================================== *)

Module LocalTables.
Import Calls.

Inductive LWLockMode : Type := LW_EXCLUSIVE | LW_SHARED.

Definition InvalidOid : Z := 0.
Definition OidIsValid (oid : Z) : bool := negb (oid =? InvalidOid).

(** Shared memory: the table of local relations (its entries are the keys),
    the flag of [Mtm], and [MtmLocalTablesMapLock] as this process holds it. *)
Record shared : Type := {
  MtmLocalTables : list Z;
  localTablesHashLoaded : bool;
  held : option LWLockMode
}.

(** The catalog as the host shows it: the rows of [mtm.local_tables] if
    the table exists, and the relation a name stands for. *)
Record catalog : Type := {
  assert_checking : bool;
  IsTransactionState : bool;
  local_tables : option (list (string * string));   (* schema, name *)
  RangeVarGetRelid : string -> string -> Z          (* [InvalidOid] if missing *)
}.

Inductive call : Type :=
| LWLockAcquire (mode : LWLockMode)      (* of [MtmLocalTablesMapLock] *)
| LWLockRelease
| heap_openrv_extended
| systable_beginscan
| systable_endscan
| heap_close.

Inductive no_error : Type := .

Definition result (A : Type) : Type := outcome call no_error A.

(** [LWLockAcquire(MtmLocalTablesMapLock, mode)]: a lock of the host is not
    re-entrant. The process waits until the lock is free, also when it is
    the process itself that holds it. Other processes are taken to let go of
    the lock in time. *)
Definition acquire (mode : LWLockMode) (sh : shared) : result shared :=
  do_call (LWLockAcquire mode) ;;
  match held sh with
  | Some _ => crash Stuck
  | None => ret {| MtmLocalTables := MtmLocalTables sh;
                   localTablesHashLoaded := localTablesHashLoaded sh;
                   held := Some mode |}
  end.

Definition release (sh : shared) : result shared :=
  do_call LWLockRelease ;;
  ret {| MtmLocalTables := MtmLocalTables sh;
         localTablesHashLoaded := localTablesHashLoaded sh;
         held := None |}.

(** [hash_search(MtmLocalTables, &relid, HASH_FIND, &found)] *)
Definition hash_find (tab : list Z) (relid : Z) : bool := existsb (Z.eqb relid) tab.

(** [hash_search(MtmLocalTables, &relid, HASH_ENTER, NULL)] *)
Definition hash_enter (tab : list Z) (relid : Z) : list Z :=
  if hash_find tab relid then tab else tab ++ [relid].

Definition MtmMakeRelationLocal (relid : Z) (sh : shared) : result shared :=
  if OidIsValid relid then
    sh <- acquire LW_EXCLUSIVE sh ;;
    let sh := {| MtmLocalTables := hash_enter (MtmLocalTables sh) relid;
                 localTablesHashLoaded := localTablesHashLoaded sh;
                 held := held sh |} in
    release sh
  else ret sh.

Definition MtmMakeTableLocal (cat : catalog) (schema name : string) (sh : shared)
  : result shared :=
  let relid := RangeVarGetRelid cat schema name in
  MtmMakeRelationLocal relid sh.

(** The [while] loop over the rows. *)
Fixpoint load_rows (cat : catalog) (rows : list (string * string)) (sh : shared)
  : result shared :=
  match rows with
  | [] => ret sh
  | t :: rest =>
      sh <- MtmMakeTableLocal cat (fst t) (snd t) sh ;;
      load_rows cat rest sh
  end.

Definition MtmLoadLocalTables (cat : catalog) (sh : shared) : result shared :=
  Assert (assert_checking cat) (IsTransactionState cat) ;;
  do_call heap_openrv_extended ;;
  match local_tables cat with
  | Some rows =>
      do_call systable_beginscan ;;
      sh <- load_rows cat rows sh ;;
      do_call systable_endscan ;;
      do_call heap_close ;;
      ret sh
  | None => ret sh
  end.

(** [relid] is [RelationGetRelid(rel)]. No other process changes the flag
    between the two tests. *)
Definition MtmIsRelationLocal (cat : catalog) (relid : Z) (sh : shared)
  : result (bool * shared) :=
  sh <- acquire LW_SHARED sh ;;
  sh <- (if negb (localTablesHashLoaded sh) then
           sh <- release sh ;;
           sh <- acquire LW_EXCLUSIVE sh ;;
           if negb (localTablesHashLoaded sh) then
             sh <- MtmLoadLocalTables cat sh ;;
             ret {| MtmLocalTables := MtmLocalTables sh;
                    localTablesHashLoaded := true;
                    held := held sh |}
           else ret sh
         else ret sh) ;;
  let found := hash_find (MtmLocalTables sh) relid in
  sh <- release sh ;;
  ret (found, sh).

(** *** Notions used to state the properties *)

(** The relations that the rows of [mtm.local_tables] stand for. *)
Definition listed (cat : catalog) : list Z :=
  match local_tables cat with
  | Some rows => map (fun t => RangeVarGetRelid cat (fst t) (snd t)) rows
  | None => []
  end.

(** The calls of a load that finds nothing to enter. *)
Definition quiet_load (cat : catalog) : list call :=
  heap_openrv_extended
  :: match local_tables cat with
     | Some _ => [systable_beginscan; systable_endscan; heap_close]
     | None => []
     end.

(** Shared memory with nothing locked by this process. *)
Definition unlocked (tab : list Z) (loaded : bool) : shared :=
  {| MtmLocalTables := tab; localTablesHashLoaded := loaded; held := None |}.

(** One relation is listed, and it exists. *)
Definition catalog1 : catalog :=
  {| assert_checking := true; IsTransactionState := true;
     local_tables := Some [("public", "audit_log")]%string;
     RangeVarGetRelid := fun schema name =>
       if String.eqb name "audit_log" then 16501 else InvalidOid |}.

(** The table of local tables has not been created. *)
Definition catalog0 : catalog :=
  {| assert_checking := true; IsTransactionState := true;
     local_tables := None;
     RangeVarGetRelid := fun schema name => InvalidOid |}.

End LocalTables.

(* ===================================================================== *)
(** ** Start of the shared state ([multimaster.c], MtmStateShmemStartup)
       and the locks *)
(* ===================================================================== *)

Module Startup.
Import NodeMask.

(** The locks of the tranche that [_PG_init] asks for. *)
Inductive mtm_lock : Type :=
| StateLock                   (* [Mtm->locks[MTM_STATE_LOCK_ID]], MtmLock *)
| NodeLock (nodeId : Z)       (* [Mtm->locks[nodeId]], MtmLockNode *)
| CommitBarrier
| ReceiverBarrier
| SyncpointLock.

Definition MTM_STATE_LOCK_ID : Z := 0.

(** [RequestNamedLWLockTranche(MULTIMASTER_NAME, 1 + MtmMaxNodes*2 + 3)] *)
Definition tranche_size (MtmMaxNodes : Z) : Z :=
  int32_wrap (int32_wrap (1 + int32_wrap (MtmMaxNodes * 2)) + 3).

(** The place of a lock in the tranche. *)
Definition lock_index (MtmMaxNodes : Z) (l : mtm_lock) : Z :=
  match l with
  | StateLock => MTM_STATE_LOCK_ID
  | NodeLock nodeId => nodeId
  | CommitBarrier => int32_wrap (int32_wrap (MtmMaxNodes * 2) + 1)
  | ReceiverBarrier => int32_wrap (int32_wrap (MtmMaxNodes * 2) + 2)
  | SyncpointLock => int32_wrap (int32_wrap (MtmMaxNodes * 2) + 3)
  end.

(** [Assert(nodeId > 0 && nodeId <= MtmMaxNodes*2)] of [MtmLockNode] and
    [MtmUnlockNode]. *)
Definition lock_asserted (MtmMaxNodes : Z) (l : mtm_lock) : bool :=
  match l with
  | NodeLock nodeId => (0 <? nodeId) && (nodeId <=? int32_wrap (MtmMaxNodes * 2))
  | _ => true
  end.

(** What [ShmemInitStruct] finds: [None] when the structure is new. The
    result is [mtm_time] and [Mtm] after the call. [pool] is what
    [BgwPoolInit], which is not part of these files, leaves in a pool. *)
Definition MtmStateShmemStartup (MtmMaxNodes : Z) (pool : BgwPool)
    (found_time : option Clock.MtmTime) (found_Mtm : option MtmState)
  : Clock.MtmTime * MtmState :=
  let mtm_time :=
    match found_time with
    | Some t => t
    | None => {| Clock.last_timestamp := 0 |}
    end in
  let Mtm :=
    match found_Mtm with
    | Some m => m
    | None =>
        (* MemSet(Mtm, 0, sizeof(MtmState)), then the fields one by one *)
        {| extension_created := false;
           stop_new_commits := false;
           status := MTM_DISABLED;
           nAllNodes := 0;
           my_node_id := 0;
           disabledNodeMask := wrap64 (-1);
           pools := repeat pool (Z.to_nat MtmMaxNodes) |}
    end in
  (mtm_time, Mtm).

End Startup.

(* ===================================================================== *)
(** ** The transaction callback ([commit.c], MtmXactCallback2 and
       MtmPrePrepareTransaction) *)
(* ===================================================================== *)

Module Xact.
Import Commit.

(** The events of the host's transaction manager. *)
Inductive XactEvent : Type :=
| XACT_EVENT_START
| XACT_EVENT_COMMIT
| XACT_EVENT_PARALLEL_COMMIT
| XACT_EVENT_ABORT
| XACT_EVENT_PARALLEL_ABORT
| XACT_EVENT_PREPARE
| XACT_EVENT_PRE_COMMIT
| XACT_EVENT_PARALLEL_PRE_COMMIT
| XACT_EVENT_PRE_PREPARE
| XACT_EVENT_COMMIT_COMMAND.

(** What the process and the host say besides [Commit.host]. *)
Record process : Type := {
  MtmIsLogicalReceiver : bool;
  IsTransactionOrTransactionBlock : bool;
  IsSubTransaction : bool;
  MyDatabaseId : Z;
  MtmDatabaseName : string;
  (* [get_database_oid(MtmDatabaseName, false)]; [None]: it raises, there
     is no such database *)
  get_database_oid : option Z;
  GetCurrentTransactionId : Z
}.

(** The backend: the world of [commit.c], the static [MtmDatabaseId], and the
    number of calls of [get_database_oid] so far. *)
Record backend : Type := {
  w : world;
  MtmDatabaseId : Z;
  oid_lookups : nat
}.

Inductive xact_error : Type :=
| FromCommit (e : mtm_error)
| RefusingToWork (name : string)
    (* "Refusing to work. Multimaster configured to work with database '%s'" *)
| NoSuchDatabase (name : string).

Inductive xact_result : Type :=
| Returned (b : backend)
| Raised' (e : xact_error) (b : backend)
| Crashed' (f : fault) (b : backend)
| NoAnswer' (b : backend).

(** The outcome of a function of [commit.c] as the outcome of the callback. *)
Definition lift {A} (r : result A) (b : backend) : xact_result :=
  let put w' := {| w := w'; MtmDatabaseId := MtmDatabaseId b;
                   oid_lookups := oid_lookups b |} in
  match r with
  | Done _ w' => Returned (put w')
  | Raised e w' => Raised' (FromCommit e) (put w')
  | Crashed f w' => Crashed' f (put w')
  | NoAnswer w' => NoAnswer' (put w')
  end.

Definition MtmPrePrepareTransaction (cfg : config) (p : process) (b : backend)
  : xact_result :=
  let x := MtmTx (w b) in
  if negb (isDistributed x) then Returned b
  else
    let looked_up :=
      if MtmDatabaseId b =? 0 then
        match get_database_oid p with
        | Some oid => Some {| w := w b; MtmDatabaseId := oid;
                              oid_lookups := S (oid_lookups b) |}
        | None => None
        end
      else Some b in
    match looked_up with
    | None =>
        Raised' (NoSuchDatabase (MtmDatabaseName p))
                {| w := w b; MtmDatabaseId := MtmDatabaseId b;
                   oid_lookups := S (oid_lookups b) |}
    | Some b =>
        if negb (MtmDatabaseId b =? MyDatabaseId p)
        then Raised' (RefusingToWork (MtmDatabaseName p)) b
        else if assert_checking cfg
                && negb (Gid.TransactionIdIsValid (GetCurrentTransactionId p))
             then Crashed' AssertFailed b
             else Returned b
    end.

Definition MtmXactCallback2 (cfg : config) (h : host) (p : process)
    (event : XactEvent) (b : backend) : xact_result :=
  if negb (MtmIsLogicalReceiver p) then
    match event with
    | XACT_EVENT_START => lift (MtmBeginTransaction cfg h (w b)) b
    | XACT_EVENT_PRE_PREPARE => MtmPrePrepareTransaction cfg p b
    | XACT_EVENT_COMMIT_COMMAND =>
        if IsTransactionOrTransactionBlock p
           && negb (IsTransactionBlock h)
           && negb (IsSubTransaction p)
        then lift (MtmTwoPhaseCommit cfg h (w b)) b
        else Returned b
    | _ => Returned b
    end
  else Returned b.

(** *** Notions used to state the properties *)

(** A backend in which nothing has been looked up. *)
Definition new_backend (w0 : world) : backend :=
  {| w := w0; MtmDatabaseId := 0; oid_lookups := 0 |}.

Definition backend_of (r : xact_result) : backend :=
  match r with
  | Returned b | Raised' _ b | Crashed' _ b | NoAnswer' b => b
  end.

(** A process of database 16384 in which the extension works in 16384. *)
Definition process1 : process :=
  {| MtmIsLogicalReceiver := false; IsTransactionOrTransactionBlock := true;
     IsSubTransaction := false; MyDatabaseId := 16384; MtmDatabaseName := "app";
     get_database_oid := Some 16384; GetCurrentTransactionId := 700 |}.

End Xact.

(* ===================================================================== *)
(** ** The hooks of [ddl.c]: functions run on every node, the executor
       start hook and the utility hook *)
(* ===================================================================== *)

Module Hooks.
Import Calls DdlCalls.

(** *** Statements *)

Inductive TransactionStmtKind : Type :=
| TRANS_STMT_BEGIN | TRANS_STMT_START | TRANS_STMT_COMMIT | TRANS_STMT_ROLLBACK
| TRANS_STMT_SAVEPOINT | TRANS_STMT_RELEASE | TRANS_STMT_ROLLBACK_TO
| TRANS_STMT_PREPARE | TRANS_STMT_COMMIT_PREPARED | TRANS_STMT_ROLLBACK_PREPARED.

(** The statements that the switch lists with nothing but
    [skipCommand = true]. *)
Inductive skipped_tag : Type :=
| T_PlannedStmt | T_ClosePortalStmt | T_FetchStmt | T_DoStmt | T_CommentStmt
| T_PrepareStmt | T_ExecuteStmt | T_DeallocateStmt | T_NotifyStmt
| T_ListenStmt | T_UnlistenStmt | T_LoadStmt | T_ClusterStmt
| T_VariableShowStmt | T_ReassignOwnedStmt | T_LockStmt | T_CheckPointStmt
| T_ReindexStmt | T_AlterSystemStmt.

Inductive ObjectType : Type := OBJECT_INDEX | OBJECT_FUNCTION | OBJECT_other.

(** A type name as the host resolves it: [None] when [LookupTypeName] finds
    nothing, else the relation of the type ([typrelid]) and whether that
    relation is temporary. *)
Record TypeName : Type := {
  LookupTypeName : option (Z * bool)
}.

(** A utility statement: its tag, and of its fields and of what the host
    finds out about it as much as the hook looks at. *)
Inductive utility : Type :=
| T_TransactionStmt (kind : TransactionStmtKind) (stmt_gid : string)
| T_skipped (tag : skipped_tag)
| T_CreatedbStmt
| T_DropdbStmt
| T_CreateSeqStmt (options : list Sequences.DefElem)
| T_CreateTableSpaceStmt
| T_DropTableSpaceStmt
| T_VacuumStmt
    (* the element type of the base type is a row type of a temporary table *)
| T_CreateDomainStmt (over_temporary : bool)
    (* the query is CREATE TABLE AS; the names of the options *)
| T_ExplainStmt (create_table_as : bool) (options : list string)
| T_DiscardStmt (discard_all : bool)
| T_VariableSetStmt (stmt : Guc.VariableSetStmt)
| T_IndexStmt (concurrent : bool)
| T_TruncateStmt
| T_DropStmt (removeType : ObjectType) (concurrent : bool) (missing_ok : bool)
    (* [needs_wal]: [None] if there is no relation or it is not found *)
| T_CopyStmt (is_from : bool) (needs_wal : option bool) (options : list string)
| T_CreateFunctionStmt (returnType : option TypeName)
    (parameters : list (option TypeName))
    (* the relation is found after the statement; it has a primary key *)
| T_CreateStmt (created : bool) (has_primary_key : bool)
| T_other.

Inductive ProcessUtilityContext : Type :=
| PROCESS_UTILITY_TOPLEVEL | PROCESS_UTILITY_QUERY | PROCESS_UTILITY_SUBCOMMAND.

Definition is_toplevel (context : ProcessUtilityContext) : bool :=
  match context with PROCESS_UTILITY_TOPLEVEL => true | _ => false end.

(** *** The state of a backend *)

(** What [MtmDDLStatement] points to: a [queryDesc], or the [stmt_string]
    of a utility statement. *)
Inductive stmt_ref : Type :=
| QueryDescRef (id : Z)
| StmtStringRef.

Definition ref_eqb (a b : stmt_ref) : bool :=
  match a, b with
  | QueryDescRef x, QueryDescRef y => x =? y
  | StmtStringRef, StmtStringRef => true
  | _, _ => false
  end.

(** [MtmTx] as [ddl.c] uses it. *)
Record MtmCurrentTrans : Type := {
  isDistributed : bool;
  containsDML : bool;
  isTwoPhase : bool;
  gid : string
}.

Record session : Type := {
  MtmDDLStatement : option stmt_ref;
  MtmRemoteFunctions : option (list Z);      (* [None] is NULL *)
  guc : Guc.state;
  MtmTx : MtmCurrentTrans;
  accessed_temp_rel : bool;                  (* MyXactFlags & XACT_FLAGS_ACCESSEDTEMPREL *)
  check_function_bodies : bool;
  MtmVacuumStmt : option utility;
  MtmIndexStmt : option utility;
  MtmDropStmt : option utility;
  MtmTablespaceStmt : option utility
}.

Definition set_MtmDDLStatement (v : option stmt_ref) (s : session) : session :=
  {| MtmDDLStatement := v; MtmRemoteFunctions := MtmRemoteFunctions s;
     guc := guc s; MtmTx := MtmTx s; accessed_temp_rel := accessed_temp_rel s;
     check_function_bodies := check_function_bodies s;
     MtmVacuumStmt := MtmVacuumStmt s; MtmIndexStmt := MtmIndexStmt s;
     MtmDropStmt := MtmDropStmt s; MtmTablespaceStmt := MtmTablespaceStmt s |}.

Definition set_MtmRemoteFunctions (v : option (list Z)) (s : session) : session :=
  {| MtmDDLStatement := MtmDDLStatement s; MtmRemoteFunctions := v;
     guc := guc s; MtmTx := MtmTx s; accessed_temp_rel := accessed_temp_rel s;
     check_function_bodies := check_function_bodies s;
     MtmVacuumStmt := MtmVacuumStmt s; MtmIndexStmt := MtmIndexStmt s;
     MtmDropStmt := MtmDropStmt s; MtmTablespaceStmt := MtmTablespaceStmt s |}.

Definition set_guc (v : Guc.state) (s : session) : session :=
  {| MtmDDLStatement := MtmDDLStatement s; MtmRemoteFunctions := MtmRemoteFunctions s;
     guc := v; MtmTx := MtmTx s; accessed_temp_rel := accessed_temp_rel s;
     check_function_bodies := check_function_bodies s;
     MtmVacuumStmt := MtmVacuumStmt s; MtmIndexStmt := MtmIndexStmt s;
     MtmDropStmt := MtmDropStmt s; MtmTablespaceStmt := MtmTablespaceStmt s |}.

Definition set_MtmTx (v : MtmCurrentTrans) (s : session) : session :=
  {| MtmDDLStatement := MtmDDLStatement s; MtmRemoteFunctions := MtmRemoteFunctions s;
     guc := guc s; MtmTx := v; accessed_temp_rel := accessed_temp_rel s;
     check_function_bodies := check_function_bodies s;
     MtmVacuumStmt := MtmVacuumStmt s; MtmIndexStmt := MtmIndexStmt s;
     MtmDropStmt := MtmDropStmt s; MtmTablespaceStmt := MtmTablespaceStmt s |}.

Definition set_accessed_temp_rel (v : bool) (s : session) : session :=
  {| MtmDDLStatement := MtmDDLStatement s; MtmRemoteFunctions := MtmRemoteFunctions s;
     guc := guc s; MtmTx := MtmTx s; accessed_temp_rel := v;
     check_function_bodies := check_function_bodies s;
     MtmVacuumStmt := MtmVacuumStmt s; MtmIndexStmt := MtmIndexStmt s;
     MtmDropStmt := MtmDropStmt s; MtmTablespaceStmt := MtmTablespaceStmt s |}.

Definition set_check_function_bodies (v : bool) (s : session) : session :=
  {| MtmDDLStatement := MtmDDLStatement s; MtmRemoteFunctions := MtmRemoteFunctions s;
     guc := guc s; MtmTx := MtmTx s; accessed_temp_rel := accessed_temp_rel s;
     check_function_bodies := v;
     MtmVacuumStmt := MtmVacuumStmt s; MtmIndexStmt := MtmIndexStmt s;
     MtmDropStmt := MtmDropStmt s; MtmTablespaceStmt := MtmTablespaceStmt s |}.

Definition set_MtmVacuumStmt (v : option utility) (s : session) : session :=
  {| MtmDDLStatement := MtmDDLStatement s; MtmRemoteFunctions := MtmRemoteFunctions s;
     guc := guc s; MtmTx := MtmTx s; accessed_temp_rel := accessed_temp_rel s;
     check_function_bodies := check_function_bodies s;
     MtmVacuumStmt := v; MtmIndexStmt := MtmIndexStmt s;
     MtmDropStmt := MtmDropStmt s; MtmTablespaceStmt := MtmTablespaceStmt s |}.

Definition set_MtmIndexStmt (v : option utility) (s : session) : session :=
  {| MtmDDLStatement := MtmDDLStatement s; MtmRemoteFunctions := MtmRemoteFunctions s;
     guc := guc s; MtmTx := MtmTx s; accessed_temp_rel := accessed_temp_rel s;
     check_function_bodies := check_function_bodies s;
     MtmVacuumStmt := MtmVacuumStmt s; MtmIndexStmt := v;
     MtmDropStmt := MtmDropStmt s; MtmTablespaceStmt := MtmTablespaceStmt s |}.

Definition set_MtmDropStmt (v : option utility) (s : session) : session :=
  {| MtmDDLStatement := MtmDDLStatement s; MtmRemoteFunctions := MtmRemoteFunctions s;
     guc := guc s; MtmTx := MtmTx s; accessed_temp_rel := accessed_temp_rel s;
     check_function_bodies := check_function_bodies s;
     MtmVacuumStmt := MtmVacuumStmt s; MtmIndexStmt := MtmIndexStmt s;
     MtmDropStmt := v; MtmTablespaceStmt := MtmTablespaceStmt s |}.

Definition set_MtmTablespaceStmt (v : option utility) (s : session) : session :=
  {| MtmDDLStatement := MtmDDLStatement s; MtmRemoteFunctions := MtmRemoteFunctions s;
     guc := guc s; MtmTx := MtmTx s; accessed_temp_rel := accessed_temp_rel s;
     check_function_bodies := check_function_bodies s;
     MtmVacuumStmt := MtmVacuumStmt s; MtmIndexStmt := MtmIndexStmt s;
     MtmDropStmt := MtmDropStmt s; MtmTablespaceStmt := v |}.

Definition set_isDistributed (v : bool) (s : session) : session :=
  set_MtmTx {| isDistributed := v; containsDML := containsDML (MtmTx s);
               isTwoPhase := isTwoPhase (MtmTx s); gid := gid (MtmTx s) |} s.

Definition set_containsDML (v : bool) (s : session) : session :=
  set_MtmTx {| isDistributed := isDistributed (MtmTx s); containsDML := v;
               isTwoPhase := isTwoPhase (MtmTx s); gid := gid (MtmTx s) |} s.

(** Settings and answers of the process. *)
Record env : Type := {
  assert_checking : bool;
  MtmIsLogicalReceiver : bool;
  MtmVolksWagenMode : bool;
  MtmIgnoreTablesWithoutPk : bool;
  MtmApplyContext : bool;              (* [MtmApplyContext != NULL] *)
  IsTransactionBlock : bool;
  MtmMaxNodes : Z;
  MtmNodeId : Z;
  GIDSIZE : Z;                         (* of the host *)
  guc_host : Guc.host;
  (* the setting [multimaster.remote_functions] *)
  MtmRemoteFunctionsList : string;
  (* [FuncnameGetCandidates(stringToQualifiedNameList(name), ...)]: the oids
     of the candidates, the first one first *)
  FuncnameGetCandidates : string -> list Z;
  (* [prosecdef] of the function, [None] if the cache has no such function *)
  prosecdef : Z -> option bool
}.

(** The hooks run in the state of the backend; an ERROR is raised with the
    state as it is left behind. *)
Definition result (A : Type) : Type := outcome call (ddl_error * session) A.

Definition fail {A} (x : ddl_error) (s : session) : result A := raise (x, s).

(** A function of the Guc part, called in state [s]. *)
Definition of_guc {A} (s : session) (r : DdlCalls.result A) : result A :=
  match r with
  | Ok a l => Ok a l
  | Error x l => Error (x, s) l
  | Fault f l => Fault f l
  end.

(** [MtmProcessDDLCommand] on the state of the backend. *)
Definition MtmProcessDDLCommand (e : env) (queryString : string)
    (transactional : bool) (s : session) : result session :=
  r <- of_guc s (Guc.MtmProcessDDLCommand (guc_host e) queryString transactional
                   (containsDML (MtmTx s)) (guc s)) ;;
  ret (set_guc (snd r) (set_containsDML (fst r) s)).

Definition MtmFinishDDLCommand (s : session) : result unit :=
  of_guc s Guc.MtmFinishDDLCommand.

(** [MtmDDLResetStatement], which [MtmBeginTransaction] calls. *)
Definition MtmDDLResetStatement (s : session) : session :=
  set_MtmDDLStatement None s.

(** [MtmToggleDML] *)
Definition MtmToggleDML (s : session) : session := set_containsDML true s.

(** *** Functions that run on every node *)

(** [hash_search(..., HASH_FIND, NULL)] and [HASH_ENTER] on a table whose
    entries are the keys. *)
Definition hash_find (tab : list Z) (oid : Z) : bool := existsb (Z.eqb oid) tab.
Definition hash_enter (tab : list Z) (oid : Z) : list Z :=
  if hash_find tab oid then tab else tab ++ [oid].

(** [MtmSetRemoteFunction], the assign hook of the setting. *)
Definition MtmSetRemoteFunction (s : session) : session :=
  match MtmRemoteFunctions s with
  | Some _ => set_MtmRemoteFunctions None s
  | None => s
  end.

(** [q = strchr(p, ','); if (q != NULL) *q++ = 0;] -- the text of [p] up to
    the first comma, and what follows the comma if there is one. *)
Fixpoint strchr_comma (p : string) : string * option string :=
  match p with
  | EmptyString => (EmptyString, None)
  | String c rest =>
      if Ascii.eqb c "," then (EmptyString, Some rest)
      else let '(name, q) := strchr_comma rest in (String c name, q)
  end.

(** The body of the loop for one name: a warning, the ERROR, or an entry. *)
Definition enter_function (e : env) (p : string) (s : session) : result session :=
  match MtmRemoteFunctions s with
  | None => crash Undefined
  | Some tab =>
      match FuncnameGetCandidates e p with
      | [] => do_call (mtm_log_WARNING_lookup p) ;; ret s
      | oid :: [] => ret (set_MtmRemoteFunctions (Some (hash_enter tab oid)) s)
      | _ :: _ :: _ => fail (AmbiguousFunction p) s
      end
  end.

(** The [do ... while (p != NULL)] loop. Every turn takes at least the
    comma away from [p], so the length of the list bounds the turns. *)
Fixpoint enter_functions (e : env) (fuel : nat) (p : string) (s : session)
  : result session :=
  match fuel with
  | O => ret s
  | S fuel' =>
      let '(name, q) := strchr_comma p in
      s <- enter_function e name s ;;
      match q with
      | Some p' => enter_functions e fuel' p' s
      | None => ret s
      end
  end.

(** [MtmInitializeRemoteFunctionsMap]. The first loop counts the names for
    the size that [hash_create] is asked for; the table grows as needed.
    The role of the database user is taken to exist and every name to be
    one that [stringToQualifiedNameList] accepts. *)
Definition MtmInitializeRemoteFunctionsMap (e : env) (s : session) : result session :=
  Assert (assert_checking e)
    (match MtmRemoteFunctions s with None => true | Some _ => false end) ;;
  let s := set_MtmRemoteFunctions (Some []) s in
  do_call (SetUserIdAndSecContext true) ;;
  s <- enter_functions e (S (String.length (MtmRemoteFunctionsList e)))
         (MtmRemoteFunctionsList e) s ;;
  s <- match MtmRemoteFunctions s, FuncnameGetCandidates e "mtm.alter_sequences" with
       | Some tab, oid :: _ => ret (set_MtmRemoteFunctions (Some (hash_enter tab oid)) s)
       | Some _, [] => ret s
       | None, _ => crash Undefined
       end ;;
  do_call (SetUserIdAndSecContext false) ;;
  ret s.

(** *** The executor start hook *)

Inductive Expr : Type :=
| FuncExpr (funcid : Z)
| other_expr.

(** A query: which [queryDesc] it is, its text, and the expressions of the
    target list of its plan ([None] for an entry without expression). *)
Record QueryDesc : Type := {
  id : Z;
  sourceText : string;
  targetlist : list (option Expr)
}.

(** The [foreach] loop: true when it comes to a function that is to run on
    every node (the loop then sends the query and breaks). *)
Fixpoint remote_call (e : env) (tab : list Z) (tl : list (option Expr))
    (s : session) : result bool :=
  match tl with
  | [] => ret false
  | tle :: rest =>
      match tle with
      | Some (FuncExpr func_oid) =>
          if negb (hash_find tab func_oid) then
            match prosecdef e func_oid with
            | None => fail (CacheLookupFailed func_oid) s
            | Some is_sec_def =>
                if negb is_sec_def then remote_call e tab rest s     (* continue; *)
                else ret true
            end
          else ret true
      | _ => remote_call e tab rest s
      end
  end.

Definition is_null {A} (x : option A) : bool :=
  match x with None => true | Some _ => false end.

(** [standard_ExecutorStart] stands for the previous hook as well. *)
Definition MtmExecutorStart (e : env) (queryDesc : QueryDesc) (s : session)
  : result session :=
  s <- (if negb (MtmIsLogicalReceiver e) && is_null (MtmDDLStatement s) then
          s <- (if is_null (MtmRemoteFunctions s)
                then MtmInitializeRemoteFunctionsMap e s else ret s) ;;
          match MtmRemoteFunctions s with
          | None => crash Undefined
          | Some tab =>
              found <- remote_call e tab (targetlist queryDesc) s ;;
              if found then
                s <- MtmProcessDDLCommand e (sourceText queryDesc) true s ;;
                ret (set_MtmDDLStatement (Some (QueryDescRef (id queryDesc))) s)
              else ret s
          end
        else ret s) ;;
  do_call (standard_ExecutorStart (sourceText queryDesc)) ;;
  ret s.

(** The end of [MtmExecutorFinish]: [if (MtmDDLStatement == queryDesc)
    { MtmFinishDDLCommand(); MtmDDLStatement = NULL; }]. *)
Definition finish_ddl_statement (queryDesc : QueryDesc) (s : session)
  : result session :=
  match MtmDDLStatement s with
  | Some r =>
      if ref_eqb r (QueryDescRef (id queryDesc)) then
        MtmFinishDDLCommand s ;;
        ret (set_MtmDDLStatement None s)
      else ret s
  | None => ret s
  end.

(** *** The utility hook *)

Record PlannedStmt : Type := {
  utilityStmt : utility;
  stmt_location : Z;
  stmt_len : Z
}.

(** The text of the statement inside the query string, for a statement
    that starts inside the string. *)
Definition stmt_string_of (pstmt : PlannedStmt) (queryString : string) : string :=
  let stmt_start := if 0 <? stmt_location pstmt then stmt_location pstmt else 0 in
  let stmt_len :=
    if 0 <? stmt_len pstmt then stmt_len pstmt
    else Z.of_nat (String.length queryString) - stmt_start in
  String.substring (Z.to_nat stmt_start) (Z.to_nat stmt_len) queryString.

(** [MtmIsTempType]. [client_min_messages] is raised for the lookup and is
    back at its value on return; it is not part of the state here. *)
Definition MtmIsTempType (typeName : option TypeName) : bool :=
  match typeName with
  | Some t =>
      match LookupTypeName t with
      | Some (relid, temporary) =>
          if negb (relid =? 0) then temporary else false
      | None => false
      end
  | None => false
  end.

Definition MtmFunctionProfileDependsOnTempTable (returnType : option TypeName)
    (parameters : list (option TypeName)) : bool :=
  if MtmIsTempType returnType then true
  else existsb MtmIsTempType parameters.

Definition USECS_PER_SEC : Z := 1000000.

(** How the switch is left: on to the rest of the function with a value of
    [skipCommand], or by [return]. *)
Inductive flow : Type :=
| Proceed (skipCommand : bool)
| Return.

(** [strncpy(MtmTx.gid, stmt->gid, GIDSIZE)] *)
Definition set_gid (e : env) (two_phase : bool) (stmt_gid : string) (s : session)
  : session :=
  set_MtmTx {| isDistributed := isDistributed (MtmTx s);
               containsDML := containsDML (MtmTx s);
               isTwoPhase := two_phase;
               gid := String.substring 0 (Z.to_nat (GIDSIZE e)) stmt_gid |} s.

(** A statement that is not to go through a transaction, at top level or
    in the apply worker: [save] keeps a copy for [MtmApplyDDLMessage]. *)
Definition concurrently (e : env) (context : ProcessUtilityContext)
    (stmt_string : string) (nap : bool)
    (save : session -> session) (otherwise : bool) (s : session)
  : result (flow * session) :=
  if is_toplevel context then
    s <- MtmProcessDDLCommand e stmt_string false s ;;
    let s := set_isDistributed false s in
    (if nap then do_call (pg_usleep USECS_PER_SEC) else ret tt) ;;
    ret (Proceed true, s)
  else if MtmApplyContext e then ret (Return, save s)
  else ret (Proceed otherwise, s).

(** The switch. [MtmTwoPhaseCommit] is the function of [commit.c], as it
    acts on this state. The statement comes back as the switch leaves it.
    The switch of memory context around a copy, with its assertion that the
    context was another one, has no counterpart here. *)
Definition before_execution (e : env)
    (MtmTwoPhaseCommit : session -> result (bool * session))
    (context : ProcessUtilityContext) (parsetree : utility) (stmt_string : string)
    (s : session) : result (flow * utility * session) :=
  let skipCommand := false in
  match parsetree with
  | T_TransactionStmt kind stmt_gid =>
      r <- match kind with
           | TRANS_STMT_COMMIT =>
               r <- MtmTwoPhaseCommit s ;;
               ret (if fst r then Return else Proceed true, snd r)
           | TRANS_STMT_PREPARE => ret (Proceed true, set_gid e true stmt_gid s)
           | TRANS_STMT_COMMIT_PREPARED | TRANS_STMT_ROLLBACK_PREPARED =>
               Assert (assert_checking e) (negb (isTwoPhase (MtmTx s))) ;;
               ret (Proceed true, set_gid e (isTwoPhase (MtmTx s)) stmt_gid s)
           | _ => ret (Proceed true, s)
           end ;;
      ret (fst r, parsetree, snd r)
  | T_skipped _ => ret (Proceed true, parsetree, s)
  | T_CreatedbStmt | T_DropdbStmt => fail DatabasesNotSupported s
  | T_CreateSeqStmt options =>
      let options :=
        if negb (MtmVolksWagenMode e)
        then Sequences.AdjustCreateSequence (MtmMaxNodes e) (MtmNodeId e) options
        else options in
      ret (Proceed skipCommand, T_CreateSeqStmt options, s)
  | T_CreateTableSpaceStmt | T_DropTableSpaceStmt =>
      if MtmApplyContext e
      then ret (Return, parsetree, set_MtmTablespaceStmt (Some parsetree) s)
      else
        s <- MtmProcessDDLCommand e stmt_string false s ;;
        ret (Proceed true, parsetree, s)
  | T_VacuumStmt =>
      if negb (MtmVolksWagenMode e) then
        r <- concurrently e context stmt_string false
               (set_MtmVacuumStmt (Some parsetree)) true s ;;
        ret (fst r, parsetree, snd r)
      else ret (Proceed true, parsetree, s)
  | T_CreateDomainStmt over_temporary =>
      ret (Proceed skipCommand, parsetree,
           if over_temporary then set_accessed_temp_rel true s else s)
  | T_ExplainStmt create_table_as options =>
      let skipCommand :=
        if create_table_as
        then negb (existsb (fun defname => String.eqb defname "analyze") options)
        else true in
      ret (Proceed skipCommand, parsetree, s)
  | T_DiscardStmt discard_all =>
      if negb (IsTransactionBlock e) && discard_all then
        g <- of_guc s (Guc.MtmGucDiscard (guc s)) ;;
        ret (Proceed true, parsetree, set_guc g s)
      else ret (Proceed skipCommand, parsetree, s)
  | T_VariableSetStmt stmt =>
      let skipCommand :=
        match Guc.kind stmt with Guc.VAR_SET_MULTI => true | _ => skipCommand end in
      if negb (IsTransactionBlock e) then
        g <- of_guc s (Guc.MtmGucSet (guc_host e) stmt (guc s)) ;;
        ret (Proceed true, parsetree, set_guc g s)
      else ret (Proceed skipCommand, parsetree, s)
  | T_IndexStmt concurrent =>
      if concurrent then
        r <- concurrently e context stmt_string true
               (set_MtmIndexStmt (Some parsetree)) skipCommand s ;;
        ret (fst r, parsetree, snd r)
      else ret (Proceed skipCommand, parsetree, s)
  | T_TruncateStmt => ret (Proceed false, parsetree, s)
  | T_DropStmt removeType concurrent missing_ok =>
      match removeType with
      | OBJECT_INDEX =>
          if concurrent then
            r <- concurrently e context stmt_string false
                   (set_MtmDropStmt (Some parsetree)) skipCommand s ;;
            ret (fst r, parsetree, snd r)
          else ret (Proceed skipCommand, parsetree, s)
      | OBJECT_FUNCTION =>
          if MtmIsLogicalReceiver e
          then ret (Proceed skipCommand, T_DropStmt removeType concurrent true, s)
          else ret (Proceed skipCommand, parsetree, s)
      | OBJECT_other => ret (Proceed skipCommand, parsetree, s)
      end
  | T_CopyStmt is_from needs_wal options =>
      let s :=
        if is_from then
          let s := match needs_wal with
                   | Some true => set_containsDML true s
                   | _ => s
                   end in
          if existsb (fun defname => String.eqb "local" defname) options
          then set_containsDML false (set_isDistributed false s)
          else s
        else s in
      (* no break: the statement runs into the case of T_CreateFunctionStmt *)
      let s := if MtmIsLogicalReceiver e then set_check_function_bodies false s
               else s in
      ret (Proceed true, parsetree, s)
  | T_CreateFunctionStmt _ _ =>
      let s := if MtmIsLogicalReceiver e then set_check_function_bodies false s
               else s in
      ret (Proceed skipCommand, parsetree, s)
  | T_CreateStmt _ _ | T_other => ret (Proceed false, parsetree, s)
  end.

(** After the statement has run. *)
Definition after_execution (e : env) (parsetree : utility)
    (prevMyXactAccessedTempRel : bool) (executed : bool) (s : session)
  : result session :=
  let s :=
    match parsetree with
    | T_CreateFunctionStmt returnType parameters =>
        let prev :=
          if MtmFunctionProfileDependsOnTempTable returnType parameters then true
          else prevMyXactAccessedTempRel in
        if prev then set_accessed_temp_rel true s else s
    | _ => s
    end in
  let s := if accessed_temp_rel s then set_isDistributed false s else s in
  s <- (if executed then
          MtmFinishDDLCommand s ;;
          ret (set_MtmDDLStatement None s)
        else ret s) ;;
  match parsetree with
  | T_CreateStmt created has_primary_key =>
      if created && negb has_primary_key && negb (MtmVolksWagenMode e)
         && MtmIgnoreTablesWithoutPk e
      then do_call elog_WARNING_no_primary_key ;; ret s
      else ret s
  | _ => ret s
  end.

(** [MtmProcessUtility]. [run] is the host at work on the statement
    ([standard_ProcessUtility] or the previous hook): it gets the statement
    as the switch has left it and the state, and it may come back into the
    hooks for statements inside this one. *)
Definition MtmProcessUtility (e : env)
    (MtmTwoPhaseCommit : session -> result (bool * session))
    (run : utility -> session -> result session)
    (pstmt : PlannedStmt) (queryString : string) (context : ProcessUtilityContext)
    (s : session) : result session :=
  let executed := false in
  let parsetree := utilityStmt pstmt in
  let stmt_string := stmt_string_of pstmt queryString in
  r <- before_execution e MtmTwoPhaseCommit context parsetree stmt_string s ;;
  let '(fl, parsetree, s) := r in
  match fl with
  | Return => ret s
  | Proceed skipCommand =>
      r <- (if negb skipCommand && is_null (MtmDDLStatement s) then
              s <- MtmProcessDDLCommand e stmt_string true s ;;
              ret (true, set_MtmDDLStatement (Some StmtStringRef) s)
            else ret (executed, s)) ;;
      let '(executed, s) := r in
      let prevMyXactAccessedTempRel := accessed_temp_rel s in
      s <- run parsetree s ;;
      after_execution e parsetree prevMyXactAccessedTempRel executed s
  end.

(** *** Notions used to state the properties *)

(** The host runs the statement and does nothing else to the state. *)
Definition plain_run (stmt_string : string) : utility -> session -> result session :=
  fun _ s => do_call (standard_ProcessUtility stmt_string) ;; ret s.

(** A commit of [commit.c] that has nothing to do. *)
Definition no_commit : session -> result (bool * session) :=
  fun s => ret (false, s).

(** The names of a list with commas. *)
Fixpoint names_of (fuel : nat) (p : string) : list string :=
  match fuel with
  | O => []
  | S fuel' =>
      let '(name, q) := strchr_comma p in
      name :: match q with
              | Some p' => names_of fuel' p'
              | None => []
              end
  end.

Definition listed_names (e : env) : list string :=
  names_of (S (String.length (MtmRemoteFunctionsList e))) (MtmRemoteFunctionsList e).

(** The table after the names [names]: the function of every name that
    stands for exactly one function has been entered. *)
Definition table_after (e : env) (names : list string) (tab : list Z) : list Z :=
  fold_left (fun tab name =>
               match FuncnameGetCandidates e name with
               | [oid] => hash_enter tab oid
               | _ => tab
               end) names tab.

(** The names that stand for no function. *)
Definition unknown_names (e : env) (names : list string) : list string :=
  List.filter (fun name => match FuncnameGetCandidates e name with
                           | [] => true
                           | _ => false
                           end) names.

(** [mtm.alter_sequences] is entered when it exists. *)
Definition with_alter_sequences (e : env) (tab : list Z) : list Z :=
  match FuncnameGetCandidates e "mtm.alter_sequences" with
  | oid :: _ => hash_enter tab oid
  | [] => tab
  end.

(** The host raises an ERROR while it runs the statement. *)
Definition failing_run (stmt_string : string) : utility -> session -> result session :=
  fun _ s => do_call (standard_ProcessUtility stmt_string) ;; fail RaisedByHost s.

(** A message that is part of the transaction. *)
Definition transactional_message (c : call) : Prop :=
  match c with
  | LogLogicalMessage _ _ true => True
  | _ => False
  end.

(** The names joined by commas. *)
Fixpoint join (names : list string) : string :=
  match names with
  | [] => EmptyString
  | [name] => name
  | name :: rest => String.append name (String "," (join rest))
  end.

(** A function that is to run on every node: one of the table, or one
    declared SECURITY DEFINER. *)
Definition runs_everywhere (e : env) (tab : list Z) (tle : option Expr) : bool :=
  match tle with
  | Some (FuncExpr func_oid) =>
      hash_find tab func_oid
      || match prosecdef e func_oid with Some b => b | None => false end
  | _ => false
  end.

(** Every function of the target list is known to the cache. *)
Definition functions_known (e : env) (tl : list (option Expr)) : Prop :=
  forall func_oid, In (Some (FuncExpr func_oid)) tl -> prosecdef e func_oid <> None.

(** The messages among the calls. *)
Definition messages (l : list call) : list call :=
  List.filter (fun c => match c with LogLogicalMessage _ _ _ => true | _ => false end) l.

(** A statement that the switch sends on with [skipCommand = false]
    whatever the circumstances. *)
Definition plain_ddl (parsetree : utility) : bool :=
  match parsetree with
  | T_TruncateStmt | T_CreateStmt _ _ | T_other | T_CreateDomainStmt _ => true
  | T_IndexStmt false => true
  | _ => false
  end.

(** Queries that start and finish one after the other. *)
Fixpoint run_queries (e : env) (qs : list QueryDesc) (s : session) : result session :=
  match qs with
  | [] => ret s
  | q :: rest =>
      s <- MtmExecutorStart e q s ;;
      s <- finish_ddl_statement q s ;;
      run_queries e rest s
  end.

(** A query, with the queries [inner] that the functions it calls run
    before it finishes. *)
Definition run_query_with (e : env) (q : QueryDesc) (inner : list QueryDesc)
    (s : session) : result session :=
  s <- MtmExecutorStart e q s ;;
  s <- run_queries e inner s ;;
  finish_ddl_statement q s.

(** The statements that go out as concurrent DDL. *)
Definition concurrent_stmt (e : env) (parsetree : utility) : bool :=
  match parsetree with
  | T_IndexStmt true => true
  | T_DropStmt OBJECT_INDEX true _ => true
  | T_VacuumStmt => negb (MtmVolksWagenMode e)
  | _ => false
  end.

(** The wait after a concurrent CREATE INDEX has been sent. *)
Definition nap (parsetree : utility) : list call :=
  match parsetree with
  | T_IndexStmt _ => [pg_usleep USECS_PER_SEC]
  | _ => []
  end.

(** The copies kept for [MtmApplyDDLMessage]. *)
Definition saved (s : session) : list (option utility) :=
  [MtmVacuumStmt s; MtmIndexStmt s; MtmDropStmt s].

(** The backend as the apply worker has it: [MtmApplyContext] is there. *)
Definition apply_worker (e : env) : env :=
  {| assert_checking := assert_checking e;
     MtmIsLogicalReceiver := true;
     MtmVolksWagenMode := MtmVolksWagenMode e;
     MtmIgnoreTablesWithoutPk := MtmIgnoreTablesWithoutPk e;
     MtmApplyContext := true;
     IsTransactionBlock := IsTransactionBlock e;
     MtmMaxNodes := MtmMaxNodes e; MtmNodeId := MtmNodeId e; GIDSIZE := GIDSIZE e;
     guc_host := guc_host e;
     MtmRemoteFunctionsList := MtmRemoteFunctionsList e;
     FuncnameGetCandidates := FuncnameGetCandidates e;
     prosecdef := prosecdef e |}.

(** The warning for a new table without primary key. *)
Definition pk_warning (e : env) (parsetree : utility) : list call :=
  match parsetree with
  | T_CreateStmt true false =>
      if negb (MtmVolksWagenMode e) && MtmIgnoreTablesWithoutPk e
      then [elog_WARNING_no_primary_key] else []
  | _ => []
  end.

(** The text of the message with prefix [D] for [stmt_string] in state [s]. *)
Definition ddl_message (e : env) (s : session) (stmt_string : string) : call :=
  LogLogicalMessage "D"
    (Guc.ddl_text (guc_host e) (Guc.context (Guc.started (guc_host e) (guc s)))
       stmt_string) true.

(** *** A backend *)

(** A backend of node 1 with the list of functions that the setting has by
    default; [lo_create] is function 715, [lo_unlink] 964,
    [mtm.alter_sequences] 16500, and [audit] names two functions. Function
    16600 is declared SECURITY DEFINER. *)
Definition candidates1 (name : string) : list Z :=
  if String.eqb name "lo_create" then [715]
  else if String.eqb name "lo_unlink" then [964]
  else if String.eqb name "mtm.alter_sequences" then [16500]
  else if String.eqb name "audit" then [16601; 16602]
  else [].

Definition env1 : env :=
  {| assert_checking := true; MtmIsLogicalReceiver := false;
     MtmVolksWagenMode := false; MtmIgnoreTablesWithoutPk := true;
     MtmApplyContext := false; IsTransactionBlock := false;
     MtmMaxNodes := 6; MtmNodeId := 1; GIDSIZE := 200;
     guc_host := Guc.host1;
     MtmRemoteFunctionsList := "lo_create,lo_unlink";
     FuncnameGetCandidates := candidates1;
     prosecdef := fun func_oid => Some (func_oid =? 16600) |}.

(** The same backend with another value of the setting. *)
Definition with_list (list : string) (e : env) : env :=
  {| assert_checking := assert_checking e;
     MtmIsLogicalReceiver := MtmIsLogicalReceiver e;
     MtmVolksWagenMode := MtmVolksWagenMode e;
     MtmIgnoreTablesWithoutPk := MtmIgnoreTablesWithoutPk e;
     MtmApplyContext := MtmApplyContext e;
     IsTransactionBlock := IsTransactionBlock e;
     MtmMaxNodes := MtmMaxNodes e; MtmNodeId := MtmNodeId e; GIDSIZE := GIDSIZE e;
     guc_host := guc_host e;
     MtmRemoteFunctionsList := list;
     FuncnameGetCandidates := FuncnameGetCandidates e;
     prosecdef := prosecdef e |}.

(** The backend inside a transaction block. *)
Definition in_transaction_block (e : env) : env :=
  {| assert_checking := assert_checking e;
     MtmIsLogicalReceiver := MtmIsLogicalReceiver e;
     MtmVolksWagenMode := MtmVolksWagenMode e;
     MtmIgnoreTablesWithoutPk := MtmIgnoreTablesWithoutPk e;
     MtmApplyContext := MtmApplyContext e;
     IsTransactionBlock := true;
     MtmMaxNodes := MtmMaxNodes e; MtmNodeId := MtmNodeId e; GIDSIZE := GIDSIZE e;
     guc_host := guc_host e;
     MtmRemoteFunctionsList := MtmRemoteFunctionsList e;
     FuncnameGetCandidates := FuncnameGetCandidates e;
     prosecdef := prosecdef e |}.

(** The backend before its first statement. *)
Definition session1 : session :=
  {| MtmDDLStatement := None; MtmRemoteFunctions := None;
     guc := Guc.fresh;
     MtmTx := {| isDistributed := true; containsDML := false;
                 isTwoPhase := false; gid := "" |};
     accessed_temp_rel := false; check_function_bodies := true;
     MtmVacuumStmt := None; MtmIndexStmt := None;
     MtmDropStmt := None; MtmTablespaceStmt := None |}.

(** [select lo_create(0)] and [select 1]. *)
Definition query1 : QueryDesc :=
  {| id := 1; sourceText := "select lo_create(0)";
     targetlist := [Some (FuncExpr 715)] |}.

Definition query2 : QueryDesc :=
  {| id := 2; sourceText := "select 1"; targetlist := [Some other_expr] |}.

(** A statement that is the whole query string. *)
Definition whole (parsetree : utility) : PlannedStmt :=
  {| utilityStmt := parsetree; stmt_location := 0; stmt_len := 0 |}.

End Hooks.

(* ===================================================================== *)
(** ** The phases of a commit ([commit.c]): what the gather loops take from
       the DMQ, and how a run of [MtmTwoPhaseCommit] ends *)
(* ===================================================================== *)

Module Phases.
Import NodeMask Stdio Gid Commit Peers.

(** *** One gather loop *)

(** The events of one turn of a gather loop that waits for [mask] and is
    answered [a]: the call of [dmq_pop], and for a detached sender the look
    at [Mtm] under the state lock. *)
Definition turn_events (mask : Z) (a : dmq_answer) : list event :=
  EvDmqPop mask ::
  match a with
  | DmqMessage _ _ => []
  | DmqDetached _ Mtm =>
      [EvLWLockAcquire MtmStateLock LW_SHARED; EvMtmRead Mtm;
       EvLWLockRelease MtmStateLock]
  end.

(** The awaited mask after the answer: the bit of the sender's node is
    cleared for a reply and for a detached sender that is disabled. *)
Definition mask_after (s2n : list Z) (mask : Z) (a : dmq_answer) : Z :=
  match node_of s2n a with
  | Some n => if clears s2n a then BIT_CLEAR mask (n - 1) else mask
  | None => mask
  end.

Fixpoint gather_events (s2n : list Z) (mask : Z) (answers : list dmq_answer)
  : list event :=
  match answers with
  | [] => []
  | a :: rest => turn_events mask a ++ gather_events s2n (mask_after s2n mask a) rest
  end.

(** The turn for answer [a] comes to its end: the sender is one of
    [sender_to_node], its node can be a shift count, a reply passes the
    assertions of the loop (in a build that checks them: it is from that
    node, its code is one of [codes], it is for transaction [x], the node is
    awaited), and a detached sender is found disabled only while this node
    is ONLINE. *)
Definition turn_ok (cfg : config) (s2n : list Z) (x : Z)
    (codes : list MtmMessageCode) (mask : Z) (a : dmq_answer) : bool :=
  match node_of s2n a with
  | None => false
  | Some n =>
      shift_ok (n - 1)
      && match a with
         | DmqMessage _ msg =>
             negb (assert_checking cfg)
             || ((node msg =? n) && existsb (code_eqb (code msg)) codes
                 && (dxid msg =? x) && BIT_CHECK mask (n - 1))
         | DmqDetached _ Mtm =>
             negb (BIT_CHECK (disabledNodeMask Mtm) (n - 1))
             || status_eqb (status Mtm) MTM_ONLINE
         end
  end.

(** The answers [answers] take a gather loop that starts with [mask] to
    its end, and no further: the mask is empty after the last of them and
    not before. *)
Fixpoint gather_ok (cfg : config) (s2n : list Z) (x : Z)
    (codes : list MtmMessageCode) (mask : Z) (answers : list dmq_answer) : bool :=
  match answers with
  | [] => mask =? 0
  | a :: rest =>
      negb (mask =? 0)
      && turn_ok cfg s2n x codes mask a
      && gather_ok cfg s2n x codes (mask_after s2n mask a) rest
  end.

(** [Assert(participantsMask != 0)] at the head of a gather function. *)
Definition start_ok (cfg : config) (mask : Z) : bool :=
  negb (assert_checking cfg) || negb (mask =? 0).

(** *** How a run ends *)

(** The events up to the call of [PrepareTransactionBlock]. *)
Definition before_prepare (stream : string) (pre : list event)
    (ms : list MtmState) (last snap : MtmState) : list event :=
  pre
  ++ [EvDmqStreamSubscribe stream]
  ++ polls ms ++ [EvMtmRead last]
  ++ [EvLWLockAcquire MtmCommitBarrier LW_SHARED]
  ++ [EvLWLockAcquire MtmStateLock LW_SHARED; EvMtmRead snap;
      EvLWLockRelease MtmStateLock].

(** The wait for the barrier: [ms] are the snapshots of [Mtm] that close
    it, [last] the one that lets the commit pass. *)
Definition barrier_wait (ms : list MtmState) (last : MtmState) : Prop :=
  Forall (fun Mtm => stop_new_commits Mtm = true) ms
  /\ stop_new_commits last = false.

(** The run from [w] to [w'] went through all three phases: its events are
    [commit_events], the three gathers being those of the answers [c1],
    [c2] and [c3] that the DMQ gave in this order. *)
Definition completed (cfg : config) (h : host) (w w' : world) : Prop :=
  exists pre ms last snap c1 c2 c3,
    let s2n := sender_to_node w' in
    let mask := participants_of cfg snap in
    let x := GetTopTransactionId h in
    trace w'
    = trace w
      ++ commit_events (gid_of cfg h) (stream_of h) pre ms last snap
           (gather_events s2n mask c1) (gather_events s2n mask c2)
           (gather_events s2n mask c3)
    /\ Forall setup_event pre
    /\ barrier_wait ms last
    /\ status snap = MTM_ONLINE
    /\ dmq_input w = c1 ++ c2 ++ c3 ++ dmq_input w'
    /\ gather_ok cfg s2n x [MSG_PREPARED; MSG_ABORTED] mask c1 = true
    /\ existsb (fails s2n) c1 = false
    /\ gather_ok cfg s2n x [MSG_PRECOMMITTED] mask c2 = true
    /\ gather_ok cfg s2n x [MSG_COMMITTED] mask c3 = true.

(** The local PREPARE failed: the run ends with the call of
    [PrepareTransactionBlock]. *)
Definition stopped_at_prepare (cfg : config) (h : host) (w w' : world) : Prop :=
  exists pre ms last snap,
    trace w'
    = trace w ++ before_prepare (stream_of h) pre ms last snap
      ++ [EvPrepareTransactionBlock (gid_of cfg h)]
    /\ Forall setup_event pre
    /\ barrier_wait ms last
    /\ status snap = MTM_ONLINE
    /\ dmq_input w' = dmq_input w.

(** This node was not ONLINE when the participants were taken. *)
Definition stopped_offline (h : host) (w w' : world) : Prop :=
  exists pre ms last snap,
    trace w'
    = trace w ++ pre
      ++ [EvDmqStreamSubscribe (stream_of h)]
      ++ polls ms ++ [EvMtmRead last]
      ++ [EvLWLockAcquire MtmCommitBarrier LW_SHARED]
      ++ [EvLWLockAcquire MtmStateLock LW_SHARED; EvMtmRead snap]
    /\ Forall setup_event pre
    /\ barrier_wait ms last
    /\ status snap <> MTM_ONLINE.

(** The gather of the PREPAREDs failed at node [n]. *)
Definition stopped_at_gather (cfg : config) (h : host) (n : Z) (w w' : world)
  : Prop :=
  exists pre ms last snap c1,
    let s2n := sender_to_node w' in
    let mask := participants_of cfg snap in
    trace w'
    = trace w ++ before_prepare (stream_of h) pre ms last snap
      ++ [EvPrepareTransactionBlock (gid_of cfg h); EvCommitTransactionCommand]
      ++ gather_events s2n mask c1
      ++ [EvDmqStreamUnsubscribe (stream_of h);
          EvFinishPreparedTransaction (gid_of cfg h) false]
    /\ Forall setup_event pre
    /\ barrier_wait ms last
    /\ status snap = MTM_ONLINE
    /\ dmq_input w = c1 ++ dmq_input w'
    /\ gather_ok cfg s2n (GetTopTransactionId h) [MSG_PREPARED; MSG_ABORTED]
         mask c1 = true
    /\ existsb (fails s2n) c1 = true
    /\ failed_at_after s2n c1 None = Some n.

(** A gather found a detached sender disabled and this node not ONLINE:
    the run has done a beginning of [commit_events] that reaches into a
    gather, and holds the barrier. *)
Definition stopped_disabled (cfg : config) (h : host) (w w' : world) : Prop :=
  exists pre ms last snap g1 g2 g3 evs,
    trace w' = trace w ++ evs
    /\ evs `prefix_of`
         commit_events (gid_of cfg h) (stream_of h) pre ms last snap g1 g2 g3
    /\ In (EvPrepareTransactionBlock (gid_of cfg h)) evs
    /\ List.filter is_barrier_event evs
       = [EvLWLockAcquire MtmCommitBarrier LW_SHARED]
    /\ Forall setup_event pre
    /\ barrier_wait ms last
    /\ Forall gather_event g1 /\ Forall gather_event g2 /\ Forall gather_event g3.

(** What a run of [MtmTwoPhaseCommit] that has passed its guard comes to,
    when it returns or raises an ERROR. *)
Definition commit_outcome (cfg : config) (h : host) (w : world)
    (r : result bool) : Prop :=
  match r with
  | Done b w' =>
      b = true
      /\ if PrepareTransactionBlock h then completed cfg h w w'
         else stopped_at_prepare cfg h w w'
  | Raised WentOffline w' => stopped_offline h w w'
  | Raised (PrepareFailed gid n) w' =>
      gid = gid_of cfg h /\ stopped_at_gather cfg h n w w'
  | Raised NodeDisabledDuringCommit w' => stopped_disabled cfg h w w'
  | Raised (NodeNotOnline _) _ => False
  | Crashed _ _ | NoAnswer _ => True
  end.

(** *** An environment that lets the commit through *)

(** [sender_to_node] once the receivers are attached. *)
Definition senders_after (cfg : config) (w : world) (attach : list MtmState)
  : list Z :=
  match attach with
  | Mtm :: _ =>
      peers (MtmNodeId cfg) (nAllNodes Mtm)
      ++ drop (length (peers (MtmNodeId cfg) (nAllNodes Mtm))) (sender_to_node w)
  | [] => sender_to_node w
  end.

(** The observations of [Mtm] and the answers of the DMQ that a commit
    meets are such that it goes through: [guard] is what the guard sees,
    [attach] what the attach loop sees (in a backend that has not attached
    its receivers yet, and [sender_to_node] has room for the peers), [ms]
    and [last] what the wait for the barrier sees, [snap] what is seen when
    the participants are taken; [c1], [c2], [c3] are answers that take the
    three gathers to their ends, none of [c1] failing. *)
Definition cooperative (cfg : config) (h : host) (w : world)
    (guard : MtmState) (attach ms : list MtmState) (last snap : MtmState)
    (c1 c2 c3 : list dmq_answer) : Prop :=
  let s2n := senders_after cfg w attach in
  let mask := participants_of cfg snap in
  let x := GetTopTransactionId h in
  isDistributed (MtmTx w) = true
  /\ containsDML (MtmTx w) = true
  /\ extension_created guard = true
  /\ (if DmqSubscribed w then attach = []
      else exists Mtm,
             attach = [Mtm]
             /\ (length (peers (MtmNodeId cfg) (nAllNodes Mtm))
                 <= length (sender_to_node w))%nat)
  /\ barrier_wait ms last
  /\ status snap = MTM_ONLINE
  /\ shift_ok (nAllNodes snap) = true
  /\ shift_ok (MtmNodeId cfg - 1) = true
  /\ PrepareTransactionBlock h = true
  /\ start_ok cfg mask = true
  /\ gather_ok cfg s2n x [MSG_PREPARED; MSG_ABORTED] mask c1 = true
  /\ existsb (fails s2n) c1 = false
  /\ gather_ok cfg s2n x [MSG_PRECOMMITTED] mask c2 = true
  /\ gather_ok cfg s2n x [MSG_COMMITTED] mask c3 = true
  /\ exists reads input,
       mtm_reads w = guard :: attach ++ ms ++ [last; snap] ++ reads
       /\ dmq_input w = c1 ++ c2 ++ c3 ++ input.

(** *** A commit whose local PREPARE fails *)

(** A client session that commits a transaction block which cannot be
    prepared: [PrepareTransactionBlock] returns false. *)
Definition failed_block : host :=
  {| MtmIsUserTransaction := true; application_name := "psql";
     debug_query_string := Some "commit;"%string;
     IsTransactionBlock := true; GetTopTransactionId := 700;
     PrepareTransactionBlock := false |}.

(** The ERRORs that a stage can raise all satisfy [P]. *)
Definition raises_only {A} (P : mtm_error -> Prop) (m : M A) : Prop :=
  forall w e w', m w = Raised e w' -> P e.

End Phases.

(* ===================================================================== *)
(** * Properties *)
(* ===================================================================== *)

Module NodeMaskFacts.
Import NodeMask.

Lemma wrap64_testbit z i :
  Z.testbit (wrap64 z) i = (i <? nodemask_bits) && Z.testbit z i.
Proof.
  unfold wrap64, nodemask_bits. apply Z.testbit_mod_pow2. lia.
Qed.

Lemma shl1_testbit n i :
  0 <= n -> Z.testbit (shl1 n) i = (i <? nodemask_bits) && (i =? n).
Proof.
  intros Hn. unfold shl1. rewrite wrap64_testbit. f_equal.
  rewrite Z.shiftl_1_l, Z.pow2_bits_eqb by lia. apply Z.eqb_sym.
Qed.

Lemma not64_testbit m i :
  0 <= i -> Z.testbit (not64 m) i = (i <? nodemask_bits) && negb (Z.testbit m i).
Proof.
  intros Hi. unfold not64. rewrite wrap64_testbit.
  now rewrite Z.lnot_spec by lia.
Qed.

Lemma BIT_CLEAR_testbit mask bit i :
  0 <= bit -> 0 <= mask < 2 ^ nodemask_bits ->
  Z.testbit (BIT_CLEAR mask bit) i = Z.testbit mask i && negb (i =? bit).
Proof.
  intros Hb Hm. unfold BIT_CLEAR, and64. rewrite Z.land_spec.
  destruct (Z.ltb_spec i 0) as [Hneg|Hpos].
  - now rewrite !Z.testbit_neg_r by lia.
  - rewrite not64_testbit, shl1_testbit by lia.
    destruct (Z.ltb_spec i nodemask_bits) as [Hlt|Hge]; simpl.
    + reflexivity.
    + assert (Z.testbit mask i = false) as ->; [|reflexivity].
      destruct (Z.eqb_spec mask 0) as [->|Hnz]; [apply Z.testbit_0_l|].
      apply Z.bits_above_log2; [lia|].
      apply Z.lt_le_trans with nodemask_bits; [|lia].
      apply Z.log2_lt_pow2; lia.
Qed.

Lemma BIT_CLEAR_range mask bit :
  0 <= mask < 2 ^ nodemask_bits -> 0 <= BIT_CLEAR mask bit < 2 ^ nodemask_bits.
Proof.
  intros Hm. unfold BIT_CLEAR, and64, not64, wrap64.
  assert (0 <= Z.lnot (shl1 bit) mod 2 ^ nodemask_bits < 2 ^ nodemask_bits)
    by (apply Z.mod_pos_bound; reflexivity).
  split.
  - apply Z.land_nonneg. lia.
  - destruct (Z.eqb_spec (Z.land mask (Z.lnot (shl1 bit) mod 2 ^ nodemask_bits)) 0)
      as [->|Hnz]; [reflexivity|].
    assert (0 <= Z.land mask (Z.lnot (shl1 bit) mod 2 ^ nodemask_bits))
      by (apply Z.land_nonneg; lia).
    apply Z.log2_lt_pow2; [lia|].
    destruct (Z.eqb_spec mask 0) as [->|Hm0]; [now rewrite Z.land_0_l in Hnz|].
    apply Z.le_lt_trans with (Z.log2 mask).
    + etransitivity; [apply Z.log2_land; lia|]. apply Z.le_min_l.
    + apply Z.log2_lt_pow2; lia.
Qed.

Lemma BIT_CHECK_testbit mask bit :
  0 <= bit < nodemask_bits -> BIT_CHECK mask bit = Z.testbit mask bit.
Proof.
  intros Hb. unfold BIT_CHECK, and64.
  destruct (Z.testbit mask bit) eqn:Ht.
  - apply negb_true_iff, Z.eqb_neq. intros H0.
    assert (Z.testbit (Z.land mask (shl1 bit)) bit = true) as Hc.
    { rewrite Z.land_spec, Ht, shl1_testbit by lia.
      rewrite Z.eqb_refl. destruct (Z.ltb_spec bit nodemask_bits); [reflexivity|lia]. }
    rewrite H0, Z.testbit_0_l in Hc. discriminate.
  - apply negb_false_iff, Z.eqb_eq. apply Z.bits_inj'. intros i Hi.
    rewrite Z.land_spec, shl1_testbit, Z.testbit_0_l by lia.
    destruct (Z.eqb_spec i bit) as [->|Hne].
    + now rewrite Ht.
    + now rewrite andb_false_r, andb_false_r.
Qed.

End NodeMaskFacts.

Lemma status_eqb_spec a b : reflect (a = b) (status_eqb a b).
Proof. destruct a, b; constructor; congruence. Qed.

Lemma int64_wrap_id z : INT64_MIN <= z <= INT64_MAX -> int64_wrap z = z.
Proof.
  unfold int64_wrap, INT64_MIN, INT64_MAX. intros H.
  rewrite Z.mod_small by lia. lia.
Qed.

Module GidExamples.
Import Stdio Gid.
Example gen1 : MtmGenerateGid 1234 2 = "MTM-2-1234"%string.
Proof. reflexivity. Qed.
Example gen2 : MtmGidParseNodeId "MTM-2-1234" = 2 /\ MtmGidParseXid true "MTM-2-1234" = Some 1234.
Proof. split; reflexivity. Qed.
Example gen3 : MtmGenerateGid 0 (-17) = "MTM--17-0"%string /\ MtmGidParseNodeId "MTM--17-0" = -17.
Proof. split; reflexivity. Qed.
Example gen4 : MtmGenerateGid 18446744073709551615 2147483647 = "MTM-2147483647-18446744073709551615"%string.
Proof. reflexivity. Qed.
End GidExamples.

(* ===================================================================== *)
(** ** The increasing clock *)
(* ===================================================================== *)

Module ClockFacts.
Import Clock.

Lemma one_call real_now mtm_time :
  room 0 real_now -> room 1 (last_timestamp mtm_time) ->
  MtmGetIncreasingTimestamp real_now mtm_time
  = (Z.max real_now (last_timestamp mtm_time + 1),
     {| last_timestamp := Z.max real_now (last_timestamp mtm_time + 1) |}).
Proof.
  unfold room, MtmGetIncreasingTimestamp. intros [Hlo Hhi] [Hlo' Hhi'].
  destruct (Z.leb_spec real_now (last_timestamp mtm_time)).
  - rewrite int64_wrap_id by lia. now rewrite Z.max_r by lia.
  - now rewrite Z.max_l by lia.
Qed.

Lemma spec_calls_increasing readings last :
  increasing_from last (spec_calls readings last).
Proof.
  revert last. induction readings as [|r rest IH]; intros last; simpl; [exact I|].
  split; [lia|apply IH].
Qed.

Lemma last_cons (a d : Z) (l : list Z) : List.last (a :: l) d = List.last l a.
Proof.
  revert a d. induction l as [|b l IH]; intros a d; [reflexivity|].
  change (List.last (a :: b :: l) d) with (List.last (b :: l) d).
  now rewrite (IH b d), (IH b a).
Qed.

Lemma calls_spec readings : forall mtm_time,
  room (Z.of_nat (length readings)) (last_timestamp mtm_time) ->
  Forall (room (Z.of_nat (length readings))) readings ->
  calls readings mtm_time
  = (spec_calls readings (last_timestamp mtm_time),
     {| last_timestamp :=
          last_of (spec_calls readings (last_timestamp mtm_time))
                  (last_timestamp mtm_time) |}).
Proof.
  induction readings as [|r rest IH]; intros [last] Hlast Hall.
  - reflexivity.
  - cbn [calls]. cbn [length] in Hlast, Hall. rewrite Nat2Z.inj_succ in Hlast, Hall.
    inversion Hall as [|? ? Hr Hrest]; subst.
    unfold room in Hlast, Hr. cbn [last_timestamp] in *.
    rewrite one_call by (unfold room; cbn [last_timestamp]; lia).
    rewrite IH; cbn [last_timestamp].
    + cbn [spec_calls]. f_equal. f_equal. unfold last_of.
      now rewrite last_cons.
    + unfold room. lia.
    + eapply List.Forall_impl; [|exact Hrest]. unfold room. intros; lia.
Qed.

(** C9. [MtmGetIncreasingTimestamp] returns [max(real_now, last+1)] and
    stores it as the new [last]; over any sequence of calls in one process
    (with room left below the top of the 64-bit range) the returned
    timestamps follow the spec's recurrence, the stored value is the last one
    returned, and the timestamps are strictly increasing. *)
Theorem increasing_timestamps (readings : list Z) (mtm_time : MtmTime) :
  room (Z.of_nat (length readings)) (last_timestamp mtm_time) ->
  Forall (room (Z.of_nat (length readings))) readings ->
  fst (calls readings mtm_time) = spec_calls readings (last_timestamp mtm_time)
  /\ last_timestamp (snd (calls readings mtm_time))
     = last_of (fst (calls readings mtm_time)) (last_timestamp mtm_time)
  /\ increasing_from (last_timestamp mtm_time) (fst (calls readings mtm_time)).
Proof.
  intros Hlast Hall. rewrite (calls_spec readings mtm_time Hlast Hall).
  cbn [fst snd last_timestamp]. repeat split.
  apply spec_calls_increasing.
Qed.

(** A clock that stands still, then jumps back, then ahead. *)
Lemma increasing_timestamps_witness :
  fst (calls [5; 5; 3; 100] {| last_timestamp := 4 |}) = [5; 6; 7; 100]
  /\ last_timestamp (snd (calls [5; 5; 3; 100] {| last_timestamp := 4 |})) = 100
  /\ increasing_from 4 [5; 6; 7; 100].
Proof.
  assert (Hr : room (Z.of_nat (length [5; 5; 3; 100])) 4)
    by (unfold room, INT64_MIN, INT64_MAX; simpl; lia).
  assert (Hall : Forall (room (Z.of_nat (length [5; 5; 3; 100]))) [5; 5; 3; 100])
    by (repeat constructor; unfold INT64_MIN, INT64_MAX; simpl; lia).
  exact (increasing_timestamps [5; 5; 3; 100] {| last_timestamp := 4 |} Hr Hall).
Defined.

End ClockFacts.

(* ===================================================================== *)
(** ** The apply pools *)
(* ===================================================================== *)

Module PoolsFacts.
Import Pools.

Lemma loop_body_next Mtm i logs c logs' :
  loop_body Mtm i logs = Some (c, logs') -> c = Next.
Proof.
  unfold loop_body. destruct (i =? my_node_id Mtm - 1).
  - intros [= <- _]. reflexivity.
  - destruct (pools Mtm !! Z.to_nat i); [|discriminate].
    intros [= <- _]. unfold expr_stmt. now destruct (negb _).
Qed.

Lemma loop_true n : forall Mtm i logs r,
  loop n Mtm i logs = Some r -> snd r = true.
Proof.
  induction n as [|n IH]; intros Mtm i logs r; cbn [loop].
  - intros [= <-]. reflexivity.
  - destruct (loop_body Mtm i logs) as [[c logs']|] eqn:Hb; [|discriminate].
    apply loop_body_next in Hb. subst c. apply IH.
Qed.

Lemma loop_total n : forall Mtm i logs,
  0 <= i -> i + Z.of_nat n <= Z.of_nat (length (pools Mtm)) ->
  exists logs', loop n Mtm i logs = Some (logs', true)
    /\ forall j pool, i <= j < i + Z.of_nat n -> j <> my_node_id Mtm - 1 ->
         pools Mtm !! Z.to_nat j = Some pool -> In (ntasks_of pool) logs'.
Proof.
  induction n as [|n IH]; intros Mtm i logs Hi Hlen; cbn [loop].
  - exists logs. split; [reflexivity|]. intros; lia.
  - unfold loop_body.
    destruct (Z.eqb_spec i (my_node_id Mtm - 1)) as [Heq|Hne].
    + destruct (IH Mtm (i + 1) logs) as (logs' & Hrun & Hin); [lia|lia|].
      exists logs'. split; [exact Hrun|].
      intros j pool Hj Hself Hp. apply (Hin j pool); [lia|exact Hself|exact Hp].
    + destruct (pools Mtm !! Z.to_nat i) as [pool|] eqn:Hp.
      2:{ apply lookup_ge_None in Hp. lia. }
      set (logs1 := logs ++ [int32_wrap (active pool + pending pool)]).
      assert (Hctl : (if negb (int32_wrap (active pool + pending pool) =? 0)
                      then expr_stmt false else Next) = Next)
        by (unfold expr_stmt; now destruct (negb _)).
      rewrite Hctl.
      assert (Hmono : forall m k l l', loop m Mtm k l = Some (l', true) ->
                 forall x, In x l -> In x l').
      { clear. induction m as [|m IHm]; intros k l l' Hrun x Hx; cbn [loop] in Hrun.
        - now inversion Hrun; subst.
        - destruct (loop_body Mtm k l) as [[c l1]|] eqn:Hb; [|discriminate].
          pose proof (loop_body_next _ _ _ _ _ Hb) as ->.
          apply (IHm _ _ _ Hrun). unfold loop_body in Hb.
          destruct (k =? my_node_id Mtm - 1).
          + now inversion Hb; subst.
          + destruct (pools Mtm !! Z.to_nat k); [|discriminate].
            inversion Hb; subst. apply in_or_app. now left. }
      destruct (IH Mtm (i + 1) logs1) as (logs' & Hrun & Hin); [lia|lia|].
      exists logs'. split; [exact Hrun|].
      intros j pool' Hj Hself Hp'.
      destruct (Z.eq_dec j i) as [->|Hji].
      * rewrite Hp in Hp'. inversion Hp'; subst pool'.
        apply (Hmono _ _ _ _ Hrun). unfold logs1, ntasks_of.
        apply in_or_app. right. now left.
      * apply (Hin j pool'); [lia|exact Hself|exact Hp'].
Qed.

(** C10. [MtmAllApplyWorkersFinished] returns true in every state of the
    pools: the task count of every peer pool is computed (and logged) but the
    statement [false;] under [if (ntasks != 0)] does nothing, so the answer
    is true also when a pool has active or pending tasks. *)
Theorem all_apply_workers_finished_always_true (Mtm : MtmState) :
  nAllNodes Mtm <= Z.of_nat (length (pools Mtm)) ->
  exists logs,
    MtmAllApplyWorkersFinished Mtm = Some (logs, true)
    /\ forall j pool, 0 <= j < nAllNodes Mtm -> j <> my_node_id Mtm - 1 ->
         pools Mtm !! Z.to_nat j = Some pool -> In (ntasks_of pool) logs.
Proof.
  intros Hlen. unfold MtmAllApplyWorkersFinished.
  destruct (loop_total (Z.to_nat (nAllNodes Mtm)) Mtm 0 []) as (logs & Hrun & Hin);
    [lia|lia|].
  exists logs. split; [exact Hrun|].
  intros j pool Hj. apply Hin. lia.
Qed.

(** Seven and one tasks are still open on the pools of nodes 2 and 3. *)
Lemma all_apply_workers_finished_witness :
  exists logs,
    MtmAllApplyWorkersFinished busy_cluster = Some (logs, true)
    /\ forall j pool, 0 <= j < nAllNodes busy_cluster ->
         j <> my_node_id busy_cluster - 1 ->
         pools busy_cluster !! Z.to_nat j = Some pool -> In (ntasks_of pool) logs.
Proof.
  apply (all_apply_workers_finished_always_true busy_cluster).
  simpl. lia.
Defined.

Example busy_cluster_run :
  MtmAllApplyWorkersFinished busy_cluster = Some ([7; 1], true).
Proof. reflexivity. Qed.

End PoolsFacts.

(* ===================================================================== *)
(** ** Printing and scanning decimal numbers *)
(* ===================================================================== *)

Module StdioFacts.
Import Stdio.

Lemma digit_char_ok d :
  0 <= d <= 9 -> is_digit (digit_char d) = true /\ digit_val (digit_char d) = d.
Proof.
  intros Hd.
  assert (Hc : d = 0 \/ d = 1 \/ d = 2 \/ d = 3 \/ d = 4 \/ d = 5 \/ d = 6
               \/ d = 7 \/ d = 8 \/ d = 9) by lia.
  repeat (destruct Hc as [->|Hc]; [split; reflexivity|]).
  subst d. split; reflexivity.
Qed.

Lemma code_of_range c : 0 <= code_of c < 256.
Proof.
  unfold code_of. pose proof (nat_ascii_bounded c). lia.
Qed.

Lemma is_digit_code c : is_digit c = true <-> 48 <= code_of c <= 57.
Proof. unfold is_digit. rewrite andb_true_iff, !Z.leb_le. tauto. Qed.

Lemma code_of_inj a b : code_of a = code_of b -> a = b.
Proof.
  unfold code_of. intros H. apply Nat2Z.inj in H.
  rewrite <- (ascii_nat_embedding a), <- (ascii_nat_embedding b). now rewrite H.
Qed.

Lemma digit_not_space c : is_digit c = true -> isspace c = false.
Proof.
  rewrite is_digit_code. intros H. unfold isspace.
  apply orb_false_iff. split.
  - apply Z.eqb_neq. lia.
  - apply andb_false_iff. right. apply Z.leb_gt. lia.
Qed.

Lemma digit_not_char c (k : ascii) :
  is_digit c = true -> is_digit k = false -> Ascii.eqb c k = false.
Proof.
  intros Hc Hk. destruct (Ascii.eqb_spec c k) as [->|]; [congruence|reflexivity].
Qed.

Lemma scan_digits_stop s acc : no_digit_ahead s -> scan_digits s acc = (acc, s).
Proof. destruct s as [|c s]; simpl; [reflexivity|]. now intros ->. Qed.

Lemma print_digits_append fuel : forall n acc rest,
  String.append (print_digits fuel n acc) rest
  = print_digits fuel n (String.append acc rest).
Proof.
  induction fuel as [|fuel IH]; intros n acc rest; cbn [print_digits]; [reflexivity|].
  destruct (n / 10 =? 0); [reflexivity|]. now rewrite IH.
Qed.

Lemma scan_print_digits fuel : forall n rest,
  0 <= n < 2 ^ Z.of_nat fuel ->
  scan_digits (print_digits fuel n rest) 0 = scan_digits rest n.
Proof.
  induction fuel as [|fuel IH]; intros n rest Hn.
  - cbn [print_digits]. change (2 ^ Z.of_nat 0) with 1 in Hn.
    replace n with 0 by lia. reflexivity.
  - cbn [print_digits].
    assert (Hd : 0 <= n mod 10 <= 9) by (pose proof (Z.mod_pos_bound n 10); lia).
    destruct (digit_char_ok _ Hd) as [Hisd Hval].
    destruct (Z.eqb_spec (n / 10) 0) as [Hz|Hnz].
    + cbn [scan_digits]. rewrite Hisd, Hval. f_equal.
      pose proof (Z.div_mod n 10). lia.
    + rewrite IH.
      * cbn [scan_digits]. rewrite Hisd, Hval. f_equal.
        pose proof (Z.div_mod n 10). lia.
      * rewrite Nat2Z.inj_succ, Z.pow_succ_r in Hn by lia.
        split; [apply Z.div_pos; lia|].
        apply Z.div_lt_upper_bound; lia.
Qed.

Lemma print_digits_head fuel : forall n acc,
  0 <= n ->
  exists c s, print_digits (S fuel) n acc = String c s /\ is_digit c = true.
Proof.
  induction fuel as [|fuel IH]; intros n acc Hn.
  - cbn [print_digits].
    assert (Hd : 0 <= n mod 10 <= 9) by (pose proof (Z.mod_pos_bound n 10); lia).
    destruct (digit_char_ok _ Hd) as [Hisd _].
    destruct (n / 10 =? 0); eauto.
  - change (print_digits (S (S fuel)) n acc)
      with (let acc' := String (digit_char (n mod 10)) acc in
            if n / 10 =? 0 then acc' else print_digits (S fuel) (n / 10) acc').
    cbv zeta.
    assert (Hd : 0 <= n mod 10 <= 9) by (pose proof (Z.mod_pos_bound n 10); lia).
    destruct (digit_char_ok _ Hd) as [Hisd _].
    destruct (n / 10 =? 0); [eauto|].
    apply IH. apply Z.div_pos; lia.
Qed.

Lemma all_digits_app s1 s2 :
  all_digits (String.append s1 s2) = all_digits s1 && all_digits s2.
Proof.
  induction s1 as [|c s1 IH]; cbn [String.append all_digits]; [reflexivity|].
  now rewrite IH, andb_assoc.
Qed.

Lemma value_of_app s1 s2 acc :
  value_of (String.append s1 s2) acc = value_of s2 (value_of s1 acc).
Proof.
  revert acc. induction s1 as [|c s1 IH]; intros acc;
    cbn [String.append value_of]; [reflexivity|apply IH].
Qed.

Lemma append_assoc s1 s2 s3 :
  String.append (String.append s1 s2) s3 = String.append s1 (String.append s2 s3).
Proof.
  induction s1 as [|c s1 IH]; cbn [String.append]; [reflexivity|now rewrite IH].
Qed.

Lemma append_nil_r s : String.append s EmptyString = s.
Proof. induction s as [|c s IH]; cbn [String.append]; [reflexivity|now rewrite IH]. Qed.

Lemma decimal_of_nonzero n s rest :
  decimal_of n s -> n <> 0 -> s <> String "0" rest.
Proof.
  intros (_ & _ & Hval & Hzero) Hn ->.
  rewrite (Hzero rest eq_refl) in Hval.
  change (value_of (String "0" EmptyString) 0) with 0 in Hval. lia.
Qed.

Lemma print_digits_decimal fuel : forall n acc,
  0 <= n < 2 ^ Z.of_nat (S fuel) ->
  exists ds, decimal_of n ds /\ print_digits (S fuel) n acc = String.append ds acc.
Proof.
  induction fuel as [|fuel IH]; intros n acc Hn.
  - change (2 ^ Z.of_nat 1) with 2 in Hn.
    assert (Hdiv : n / 10 = 0) by (apply Z.div_small; lia).
    cbn [print_digits]. rewrite Hdiv. cbn [Z.eqb].
    assert (Hd : 0 <= n mod 10 <= 9) by (pose proof (Z.mod_pos_bound n 10); lia).
    destruct (digit_char_ok _ Hd) as [Hisd Hval].
    exists (String (digit_char (n mod 10)) EmptyString). split; [|reflexivity].
    repeat split.
    + cbn [all_digits]. now rewrite Hisd.
    + discriminate.
    + cbn [value_of]. rewrite Hval. pose proof (Z.div_mod n 10). lia.
    + now intros rest [= _ <-].
  - change (print_digits (S (S fuel)) n acc)
      with (let acc' := String (digit_char (n mod 10)) acc in
            if n / 10 =? 0 then acc' else print_digits (S fuel) (n / 10) acc').
    cbv zeta.
    assert (Hd : 0 <= n mod 10 <= 9) by (pose proof (Z.mod_pos_bound n 10); lia).
    destruct (digit_char_ok _ Hd) as [Hisd Hval].
    destruct (Z.eqb_spec (n / 10) 0) as [Hz|Hnz].
    + exists (String (digit_char (n mod 10)) EmptyString). split; [|reflexivity].
      repeat split.
      * cbn [all_digits]. now rewrite Hisd.
      * discriminate.
      * cbn [value_of]. rewrite Hval. pose proof (Z.div_mod n 10). lia.
      * now intros rest [= _ <-].
    + destruct (IH (n / 10) (String (digit_char (n mod 10)) acc))
        as (ds' & Hdec & Hprint).
      { rewrite (Nat2Z.inj_succ (S fuel)), Z.pow_succ_r in Hn by lia.
        split; [apply Z.div_pos; lia|]. apply Z.div_lt_upper_bound; lia. }
      exists (String.append ds' (String (digit_char (n mod 10)) EmptyString)).
      split.
      * pose proof Hdec as (Hall & Hne & Hv & Hzero). repeat split.
        -- rewrite all_digits_app, Hall. cbn [all_digits]. now rewrite Hisd.
        -- destruct ds'; [contradiction|discriminate].
        -- rewrite value_of_app, Hv. cbn [value_of]. rewrite Hval.
           pose proof (Z.div_mod n 10). lia.
        -- intros rest Heq. exfalso. destruct ds' as [|c ds']; [contradiction|].
           cbn [String.append] in Heq. injection Heq as -> _.
           now apply (decimal_of_nonzero _ _ ds' Hdec).
      * rewrite Hprint, append_assoc. reflexivity.
Qed.

Lemma print_unsigned_decimal n : 0 <= n -> decimal_of n (print_unsigned n).
Proof.
  intros Hn. unfold print_unsigned.
  destruct (print_digits_decimal (Z.to_nat (Z.log2 n)) n EmptyString)
    as (ds & Hdec & Hprint).
  - split; [exact Hn|].
    rewrite Nat2Z.inj_succ, Z2Nat.id by apply Z.log2_nonneg.
    destruct (Z.eq_dec n 0) as [->|Hnz]; [reflexivity|].
    apply Z.log2_spec. lia.
  - now rewrite Hprint, append_nil_r.
Qed.

Lemma log2_fuel n : 0 <= n -> 0 <= n < 2 ^ Z.of_nat (S (Z.to_nat (Z.log2 n))).
Proof.
  intros Hn. split; [exact Hn|].
  rewrite Nat2Z.inj_succ, Z2Nat.id by apply Z.log2_nonneg.
  destruct (Z.eq_dec n 0) as [->|Hnz]; [reflexivity|].
  apply Z.log2_spec. lia.
Qed.

Lemma scan_print_unsigned n rest :
  0 <= n -> no_digit_ahead rest ->
  scan_integer (String.append (print_unsigned n) rest) = Some (n, rest).
Proof.
  intros Hn Hrest. unfold print_unsigned.
  rewrite print_digits_append. cbn [String.append].
  destruct (print_digits_head (Z.to_nat (Z.log2 n)) n rest Hn) as (c & s & Heq & Hc).
  unfold scan_integer.
  assert (Hskip : skip_space (String c s) = String c s)
    by (cbn [skip_space]; now rewrite (digit_not_space c Hc)).
  rewrite Heq, Hskip.
  rewrite (digit_not_char c "-" Hc eq_refl), (digit_not_char c "+" Hc eq_refl), Hc.
  rewrite <- Heq, scan_print_digits by (apply log2_fuel; exact Hn).
  now rewrite scan_digits_stop.
Qed.

Lemma scan_print_signed z rest :
  no_digit_ahead rest ->
  scan_integer (String.append (print_signed z) rest) = Some (z, rest).
Proof.
  intros Hrest. unfold print_signed.
  destruct (Z.ltb_spec z 0) as [Hneg|Hpos].
  - cbn [String.append].
    pose proof (scan_print_unsigned (- z) rest ltac:(lia) Hrest) as Hu.
    unfold print_unsigned in *. rewrite print_digits_append in *.
    cbn [String.append] in *.
    destruct (print_digits_head (Z.to_nat (Z.log2 (- z))) (- z) rest ltac:(lia))
      as (c & s & Heq & Hc).
    unfold scan_integer in *. rewrite Heq in *.
    assert (Hskip : skip_space (String c s) = String c s)
      by (cbn [skip_space]; now rewrite (digit_not_space c Hc)).
    rewrite Hskip in Hu.
    rewrite (digit_not_char c "-" Hc eq_refl), (digit_not_char c "+" Hc eq_refl), Hc in Hu.
    change (skip_space (String "-" (String c s))) with (String "-" (String c s)).
    cbv iota beta.
    replace (Ascii.eqb "-" "-") with true by reflexivity. cbv iota beta.
    rewrite Hc.
    destruct (scan_digits (String c s) 0) as [v r].
    inversion Hu; subst. f_equal. f_equal. lia.
  - apply scan_print_unsigned; [lia|exact Hrest].
Qed.

End StdioFacts.

(* ===================================================================== *)
(** ** Global transaction identifiers *)
(* ===================================================================== *)

Module GidFacts.
Import Stdio Gid StdioFacts.

Lemma MtmGenerateGid_text xid node_id :
  MtmGenerateGid xid node_id = gid_text node_id xid.
Proof.
  unfold MtmGenerateGid, sprintf, gid_text.
  replace (parse_format (String.append "MTM-%d-" XID_FMT))
    with [Lit "M"; Lit "T"; Lit "M"; Lit "-"; Conv true false; Lit "-";
          Conv false false] by reflexivity.
  reflexivity.
Qed.

Lemma gid_text_shape node_id xid : 0 <= xid -> gid_shape node_id xid (gid_text node_id xid).
Proof.
  intros Hx. unfold gid_shape, gid_text, print_signed.
  exists (print_unsigned (Z.abs node_id)), (print_unsigned xid).
  split; [apply print_unsigned_decimal; lia|].
  split; [apply print_unsigned_decimal; lia|].
  rewrite append_nil_r. f_equal.
  destruct (Z.ltb_spec node_id 0).
  - rewrite Z.abs_neq by lia. reflexivity.
  - rewrite Z.abs_eq by lia. reflexivity.
Qed.

Lemma scan_node_id node_id xid :
  0 <= xid -> sscanf (gid_text node_id xid) "MTM-%d-%*d" = [node_id].
Proof.
  intros Hx. unfold sscanf, gid_text.
  replace (parse_format "MTM-%d-%*d")
    with [Lit "M"; Lit "T"; Lit "M"; Lit "-"; Conv true false; Lit "-";
          Conv true true] by reflexivity.
  cbn [String.append scan].
  replace (Ascii.eqb "M" "M") with true by reflexivity.
  replace (Ascii.eqb "T" "T") with true by reflexivity.
  replace (Ascii.eqb "-" "-") with true by reflexivity.
  cbv iota.
  rewrite scan_print_signed by reflexivity.
  cbn [scan]. replace (Ascii.eqb "-" "-") with true by reflexivity. cbv iota.
  rewrite scan_print_unsigned by (try exact I; lia).
  reflexivity.
Qed.

Lemma scan_xid node_id xid :
  0 <= xid ->
  sscanf (gid_text node_id xid) (String.append "MTM-%*d-" XID_FMT) = [xid].
Proof.
  intros Hx. unfold sscanf, gid_text.
  replace (parse_format (String.append "MTM-%*d-" XID_FMT))
    with [Lit "M"; Lit "T"; Lit "M"; Lit "-"; Conv true true; Lit "-";
          Conv false false] by reflexivity.
  cbn [String.append scan].
  replace (Ascii.eqb "M" "M") with true by reflexivity.
  replace (Ascii.eqb "T" "T") with true by reflexivity.
  replace (Ascii.eqb "-" "-") with true by reflexivity.
  cbv iota.
  rewrite scan_print_signed by reflexivity.
  cbn [scan]. replace (Ascii.eqb "-" "-") with true by reflexivity. cbv iota.
  rewrite scan_print_unsigned by (try exact I; lia).
  reflexivity.
Qed.

Lemma parse_generated xid node_id assert_checking :
  0 < xid ->
  MtmGidParseNodeId (MtmGenerateGid xid node_id) = node_id
  /\ MtmGidParseXid assert_checking (MtmGenerateGid xid node_id) = Some xid.
Proof.
  intros Hx. rewrite MtmGenerateGid_text.
  unfold MtmGidParseNodeId, MtmGidParseXid.
  rewrite scan_node_id, scan_xid by lia. split; [reflexivity|].
  unfold TransactionIdIsValid, InvalidTransactionId.
  destruct (Z.eqb_spec xid 0); [lia|]. now rewrite andb_false_r.
Qed.

(** C8. For a node id in the range of [int] and a valid transaction id,
    [MtmGenerateGid] writes [MTM-<node_id>-<xid>] in decimal,
    [MtmGidParseNodeId] and [MtmGidParseXid] give back exactly [node_id] and
    [xid], and two pairs with the same GID are the same pair. *)
Theorem gid_round_trip (node_id xid : Z) :
  INT_MIN <= node_id <= INT_MAX ->
  0 < xid < 2 ^ xid_bits ->
  gid_shape node_id xid (MtmGenerateGid xid node_id)
  /\ MtmGidParseNodeId (MtmGenerateGid xid node_id) = node_id
  /\ (forall assert_checking,
        MtmGidParseXid assert_checking (MtmGenerateGid xid node_id) = Some xid)
  /\ (forall node_id' xid',
        INT_MIN <= node_id' <= INT_MAX -> 0 < xid' < 2 ^ xid_bits ->
        MtmGenerateGid xid' node_id' = MtmGenerateGid xid node_id ->
        node_id' = node_id /\ xid' = xid).
Proof.
  intros Hn Hx.
  split; [rewrite MtmGenerateGid_text; apply gid_text_shape; lia|].
  split; [apply (parse_generated xid node_id true); lia|].
  split; [intros ac; apply (parse_generated xid node_id ac); lia|].
  intros node_id' xid' Hn' Hx' Heq.
  destruct (parse_generated xid node_id true) as [Hnode Hxid]; [lia|].
  destruct (parse_generated xid' node_id' true) as [Hnode' Hxid']; [lia|].
  rewrite Heq in Hnode', Hxid'. split; congruence.
Qed.

Lemma gid_round_trip_witness :
  gid_shape 3 4711 (MtmGenerateGid 4711 3)
  /\ MtmGidParseNodeId (MtmGenerateGid 4711 3) = 3
  /\ (forall assert_checking,
        MtmGidParseXid assert_checking (MtmGenerateGid 4711 3) = Some 4711)
  /\ (forall node_id' xid',
        INT_MIN <= node_id' <= INT_MAX -> 0 < xid' < 2 ^ xid_bits ->
        MtmGenerateGid xid' node_id' = MtmGenerateGid 4711 3 ->
        node_id' = 3 /\ xid' = 4711).
Proof.
  apply (gid_round_trip 3 4711); unfold INT_MIN, INT_MAX, xid_bits; lia.
Defined.

Example gid_text_example : gid_text 3 4711 = "MTM-3-4711"%string.
Proof. reflexivity. Qed.

End GidFacts.

(* ===================================================================== *)
(** ** The commit coordinator *)
(* ===================================================================== *)

Module CommitFacts.
Import NodeMask NodeMaskFacts Stdio Gid Commit.

(** *** Running a computation *)

Lemma bind_Done_inv {A B} (m : M A) (f : A -> M B) w b w' :
  bind m f w = Done b w' ->
  exists a w1, m w = Done a w1 /\ f a w1 = Done b w'.
Proof.
  unfold bind. destruct (m w) as [a w1|e w1|f' w1|w1]; try discriminate.
  intros H. eauto.
Qed.

Lemma bind_Raised_inv {A B} (m : M A) (f : A -> M B) w e w' :
  bind m f w = Raised e w' ->
  m w = Raised e w' \/ exists a w1, m w = Done a w1 /\ f a w1 = Raised e w'.
Proof.
  unfold bind. destruct (m w) as [a w1|e1 w1|f' w1|w1]; try discriminate.
  - intros H. right. eauto.
  - intros [= -> ->]. now left.
Qed.

Lemma bind_Done {A B} (m : M A) (f : A -> M B) w a w1 :
  m w = Done a w1 -> bind m f w = f a w1.
Proof. unfold bind. now intros ->. Qed.

Lemma bind_Raised {A B} (m : M A) (f : A -> M B) w e w1 :
  m w = Raised e w1 -> bind m f w = Raised e w1.
Proof. unfold bind. now intros ->. Qed.

Ltac bind_inv H :=
  let a := fresh "a" in
  let w := fresh "w" in
  let Hs := fresh "Hstep" in
  apply bind_Done_inv in H as (a & w & Hs & H);
  try match type of a with unit => destruct a end.

Lemma ret_inv {A} (a b : A) w w' : ret a w = Done b w' -> a = b /\ w = w'.
Proof. unfold ret. intros [= -> ->]. now split. Qed.

Lemma emit_inv e w u w' :
  emit e w = Done u w' -> w' = set_trace w (trace w ++ [e]).
Proof. unfold emit. now intros [= _ <-]. Qed.

(** *** Events added by a computation, whatever its outcome *)

Lemma emits_here {A} P (m : M A) w :
  emits P m -> exists evs, trace (world_of (m w)) = trace w ++ evs /\ Forall P evs.
Proof. intros H. apply H. Qed.

Lemma emits_nothing {A} P (m : M A) :
  (forall w, trace (world_of (m w)) = trace w) -> emits P m.
Proof.
  intros H w. exists []. rewrite H, app_nil_r. split; [reflexivity|constructor].
Qed.

Lemma emits_ret {A} P (a : A) : emits P (ret a).
Proof. apply emits_nothing. reflexivity. Qed.

Lemma emits_raise {A} P e : emits P (@raise A e).
Proof. apply emits_nothing. reflexivity. Qed.

Lemma emits_crash {A} P f : emits P (@crash A f).
Proof. apply emits_nothing. reflexivity. Qed.

Lemma emits_emit (P : event -> Prop) e : P e -> emits P (emit e).
Proof.
  intros He w. exists [e]. split; [reflexivity|]. repeat constructor. exact He.
Qed.

Lemma emits_bind {A B} P (m : M A) (f : A -> M B) :
  emits P m -> (forall a, emits P (f a)) -> emits P (bind m f).
Proof.
  intros Hm Hf w. destruct (Hm w) as (evs & Ht & Hall).
  unfold bind. destruct (m w) as [a w1|e w1|f' w1|w1]; cbn [world_of] in *;
    try (exists evs; now split).
  destruct (Hf a w1) as (evs' & Ht' & Hall').
  exists (evs ++ evs'). split.
  - rewrite Ht', Ht. now rewrite app_assoc.
  - apply Forall_app. now split.
Qed.


Lemma emits_read_Mtm (P : event -> Prop) :
  (forall Mtm, P (EvMtmRead Mtm)) -> emits P read_Mtm.
Proof.
  intros HP w. unfold read_Mtm. destruct (mtm_reads w) as [|Mtm rest].
  - exists []. rewrite app_nil_r. split; [reflexivity|constructor].
  - exists [EvMtmRead Mtm]. split; [reflexivity|]. repeat constructor. apply HP.
Qed.

Lemma emits_dmq_pop (P : event -> Prop) mask :
  P (EvDmqPop mask) -> emits P (dmq_pop mask).
Proof.
  intros HP. unfold dmq_pop. apply emits_bind; [now apply emits_emit|].
  intros _. apply emits_nothing. intros w. now destruct (dmq_input w).
Qed.

Lemma emits_get_MtmTx P : emits P get_MtmTx.
Proof. apply emits_nothing. reflexivity. Qed.

Lemma emits_put_MtmTx P x : emits P (put_MtmTx x).
Proof. apply emits_nothing. reflexivity. Qed.

Lemma emits_Assert P cfg c : emits P (Assert cfg c).
Proof.
  unfold Assert. destruct (assert_checking cfg && negb c);
    [apply emits_crash|apply emits_ret].
Qed.

Lemma emits_shift_guard P bit : emits P (shift_guard bit).
Proof.
  unfold shift_guard. destruct (shift_ok bit); [apply emits_ret|apply emits_crash].
Qed.

Lemma emits_sender_to_node_at P s : emits P (sender_to_node_at s).
Proof.
  apply emits_nothing. intros w. unfold sender_to_node_at.
  destruct (s <? 0); [reflexivity|].
  now destruct (sender_to_node w !! Z.to_nat s).
Qed.

Lemma emits_sender_to_node_store P s v : emits P (sender_to_node_store s v).
Proof.
  apply emits_nothing. intros w. unfold sender_to_node_store.
  now destruct ((0 <=? s) && (s <? Z.of_nat (length (sender_to_node w)))).
Qed.

Lemma emits_while_fuel {S} P (cond : S -> M bool) (body : S -> M S) fuel :
  (forall s, emits P (cond s)) -> (forall s, emits P (body s)) ->
  forall s, emits P (while_fuel fuel cond body s).
Proof.
  intros Hc Hb. induction fuel as [|fuel IH]; intros s; cbn [while_fuel].
  - apply emits_nothing. reflexivity.
  - apply emits_bind; [apply Hc|]. intros [|]; [|apply emits_ret].
    apply emits_bind; [apply Hb|]. exact IH.
Qed.

Lemma emits_while {S} P (cond : S -> M bool) (body : S -> M S) s :
  (forall s, emits P (cond s)) -> (forall s, emits P (body s)) ->
  emits P (while cond body s).
Proof.
  intros Hc Hb w. unfold while. now apply emits_while_fuel.
Qed.

Create HintDb emits.

#[local] Hint Resolve emits_ret emits_raise emits_crash emits_get_MtmTx
  emits_put_MtmTx emits_Assert emits_shift_guard emits_sender_to_node_at
  emits_sender_to_node_store : emits.

(** *** The fuel of the loops is enough *)

(** If every turn of a loop uses up some of the script, any two amounts
    of fuel above what is left of the script give the same run. *)
Lemma while_fuel_enough {S} (cond : S -> M bool) (body : S -> M S)
    (left : world -> nat) :
  (forall s w c w1 s' w2,
      cond s w = Done c w1 -> body s w1 = Done s' w2 -> (left w2 < left w)%nat) ->
  forall fuel1 fuel2 s w,
    (left w < fuel1)%nat -> (left w < fuel2)%nat ->
    while_fuel fuel1 cond body s w = while_fuel fuel2 cond body s w.
Proof.
  intros Hdec. induction fuel1 as [|fuel1 IH]; intros fuel2 s w H1 H2; [lia|].
  destruct fuel2 as [|fuel2]; [lia|]. cbn [while_fuel]. unfold bind at 1 3.
  destruct (cond s w) as [c w1|e w1|f w1|w1] eqn:Hc; try reflexivity.
  destruct c; [|reflexivity]. unfold bind.
  destruct (body s w1) as [s' w2|e w2|f w2|w2] eqn:Hb; try reflexivity.
  pose proof (Hdec _ _ _ _ _ _ Hc Hb). apply IH; lia.
Qed.

Lemma dmq_pop_left mask w a w' :
  dmq_pop mask w = Done a w' ->
  mtm_reads w' = mtm_reads w /\ dmq_input w = a :: dmq_input w'.
Proof.
  unfold dmq_pop, bind, emit. cbn [dmq_input set_trace].
  destruct (dmq_input w) as [|a0 rest]; [discriminate|].
  intros [= <- <-]. now split.
Qed.

Ltac emits_side := solve [exact I | discriminate | congruence | cbn; tauto].

Ltac emits_step :=
  first
    [ apply emits_ret | apply emits_raise | apply emits_crash
    | apply emits_get_MtmTx | apply emits_put_MtmTx | apply emits_Assert
    | apply emits_shift_guard | apply emits_sender_to_node_at
    | apply emits_sender_to_node_store
    | apply emits_emit; emits_side
    | apply emits_read_Mtm; intros; emits_side
    | apply emits_dmq_pop; emits_side
    | apply emits_bind; [|intros ?]
    | match goal with
      | |- emits _ (if ?c then _ else _) => destruct c
      | |- emits _ (match ?x with _ => _ end) => destruct x
      end ].

Ltac emits_tac := repeat emits_step.

(** *** The events of the phases *)

Lemma emits_GatherPrepares_body cfg st :
  emits gather_event (GatherPrepares_body cfg st).
Proof. unfold GatherPrepares_body. emits_tac. Qed.

Lemma emits_GatherPrecommits_body cfg expected mask :
  emits gather_event (GatherPrecommits_body cfg expected mask).
Proof. unfold GatherPrecommits_body. emits_tac. Qed.

Lemma emits_GatherPrepares cfg mask : emits gather_event (GatherPrepares cfg mask).
Proof.
  unfold GatherPrepares. apply emits_bind; [apply emits_Assert|intros _].
  apply emits_bind; [|intros; apply emits_ret].
  apply emits_while.
  - intros s. apply emits_ret.
  - apply emits_GatherPrepares_body.
Qed.

Lemma emits_GatherPrecommits cfg mask expected :
  emits gather_event (GatherPrecommits cfg mask expected).
Proof.
  unfold GatherPrecommits. apply emits_bind; [apply emits_Assert|intros _].
  apply emits_bind; [|intros; apply emits_ret].
  apply emits_while.
  - intros s. apply emits_ret.
  - apply emits_GatherPrecommits_body.
Qed.

Lemma emits_attach_loop cfg n : forall i s,
  emits setup_event (attach_loop cfg n i s).
Proof.
  induction n as [|n IH]; intros i s; cbn [attach_loop]; [apply emits_ret|].
  apply emits_bind; [emits_tac|]. intros s'. apply IH.
Qed.

Lemma emits_attach_receivers cfg : emits setup_event (attach_receivers cfg).
Proof.
  intros w. unfold attach_receivers. destruct (DmqSubscribed w); cbn [negb].
  - exists []. rewrite app_nil_r. split; [reflexivity|constructor].
  - assert (H : emits setup_event
                  (Mtm <- read_Mtm ;;
                   attach_loop cfg (Z.to_nat (nAllNodes Mtm)) 0 0 ;;
                   (fun w' => Done tt (set_DmqSubscribed w' true)))).
    { apply emits_bind; [emits_tac|]. intros Mtm.
      apply emits_bind; [apply emits_attach_loop|]. intros _.
      apply emits_nothing. reflexivity. }
    apply H.
Qed.

Lemma emits_begin_block h : emits setup_event (begin_block h).
Proof. unfold begin_block. emits_tac. Qed.

Lemma gather_run {A} (m : M A) w a w' :
  emits gather_event m -> m w = Done a w' ->
  exists evs, trace w' = trace w ++ evs /\ Forall gather_event evs.
Proof.
  intros Hm Hrun. destruct (Hm w) as (evs & Ht & Hall).
  rewrite Hrun in Ht. eauto.
Qed.

Lemma wait_fuel_shape fuel : forall w u w',
  while_fuel fuel (fun _ => Mtm <- read_Mtm ;; ret (stop_new_commits Mtm))
             (fun _ => emit (EvMtmSleep USECS_PER_SEC)) tt w = Done u w' ->
  exists ms last,
    trace w' = trace w ++ polls ms ++ [EvMtmRead last]
    /\ Forall (fun Mtm => stop_new_commits Mtm = true) ms
    /\ stop_new_commits last = false.
Proof.
  induction fuel as [|fuel IH]; intros w u w' H; cbn [while_fuel] in H;
    [discriminate|].
  bind_inv H. bind_inv Hstep. apply ret_inv in Hstep as [<- <-].
  unfold read_Mtm in Hstep0.
  destruct (mtm_reads w) as [|Mtm rest] eqn:Hreads; [discriminate|].
  injection Hstep0 as <- <-.
  destruct (stop_new_commits Mtm) eqn:Hstop.
  - bind_inv H. apply emit_inv in Hstep. subst.
    apply IH in H as (ms & last & Ht & Hms & Hlast).
    exists (Mtm :: ms), last. split; [|split; [constructor; assumption|assumption]].
    rewrite Ht. cbn [trace set_trace set_mtm_reads polls flat_map].
    rewrite <- !app_assoc. reflexivity.
  - apply ret_inv in H as [_ <-].
    exists [], Mtm. split; [reflexivity|]. split; [constructor|assumption].
Qed.

Lemma setup_run {A} (m : M A) w a w' :
  emits setup_event m -> m w = Done a w' ->
  exists evs, trace w' = trace w ++ evs /\ Forall setup_event evs.
Proof.
  intros Hm Hrun. destruct (Hm w) as (evs & Ht & Hall).
  rewrite Hrun in Ht. eauto.
Qed.

Lemma quiet_run {A} (m : M A) w a w' :
  emits (fun _ => False) m -> m w = Done a w' -> trace w' = trace w.
Proof.
  intros Hm Hrun. destruct (Hm w) as (evs & Ht & Hall).
  rewrite Hrun in Ht. cbn [world_of] in Ht.
  destruct evs as [|e evs]; [now rewrite app_nil_r in Ht|].
  inversion Hall; contradiction.
Qed.

Lemma emits_commit_guard : emits setup_event commit_guard.
Proof. unfold commit_guard. emits_tac. Qed.

Lemma commit_prologue_run cfg h w gs w' :
  commit_prologue cfg h w = Done gs w' ->
  gs = (gid_of cfg h, stream_of h)
  /\ exists pre ms last,
       trace w' = trace w ++ pre ++ [EvDmqStreamSubscribe (stream_of h)]
                  ++ polls ms ++ [EvMtmRead last]
                  ++ [EvLWLockAcquire MtmCommitBarrier LW_SHARED]
       /\ Forall setup_event pre
       /\ Forall (fun Mtm => stop_new_commits Mtm = true) ms
       /\ stop_new_commits last = false.
Proof.
  unfold commit_prologue. intros H.
  bind_inv H. apply (setup_run _ _ _ _ (emits_attach_receivers cfg)) in Hstep
    as (e1 & Ht1 & He1).
  bind_inv H. apply (setup_run _ _ _ _ (emits_begin_block h)) in Hstep
    as (e2 & Ht2 & He2).
  bind_inv H. apply emit_inv in Hstep.
  bind_inv H. unfold get_MtmTx in Hstep0. injection Hstep0 as <- <-.
  bind_inv H. unfold put_MtmTx in Hstep0. injection Hstep0 as <-.
  bind_inv H. unfold wait_stop_new_commits, while in Hstep0.
  apply wait_fuel_shape in Hstep0 as (ms & last & Ht3 & Hms & Hlast).
  bind_inv H. apply emit_inv in Hstep0.
  apply ret_inv in H as [<- <-]. split; [reflexivity|].
  exists (e1 ++ e2), ms, last. split; [|split; [apply Forall_app; now split|now split]].
  subst. cbn [trace set_trace set_MtmTx] in *.
  rewrite Ht3. cbn [trace set_trace set_MtmTx]. rewrite Ht2, Ht1.
  rewrite <- !app_assoc. reflexivity.
Qed.

Lemma snapshot_participants_run cfg w mask w' :
  snapshot_participants cfg w = Done mask w' ->
  exists snap rest,
    mtm_reads w = snap :: rest
    /\ status snap = MTM_ONLINE
    /\ shift_ok (nAllNodes snap) = true /\ shift_ok (MtmNodeId cfg - 1) = true
    /\ mask = participants_of cfg snap
    /\ trace w' = trace w ++ [EvLWLockAcquire MtmStateLock LW_SHARED;
                              EvMtmRead snap; EvLWLockRelease MtmStateLock].
Proof.
  unfold snapshot_participants. intros H.
  bind_inv H. apply emit_inv in Hstep.
  bind_inv H. unfold read_Mtm in Hstep0.
  destruct (mtm_reads w0) as [|snap rest] eqn:Hreads; [discriminate|].
  injection Hstep0 as <- <-.
  bind_inv H. unfold shift_guard in Hstep0.
  destruct (shift_ok (nAllNodes snap)) eqn:Hs1; [|discriminate].
  apply ret_inv in Hstep0 as [_ <-].
  bind_inv H. unfold shift_guard in Hstep0.
  destruct (shift_ok (MtmNodeId cfg - 1)) eqn:Hs2; [|discriminate].
  apply ret_inv in Hstep0 as [_ <-].
  bind_inv H.
  destruct (status_eqb_spec (status snap) MTM_ONLINE) as [Hon|Hoff];
    cbn [negb] in Hstep0; [|discriminate].
  apply ret_inv in Hstep0 as [_ <-].
  bind_inv H. apply emit_inv in Hstep0.
  apply ret_inv in H as [<- <-].
  subst. cbn [mtm_reads set_trace] in Hreads.
  exists snap, rest. repeat split; try assumption.
  cbn [trace set_trace set_mtm_reads]. rewrite <- !app_assoc. reflexivity.
Qed.

Lemma commit_after_prepares_run cfg gid stream mask w r w' :
  commit_after_prepares cfg gid stream mask w = Done r w' ->
  r = true
  /\ exists g2 g3,
       trace w' = trace w
         ++ [EvSetPreparedTransactionState gid MULTIMASTER_PRECOMMITTED]
         ++ g2
         ++ [EvStartTransactionCommand; EvFinishPreparedTransaction gid true]
         ++ g3
         ++ [EvLWLockRelease MtmCommitBarrier; EvDmqStreamUnsubscribe stream;
             EvMaybeLogSyncpoint]
       /\ Forall gather_event g2 /\ Forall gather_event g3.
Proof.
  unfold commit_after_prepares. intros H.
  bind_inv H. apply emit_inv in Hstep.
  bind_inv H.
  apply (gather_run _ _ _ _ (emits_GatherPrecommits cfg mask MSG_PRECOMMITTED))
    in Hstep0 as (g2 & Ht2 & Hg2).
  bind_inv H. apply emit_inv in Hstep0.
  bind_inv H. apply emit_inv in Hstep1.
  bind_inv H.
  apply (gather_run _ _ _ _ (emits_GatherPrecommits cfg mask MSG_COMMITTED))
    in Hstep2 as (g3 & Ht3 & Hg3).
  bind_inv H. apply emit_inv in Hstep2.
  bind_inv H. apply emit_inv in Hstep3.
  bind_inv H. apply emit_inv in Hstep4.
  apply ret_inv in H as [<- <-]. split; [reflexivity|].
  exists g2, g3. split; [|now split].
  subst. cbn [trace set_trace] in *. rewrite Ht3. cbn [trace set_trace].
  rewrite Ht2. cbn [trace set_trace]. rewrite <- !app_assoc. reflexivity.
Qed.

Lemma failure_branch_not_done gid stream (fa : option Z) w r w' :
  (emit (EvDmqStreamUnsubscribe stream) ;;
   emit (EvFinishPreparedTransaction gid false) ;;
   n <- read_failed_at fa ;;
   raise (PrepareFailed gid n)) w = Done (r : bool) w' -> False.
Proof.
  intros H. bind_inv H. bind_inv H. bind_inv H. discriminate.
Qed.

Lemma commit_epilogue_run cfg h gid stream mask w r w' :
  PrepareTransactionBlock h = true ->
  commit_epilogue cfg h gid stream mask w = Done r w' ->
  r = true
  /\ exists g1 g2 g3,
       trace w' = trace w
         ++ [EvPrepareTransactionBlock gid; EvCommitTransactionCommand]
         ++ g1
         ++ [EvSetPreparedTransactionState gid MULTIMASTER_PRECOMMITTED]
         ++ g2
         ++ [EvStartTransactionCommand; EvFinishPreparedTransaction gid true]
         ++ g3
         ++ [EvLWLockRelease MtmCommitBarrier; EvDmqStreamUnsubscribe stream;
             EvMaybeLogSyncpoint]
       /\ Forall gather_event g1 /\ Forall gather_event g2
       /\ Forall gather_event g3.
Proof.
  unfold commit_epilogue. intros Hprep H. rewrite Hprep in H. cbn [negb] in H.
  bind_inv H. apply emit_inv in Hstep.
  bind_inv H. apply emit_inv in Hstep0.
  bind_inv H.
  apply (gather_run _ _ _ _ (emits_GatherPrepares cfg mask)) in Hstep1
    as (g1 & Ht1 & Hg1).
  destruct (fst a) eqn:Hok; cbn [negb] in H.
  2:{ exfalso. eapply failure_branch_not_done. exact H. }
  apply commit_after_prepares_run in H as (-> & g2 & g3 & Ht & Hg2 & Hg3).
  split; [reflexivity|]. exists g1, g2, g3. split; [|now repeat split].
  rewrite Ht, Ht1. subst. cbn [trace set_trace]. rewrite <- !app_assoc.
  reflexivity.
Qed.

Lemma filter_none {A} (f : A -> bool) (P : A -> Prop) (l : list A) :
  (forall a, P a -> f a = false) -> Forall P l -> List.filter f l = [].
Proof.
  intros HP. induction 1 as [|a l Ha _ IH]; [reflexivity|].
  cbn [List.filter]. now rewrite (HP a Ha).
Qed.

Lemma setup_not_barrier e : setup_event e -> is_barrier_event e = false.
Proof. destruct e; try contradiction; reflexivity. Qed.

Lemma gather_not_barrier e : gather_event e -> is_barrier_event e = false.
Proof. destruct e as [| | | | | | | |[] []|[]| | | | | | | | |]; try contradiction; reflexivity. Qed.

Lemma polls_not_barrier ms : List.filter is_barrier_event (polls ms) = [].
Proof. induction ms as [|Mtm ms IH]; [reflexivity|exact IH]. Qed.

(** *** The participants *)

Lemma shift_ok_range bit : shift_ok bit = true <-> 0 <= bit < nodemask_bits.
Proof.
  unfold shift_ok. rewrite andb_true_iff, Z.leb_le, Z.ltb_lt. tauto.
Qed.

Lemma participants_of_testbit cfg Mtm i :
  shift_ok (nAllNodes Mtm) = true -> shift_ok (MtmNodeId cfg - 1) = true ->
  0 <= i ->
  Z.testbit (participants_of cfg Mtm) i
  = (i <? nAllNodes Mtm) && negb (Z.testbit (disabledNodeMask Mtm) i)
    && negb (i =? MtmNodeId cfg - 1).
Proof.
  rewrite !shift_ok_range. intros Hn Hself Hi.
  unfold participants_of, and64. rewrite !Z.land_spec.
  rewrite !not64_testbit, shl1_testbit, wrap64_testbit by lia.
  assert (Hones : wrap64 (Z.shiftl 1 (nAllNodes Mtm)) - 1 = Z.ones (nAllNodes Mtm)).
  { unfold wrap64, nodemask_bits in *. rewrite Z.shiftl_1_l, Z.ones_equiv.
    rewrite Z.mod_small; [lia|]. split; [apply Z.pow_nonneg; lia|].
    apply Z.pow_lt_mono_r; lia. }
  unfold shl1 at 1. rewrite Hones, Z.testbit_ones_nonneg by lia.
  unfold nodemask_bits in *.
  destruct (Z.ltb_spec i 64), (Z.ltb_spec i (nAllNodes Mtm)); cbn [andb negb];
    try reflexivity; try lia.
Qed.

Lemma setup_not_prepare e : setup_event e -> not_prepare e.
Proof. destruct e; try contradiction; intros _ gid; discriminate. Qed.

Lemma polls_not_prepare ms : Forall not_prepare (polls ms).
Proof.
  induction ms as [|Mtm ms IH]; [constructor|].
  cbn [polls flat_map app]. repeat constructor; try (intros gid; discriminate).
  exact IH.
Qed.

(** C1. Once [MtmTwoPhaseCommit] has passed its guard and holds the commit
    barrier, the participants are taken under the state lock in shared mode
    from one snapshot [snap] of [Mtm]: bit [i] of the mask is set exactly
    when [i < nAllNodes], bit [i] of [disabledNodeMask] is clear and [i] is
    not the bit of this node. If the status in [snap] is not ONLINE the
    commit ends in the ERROR "This node became offline during current
    transaction" and [PrepareTransactionBlock] is never called. *)
Theorem participants_snapshot (cfg : config) (h : host) (w w0 w1 : world)
    (gs : string * string) (snap : MtmState) (rest : list MtmState) :
  commit_guard w = Done true w0 ->
  commit_prologue cfg h w0 = Done gs w1 ->
  mtm_reads w1 = snap :: rest ->
  shift_ok (nAllNodes snap) = true ->
  shift_ok (MtmNodeId cfg - 1) = true ->
  (status snap = MTM_ONLINE ->
     exists w2,
       snapshot_participants cfg w1 = Done (participants_of cfg snap) w2
       /\ (forall i, 0 <= i ->
             Z.testbit (participants_of cfg snap) i
             = (i <? nAllNodes snap)
               && negb (Z.testbit (disabledNodeMask snap) i)
               && negb (i =? MtmNodeId cfg - 1))
       /\ trace w2 = trace w1 ++ [EvLWLockAcquire MtmStateLock LW_SHARED;
                                  EvMtmRead snap; EvLWLockRelease MtmStateLock]
       /\ MtmTwoPhaseCommit cfg h w
          = commit_epilogue cfg h (fst gs) (snd gs) (participants_of cfg snap) w2)
  /\ (status snap <> MTM_ONLINE ->
     exists w2 evs,
       MtmTwoPhaseCommit cfg h w = Raised WentOffline w2
       /\ trace w2 = trace w1 ++ [EvLWLockAcquire MtmStateLock LW_SHARED;
                                  EvMtmRead snap]
       /\ trace w2 = trace w ++ evs
       /\ Forall not_prepare evs).
Proof.
  intros Hguard Hpro Hreads Hs1 Hs2.
  assert (Hwhole : MtmTwoPhaseCommit cfg h w
                   = bind (snapshot_participants cfg)
                          (commit_epilogue cfg h (fst gs) (snd gs)) w1).
  { unfold MtmTwoPhaseCommit. rewrite (bind_Done _ _ _ _ _ Hguard). cbn [negb].
    now rewrite (bind_Done _ _ _ _ _ Hpro). }
  split.
  - intros Honline.
    assert (Hrun : snapshot_participants cfg w1
                   = Done (participants_of cfg snap)
                       (set_trace (set_mtm_reads w1 rest)
                          (trace w1 ++ [EvLWLockAcquire MtmStateLock LW_SHARED;
                                        EvMtmRead snap;
                                        EvLWLockRelease MtmStateLock]))).
    { unfold snapshot_participants, bind, emit, read_Mtm, shift_guard, ret.
      cbn [mtm_reads set_trace]. rewrite Hreads, Hs1, Hs2, Honline.
      cbn. rewrite <- !app_assoc. reflexivity. }
    eexists. split; [exact Hrun|]. split; [|split].
    + intros i Hi. now apply participants_of_testbit.
    + reflexivity.
    + rewrite Hwhole. now rewrite (bind_Done _ _ _ _ _ Hrun).
  - intros Hoffline.
    assert (Hrun : snapshot_participants cfg w1
                   = Raised WentOffline
                       (set_trace (set_mtm_reads w1 rest)
                          (trace w1 ++ [EvLWLockAcquire MtmStateLock LW_SHARED;
                                        EvMtmRead snap]))).
    { unfold snapshot_participants, bind, emit, read_Mtm, shift_guard, ret, raise.
      cbn [mtm_reads set_trace]. rewrite Hreads, Hs1, Hs2.
      destruct (status_eqb_spec (status snap) MTM_ONLINE) as [|_]; [contradiction|].
      cbn. rewrite <- !app_assoc. reflexivity. }
    apply (setup_run _ _ _ _ emits_commit_guard) in Hguard as (e0 & Ht0 & He0).
    apply commit_prologue_run in Hpro as (_ & pre & ms & last & Ht1 & Hpre & _ & _).
    eexists.
    exists (e0 ++ pre ++ [EvDmqStreamSubscribe (stream_of h)] ++ polls ms
            ++ [EvMtmRead last] ++ [EvLWLockAcquire MtmCommitBarrier LW_SHARED]
            ++ [EvLWLockAcquire MtmStateLock LW_SHARED; EvMtmRead snap]).
    split; [rewrite Hwhole; now rewrite (bind_Raised _ _ _ _ _ Hrun)|].
    split; [reflexivity|]. split.
    + cbn [trace set_trace]. rewrite Ht1, Ht0. rewrite <- !app_assoc. reflexivity.
    + rewrite !Forall_app. repeat split.
      * eapply List.Forall_impl; [apply setup_not_prepare|exact He0].
      * eapply List.Forall_impl; [apply setup_not_prepare|exact Hpre].
      * repeat constructor. intros gid; discriminate.
      * apply polls_not_prepare.
      * repeat constructor; intros gid; discriminate.
      * repeat constructor; intros gid; discriminate.
      * repeat constructor; intros gid; discriminate.
Qed.

(** *** The gather loops *)

Lemma dmq_pop_inv mask w a w' :
  dmq_pop mask w = Done a w' ->
  exists rest, dmq_input w = a :: rest
    /\ w' = set_dmq_input (set_trace w (trace w ++ [EvDmqPop mask])) rest.
Proof.
  unfold dmq_pop, bind, emit. cbn [dmq_input set_trace].
  destruct (dmq_input w) as [|a0 rest]; [discriminate|].
  intros [= <- <-]. eauto.
Qed.

Lemma sender_to_node_at_inv s w n w' :
  sender_to_node_at s w = Done n w' ->
  w' = w /\ 0 <= s /\ sender_to_node w !! Z.to_nat s = Some n.
Proof.
  unfold sender_to_node_at. destruct (Z.ltb_spec s 0); [discriminate|].
  destruct (sender_to_node w !! Z.to_nat s) as [n'|]; [|discriminate].
  intros [= <- <-]. auto.
Qed.

Lemma Assert_inv cfg c w u w' :
  Assert cfg c w = Done u w' -> w' = w /\ (assert_checking cfg = true -> c = true).
Proof.
  unfold Assert. destruct (assert_checking cfg), c; cbn; try discriminate;
    intros [= <-]; auto.
Qed.

Lemma shift_guard_inv bit w u w' :
  shift_guard bit w = Done u w' -> w' = w /\ shift_ok bit = true.
Proof.
  unfold shift_guard. destruct (shift_ok bit); [|discriminate].
  intros [= <-]. auto.
Qed.

Lemma code_eqb_eq a b : code_eqb a b = true <-> a = b.
Proof. destruct a, b; cbn; split; congruence. Qed.

Lemma GatherPrepares_body_run cfg st w st' w' :
  GatherPrepares_body cfg st w = Done st' w' ->
  exists a rest n,
    dmq_input w = a :: rest /\ dmq_input w' = rest
    /\ sender_to_node w' = sender_to_node w /\ MtmTx w' = MtmTx w
    /\ mtm_reads w' = mtm_reads w
    /\ node_of (sender_to_node w) a = Some n /\ shift_ok (n - 1) = true
    /\ participantsMask st'
       = (if clears (sender_to_node w) a
          then BIT_CLEAR (participantsMask st) (n - 1) else participantsMask st)
    /\ prepared st' = prepared st && negb (fails (sender_to_node w) a)
    /\ failed_at st'
       = (if fails (sender_to_node w) a
          then failure_node (sender_to_node w) a else failed_at st)
    /\ dropped_online (sender_to_node w) a
    /\ (assert_checking cfg = true ->
          match a with
          | DmqMessage _ msg =>
              node msg = n
              /\ (code msg = MSG_PREPARED \/ code msg = MSG_ABORTED)
              /\ dxid msg = xid (MtmTx w)
              /\ BIT_CHECK (participantsMask st) (n - 1) = true
          | DmqDetached _ _ => True
          end).
Proof.
  unfold GatherPrepares_body. intros H.
  bind_inv H. apply dmq_pop_inv in Hstep as (rest & Hin & ->).
  destruct a as [s msg|s Mtm].
  - bind_inv H. apply sender_to_node_at_inv in Hstep as (-> & Hs & Hn).
    bind_inv H. unfold get_MtmTx in Hstep. injection Hstep as <- <-.
    bind_inv H. apply Assert_inv in Hstep as (-> & Ha1).
    bind_inv H. apply Assert_inv in Hstep as (-> & Ha2).
    bind_inv H. apply Assert_inv in Hstep as (-> & Ha3).
    bind_inv H. apply shift_guard_inv in Hstep as (-> & Hsh).
    bind_inv H. apply Assert_inv in Hstep as (-> & Ha4).
    cbn [sender_to_node set_dmq_input set_trace] in Hn.
    exists (DmqMessage s msg), rest, a.
    assert (Hnode : node_of (sender_to_node w) (DmqMessage s msg) = Some a).
    { cbn [node_of]. destruct (Z.ltb_spec s 0); [lia|exact Hn]. }
    assert (Hassert : assert_checking cfg = true ->
              node msg = a
              /\ (code msg = MSG_PREPARED \/ code msg = MSG_ABORTED)
              /\ dxid msg = xid (MtmTx w)
              /\ BIT_CHECK (participantsMask st) (a - 1) = true).
    { intros Hac. specialize (Ha1 Hac). specialize (Ha2 Hac).
      specialize (Ha3 Hac). specialize (Ha4 Hac).
      cbn [MtmTx set_dmq_input set_trace] in Ha3.
      apply Z.eqb_eq in Ha1, Ha3.
      apply orb_true_iff in Ha2. rewrite !code_eqb_eq in Ha2. auto. }
    cbn [clears fails failure_node].
    destruct (code_eqb (code msg) MSG_ABORTED) eqn:Hab;
      apply ret_inv in H as [<- <-];
      cbn [participantsMask prepared failed_at dmq_input sender_to_node MtmTx
           mtm_reads set_dmq_input set_trace negb];
      rewrite ?andb_false_r, ?andb_true_r;
      do 10 (split; [first [assumption|reflexivity]|]);
      (split; [exact I|exact Hassert]).
  - bind_inv H. apply emit_inv in Hstep. subst.
    bind_inv H. apply emit_inv in Hstep. subst.
    bind_inv H. apply sender_to_node_at_inv in Hstep as (-> & Hs & Hn).
    bind_inv H. apply shift_guard_inv in Hstep as (-> & Hsh).
    cbn [sender_to_node set_dmq_input set_trace] in Hn.
    exists (DmqDetached s Mtm), rest, a.
    assert (Hnode : node_of (sender_to_node w) (DmqDetached s Mtm) = Some a).
    { cbn [node_of]. destruct (Z.ltb_spec s 0); [lia|exact Hn]. }
    cbn [fails]. cbn [clears]. rewrite Hnode. cbn [failure_node]. rewrite Hnode.
    bind_inv H.
    destruct (BIT_CHECK (disabledNodeMask Mtm) (a - 1)) eqn:Hdis.
    + destruct (status_eqb_spec (status Mtm) MTM_ONLINE) as [Hon|Hoff];
        cbn [negb] in Hstep; [|discriminate].
      apply ret_inv in Hstep as [<- <-].
      bind_inv H. apply emit_inv in Hstep. subst.
      apply ret_inv in H as [<- <-].
      cbn [participantsMask prepared failed_at dmq_input sender_to_node MtmTx
           mtm_reads set_dmq_input set_trace negb].
      rewrite andb_false_r.
      do 10 (split; [first [assumption|reflexivity]|]).
      split; [intros _; exact Hon|now intros].
    + apply ret_inv in Hstep as [<- <-].
      bind_inv H. apply emit_inv in Hstep. subst.
      apply ret_inv in H as [<- <-].
      cbn [participantsMask prepared failed_at dmq_input sender_to_node MtmTx
           mtm_reads set_dmq_input set_trace negb].
      rewrite andb_true_r.
      do 10 (split; [first [assumption|reflexivity]|]).
      split; [|now intros].
      cbn [dropped_online clears]. rewrite Hnode, Hdis. discriminate.
Qed.

Lemma GatherPrepares_loop_run cfg fuel : forall st w st' w',
  while_fuel fuel mask_not_empty (GatherPrepares_body cfg) st w = Done st' w' ->
  nodemask_range (participantsMask st) ->
  exists consumed,
    dmq_input w = consumed ++ dmq_input w'
    /\ sender_to_node w' = sender_to_node w
    /\ participantsMask st' = 0
    /\ prepared st'
       = prepared st && negb (existsb (fails (sender_to_node w)) consumed)
    /\ failed_at st' = failed_at_after (sender_to_node w) consumed (failed_at st)
    /\ (forall i, 0 <= i -> Z.testbit (participantsMask st) i = true ->
          Exists (fun a => clears (sender_to_node w) a = true
                           /\ node_of (sender_to_node w) a = Some (i + 1))
                 consumed)
    /\ Forall (dropped_online (sender_to_node w)) consumed
    /\ (assert_checking cfg = true ->
          Forall (reply_checked (sender_to_node w)) consumed).
Proof.
  induction fuel as [|fuel IH]; intros st w st' w' H Hrange;
    cbn [while_fuel] in H; [discriminate|].
  bind_inv H. unfold mask_not_empty in Hstep. apply ret_inv in Hstep as [<- <-].
  destruct (Z.eqb_spec (participantsMask st) 0) as [Hz|Hnz]; cbn [negb] in H.
  - apply ret_inv in H as [<- <-]. exists [].
    cbn [existsb failed_at_after app negb]. rewrite andb_true_r.
    do 5 (split; [first [assumption|reflexivity]|]). split.
    + intros i Hi Hbit. rewrite Hz, Z.testbit_0_l in Hbit. discriminate.
    + split; [constructor|]. intros _. constructor.
  - bind_inv H.
    apply GatherPrepares_body_run in Hstep
      as (a0 & rest & n & Hin & Hin' & Hs2n & Htx & Hreads & Hnode & Hsh
          & Hmask & Hprep & Hfa & Hdrop & Hchk).
    assert (Hrange' : nodemask_range (participantsMask a)).
    { rewrite Hmask. destruct (clears (sender_to_node w) a0); [|exact Hrange].
      apply BIT_CLEAR_range. exact Hrange. }
    destruct (IH _ _ _ _ H Hrange')
      as (consumed & Hc & Hs2n' & Hzero & Hprep' & Hfa' & Hbits & Hdrop' & Hchk').
    rewrite Hs2n in Hs2n', Hprep', Hfa', Hbits, Hdrop', Hchk'.
    exists (a0 :: consumed). cbn [existsb failed_at_after app].
    split; [rewrite Hin, <- Hin', Hc; reflexivity|].
    split; [exact Hs2n'|]. split; [exact Hzero|].
    split; [rewrite Hprep', Hprep, negb_orb; now rewrite andb_assoc|].
    split; [rewrite Hfa', Hfa; reflexivity|]. split.
    + intros i Hi Hbit.
      destruct (clears (sender_to_node w) a0) eqn:Hcl.
      * destruct (Z.eq_dec i (n - 1)) as [->|Hne].
        -- constructor. split; [exact Hcl|].
           rewrite Hnode. f_equal. lia.
        -- apply Exists_cons_tl. apply Hbits; [exact Hi|].
           rewrite Hmask, BIT_CLEAR_testbit, Hbit.
           ++ cbn [andb]. apply negb_true_iff, Z.eqb_neq. exact Hne.
           ++ apply shift_ok_range in Hsh. lia.
           ++ exact Hrange.
      * apply Exists_cons_tl. apply Hbits; [exact Hi|]. now rewrite Hmask.
    + split; [constructor; assumption|].
      intros Hac. constructor; [|now apply Hchk'].
      specialize (Hchk Hac). destruct a0 as [s msg|s Mtm]; [|exact I].
      destruct Hchk as (Hn & Hcode & _). cbn [reply_checked].
      rewrite Hnode, Hn. now split.
Qed.

Lemma fails_failure_node s2n a :
  fails s2n a = true -> exists n, failure_node s2n a = Some n.
Proof.
  destruct a as [s msg|s Mtm]; cbn [fails failure_node clears].
  - eauto.
  - destruct (node_of s2n (DmqDetached s Mtm)); [eauto|discriminate].
Qed.

Lemma last_failure s2n consumed : forall fa,
  existsb (fails s2n) consumed = true ->
  exists before a after,
    consumed = before ++ a :: after
    /\ fails s2n a = true
    /\ forallb (fun b => negb (fails s2n b)) after = true
    /\ failed_at_after s2n consumed fa = failure_node s2n a.
Proof.
  induction consumed as [|a rest IH]; intros fa Hex; [discriminate|].
  cbn [existsb failed_at_after] in *.
  destruct (existsb (fails s2n) rest) eqn:Hrest.
  - destruct (IH (if fails s2n a then failure_node s2n a else fa) eq_refl)
      as (before & b & after & -> & Hb & Hafter & Hfa).
    exists (a :: before), b, after. now repeat split.
  - rewrite orb_false_r in Hex. rewrite Hex.
    exists [], a, rest. split; [reflexivity|]. split; [exact Hex|].
    assert (Hnone : forallb (fun b => negb (fails s2n b)) rest = true
                    /\ forall fa', failed_at_after s2n rest fa' = fa').
    { clear -Hrest. induction rest as [|b rest IHr]; [now split|].
      cbn [existsb] in Hrest. apply orb_false_iff in Hrest as [Hb Hr].
      destruct (IHr Hr) as [Hall Hfa]. cbn [forallb failed_at_after].
      rewrite Hb, Hall. split; [reflexivity|]. intros fa'. apply Hfa. }
    destruct Hnone as [Hall Hfa]. split; [exact Hall|apply Hfa].
Qed.

Lemma GatherPrepares_run cfg mask w ok fa w' :
  GatherPrepares cfg mask w = Done (ok, fa) w' ->
  nodemask_range mask ->
  exists consumed,
    dmq_input w = consumed ++ dmq_input w'
    /\ sender_to_node w' = sender_to_node w
    /\ ok = negb (existsb (fails (sender_to_node w)) consumed)
    /\ fa = failed_at_after (sender_to_node w) consumed None
    /\ (forall i, 0 <= i -> Z.testbit mask i = true ->
          Exists (fun a => clears (sender_to_node w) a = true
                           /\ node_of (sender_to_node w) a = Some (i + 1))
                 consumed)
    /\ Forall (dropped_online (sender_to_node w)) consumed
    /\ (assert_checking cfg = true ->
          Forall (reply_checked (sender_to_node w)) consumed).
Proof.
  unfold GatherPrepares. intros H Hrange.
  bind_inv H. apply Assert_inv in Hstep as (-> & _).
  bind_inv H. unfold while in Hstep.
  apply GatherPrepares_loop_run in Hstep
    as (consumed & Hc & Hs2n & _ & Hprep & Hfa & Hbits & Hdrop & Hchk);
    [|exact Hrange].
  apply ret_inv in H as [[= <- <-] <-].
  exists consumed. cbn [prepared failed_at participantsMask andb] in *.
  now repeat split.
Qed.

Lemma land_range a b : nodemask_range b -> nodemask_range (and64 a b).
Proof.
  unfold nodemask_range, and64, nodemask_bits. intros Hb.
  assert (Heq : Z.land a b = Z.land a b mod 2 ^ 64).
  { apply Z.bits_inj'. intros i Hi.
    rewrite Z.testbit_mod_pow2, Z.land_spec by lia.
    destruct (Z.ltb_spec i 64); [reflexivity|].
    assert (Z.testbit b i = false) as ->; [|now rewrite andb_false_r].
    destruct (Z.eq_dec b 0) as [->|Hnz]; [apply Z.testbit_0_l|].
    apply Z.bits_above_log2; [lia|].
    apply Z.lt_le_trans with 64; [|lia]. apply Z.log2_lt_pow2; lia. }
  rewrite Heq. apply Z.mod_pos_bound. reflexivity.
Qed.

Lemma participants_of_range cfg Mtm : nodemask_range (participants_of cfg Mtm).
Proof.
  unfold participants_of. apply land_range.
  unfold nodemask_range, not64, wrap64. apply Z.mod_pos_bound. reflexivity.
Qed.

Lemma reaches_gather_continue cfg h w gid stream mask w3 :
  reaches_gather cfg h w gid stream mask w3 ->
  nodemask_range mask
  /\ MtmTwoPhaseCommit cfg h w
     = (r <- GatherPrepares cfg mask ;;
        if negb (fst r) then
          emit (EvDmqStreamUnsubscribe stream) ;;
          emit (EvFinishPreparedTransaction gid false) ;;
          n <- read_failed_at (snd r) ;;
          raise (PrepareFailed gid n)
        else commit_after_prepares cfg gid stream mask) w3.
Proof.
  intros (w0 & w1 & w2 & Hguard & Hpro & Hsnap & Hprep & ->). split.
  - apply snapshot_participants_run in Hsnap as (snap & _ & _ & _ & _ & _ & -> & _).
    apply participants_of_range.
  - unfold MtmTwoPhaseCommit.
    rewrite (bind_Done _ _ _ _ _ Hguard). cbn [negb].
    rewrite (bind_Done _ _ _ _ _ Hpro), (bind_Done _ _ _ _ _ Hsnap).
    cbn [fst snd]. unfold commit_epilogue. rewrite Hprep. cbn [negb].
    unfold bind at 1. unfold emit at 1. unfold bind at 1. unfold emit at 1.
    cbn [trace set_trace]. rewrite <- app_assoc. reflexivity.
Qed.

Lemma forallb_negb_Forall {A} (f : A -> bool) l :
  forallb (fun b => negb (f b)) l = true -> Forall (fun b => f b = false) l.
Proof.
  induction l as [|a l IH]; cbn [forallb]; [constructor|].
  intros H. apply andb_true_iff in H as [Ha Hl].
  constructor; [now apply negb_true_iff|now apply IH].
Qed.

Lemma existsb_Exists' {A} (f : A -> bool) l :
  existsb f l = true <-> Exists (fun a => f a = true) l.
Proof.
  induction l as [|a l IH]; cbn [existsb].
  - split; [discriminate|inversion 1].
  - rewrite orb_true_iff, IH. split.
    + intros [H|H]; [now constructor|now apply Exists_cons_tl].
    + inversion 1; subst; auto.
Qed.

(** C2. In [GatherPrepares] a turn of the loop takes the sender's bit out
    of the awaited mask exactly when a reply has arrived or the sender is
    detached and the snapshot of [Mtm] shows it in [disabledNodeMask] (the
    node being ONLINE, else an ERROR is raised); every bit of the
    participants goes this way. The function returns false exactly when one
    of the answers was an ABORTED reply or such a drop, and [failed_at] is the
    node of the last of them. [MtmTwoPhaseCommit] then unsubscribes from the
    stream, finishes the prepared transaction with [isCommit = false] and
    raises "Failed to prepare transaction <gid> at node <failed_at>". *)
Theorem prepare_failure (cfg : config) (h : host) (w w3 w4 : world)
    (gid stream : string) (mask : Z) (ok : bool) (fa : option Z) :
  reaches_gather cfg h w gid stream mask w3 ->
  GatherPrepares cfg mask w3 = Done (ok, fa) w4 ->
  exists consumed,
    dmq_input w3 = consumed ++ dmq_input w4
    /\ (forall st wa st' wb,
          nodemask_range (participantsMask st) ->
          GatherPrepares_body cfg st wa = Done st' wb ->
          exists a rest n,
            dmq_input wa = a :: rest
            /\ node_of (sender_to_node wa) a = Some n
            /\ dropped_online (sender_to_node wa) a
            /\ forall i,
                 Z.testbit (participantsMask st') i
                 = Z.testbit (participantsMask st) i
                   && negb ((i =? n - 1) && clears (sender_to_node wa) a))
    /\ (forall i, 0 <= i -> Z.testbit mask i = true ->
          Exists (fun a => clears (sender_to_node w3) a = true
                           /\ node_of (sender_to_node w3) a = Some (i + 1))
                 consumed)
    /\ Forall (dropped_online (sender_to_node w3)) consumed
    /\ (assert_checking cfg = true ->
          Forall (reply_checked (sender_to_node w3)) consumed)
    /\ (ok = false <-> Exists (fun a => fails (sender_to_node w3) a = true) consumed)
    /\ (ok = false ->
          exists before a after n,
            consumed = before ++ a :: after
            /\ fails (sender_to_node w3) a = true
            /\ Forall (fun b => fails (sender_to_node w3) b = false) after
            /\ failure_node (sender_to_node w3) a = Some n
            /\ fa = Some n
            /\ MtmTwoPhaseCommit cfg h w
               = Raised (PrepareFailed gid n)
                   (set_trace w4
                      (trace w4 ++ [EvDmqStreamUnsubscribe stream;
                                    EvFinishPreparedTransaction gid false]))).
Proof.
  intros Hreach Hrun.
  apply reaches_gather_continue in Hreach as [Hrange Hwhole].
  destruct (GatherPrepares_run _ _ _ _ _ _ Hrun Hrange)
    as (consumed & Hc & Hs2n & Hok & Hfa & Hbits & Hdrop & Hchk).
  subst fa. exists consumed. split; [exact Hc|]. split.
  { intros st wa st' wb Hr Hbody.
    apply GatherPrepares_body_run in Hbody
      as (a & rest & n & Hin & _ & _ & _ & _ & Hnode & Hsh & Hmask & _ & _
          & Hd & _).
    exists a, rest, n. do 3 (split; [assumption|]). intros i.
    rewrite Hmask. destruct (clears (sender_to_node wa) a).
    - rewrite BIT_CLEAR_testbit; [now rewrite andb_true_r| |exact Hr].
      apply shift_ok_range in Hsh. lia.
    - now rewrite andb_false_r, andb_true_r. }
  split; [exact Hbits|]. split; [exact Hdrop|]. split; [exact Hchk|]. split.
  { rewrite <- existsb_Exists', Hok. now rewrite negb_false_iff. }
  intros ->. symmetry in Hok. apply negb_false_iff in Hok.
  destruct (last_failure _ _ None Hok)
    as (before & a & after & Hsplit & Hfails & Hafter & Hlast).
  destruct (fails_failure_node _ _ Hfails) as [n Hn].
  exists before, a, after, n.
  split; [exact Hsplit|]. split; [exact Hfails|].
  split; [now apply forallb_negb_Forall|]. split; [exact Hn|].
  assert (Hfa' : failed_at_after (sender_to_node w3) consumed None = Some n)
    by (rewrite Hlast; exact Hn).
  split; [exact Hfa'|].
  rewrite Hwhole, (bind_Done _ _ _ _ _ Hrun). cbn [fst snd negb]. rewrite Hfa'.
  unfold bind, emit, read_failed_at, ret, raise. cbn [trace set_trace].
  rewrite <- app_assoc. reflexivity.
Qed.

(** *** After the PREPAREDs *)

Lemma GatherPrecommits_body_cases cfg expected mask w :
  match GatherPrecommits_body cfg expected mask w with
  | Done mask' w' =>
      exists a rest n,
        dmq_input w = a :: rest /\ dmq_input w' = rest
        /\ sender_to_node w' = sender_to_node w
        /\ node_of (sender_to_node w) a = Some n /\ shift_ok (n - 1) = true
        /\ mask' = (if clears (sender_to_node w) a
                    then BIT_CLEAR mask (n - 1) else mask)
        /\ dropped_online (sender_to_node w) a
  | Raised e w' =>
      e = NodeDisabledDuringCommit
      /\ exists s Mtm rest,
           dmq_input w = DmqDetached s Mtm :: rest
           /\ clears (sender_to_node w) (DmqDetached s Mtm) = true
           /\ status Mtm <> MTM_ONLINE
  | _ => True
  end.
Proof.
  cbv beta iota delta [GatherPrecommits_body bind dmq_pop emit sender_to_node_at
    get_MtmTx Assert shift_guard ret raise crash].
  cbn [dmq_input set_trace sender_to_node set_dmq_input].
  destruct (dmq_input w) as [|[s msg|s Mtm] rest] eqn:Hin; [exact I| |];
    cbn [dmq_input set_trace sender_to_node set_dmq_input MtmTx];
    (destruct (Z.ltb_spec s 0) as [Hneg|Hs]; [exact I|]);
    (destruct (sender_to_node w !! Z.to_nat s) as [n|] eqn:Hn; [|exact I]);
    (assert (Hnode : forall a, (exists m, a = DmqMessage s m) \/ (exists m, a = DmqDetached s m) ->
               node_of (sender_to_node w) a = Some n)
      by (intros a [[m ->]|[m ->]]; cbn [node_of];
          (destruct (Z.ltb_spec s 0); [lia|exact Hn])));
    cbv beta iota.
  - repeat match goal with
           | |- context [if ?c then _ else _] =>
               destruct c eqn:?; cbv beta iota; try exact I
           end;
      exists (DmqMessage s msg), rest, n;
      cbn [clears dropped_online dmq_input set_dmq_input sender_to_node set_trace];
      rewrite Hnode by eauto; repeat split; assumption.
  - destruct (shift_ok (n - 1)) eqn:Hsh; cbv beta iota; [|exact I].
    destruct (BIT_CHECK (disabledNodeMask Mtm) (n - 1)) eqn:Hdis.
    + destruct (status_eqb_spec (status Mtm) MTM_ONLINE) as [Hon|Hoff];
        cbn [negb]; cbv beta iota.
      * exists (DmqDetached s Mtm), rest, n.
        cbn [clears dropped_online]. rewrite Hnode, Hdis by eauto.
        cbn [dmq_input set_dmq_input sender_to_node set_trace].
        repeat split; try assumption; try reflexivity. intros _; exact Hon.
      * split; [reflexivity|]. exists s, Mtm, rest.
        cbn [clears]. rewrite Hnode, Hdis by eauto. repeat split; try assumption.
    + cbv beta iota. exists (DmqDetached s Mtm), rest, n.
      cbn [clears dropped_online]. rewrite Hnode, Hdis by eauto.
      cbn [dmq_input set_dmq_input sender_to_node set_trace].
      repeat split; try assumption; try reflexivity. discriminate.
Qed.








(** *** Transaction start *)

Lemma strcmp_ne_true a b : strcmp_ne a b = true <-> a <> b.
Proof.
  unfold strcmp_ne. rewrite negb_true_iff. apply String.eqb_neq.
Qed.

Ltac begin_admitted HnC :=
  cbn [world_of MtmTx trace set_trace set_MtmTx set_mtm_reads];
  rewrite <- ?app_assoc;
  split; [split; [intros [w' Hw]; discriminate
                 |intros HC; exfalso; apply HnC; exact HC]|];
  split; [split; [intros _; exact HnC|intros _; eexists; reflexivity]|];
  split; reflexivity.

(** C6, as the code has it. [MtmBeginTransaction] first resets the
    transaction state ([isDistributed := MtmIsUserTransaction()],
    [containsDML := false]) and the DDL statement; it then raises
    "Multimaster node is not online" exactly when the transaction is a user
    transaction, the status is not ONLINE, the application name is neither
    the admin nor the broadcast service, and there is a query string other
    than (in any letter case) "create extension multimaster;". In every other
    case, in particular whenever the node is ONLINE, the transaction is
    admitted. *)
Theorem begin_transaction_admission (cfg : config) (h : host) (w : world)
    (Mtm : MtmState) (rest : list MtmState) :
  mtm_reads w = Mtm :: rest ->
  ((exists w', MtmBeginTransaction cfg h w = Raised (NodeNotOnline (status Mtm)) w')
   <-> refused_at_start cfg h Mtm)
  /\ ((exists w', MtmBeginTransaction cfg h w = Done tt w')
      <-> ~ refused_at_start cfg h Mtm)
  /\ MtmTx (world_of (MtmBeginTransaction cfg h w)) = tx_at_start h w
  /\ trace (world_of (MtmBeginTransaction cfg h w))
     = trace w ++ EvMtmDDLResetStatement
               :: (if MtmIsUserTransaction h then [EvMtmRead Mtm] else []).
Proof.
  intros Hreads. unfold tx_at_start.
  cbv beta iota delta [MtmBeginTransaction begin_must_reject bind get_MtmTx
    put_MtmTx emit read_Mtm ret raise isDistributed].
  cbn [mtm_reads set_MtmTx set_trace trace MtmTx].
  destruct (MtmIsUserTransaction h) eqn:Huser.
  2:{ assert (HnC : ~ refused_at_start cfg h Mtm)
        by (intros (Hf & _); congruence).
      begin_admitted HnC. }
  cbv beta iota. cbn [mtm_reads set_MtmTx set_trace trace MtmTx].
  rewrite Hreads.
  destruct (status_eqb_spec (status Mtm) MTM_ONLINE) as [Hon|Hoff]; cbn [negb andb].
  { assert (HnC : ~ refused_at_start cfg h Mtm)
      by (intros (_ & Hf & _); contradiction).
    begin_admitted HnC. }
  destruct (strcmp_ne (application_name h) (MULTIMASTER_ADMIN cfg)) eqn:Hadm;
    cbn [andb].
  2:{ apply negb_false_iff, String.eqb_eq in Hadm.
      assert (HnC : ~ refused_at_start cfg h Mtm)
        by (intros (_ & _ & Hf & _); contradiction).
      begin_admitted HnC. }
  destruct (strcmp_ne (application_name h) (MULTIMASTER_BROADCAST_SERVICE cfg))
    eqn:Hbro; cbn [andb].
  2:{ apply negb_false_iff, String.eqb_eq in Hbro.
      assert (HnC : ~ refused_at_start cfg h Mtm)
        by (intros (_ & _ & _ & Hf & _); contradiction).
      begin_admitted HnC. }
  apply strcmp_ne_true in Hadm, Hbro.
  destruct (debug_query_string h) as [q|] eqn:Hq.
  2:{ assert (HnC : ~ refused_at_start cfg h Mtm)
        by (intros (_ & _ & _ & _ & q & Hf & _); congruence).
      begin_admitted HnC. }
  destruct (Z.eqb_spec (pg_strcasecmp q "create extension multimaster;") 0)
    as [Hsame|Hdiff]; cbn [negb].
  - assert (HnC : ~ refused_at_start cfg h Mtm).
    { intros (_ & _ & _ & _ & q' & Hq' & Hf). rewrite Hq in Hq'.
      injection Hq' as <-. contradiction. }
    begin_admitted HnC.
  - assert (HC : refused_at_start cfg h Mtm).
    { unfold refused_at_start. repeat (split; [assumption|]). eauto. }
    cbn [world_of MtmTx trace set_trace set_MtmTx set_mtm_reads].
    rewrite <- app_assoc.
    split; [split; [intros _; exact HC|intros _; eexists; reflexivity]|].
    split; [split; [intros [w' Hw]; discriminate|intros Hn; contradiction]|].
    split; reflexivity.
Qed.

(** *** The commit command *)

Lemma executor_finish_scan_run cfg rels : forall w,
  exists w',
    executor_finish_scan cfg rels w = Done tt w'
    /\ containsDML (MtmTx w')
       = containsDML (MtmTx w) || existsb (replicated cfg) rels
    /\ isDistributed (MtmTx w') = isDistributed (MtmTx w).
Proof.
  induction rels as [|rel rest IH]; intros w; cbn [executor_finish_scan existsb].
  - exists w. rewrite orb_false_r. now repeat split.
  - unfold replicated at 1. destruct (RelationNeedsWAL rel); cbn [andb].
    + destruct (MtmIgnoreTablesWithoutPk cfg && negb (has_replident_index rel));
        cbn [negb orb].
      * unfold bind, emit.
        destruct (IH (set_trace w (trace w ++ [EvMtmMakeRelationLocal
                                                 (RelationGetRelid rel)])))
          as (w' & Hrun & Hdml & Hdist).
        exists w'. rewrite Hrun. now repeat split.
      * unfold bind, get_MtmTx, put_MtmTx. eexists. split; [reflexivity|].
        cbn [MtmTx set_MtmTx containsDML isDistributed].
        now rewrite orb_true_r.
    + apply IH.
Qed.

(** *** Runs of concrete clusters *)

Import Scenario.

Example commit3_run :
  exists w', MtmTwoPhaseCommit cfg1 user_insert commit3 = Done true w'
    /\ trace w'
       = [EvMtmRead online3; EvMtmRead online3;
          EvDmqAttachReceiver "node2" 1; EvDmqAttachReceiver "node3" 2;
          EvBeginTransactionBlock; EvCommitTransactionCommand;
          EvStartTransactionCommand;
          EvDmqStreamSubscribe "xid700";
          EvMtmRead online3;
          EvLWLockAcquire MtmCommitBarrier LW_SHARED;
          EvLWLockAcquire MtmStateLock LW_SHARED; EvMtmRead online3;
          EvLWLockRelease MtmStateLock;
          EvPrepareTransactionBlock "MTM-1-700"; EvCommitTransactionCommand;
          EvDmqPop 6; EvDmqPop 4;
          EvSetPreparedTransactionState "MTM-1-700" MULTIMASTER_PRECOMMITTED;
          EvDmqPop 6; EvDmqPop 2;
          EvStartTransactionCommand;
          EvFinishPreparedTransaction "MTM-1-700" true;
          EvDmqPop 6; EvDmqPop 4;
          EvLWLockRelease MtmCommitBarrier;
          EvDmqStreamUnsubscribe "xid700"; EvMaybeLogSyncpoint].
Proof. eexists. split; vm_compute; reflexivity. Qed.

Lemma participants_snapshot_witness :
  (exists w2,
     snapshot_participants cfg1
       (world_of (commit_prologue cfg1 user_insert
                    (world_of (commit_guard commit3))))
     = Done 6 w2)
  /\ exists w2,
       MtmTwoPhaseCommit cfg1 user_insert offline3 = Raised WentOffline w2.
Proof.
  split.
  - destruct (participants_snapshot cfg1 user_insert commit3
                (world_of (commit_guard commit3))
                (world_of (commit_prologue cfg1 user_insert
                             (world_of (commit_guard commit3))))
                (gid_of cfg1 user_insert, stream_of user_insert)
                online3 [])
      as [Hon _]; try (vm_compute; reflexivity).
    destruct (Hon eq_refl) as (w2 & Hrun & _). exists w2. exact Hrun.
  - destruct (participants_snapshot cfg1 user_insert offline3
                (world_of (commit_guard offline3))
                (world_of (commit_prologue cfg1 user_insert
                             (world_of (commit_guard offline3))))
                (gid_of cfg1 user_insert, stream_of user_insert)
                (cluster 3 0 MTM_DISABLED) [])
      as [_ Hoff]; try (vm_compute; reflexivity).
    destruct (Hoff ltac:(discriminate)) as (w2 & evs & Hrun & _).
    exists w2. exact Hrun.
Defined.

Lemma reaches_gather_at cfg h w mask :
  commit_guard w = Done true (world_of (commit_guard w)) ->
  commit_prologue cfg h (world_of (commit_guard w))
  = Done (gid_of cfg h, stream_of h)
      (world_of (commit_prologue cfg h (world_of (commit_guard w)))) ->
  snapshot_participants cfg
    (world_of (commit_prologue cfg h (world_of (commit_guard w))))
  = Done mask
      (world_of (snapshot_participants cfg
                   (world_of (commit_prologue cfg h (world_of (commit_guard w)))))) ->
  PrepareTransactionBlock h = true ->
  reaches_gather cfg h w (gid_of cfg h) (stream_of h) mask (at_gather cfg h w).
Proof.
  intros H0 H1 H2 H3. unfold reaches_gather. eauto 10.
Defined.

Lemma prepare_failure_witness :
  exists w',
    MtmTwoPhaseCommit cfg1 user_insert abort3
    = Raised (PrepareFailed "MTM-1-700" 3) w'.
Proof.
  assert (Hreach : reaches_gather cfg1 user_insert abort3
                     (gid_of cfg1 user_insert) (stream_of user_insert) 6
                     (at_gather cfg1 user_insert abort3))
    by (apply reaches_gather_at; vm_compute; reflexivity).
  assert (Hrun : GatherPrepares cfg1 6 (at_gather cfg1 user_insert abort3)
                 = Done (false, Some 3)
                     (world_of (GatherPrepares cfg1 6
                                  (at_gather cfg1 user_insert abort3))))
    by (vm_compute; reflexivity).
  destruct (prepare_failure _ _ _ _ _ _ _ _ _ _ Hreach Hrun)
    as (consumed & _ & _ & _ & _ & _ & _ & Hfail).
  destruct (Hfail eq_refl) as (before & a & after & n & _ & _ & _ & _ & Hfa & Hres).
  injection Hfa as <-. eexists. exact Hres.
Defined.


Example late_failure3_commits :
  exists w', MtmTwoPhaseCommit cfg1 user_insert late_failure3 = Done true w'
    /\ In (EvFinishPreparedTransaction "MTM-1-700" true) (trace w').
Proof. eexists. split; [vm_compute; reflexivity|]. vm_compute. tauto. Qed.

(** C5. The code has no check of a majority at the end of
    [GatherPrepares], only the comment "XXX: assert that majority has
    responded". In a cluster of five nodes with nodes 3, 4 and 5 disabled the
    participants of node 1 are node 2 alone; after the PREPARED of node 2
    [GatherPrepares] returns true, in a build with assertion checking, with no
    failed assertion, and the transaction is committed with two nodes out of
    five. In a cluster of two nodes where this node is ONLINE alone a build
    without assertion checking commits with one node out of two. *)
Theorem gather_prepares_accepts_minority :
  participants_of cfg1 (cluster 5 28 MTM_ONLINE) = 2
  /\ 2 * (1 + popcount 5 2) <= 5
  /\ (exists w', GatherPrepares cfg1 2 (at_gather cfg1 user_insert minority5)
                 = Done (true, None) w')
  /\ (exists w', MtmTwoPhaseCommit cfg1 user_insert minority5 = Done true w'
                /\ In (EvFinishPreparedTransaction "MTM-1-700" true) (trace w'))
  /\ participants_of cfg1_release (cluster 2 2 MTM_ONLINE) = 0
  /\ 2 * (1 + popcount 2 0) <= 2
  /\ exists w', MtmTwoPhaseCommit cfg1_release user_insert lone2 = Done true w'
               /\ In (EvFinishPreparedTransaction "MTM-1-700" true) (trace w').
Proof.
  split; [reflexivity|]. split; [vm_compute; discriminate|]. split.
  { eexists. vm_compute. reflexivity. }
  split.
  { eexists. split; [vm_compute; reflexivity|]. vm_compute. tauto. }
  split; [reflexivity|]. split; [vm_compute; discriminate|].
  eexists. split; [vm_compute; reflexivity|]. vm_compute. tauto.
Qed.

(** With assertion checking the same commit stops at
    [Assert(participantsMask != 0)]. *)
Example lone2_assert_fails :
  exists w', MtmTwoPhaseCommit cfg1 user_insert lone2 = Crashed AssertFailed w'.
Proof. eexists. vm_compute. reflexivity. Qed.

(** C6 as stated fails: a user session that runs "CREATE EXTENSION
    multimaster;" on a DISABLED node is admitted. *)
Lemma begin_admits_create_extension_offline :
  ~ (forall cfg h w Mtm rest,
       MtmIsUserTransaction h = true ->
       mtm_reads w = Mtm :: rest ->
       status Mtm <> MTM_ONLINE ->
       exists e w', MtmBeginTransaction cfg h w = Raised e w').
Proof.
  intros H.
  destruct (H cfg1 user_create_extension
              (backend [cluster 3 0 MTM_DISABLED] [])
              (cluster 3 0 MTM_DISABLED) [] eq_refl eq_refl ltac:(discriminate))
    as (e & w' & Hr).
  vm_compute in Hr. discriminate.
Qed.

Lemma begin_transaction_admission_witness :
  (exists w', MtmBeginTransaction cfg1 user_insert
                (backend [cluster 3 0 MTM_DISABLED] [])
              = Raised (NodeNotOnline MTM_DISABLED) w')
  /\ exists w', MtmBeginTransaction cfg1 user_create_extension
                  (backend [cluster 3 0 MTM_DISABLED] [])
                = Done tt w'.
Proof.
  split.
  - destruct (begin_transaction_admission cfg1 user_insert
                (backend [cluster 3 0 MTM_DISABLED] [])
                (cluster 3 0 MTM_DISABLED) [] eq_refl) as [[_ Hrej] _].
    apply Hrej. unfold refused_at_start.
    split; [reflexivity|]. split; [discriminate|]. split; [discriminate|].
    split; [discriminate|]. eexists. split; [reflexivity|].
    vm_compute. discriminate.
  - destruct (begin_transaction_admission cfg1 user_create_extension
                (backend [cluster 3 0 MTM_DISABLED] [])
                (cluster 3 0 MTM_DISABLED) [] eq_refl) as (_ & [_ Hadm] & _).
    apply Hadm. intros (_ & _ & _ & _ & q & Hq & Hne).
    injection Hq as <-. apply Hne. vm_compute. reflexivity.
Defined.

(** C7 as stated fails: with [isDistributed] and [containsDML] both set
    but the extension not created, [MtmTwoPhaseCommit] returns false without
    subscribing to anything. *)
Lemma commit_skipped_without_extension :
  ~ (forall cfg h w b w',
       isDistributed (MtmTx w) = true ->
       containsDML (MtmTx w) = true ->
       MtmTwoPhaseCommit cfg h w = Done b w' ->
       In (EvDmqStreamSubscribe (stream_of h)) (trace w')).
Proof.
  intros H.
  specialize (H cfg1 user_insert unconfigured3 false
                (world_of (MtmTwoPhaseCommit cfg1 user_insert unconfigured3))
                eq_refl eq_refl).
  assert (Hrun : MtmTwoPhaseCommit cfg1 user_insert unconfigured3
                 = Done false
                     (world_of (MtmTwoPhaseCommit cfg1 user_insert unconfigured3)))
    by (vm_compute; reflexivity).
  specialize (H Hrun). vm_compute in H. destruct H as [H|[]]. discriminate.
Qed.

Example insert_sets_containsDML :
  containsDML
    (MtmTx (world_of
       (MtmExecutorFinish cfg1
          {| operation := CMD_INSERT; es_processed := 1;
             es_result_relations :=
               [{| RelationGetRelid := 16384; RelationNeedsWAL := true;
                   has_replident_index := false |}];
             is_MtmDDLStatement := false |}
          (set_MtmTx commit3 {| xid := 0; isDistributed := true;
                                containsDML := false |}))))
  = true.
Proof. reflexivity. Qed.

(** With more fuel than the model takes the loops do the same: a run
    never stops for lack of fuel, only for lack of answers. *)
Lemma wait_fuel_irrelevant fuel w :
  (fuel_of w <= fuel)%nat ->
  while_fuel fuel (fun _ => Mtm <- read_Mtm ;; ret (stop_new_commits Mtm))
             (fun _ => emit (EvMtmSleep USECS_PER_SEC)) tt w
  = wait_stop_new_commits w.
Proof.
  intros Hf. unfold wait_stop_new_commits, while.
  apply (while_fuel_enough _ _ script_left); unfold fuel_of, script_left in *; try lia.
  intros [] w0 c w1 [] w2 Hc Hb.
  bind_inv Hc. apply ret_inv in Hc as [_ <-]. unfold read_Mtm in Hstep.
  destruct (mtm_reads w0) as [|Mtm rest] eqn:Hr; [discriminate|].
  injection Hstep as _ <-. apply emit_inv in Hb. subst w2.
  cbn [mtm_reads dmq_input set_trace set_mtm_reads length]. lia.
Qed.

Lemma GatherPrepares_fuel_irrelevant cfg fuel st w :
  (fuel_of w <= fuel)%nat ->
  while_fuel fuel mask_not_empty (GatherPrepares_body cfg) st w
  = while mask_not_empty (GatherPrepares_body cfg) st w.
Proof.
  intros Hf. unfold while.
  apply (while_fuel_enough _ _ script_left); unfold fuel_of, script_left in *; try lia.
  intros s w0 c w1 s' w2 Hc Hb. unfold mask_not_empty in Hc.
  apply ret_inv in Hc as [_ <-].
  apply GatherPrepares_body_run in Hb
    as (a & rest & n & Hin & Hin' & _ & _ & Hreads & _).
  rewrite Hin, Hin', Hreads. cbn [length]. lia.
Qed.

Lemma GatherPrecommits_fuel_irrelevant cfg expected fuel mask w :
  (fuel_of w <= fuel)%nat ->
  while_fuel fuel (fun m => ret (negb (m =? 0)))
    (GatherPrecommits_body cfg expected) mask w
  = while (fun m => ret (negb (m =? 0))) (GatherPrecommits_body cfg expected) mask w.
Proof.
  intros Hf. unfold while.
  apply (while_fuel_enough _ _ (fun w => length (dmq_input w)));
    unfold fuel_of in *; try lia.
  intros s w0 c w1 s' w2 Hc Hb. apply ret_inv in Hc as [_ <-].
  pose proof (GatherPrecommits_body_cases cfg expected s w0) as H.
  rewrite Hb in H. destruct H as (a & rest & n & Hin & Hin' & _).
  rewrite Hin, Hin'. cbn [length]. lia.
Qed.

(** The barrier is closed for two polls. *)
Example commit3_waits :
  exists w',
    MtmTwoPhaseCommit cfg1 user_insert
      (backend [online3; online3; closed3; closed3; online3; online3]
         (dmq_input commit3))
    = Done true w'
    /\ List.filter (fun e => match e with EvMtmSleep _ => true | _ => false end)
         (trace w')
       = [EvMtmSleep USECS_PER_SEC; EvMtmSleep USECS_PER_SEC].
Proof. eexists. split; vm_compute; reflexivity. Qed.

End CommitFacts.

(* ===================================================================== *)
(** ** The peers of a backend *)
(* ===================================================================== *)

Module PeersFacts.
Import Stdio Commit CommitFacts Peers.

Lemma attach_loop_run cfg : forall n i pre mid post w,
  sender_to_node w = pre ++ mid ++ post ->
  length mid = length (peers_from (MtmNodeId cfg) n (i + 1)) ->
  forall s, s = Z.of_nat (length pre) ->
  exists w',
    attach_loop cfg n i s w = Done tt w'
    /\ sender_to_node w' = pre ++ peers_from (MtmNodeId cfg) n (i + 1) ++ post
    /\ trace w' = trace w ++ map attach_event (peers_from (MtmNodeId cfg) n (i + 1))
    /\ DmqSubscribed w' = DmqSubscribed w
    /\ mtm_reads w' = mtm_reads w
    /\ dmq_input w' = dmq_input w
    /\ MtmTx w' = MtmTx w.
Proof.
  induction n as [|n IH]; intros i pre mid post w Harr Hlen s Hs.
  - cbn [attach_loop peers_from] in *. exists w.
    destruct mid; [|discriminate]. cbn [app map] in *.
    rewrite app_nil_r. repeat split; assumption.
  - cbn [attach_loop peers_from] in *.
    destruct (Z.eqb_spec (i + 1) (MtmNodeId cfg)) as [Hself|Hother]; cbn [negb app].
    + destruct (IH (i + 1) pre mid post w Harr Hlen s Hs) as (w' & Hrun & Hrest).
      exists w'. unfold bind at 1. unfold ret at 1. split; [exact Hrun|exact Hrest].
    + cbn [app length] in Hlen. destruct mid as [|m mid]; [discriminate|].
      injection Hlen as Hlen.
      set (w1 := set_sender_to_node
                   (set_trace w (trace w ++ [attach_event (i + 1)]))
                   (pre ++ [i + 1] ++ mid ++ post)).
      assert (Hfirst :
        (emit (EvDmqAttachReceiver (sprintf "node%d" [i + 1]) i) ;;
         sender_to_node_store s (i + 1) ;; ret (s + 1)) w = Done (s + 1) w1).
      { cbv beta iota delta [bind emit sender_to_node_store ret].
        cbn [sender_to_node set_trace]. rewrite Harr.
        assert (Hin : (0 <=? s) && (s <? Z.of_nat (length (pre ++ (m :: mid) ++ post))) = true).
        { rewrite !length_app. cbn [length]. apply andb_true_iff.
          split; [apply Z.leb_le|apply Z.ltb_lt]; lia. }
        rewrite Hin. f_equal. unfold w1, attach_event.
        replace (i + 1 - 1) with i by lia.
        f_equal. subst s. rewrite Nat2Z.id.
        replace (length pre) with (length pre + 0)%nat at 1 by lia.
        rewrite insert_app_r. reflexivity. }
      destruct (IH (i + 1) (pre ++ [i + 1]) mid post w1) with (s := s + 1)
        as (w' & Hrun & Harr' & Htr & Hsub & Hreads & Hin & Htx).
      * unfold w1. cbn [sender_to_node set_sender_to_node].
        now rewrite <- app_assoc.
      * exact Hlen.
      * rewrite length_app. cbn [length]. lia.
      * exists w'. rewrite (bind_Done _ _ _ _ _ Hfirst). split; [exact Hrun|].
        split; [rewrite Harr', <- app_assoc; reflexivity|].
        split; [rewrite Htr; unfold w1; cbn [trace set_sender_to_node set_trace map];
                rewrite <- app_assoc; reflexivity|].
        repeat split; assumption.
Qed.

Lemma peers_from_length self n first :
  (length (peers_from self n first) <= n)%nat.
Proof.
  revert first. induction n as [|n IH]; intros first; cbn [peers_from length]; [lia|].
  rewrite length_app. specialize (IH (first + 1)).
  destruct (first =? self); cbn [length]; lia.
Qed.

Lemma peers_from_lookup self : forall n first k,
  first <= self < first + Z.of_nat n ->
  (k < n - 1)%nat ->
  peers_from self n first !! k
  = Some (if first + Z.of_nat k <? self then first + Z.of_nat k
          else first + Z.of_nat k + 1).
Proof.
  induction n as [|n IH]; intros first k Hself Hk; [lia|].
  cbn [peers_from].
  destruct (Z.eqb_spec first self) as [Heq|Hne]; cbn [app].
  - (* the rest holds no [self] *)
    subst first. clear IH Hself.
    assert (Hrest : forall m first j, self < first -> (j < m)%nat ->
              peers_from self m first !! j = Some (first + Z.of_nat j)).
    { induction m as [|m IHm]; intros first j Hlt Hj; [lia|].
      cbn [peers_from]. destruct (Z.eqb_spec first self); [lia|]. cbn [app].
      destruct j as [|j]; [cbn; f_equal; lia|].
      cbn [lookup list_lookup]. rewrite IHm by lia. f_equal. lia. }
    rewrite Hrest by lia.
    destruct (Z.ltb_spec (self + Z.of_nat k) self); [lia|]. f_equal. lia.
  - destruct k as [|k].
    + cbn. change (Z.of_nat 0) with 0. rewrite !Z.add_0_r.
      destruct (Z.ltb_spec first self); [reflexivity|lia].
    + cbn [lookup list_lookup]. rewrite IH by lia.
      replace (first + 1 + Z.of_nat k) with (first + Z.of_nat (S k)) by lia.
      reflexivity.
Qed.

(** X1. The first commit of a backend attaches one DMQ receiver to every
    node other than its own, in ascending order of node id, the receiver of
    node [j] at mask position [j - 1], and fills [sender_to_node] with these
    node ids, so that sender [s] is node [s + 1] below the own id and node
    [s + 2] from it on. Once done, it is not done again by this backend. *)
Theorem attach_receivers_peers (cfg : config) (w : world) (Mtm : MtmState)
    (rest : list MtmState) :
  DmqSubscribed w = false ->
  mtm_reads w = Mtm :: rest ->
  (length (peers (MtmNodeId cfg) (nAllNodes Mtm)) <= length (sender_to_node w))%nat ->
  exists w',
    attach_receivers cfg w = Done tt w'
    /\ trace w' = trace w ++ EvMtmRead Mtm
                  :: map attach_event (peers (MtmNodeId cfg) (nAllNodes Mtm))
    /\ sender_to_node w'
       = peers (MtmNodeId cfg) (nAllNodes Mtm)
         ++ drop (length (peers (MtmNodeId cfg) (nAllNodes Mtm))) (sender_to_node w)
    /\ (1 <= MtmNodeId cfg <= nAllNodes Mtm ->
        forall s, 0 <= s < nAllNodes Mtm - 1 ->
          sender_to_node w' !! Z.to_nat s
          = Some (if s + 1 <? MtmNodeId cfg then s + 1 else s + 2))
    /\ DmqSubscribed w' = true
    /\ attach_receivers cfg w' = Done tt w'.
Proof.
  intros Hsub Hreads Hroom.
  set (ps := peers (MtmNodeId cfg) (nAllNodes Mtm)) in *.
  set (w1 := set_trace (set_mtm_reads w rest) (trace w ++ [EvMtmRead Mtm])).
  assert (Hread : read_Mtm w = Done Mtm w1) by (unfold read_Mtm; now rewrite Hreads).
  destruct (attach_loop_run cfg (Z.to_nat (nAllNodes Mtm)) 0 []
              (take (length ps) (sender_to_node w))
              (drop (length ps) (sender_to_node w)) w1) with (s := 0)
    as (w2 & Hrun & Harr & Htr & Hsub2 & Hreads2 & Hin2 & Htx2).
  { unfold w1. cbn [sender_to_node set_trace set_mtm_reads app].
    now rewrite take_drop. }
  { rewrite length_take. change (0 + 1) with 1.
    fold (peers (MtmNodeId cfg) (nAllNodes Mtm)). fold ps. lia. }
  { reflexivity. }
  change (peers_from (MtmNodeId cfg) (Z.to_nat (nAllNodes Mtm)) (0 + 1)) with ps in *.
  cbn [app] in Harr.
  exists (set_DmqSubscribed w2 true).
  assert (Hgo : attach_receivers cfg w = Done tt (set_DmqSubscribed w2 true)).
  { unfold attach_receivers. rewrite Hsub. cbn [negb].
    rewrite (bind_Done _ _ _ _ _ Hread), (bind_Done _ _ _ _ _ Hrun). reflexivity. }
  split; [exact Hgo|].
  split.
  { cbn [trace set_DmqSubscribed]. rewrite Htr. unfold w1.
    cbn [trace set_trace set_mtm_reads]. now rewrite <- app_assoc. }
  split; [exact Harr|].
  split.
  { intros Hself s Hs. cbn [sender_to_node set_DmqSubscribed]. rewrite Harr.
    rewrite lookup_app_l.
    2:{ unfold ps, peers.
        assert (Hk := peers_from_lookup (MtmNodeId cfg) (Z.to_nat (nAllNodes Mtm)) 1
                        (Z.to_nat s) ltac:(lia) ltac:(lia)).
        apply lookup_lt_is_Some. eauto. }
    unfold ps, peers. rewrite peers_from_lookup by lia.
    rewrite Z2Nat.id by lia.
    replace (1 + s) with (s + 1) by lia. replace (s + 1 + 1) with (s + 2) by lia.
    reflexivity. }
  split; [reflexivity|].
  unfold attach_receivers. reflexivity.
Qed.

Lemma attach_receivers_peers_witness :
  exists w',
    attach_receivers Scenario.cfg1 Scenario.commit3 = Done tt w'
    /\ sender_to_node w' = [2; 3; 0; 0; 0; 0]
    /\ DmqSubscribed w' = true.
Proof.
  destruct (attach_receivers_peers Scenario.cfg1 Scenario.commit3 Scenario.online3
              [Scenario.online3; Scenario.online3; Scenario.online3])
    as (w' & Hrun & _ & Harr & _ & Hsub & _);
    [reflexivity|reflexivity|vm_compute; lia|].
  exists w'. split; [exact Hrun|]. split; [exact Harr|exact Hsub].
Defined.

End PeersFacts.

(* ===================================================================== *)
(** ** Identifiers that are not multimaster's *)
(* ===================================================================== *)

Module ForeignGidFacts.
Import Stdio Gid StdioFacts.

Lemma scan_literal_mismatch (ds : list directive) (gid : string) :
  String.prefix "MTM-" gid = false ->
  scan (Lit "M" :: Lit "T" :: Lit "M" :: Lit "-" :: ds) gid = [].
Proof.
  intros Hpre.
  repeat (destruct gid as [|? gid]; [reflexivity|]; cbn [scan];
          cbn [String.prefix] in Hpre;
          match type of Hpre with
          | (if ascii_dec ?a ?b then _ else _) = _ =>
              destruct (ascii_dec a b) as [<-|Hne];
              [replace (Ascii.eqb a a) with true by (symmetry; apply Ascii.eqb_refl)
              |destruct (Ascii.eqb_spec a b); [contradiction|reflexivity]]
          end).
  destruct gid; discriminate.
Qed.

(** X2. A prepared-transaction identifier that does not begin with [MTM-]
    (one that a client chose in PREPARE TRANSACTION) has no node: 
    [MtmGidParseNodeId] gives [-1]. [MtmGidParseXid] gives
    [InvalidTransactionId] for it, and fails its assertion in a build that
    checks assertions. *)
Theorem foreign_gid_not_parsed (gid : string) :
  String.prefix "MTM-" gid = false ->
  MtmGidParseNodeId gid = -1
  /\ MtmGidParseXid false gid = Some InvalidTransactionId
  /\ MtmGidParseXid true gid = None.
Proof.
  intros Hpre. unfold MtmGidParseNodeId, MtmGidParseXid, sscanf.
  replace (parse_format "MTM-%d-%*d")
    with [Lit "M"; Lit "T"; Lit "M"; Lit "-"; Conv true false; Lit "-";
          Conv true true] by reflexivity.
  replace (parse_format (String.append "MTM-%*d-" XID_FMT))
    with [Lit "M"; Lit "T"; Lit "M"; Lit "-"; Conv true true; Lit "-";
          Conv false false] by reflexivity.
  rewrite !scan_literal_mismatch by exact Hpre.
  repeat split.
Qed.

Lemma foreign_gid_not_parsed_witness :
  MtmGidParseNodeId "pgbench-tx-17" = -1
  /\ MtmGidParseXid false "pgbench-tx-17" = Some InvalidTransactionId
  /\ MtmGidParseXid true "pgbench-tx-17" = None.
Proof. apply (foreign_gid_not_parsed "pgbench-tx-17"). reflexivity. Defined.

End ForeignGidFacts.

(* ===================================================================== *)
(** ** Calls into the host *)
(* ===================================================================== *)

Module CallsFacts.
Import Calls.

Lemma Assert_cases {C E} ac c :
  @Assert C E ac c = Ok tt [] \/ @Assert C E ac c = Fault AssertFailed [].
Proof. unfold Assert. destruct (ac && negb c); [right|left]; reflexivity. Qed.

Lemma Assert_true {C E} ac : @Assert C E ac true = Ok tt [].
Proof. unfold Assert. now rewrite andb_false_r. Qed.

Lemma bind_Ok {C E A B} (m : outcome C E A) (f : A -> outcome C E B) a l :
  m = Ok a l ->
  bind m f = match f a with
             | Ok b l' => Ok b (l ++ l')
             | Error e l' => Error e (l ++ l')
             | Fault x l' => Fault x (l ++ l')
             end.
Proof. intros ->. reflexivity. Qed.

Lemma bind_Ok_inv {C E A B} (m : outcome C E A) (f : A -> outcome C E B) b l :
  bind m f = Ok b l ->
  exists a l1 l2, m = Ok a l1 /\ f a = Ok b l2 /\ l = l1 ++ l2.
Proof.
  unfold bind. destruct m as [a l1| |]; [|discriminate|discriminate].
  destruct (f a) as [b' l2| |] eqn:Hf; [|discriminate|discriminate].
  intros H. injection H as <- <-. eauto 6.
Qed.

Lemma bind_Ok_Ok {C E A B} (m : outcome C E A) (f : A -> outcome C E B) a l b l' :
  m = Ok a l -> f a = Ok b l' -> bind m f = Ok b (l ++ l').
Proof. intros -> Hf. cbn [bind]. now rewrite Hf. Qed.

Lemma bind_Ok_nil {C E A B} (m : outcome C E A) (f : A -> outcome C E B) a b l :
  m = Ok a [] -> f a = Ok b l -> bind m f = Ok b l.
Proof. intros -> Hf. cbn [bind]. now rewrite Hf. Qed.

Lemma bind_ret_l {C E A B} (a : A) (f : A -> outcome C E B) :
  bind (Ok a []) f = f a.
Proof. unfold bind. now destruct (f a). Qed.

Lemma bind_ext {C E A B} (m : outcome C E A) (f g : A -> outcome C E B) :
  (forall a, f a = g a) -> bind m f = bind m g.
Proof. intros H. unfold bind. destruct m; [now rewrite H|reflexivity..]. Qed.

Ltac bind_ok H :=
  let a := fresh "a" in
  let l1 := fresh "l" in
  let l2 := fresh "l" in
  let Hstep := fresh "Hstep" in
  apply bind_Ok_inv in H as (a & l1 & l2 & Hstep & H & ->);
  try match type of a with unit => destruct a end.

Lemma do_call_inv {C E} (c : C) u l : @do_call C E c = Ok u l -> l = [c].
Proof. unfold do_call. intros H. now injection H as _ <-. Qed.

Lemma ret_Ok_inv {C E A} (a b : A) l : @ret C E A a = Ok b l -> a = b /\ l = [].
Proof. unfold ret. intros H. injection H as <- <-. now split. Qed.

Lemma Assert_Ok_inv {C E} ac c u l : @Assert C E ac c = Ok u l -> l = [] /\ (ac = true -> c = true).
Proof.
  unfold Assert. destruct ac, c; cbn; intros H; try discriminate;
    injection H as <-; split; auto; discriminate.
Qed.

Lemma guard_inv {C E} (c : bool) (e : E) u l :
  (if c then raise e else ret tt) = (Ok u l : outcome C E unit) -> c = false /\ l = [].
Proof. destruct c; cbn; intros H; [discriminate|]. injection H as <-. now split. Qed.

Lemma when_inv {C E} (c : bool) (x : C) u l :
  (if c then do_call x else ret tt) = (Ok u l : outcome C E unit) ->
  l = if c then [x] else [].
Proof. destruct c; cbn; intros H; now injection H as <-. Qed.

End CallsFacts.

(* ===================================================================== *)
(** ** Node management *)
(* ===================================================================== *)

Module NodesFacts.
Import Stdio StdioFacts Calls CallsFacts Nodes.

Lemma check_config_run (s : settings) :
  exists ok ws,
    check_config s = Ok ok ws
    /\ Forall is_warning ws
    /\ (ok = true <-> config_ok s)
    /\ (ok = true <-> ws = []).
Proof.
  unfold check_config, config_ok, require.
  destruct (Z.ltb_spec (MtmMaxNodes s) 1);
  destruct (Z.ltb_spec (max_prepared_xacts s) 1);
  destruct (Z.ltb_spec (max_worker_processes s) (int32_wrap (2 * MtmMaxNodes s + 1)));
  destruct (wal_level s) eqn:Hwal;
  destruct (Z.ltb_spec (max_wal_senders s) (MtmMaxNodes s));
  destruct (Z.ltb_spec (max_replication_slots s) (MtmMaxNodes s));
  cbn [wal_level_eqb negb bind do_call ret app];
  eexists; eexists; (split; [reflexivity|]);
  (split; [repeat constructor|]);
  (split; (split; [intros Hok; try discriminate; repeat split; (lia || reflexivity)
                  |intros Hc; try reflexivity; try discriminate;
                   exfalso; destruct Hc as (? & ? & ? & ? & ? & ?);
                   first [lia|discriminate]])).
Qed.

Lemma own_node_id_run nm ss :
  (exists n, own_node_id nm ss = Ok n []) \/ (exists e, own_node_id nm ss = Error e []).
Proof.
  unfold own_node_id.
  destruct (Mtm_my_node_id ss =? 0); [|left; eexists; reflexivity].
  destruct (emerging_node_id ss) as [em|]; [|right; eexists; reflexivity].
  match goal with |- context [if ?c then _ else _] => destruct c end;
    [right|left]; eexists; reflexivity.
Qed.

Lemma host_call_cases ss c :
  (host_raises ss c = false /\ host_call ss c = Ok tt [c])
  \/ (host_raises ss c = true /\ host_call ss c = Error (RaisedByHost c) []).
Proof. unfold host_call. destruct (host_raises ss c); [right|left]; now split. Qed.

(** A sequence of host calls goes as far as [until_raise] says. *)
Ltac host_step ss :=
  match goal with
  | |- context [host_call ss ?c] =>
      destruct (host_call_cases ss c) as [[? ->]|[? ->]];
      cbn [bind ret app]
  end.

Lemma own_calls_run nm ss :
  match until_raise ss (own_calls nm ss) with
  | (done, None) =>
      (host_call ss (CreatePublication (MULTIMASTER_NAME nm) true) ;;
       host_call ss (MtmMonitorStart (MyDatabaseId ss) (GetUserId ss)))
      = Ok tt done
  | (done, Some c) =>
      (host_call ss (CreatePublication (MULTIMASTER_NAME nm) true) ;;
       host_call ss (MtmMonitorStart (MyDatabaseId ss) (GetUserId ss)))
      = Error (RaisedByHost c) done
  end.
Proof.
  unfold own_calls. cbn [until_raise].
  repeat (host_step ss;
          match goal with H : host_raises ss _ = _ |- _ => rewrite H; clear H end;
          try reflexivity).
Qed.

Lemma neighbour_calls_run nm ss conninfo my_node_id node_id :
  match until_raise ss (neighbour_calls nm conninfo my_node_id node_id) with
  | (done, None) =>
      (host_call ss (MtmReceiverCreateSlot conninfo my_node_id) ;;
       host_call ss (CreateSubscription (psprintf (MTM_SUBNAME_FMT nm) node_id)
                       conninfo (MULTIMASTER_NAME nm) subscription_options) ;;
       host_call ss (ReplicationSlotCreate
                       (psprintf (MULTIMASTER_RECOVERY_SLOT_PATTERN nm) node_id)) ;;
       host_call ss ReplicationSlotReserveWal ;;
       host_call ss ReplicationSlotMarkDirty ;;
       host_call ss ReplicationSlotSave ;;
       host_call ss ReplicationSlotRelease ;;
       host_call ss (replorigin_create (psprintf (MULTIMASTER_SLOT_PATTERN nm) node_id)))
      = Ok tt done
  | (done, Some c) =>
      (host_call ss (MtmReceiverCreateSlot conninfo my_node_id) ;;
       host_call ss (CreateSubscription (psprintf (MTM_SUBNAME_FMT nm) node_id)
                       conninfo (MULTIMASTER_NAME nm) subscription_options) ;;
       host_call ss (ReplicationSlotCreate
                       (psprintf (MULTIMASTER_RECOVERY_SLOT_PATTERN nm) node_id)) ;;
       host_call ss ReplicationSlotReserveWal ;;
       host_call ss ReplicationSlotMarkDirty ;;
       host_call ss ReplicationSlotSave ;;
       host_call ss ReplicationSlotRelease ;;
       host_call ss (replorigin_create (psprintf (MULTIMASTER_SLOT_PATTERN nm) node_id)))
      = Error (RaisedByHost c) done
  end.
Proof.
  unfold neighbour_calls. cbn [until_raise].
  repeat (host_step ss;
          match goal with H : host_raises ss _ = _ |- _ => rewrite H; clear H end;
          try reflexivity).
Qed.

Lemma until_raise_split ss : forall cs done stop,
  until_raise ss cs = (done, stop) ->
  Forall (fun c => host_raises ss c = false) done
  /\ match stop with
     | None => cs = done
     | Some c => host_raises ss c = true /\ exists after, cs = done ++ c :: after
     end.
Proof.
  induction cs as [|c cs IH]; intros done stop; cbn [until_raise].
  - intros H. injection H as <- <-. now split.
  - destruct (host_raises ss c) eqn:Hc.
    + intros H. injection H as <- <-. split; [constructor|].
      split; [exact Hc|]. now exists cs.
    + destruct (until_raise ss cs) as [done' stop'].
      intros H. injection H as <- <-.
      destruct (IH _ _ eq_refl) as [Hall Hstop]. split; [now constructor|].
      destruct stop' as [c'|].
      * destruct Hstop as [Hc' [after ->]]. split; [exact Hc'|]. now exists after.
      * now rewrite Hstop.
Qed.

(** The ways in which [mtm_after_node_create] ends. *)
Lemma node_create_cases (nm : names) (s : settings) (ss : session)
    (tup : nodes_tuple) :
  match mtm_after_node_create nm s ss tup with
  | Ok _ l =>
      config_ok s
      /\ 1 <= DatumGetInt32 (tg_id tup) <= MTM_MAX_NODES nm
      /\ exists conninfo,
           tg_conninfo tup = Some conninfo
           /\ if DatumGetBool (tg_is_self tup) then l = own_calls nm ss
              else exists my_node_id,
                     own_node_id nm ss = Ok my_node_id []
                     /\ l = neighbour_calls nm conninfo my_node_id
                              (DatumGetInt32 (tg_id tup))
  | Error (RaisedByHost c) l =>
      host_raises ss c = true
      /\ Forall (fun c' => host_raises ss c' = false) l
      /\ config_ok s
      /\ 1 <= DatumGetInt32 (tg_id tup) <= MTM_MAX_NODES nm
      /\ exists conninfo,
           tg_conninfo tup = Some conninfo
           /\ exists after,
                if DatumGetBool (tg_is_self tup)
                then own_calls nm ss = l ++ c :: after
                else exists my_node_id,
                       own_node_id nm ss = Ok my_node_id []
                       /\ neighbour_calls nm conninfo my_node_id
                            (DatumGetInt32 (tg_id tup))
                          = l ++ c :: after
  | Error _ l => Forall is_warning l
  | Fault _ l => l = []
  end.
Proof.
  unfold mtm_after_node_create.
  destruct (@Assert_cases call node_error (assert_checking ss) (negb (is_null (tg_id tup))))
    as [-> | ->]; cbn [bind]; [|reflexivity].
  destruct (tg_conninfo tup) as [conninfo|]; cbn [text_to_cstring ret crash bind];
    [|reflexivity].
  destruct (@Assert_cases call node_error (assert_checking ss) (negb (is_null (tg_is_self tup))))
    as [-> | ->]; cbn [bind app]; [|reflexivity].
  destruct (Z.leb_spec (DatumGetInt32 (tg_id tup)) 0) as [Hlow|Hlow];
    cbn [orb raise ret bind app]; [constructor|].
  destruct (Z.ltb_spec (MTM_MAX_NODES nm) (DatumGetInt32 (tg_id tup))) as [Hhigh|Hhigh];
    cbn [raise ret bind app]; [constructor|].
  destruct (check_config_run s) as (ok & ws & Hrun & Hws & Hok & Hnil).
  rewrite Hrun. destruct ok; cbn [negb raise ret bind app].
  2:{ rewrite app_nil_r. exact Hws. }
  assert (ws = []) as -> by (now apply Hnil). cbn [app].
  assert (Hcfg : config_ok s) by (now apply Hok).
  destruct (DatumGetBool (tg_is_self tup)).
  - pose proof (own_calls_run nm ss) as Hcalls.
    destruct (until_raise ss (own_calls nm ss)) as [done stop] eqn:Hu.
    apply until_raise_split in Hu as [Hall Hstop].
    destruct stop as [c|]; rewrite Hcalls.
    + destruct Hstop as [Hc [after Heq]].
      split; [exact Hc|]. split; [exact Hall|]. split; [exact Hcfg|].
      split; [lia|]. exists conninfo. split; [reflexivity|]. now exists after.
    + split; [exact Hcfg|]. split; [lia|]. exists conninfo. now split.
  - destruct (own_node_id_run nm ss) as [[n Hn]|[e He]].
    2:{ rewrite He. cbn [bind]. unfold own_node_id in He.
        destruct e; try (now constructor).
        exfalso. revert He. unfold raise, ret.
        destruct (Mtm_my_node_id ss =? 0); [|discriminate].
        destruct (emerging_node_id ss); [|discriminate].
        match goal with |- context [if ?c then _ else _] => destruct c end;
          discriminate. }
    rewrite Hn. rewrite bind_ret_l.
    pose proof (neighbour_calls_run nm ss conninfo n (DatumGetInt32 (tg_id tup)))
      as Hcalls.
    destruct (until_raise ss (neighbour_calls nm conninfo n (DatumGetInt32 (tg_id tup))))
      as [done stop] eqn:Hu.
    apply until_raise_split in Hu as [Hall Hstop].
    destruct stop as [c|]; rewrite Hcalls.
    + destruct Hstop as [Hc [after Heq]].
      split; [exact Hc|]. split; [exact Hall|]. split; [exact Hcfg|].
      split; [lia|]. exists conninfo. split; [reflexivity|]. exists after.
      exists n. now split.
    + split; [exact Hcfg|]. split; [lia|]. exists conninfo.
      split; [reflexivity|]. exists n. now split.
Qed.

(** X3. How [mtm_after_node_create] ends, and what it has changed by then.
    - The ERRORs it raises itself (node id out of range, settings rejected
      by [check_config], no own node and no [mtm.emerging_node_id], that id
      out of range) all come before the first change: it has at most logged
      the warnings of [check_config].
    - When it stops on a NULL connection string or a failed assertion it has
      done nothing.
    - When a function of the host raises an ERROR, the node id and the
      settings have passed the checks, and the calls before that one have
      been made and returned, in the order of the complete set: for a
      neighbour the slot on the neighbour can exist with the subscription,
      the recovery slot or the origin missing.
    - When it returns, the node id is in [1 .. MTM_MAX_NODES], the settings
      pass [check_config], and it has made the complete set of changes: for
      the node's own row the publication and the monitor, for a neighbour the
      slot on the neighbour, the subscription, the recovery slot and the
      origin. *)
Theorem node_create_changes (nm : names) (s : settings) (ss : session)
    (tup : nodes_tuple) :
  match mtm_after_node_create nm s ss tup with
  | Ok _ l =>
      config_ok s
      /\ 1 <= DatumGetInt32 (tg_id tup) <= MTM_MAX_NODES nm
      /\ exists conninfo,
           tg_conninfo tup = Some conninfo
           /\ if DatumGetBool (tg_is_self tup) then l = own_calls nm ss
              else exists my_node_id,
                     own_node_id nm ss = Ok my_node_id []
                     /\ l = neighbour_calls nm conninfo my_node_id
                              (DatumGetInt32 (tg_id tup))
  | Error (RaisedByHost c) l =>
      host_raises ss c = true
      /\ Forall (fun c' => host_raises ss c' = false) l
      /\ config_ok s
      /\ 1 <= DatumGetInt32 (tg_id tup) <= MTM_MAX_NODES nm
      /\ exists conninfo,
           tg_conninfo tup = Some conninfo
           /\ exists after,
                if DatumGetBool (tg_is_self tup)
                then own_calls nm ss = l ++ c :: after
                else exists my_node_id,
                       own_node_id nm ss = Ok my_node_id []
                       /\ neighbour_calls nm conninfo my_node_id
                            (DatumGetInt32 (tg_id tup))
                          = l ++ c :: after
  | Error _ l => Forall is_warning l
  | Fault _ l => l = []
  end.
Proof. exact (node_create_cases nm s ss tup). Qed.

(** A neighbour whose subscription cannot be created: the slot on the
    neighbour has been made when the ERROR is raised. *)
Example node_create_stops_half_way :
  mtm_after_node_create names1 settings1 session1_taken tuple2
  = Error (RaisedByHost
             (CreateSubscription "mtm_sub_2" "host=node2 dbname=app" "multimaster"
                subscription_options))
          [MtmReceiverCreateSlot "host=node2 dbname=app" 1].
Proof. reflexivity. Qed.

(** *** The launcher *)

Lemma hash_find_In a d : hash_find a d = true <-> In d a.
Proof.
  unfold hash_find. rewrite existsb_exists. split.
  - intros (x & Hin & Heq). apply Z.eqb_eq in Heq. now subst.
  - intros Hin. exists d. split; [exact Hin|apply Z.eqb_refl].
Qed.

Lemma first_owner_cons nm sub rest d :
  first_owner nm (sub :: rest) d
  = if mtm_subscription nm sub && (subdbid sub =? d) then Some (subowner sub)
    else first_owner nm rest d.
Proof.
  unfold first_owner. cbn [List.find].
  now destruct (mtm_subscription nm sub && (subdbid sub =? d)).
Qed.

Lemma launcher_scan_run nm ac : forall subs a,
  NoDup a ->
  exists ms,
    launcher_scan nm ac subs a = Ok (a ++ map fst ms) (map monitor_start ms)
    /\ NoDup (a ++ map fst ms)
    /\ forall d o, In (d, o) ms <-> ~ In d a /\ first_owner nm subs d = Some o.
Proof.
  induction subs as [|sub rest IH]; intros a Hnd.
  - exists []. cbn [launcher_scan map]. rewrite app_nil_r.
    split; [reflexivity|]. split; [exact Hnd|].
    intros d o. unfold first_owner. cbn [List.find In]. split; [tauto|].
    intros [_ H]; discriminate.
  - cbn [launcher_scan]. fold (mtm_subscription nm sub).
    destruct (mtm_subscription nm sub) eqn:Hm; cbn [andb].
    + destruct (hash_find a (subdbid sub)) eqn:Hf; cbn [negb].
      * (* the database has its monitor already *)
        apply hash_find_In in Hf.
        destruct (IH a Hnd) as (ms & Hrun & Hnd' & Hin).
        exists ms. split; [exact Hrun|]. split; [exact Hnd'|].
        intros d o. rewrite Hin, first_owner_cons, Hm. cbn [andb].
        destruct (Z.eqb_spec (subdbid sub) d) as [<-|Hne]; tauto.
      * assert (Hnot : ~ In (subdbid sub) a).
        { intros Hin. apply hash_find_In in Hin. congruence. }
        assert (Hnd1 : NoDup (a ++ [subdbid sub])).
        { apply NoDup_app. split; [exact Hnd|]. split.
          - intros x Hx Hx'. apply list_elem_of_In in Hx, Hx'.
            destruct Hx' as [<-|[]]. contradiction.
          - repeat constructor. intros H. inversion H. }
        destruct (IH (a ++ [subdbid sub]) Hnd1) as (ms & Hrun & Hnd' & Hin).
        exists ((subdbid sub, subowner sub) :: ms).
        unfold hash_enter. rewrite Hf. unfold Assert. rewrite andb_false_r.
        cbn [do_call ret bind app negb]. rewrite Hrun. cbn [map fst].
        rewrite <- app_assoc in *. cbn [app] in *.
        split; [reflexivity|]. split; [exact Hnd'|].
        intros d o. cbn [In]. rewrite Hin, first_owner_cons, Hm, in_app_iff.
        cbn [andb In].
        destruct (Z.eqb_spec (subdbid sub) d) as [<-|Hne].
        -- split.
           ++ intros [Heq|[Hno _]]; [injection Heq as <-; tauto|tauto].
           ++ intros [_ Heq]. injection Heq as <-. now left.
        -- split.
           ++ intros [Heq|[Hno Hfo]]; [congruence|tauto].
           ++ intros [Hno Hfo]. right. split; [|exact Hfo]. tauto.
    + destruct (IH a Hnd) as (ms & Hrun & Hnd' & Hin).
      exists ms. split; [exact Hrun|]. split; [exact Hnd'|].
      intros d o. rewrite Hin, first_owner_cons, Hm. cbn [andb]. tauto.
Qed.

Lemma launcher_main_run nm ac subs :
  exists ms,
    launcher_main nm ac subs
    = Ok (map fst ms)
         ([StartTransactionCommand] ++ map monitor_start ms
          ++ [CommitTransactionCommand])
    /\ NoDup (map fst ms)
    /\ forall dbid owner,
         In (dbid, owner) ms <-> first_owner nm subs dbid = Some owner.
Proof.
  destruct (launcher_scan_run nm ac subs [] ltac:(constructor))
    as (ms & Hrun & Hnd & Hin).
  exists ms. unfold launcher_main. rewrite Hrun. cbn [do_call ret bind app] in *.
  split; [reflexivity|]. split; [exact Hnd|].
  intros d o. rewrite Hin. cbn [In]. tauto.
Qed.

(** X4. [launcher_main] starts one monitor for every database that has a
    subscription which is not enabled and whose name [sscanf] reads with
    [MTM_SUBNAME_FMT], and none for any other database: never two for the
    same database, each with the owner of the first such subscription in the
    order of the scan. It runs inside one transaction, and its assertion on
    the table of started databases holds in every run. *)
Theorem launcher_one_monitor_per_database (nm : names) (ac : bool)
    (pg_subscription : list Form_pg_subscription) :
  exists ms,
    launcher_main nm ac pg_subscription
    = Ok (map fst ms)
         ([StartTransactionCommand] ++ map monitor_start ms
          ++ [CommitTransactionCommand])
    /\ NoDup (map fst ms)
    /\ forall dbid owner,
         In (dbid, owner) ms <-> first_owner nm pg_subscription dbid = Some owner.
Proof. exact (launcher_main_run nm ac pg_subscription). Qed.

(** *** A node that was created is found at the next start *)

Lemma scan_format_number (cs : list ascii) (n : Z) :
  scan (map Lit cs ++ [Conv true false])
       (format (map Lit cs ++ [Conv true false]) [n]) = [n].
Proof.
  induction cs as [|c cs IH]; cbn [map app format scan].
  - rewrite scan_print_signed by exact I. reflexivity.
  - rewrite Ascii.eqb_refl. exact IH.
Qed.

Lemma sscanf_psprintf fmt prefix n :
  number_format fmt prefix -> sscanf (psprintf fmt n) fmt = [n].
Proof.
  unfold number_format, sscanf, psprintf, sprintf, literal. intros ->.
  apply scan_format_number.
Qed.

(** X5. The subscription that [mtm_after_node_create] makes for a neighbour
    is one that [launcher_main] takes for multimaster's: it is created
    disabled, and [sscanf] with [MTM_SUBNAME_FMT] reads the node id back from
    its name. So whatever else [pg_subscription] holds, the launcher starts a
    monitor for the database in which the node was created. [MTM_SUBNAME_FMT]
    is a text without conversions followed by [%d]. *)
Theorem created_neighbour_is_launched (nm : names) (s : settings) (ss : session)
    (tup : nodes_tuple) (l : list call) (prefix : string) :
  number_format (MTM_SUBNAME_FMT nm) prefix ->
  DatumGetBool (tg_is_self tup) = false ->
  mtm_after_node_create nm s ss tup = Ok tt l ->
  exists c sub,
    In c l
    /\ created_subscription (MyDatabaseId ss) (GetUserId ss) c = Some sub
    /\ subenabled sub = false
    /\ sscanf (subname sub) (MTM_SUBNAME_FMT nm) = [DatumGetInt32 (tg_id tup)]
    /\ forall ac before after,
         exists owner,
           In (MtmMonitorStart (MyDatabaseId ss) owner)
              (calls_of (launcher_main nm ac (before ++ sub :: after))).
Proof.
  intros Hfmt Hself Hrun.
  pose proof (node_create_cases nm s ss tup) as Hc. rewrite Hrun, Hself in Hc.
  destruct Hc as (_ & _ & conninfo & _ & my & _ & ->).
  eexists. eexists. split; [right; left; reflexivity|].
  split; [reflexivity|]. split; [reflexivity|].
  cbn [subname]. split; [now apply sscanf_psprintf with (prefix := prefix)|].
  intros ac before after.
  set (sub := {| subdbid := MyDatabaseId ss;
                 subname := psprintf (MTM_SUBNAME_FMT nm) (DatumGetInt32 (tg_id tup));
                 subowner := GetUserId ss; subenabled := _ |}).
  destruct (launcher_main_run nm ac (before ++ sub :: after)) as (ms & Hl & _ & Hin).
  assert (Hsub : mtm_subscription nm sub && (subdbid sub =? MyDatabaseId ss) = true).
  { unfold mtm_subscription. cbn [subenabled subname subdbid sub].
    rewrite (sscanf_psprintf _ prefix _ Hfmt). cbn. apply Z.eqb_refl. }
  destruct (first_owner nm (before ++ sub :: after) (MyDatabaseId ss)) as [o|] eqn:Hfo.
  - exists o. rewrite Hl. cbn [calls_of]. apply in_app_iff. right.
    apply in_app_iff. left. apply Hin in Hfo.
    apply (in_map monitor_start) in Hfo. exact Hfo.
  - unfold first_owner in Hfo.
    destruct (List.find _ _) eqn:Hfind in Hfo; [discriminate|].
    rewrite (find_none _ _ Hfind sub) in Hsub; [discriminate|].
    apply in_app_iff. right. now left.
Qed.

Lemma created_neighbour_is_launched_witness :
  exists c sub,
    In c (neighbour_calls names1 "host=node2 dbname=app" 1 2)
    /\ created_subscription 16384 10 c = Some sub
    /\ subenabled sub = false
    /\ sscanf (subname sub) "mtm_sub_%d" = [2]
    /\ forall ac before after,
         exists owner,
           In (MtmMonitorStart 16384 owner)
              (calls_of (launcher_main names1 ac (before ++ sub :: after))).
Proof.
  apply (created_neighbour_is_launched names1 settings1 session1 tuple2
           (neighbour_calls names1 "host=node2 dbname=app" 1 2) "mtm_sub_");
    reflexivity.
Defined.

End NodesFacts.

(* ===================================================================== *)
(** ** The configuration of a node *)
(* ===================================================================== *)

Module ConfigFacts.
Import Stdio Calls CallsFacts Config.

Lemma load_row_Ok b tup cfg cfg' l :
  load_row b tup cfg = Ok cfg' l ->
  l = []
  /\ if is_neighbour tup then
       exists connstr,
         Nodes.tg_conninfo tup = Some connstr
         /\ 0 <= n_nodes cfg < nodes_capacity b
         /\ cfg' = {| n_nodes := int32_wrap (n_nodes cfg + 1);
                      my_node_id := my_node_id cfg;
                      nodes := nodes cfg
                               ++ [{| node_id := Nodes.DatumGetInt32 (Nodes.tg_id tup);
                                      conninfo := connstr;
                                      origin_id := InvalidRepOriginId |}] |}
     else
       cfg' = {| n_nodes := n_nodes cfg;
                 my_node_id := Nodes.DatumGetInt32 (Nodes.tg_id tup);
                 nodes := nodes cfg |}.
Proof.
  unfold load_row, is_neighbour.
  destruct (@Assert_cases call config_error (assert_checking b)
              (negb (Nodes.is_null (Nodes.tg_id tup)))) as [-> | ->];
    cbn [bind]; [|discriminate].
  destruct (@Assert_cases call config_error (assert_checking b)
              (negb (Nodes.is_null (Nodes.tg_is_self tup)))) as [-> | ->];
    cbn [bind]; [|discriminate].
  destruct (Nodes.DatumGetBool (Nodes.tg_is_self tup)); cbn [negb].
  - destruct (@Assert_cases call config_error (assert_checking b)
                (my_node_id cfg =? 0)) as [-> | ->];
      cbn [bind ret app]; [|discriminate].
    intros H. injection H as <- <-. split; reflexivity.
  - destruct (Nodes.tg_conninfo tup) as [connstr|]; [|discriminate].
    destruct (Z.ltb_spec (n_nodes cfg) 0); cbn [orb]; [discriminate|].
    destruct (Z.leb_spec (nodes_capacity b) (n_nodes cfg)); [discriminate|].
    cbn [ret app]. intros Heq. injection Heq as <- <-.
    split; [reflexivity|]. exists connstr. repeat split; lia.
Qed.

Lemma load_rows_Ok b : forall rows cfg cfg' l,
  nodes_capacity b <= Gid.INT_MAX ->
  counted cfg ->
  load_rows b rows cfg = Ok cfg' l ->
  l = []
  /\ counted cfg'
  /\ my_node_id cfg' = self_id rows (my_node_id cfg)
  /\ exists new,
       nodes cfg' = nodes cfg ++ new
       /\ Forall2 loaded (List.filter is_neighbour rows) new.
Proof.
  intros rows. induction rows as [|tup rest IH]; intros cfg cfg' l Hcap Hc Hrun.
  - cbn [load_rows ret] in Hrun. injection Hrun as <- <-.
    split; [reflexivity|]. split; [exact Hc|]. split; [reflexivity|].
    exists []. rewrite app_nil_r. split; [reflexivity|constructor].
  - cbn [load_rows] in Hrun. apply bind_Ok_inv in Hrun
      as (cfg1 & l1 & l2 & Hrow & Hrest & ->).
    apply load_row_Ok in Hrow as [-> Hrow].
    cbn [List.filter self_id fold_left].
    destruct (is_neighbour tup) eqn:Hn.
    + destruct Hrow as (connstr & Hconn & Hroom & ->).
      apply IH in Hrest as (-> & Hc' & Hmy & new & Hnodes & Hnew); [|exact Hcap|].
      2:{ unfold counted in *. cbn [n_nodes nodes]. rewrite length_app. cbn [length].
          unfold int32_wrap, Gid.INT_MAX in *.
          rewrite Z.mod_small by lia. lia. }
      cbn [nodes my_node_id] in *.
      split; [reflexivity|]. split; [exact Hc'|]. split; [exact Hmy|].
      eexists. rewrite Hnodes, <- app_assoc. split; [reflexivity|].
      cbn [app]. constructor; [|exact Hnew]. split; [reflexivity|exact Hconn].
    + subst cfg1.
      apply IH in Hrest as (-> & Hc' & Hmy & new & Hnodes & Hnew); [|exact Hcap|].
      2:{ exact Hc. }
      cbn [nodes my_node_id] in *.
      split; [reflexivity|]. split; [exact Hc'|]. split; [exact Hmy|].
      exists new. split; assumption.
Qed.

Lemma load_origins_Ok b cat : forall count i cfg cfg' l,
  (i + count = length (nodes cfg))%nat ->
  load_origins b cat count i cfg = Ok cfg' l ->
  l = []
  /\ n_nodes cfg' = n_nodes cfg
  /\ my_node_id cfg' = my_node_id cfg
  /\ nodes cfg' = take i (nodes cfg) ++ map (with_origin b cat) (drop i (nodes cfg)).
Proof.
  induction count as [|count IH]; intros i cfg cfg' l Hlen Hrun.
  - cbn [load_origins] in Hrun. apply ret_Ok_inv in Hrun as [<- ->].
    rewrite drop_ge by lia. rewrite take_ge by lia. cbn [map].
    now rewrite app_nil_r.
  - cbn [load_origins] in Hrun.
    destruct (nodes cfg !! i) as [n|] eqn:Hn; [|discriminate].
    bind_ok Hrun. apply Assert_Ok_inv in Hstep as [-> _].
    apply IH in Hrun as (-> & Hcount & Hmy & Hnodes).
    2:{ cbn [nodes]. rewrite length_insert. lia. }
    cbn [n_nodes my_node_id nodes] in *.
    split; [reflexivity|]. split; [exact Hcount|]. split; [exact Hmy|].
    rewrite Hnodes.
    assert (Hi : (i < length (nodes cfg))%nat) by (apply lookup_lt_is_Some; eauto).
    rewrite (take_S_r _ _ (with_origin b cat n))
      by (unfold with_origin; now apply list_lookup_insert_eq).
    rewrite take_insert_ge by lia. rewrite drop_insert_lt by lia.
    rewrite (drop_S _ _ _ Hn). cbn [map]. now rewrite <- app_assoc.
Qed.

Lemma loaded_node_of_row b cat tup n :
  loaded tup n -> node_of_row b cat tup = Some (with_origin b cat n).
Proof.
  intros [Hid Hconn]. unfold node_of_row, with_origin. now rewrite Hconn, Hid.
Qed.

Lemma MtmLoadConfig_Ok b cat cfg l :
  nodes_capacity b <= Gid.INT_MAX ->
  MtmLoadConfig b cat = Ok cfg l ->
  l = load_calls (IsTransactionState cat)
  /\ counted cfg
  /\ my_node_id cfg = self_id (SPI_tuptable cat) 0
  /\ Forall2 (fun tup n => node_of_row b cat tup = Some n)
             (List.filter is_neighbour (SPI_tuptable cat)) (nodes cfg).
Proof.
  intros Hcap Hrun. unfold MtmLoadConfig in Hrun.
  bind_ok Hrun. apply when_inv in Hstep as ->.
  bind_ok Hrun. apply do_call_inv in Hstep as ->.
  bind_ok Hrun. apply guard_inv in Hstep as [_ ->].
  bind_ok Hrun. apply do_call_inv in Hstep as ->.
  bind_ok Hrun. apply do_call_inv in Hstep as ->.
  bind_ok Hrun. apply guard_inv in Hstep as [_ ->].
  bind_ok Hrun. apply Assert_Ok_inv in Hstep as [-> _].
  bind_ok Hrun. apply load_rows_Ok in Hstep
    as (-> & Hc & Hmy & new & Hnodes & Hnew); [|exact Hcap|reflexivity].
  cbn [nodes my_node_id app] in *.
  bind_ok Hrun. apply load_origins_Ok in Hstep as (-> & Hcount & Hmy' & Hnodes').
  2:{ unfold counted in Hc. rewrite Hc, Nat2Z.id. reflexivity. }
  bind_ok Hrun. apply do_call_inv in Hstep as ->.
  bind_ok Hrun. apply do_call_inv in Hstep as ->.
  bind_ok Hrun. apply when_inv in Hstep as ->.
  apply ret_Ok_inv in Hrun as [<- ->].
  split.
  { unfold load_calls. destruct (IsTransactionState cat); reflexivity. }
  split.
  { unfold counted in *. rewrite Hcount, Hc, Hnodes', Hnodes.
    rewrite ?take_0, ?drop_0; cbn [app]. now rewrite length_map. }
  split; [congruence|].
  rewrite Hnodes', Hnodes. rewrite ?take_0, ?drop_0; cbn [app].
  clear -Hnew. induction Hnew as [|tup n rows ns Hl _ IH]; cbn [map]; constructor.
  - now apply loaded_node_of_row.
  - exact IH.
Qed.

(** X6. When [MtmLoadConfig] returns, the configuration lists the rows of
    the neighbours in the order of the query, each with its id, its
    connection string and the origin named by [MULTIMASTER_SLOT_PATTERN];
    [n_nodes] is their number and [my_node_id] the id of the row with
    [is_self], or 0 if there is none. A caller outside a transaction has had
    one started and committed around the query, a caller inside one has not. *)
Theorem load_config_result (b : build) (cat : catalog) (cfg : MtmConfig)
    (l : list call) :
  nodes_capacity b <= Gid.INT_MAX ->
  MtmLoadConfig b cat = Ok cfg l ->
  l = load_calls (IsTransactionState cat)
  /\ counted cfg
  /\ my_node_id cfg = self_id (SPI_tuptable cat) 0
  /\ Forall2 (fun tup n => node_of_row b cat tup = Some n)
             (List.filter is_neighbour (SPI_tuptable cat)) (nodes cfg).
Proof. exact (MtmLoadConfig_Ok b cat cfg l). Qed.

Lemma load_config_result_witness :
  MtmLoadConfig build1 catalog3 = Ok config3 (load_calls false)
  /\ load_calls false = load_calls (IsTransactionState catalog3)
  /\ counted config3
  /\ my_node_id config3 = self_id (SPI_tuptable catalog3) 0
  /\ Forall2 (fun tup n => node_of_row build1 catalog3 tup = Some n)
             (List.filter is_neighbour (SPI_tuptable catalog3)) (nodes config3).
Proof.
  split; [reflexivity|].
  apply (load_config_result build1 catalog3 config3 (load_calls false));
    [unfold Gid.INT_MAX; cbn; lia|reflexivity].
Defined.

(** *** Looking a node up *)

Lemma MtmNodeById_from_find cfg id : forall count i,
  (i + count = length (nodes cfg))%nat ->
  MtmNodeById_from cfg count i id
  = Ok (List.find (fun n => node_id n =? id) (drop i (nodes cfg))) [].
Proof.
  induction count as [|count IH]; intros i Hlen; cbn [MtmNodeById_from].
  - rewrite drop_ge by lia. reflexivity.
  - destruct (nodes cfg !! i) as [n|] eqn:Hn.
    2:{ apply lookup_ge_None in Hn. lia. }
    rewrite (drop_S _ _ _ Hn). cbn [List.find].
    destruct (node_id n =? id); [reflexivity|]. apply IH. lia.
Qed.

Lemma MtmNodeById_find cfg id :
  counted cfg ->
  MtmNodeById cfg id = Ok (List.find (fun n => node_id n =? id) (nodes cfg)) [].
Proof.
  intros Hc. unfold MtmNodeById. rewrite MtmNodeById_from_find.
  - now rewrite drop_0.
  - unfold counted in Hc. rewrite Hc, Nat2Z.id. reflexivity.
Qed.

Lemma node_of_row_id b cat tup n :
  node_of_row b cat tup = Some n -> node_id n = row_id tup.
Proof.
  unfold node_of_row, row_id. destruct (Nodes.tg_conninfo tup); [|discriminate].
  intros H. now injection H as <-.
Qed.

Lemma find_loaded b cat : forall rows ns,
  Forall2 (fun tup n => node_of_row b cat tup = Some n) rows ns ->
  NoDup (map row_id rows) ->
  (forall tup, In tup rows ->
     List.find (fun n => node_id n =? row_id tup) ns = node_of_row b cat tup)
  /\ (forall id, ~ In id (map row_id rows) ->
        List.find (fun n => node_id n =? id) ns = None).
Proof.
  intros rows ns HF. induction HF as [|tup n rows ns Hn _ IH]; intros Hnd.
  - split; [intros tup []|reflexivity].
  - cbn [map] in Hnd. apply NoDup_cons in Hnd as [Hnotin Hnd].
    rewrite list_elem_of_In in Hnotin.
    destruct (IH Hnd) as [IHin IHout].
    pose proof (node_of_row_id _ _ _ _ Hn) as Hid.
    split.
    + intros tup' [<-|Hin]; cbn [List.find].
      * rewrite Hid, Z.eqb_refl. now symmetry.
      * destruct (Z.eqb_spec (node_id n) (row_id tup')) as [Heq|Hne].
        -- exfalso. apply Hnotin. rewrite <- Hid, Heq. now apply in_map.
        -- now apply IHin.
    + intros id Hout. cbn [map In List.find] in *.
      destruct (Z.eqb_spec (node_id n) id) as [Heq|Hne]; [|apply IHout; tauto].
      exfalso. apply Hout. left. congruence.
Qed.

Lemma NoDup_map_filter {A B} (f : A -> B) (p : A -> bool) (l : list A) :
  NoDup (map f l) -> NoDup (map f (List.filter p l)).
Proof.
  induction l as [|a l IH]; cbn [map List.filter]; [trivial|].
  intros Hnd. apply NoDup_cons in Hnd as [Hnotin Hnd].
  destruct (p a); [|now apply IH]. cbn [map]. apply NoDup_cons.
  split; [|now apply IH].
  rewrite list_elem_of_In in *. intros Hin. apply Hnotin.
  apply in_map_iff in Hin as (x & Hx & Hin). apply List.filter_In in Hin as [Hin _].
  apply in_map_iff. eauto.
Qed.

Lemma NoDup_map_eq {A B} (f : A -> B) (l : list A) a a' :
  NoDup (map f l) -> In a l -> In a' l -> f a = f a' -> a = a'.
Proof.
  induction l as [|x l IH]; cbn [map]; [intros _ []|].
  intros Hnd. apply NoDup_cons in Hnd as [Hnotin Hnd].
  rewrite list_elem_of_In in Hnotin.
  intros [<-|Ha] [<-|Ha'] Heq; [reflexivity| | |now apply IH].
  - exfalso. apply Hnotin. rewrite Heq. now apply in_map.
  - exfalso. apply Hnotin. rewrite <- Heq. now apply in_map.
Qed.

(** X7. In a configuration that [MtmLoadConfig] has returned, with the ids
    of [mtm.nodes] all different, [MtmNodeById] finds for the id of every
    row of a neighbour the entry made from that row, and it returns NULL for
    the id of the node's own row and for every id that is not in the table. *)
Theorem lookup_after_load (b : build) (cat : catalog) (cfg : MtmConfig)
    (l : list call) :
  nodes_capacity b <= Gid.INT_MAX ->
  MtmLoadConfig b cat = Ok cfg l ->
  NoDup (map row_id (SPI_tuptable cat)) ->
  (forall tup, In tup (SPI_tuptable cat) ->
     MtmNodeById cfg (row_id tup)
     = Ok (if is_neighbour tup then node_of_row b cat tup else None) [])
  /\ (forall id, ~ In id (map row_id (SPI_tuptable cat)) ->
        MtmNodeById cfg id = Ok None []).
Proof.
  intros Hcap Hrun Hnd.
  apply MtmLoadConfig_Ok in Hrun as (_ & Hc & _ & HF); [|exact Hcap].
  destruct (find_loaded b cat _ _ HF (NoDup_map_filter _ _ _ Hnd)) as [Hin Hout].
  split.
  - intros tup Htup. rewrite (MtmNodeById_find _ _ Hc). f_equal.
    destruct (is_neighbour tup) eqn:Hn.
    + apply Hin. apply List.filter_In. now split.
    + apply Hout. intros Hin'. apply in_map_iff in Hin' as (tup' & Hid & Hin').
      apply List.filter_In in Hin' as [Hin' Hn'].
      assert (tup' = tup) by (eapply NoDup_map_eq; eauto). congruence.
  - intros id Hid. rewrite (MtmNodeById_find _ _ Hc). f_equal.
    apply Hout. intros Hin'. apply Hid.
    apply in_map_iff in Hin' as (tup' & Hid' & Hin').
    apply List.filter_In in Hin' as [Hin' _]. apply in_map_iff. eauto.
Qed.

Lemma lookup_after_load_witness :
  (forall tup, In tup (SPI_tuptable catalog3) ->
     MtmNodeById config3 (row_id tup)
     = Ok (if is_neighbour tup then node_of_row build1 catalog3 tup else None) [])
  /\ (forall id, ~ In id (map row_id (SPI_tuptable catalog3)) ->
        MtmNodeById config3 id = Ok None []).
Proof.
  apply (lookup_after_load build1 catalog3 config3 (load_calls false)).
  - unfold Gid.INT_MAX; cbn; lia.
  - reflexivity.
  - cbn. repeat constructor; rewrite list_elem_of_In; cbn; lia.
Defined.

(** *** Reloading *)

Lemma add_one_testbit a id x :
  0 <= id -> 0 <= x ->
  Z.testbit (Z.lor a (Z.shiftl 1 id)) x = Z.testbit a x || (id =? x).
Proof.
  intros Hid Hx. rewrite Z.lor_spec, Z.shiftl_1_l, Z.pow2_bits_eqb by lia.
  reflexivity.
Qed.

Lemma add_members_Ok cfg : forall count i bms,
  (i + count = length (nodes cfg))%nat ->
  Forall (Z.le 0) (map node_id (drop i (nodes cfg))) ->
  0 <= bms ->
  exists bms',
    add_members cfg count i bms = Ok bms' []
    /\ 0 <= bms'
    /\ forall x, 0 <= x ->
         (Z.testbit bms' x = true
          <-> Z.testbit bms x = true \/ In x (map node_id (drop i (nodes cfg)))).
Proof.
  induction count as [|count IH]; intros i bms Hlen Hpos Hbms.
  - exists bms. cbn [add_members]. rewrite drop_ge by lia. cbn [map In].
    split; [reflexivity|]. split; [exact Hbms|]. intros; tauto.
  - cbn [add_members].
    destruct (nodes cfg !! i) as [n|] eqn:Hn.
    2:{ apply lookup_ge_None in Hn. lia. }
    rewrite (drop_S _ _ _ Hn) in *. cbn [map] in *.
    apply List.Forall_cons_iff in Hpos as [Hid Hpos].
    unfold bms_add_member. destruct (Z.ltb_spec (node_id n) 0); [lia|].
    destruct (IH (S i) (Z.lor bms (Z.shiftl 1 (node_id n)))) as (bms' & Hrun & Hb' & Hbits).
    + lia.
    + exact Hpos.
    + apply Z.lor_nonneg. split; [exact Hbms|]. apply Z.shiftl_nonneg. lia.
    + exists bms'. cbn [ret bind]. rewrite Hrun. cbn [app].
      split; [reflexivity|]. split; [exact Hb'|].
      intros x Hx. rewrite (Hbits x Hx), add_one_testbit by lia.
      rewrite orb_true_iff, Z.eqb_eq. cbn [In]. tauto.
Qed.

Lemma next_member_spec a : forall count i,
  0 <= i ->
  (next_member a count i = -2
   /\ forall k, i <= k < i + Z.of_nat count -> Z.testbit a k = false)
  \/ (i <= next_member a count i < i + Z.of_nat count
      /\ Z.testbit a (next_member a count i) = true
      /\ forall k, i <= k < next_member a count i -> Z.testbit a k = false).
Proof.
  induction count as [|count IH]; intros i Hi; cbn [next_member].
  - left. split; [reflexivity|]. intros; lia.
  - destruct (Z.testbit a i) eqn:Hbit.
    + right. split; [lia|]. split; [exact Hbit|]. intros; lia.
    + destruct (IH (i + 1) ltac:(lia)) as [[Hr Hnone]|(Hr & Hset & Hnone)].
      * left. split; [exact Hr|]. intros k Hk.
        destruct (Z.eq_dec k i) as [->|]; [exact Hbit|]. apply Hnone. lia.
      * right. split; [lia|]. split; [exact Hset|]. intros k Hk.
        destruct (Z.eq_dec k i) as [->|]; [exact Hbit|]. apply Hnone. lia.
Qed.

Lemma each_member_run (cb : Z -> call) set :
  0 <= set ->
  forall fuel prev,
    -1 <= prev ->
    (Z.to_nat (Z.log2 set - prev) < fuel)%nat ->
    exists ms,
      each_member cb set fuel prev = Ok tt (map cb ms)
      /\ StronglySorted Z.lt ms
      /\ forall x, In x ms <-> prev < x /\ Z.testbit set x = true.
Proof.
  intros Hset. induction fuel as [|fuel IH]; intros prev Hprev Hfuel; [lia|].
  cbn [each_member]. unfold bms_next_member.
  destruct (next_member_spec set (Z.to_nat (Z.log2 set - prev)) (prev + 1) ltac:(lia))
    as [[Hr Hnone]|(Hr & Hbit & Hnone)].
  - rewrite Hr. cbn. exists []. split; [reflexivity|]. split; [constructor|].
    intros x. cbn [In]. split; [tauto|]. intros [Hx Hbx]. exfalso.
    destruct (Z.le_gt_cases x (Z.log2 set)) as [Hle|Hgt].
    + rewrite Hnone in Hbx by lia. discriminate.
    + rewrite Z.bits_above_log2 in Hbx by lia. discriminate.
  - set (j := next_member set (Z.to_nat (Z.log2 set - prev)) (prev + 1)) in *.
    destruct (Z.leb_spec 0 j) as [_|]; [|lia].
    destruct (IH j ltac:(lia) ltac:(lia)) as (ms & Hrun & Hsorted & Hin).
    exists (j :: ms). cbn [do_call bind map]. rewrite Hrun. cbn [app].
    split; [reflexivity|]. split.
    + constructor; [exact Hsorted|]. apply List.Forall_forall. intros x Hx.
      apply Hin in Hx. lia.
    + intros x. cbn [In]. rewrite Hin. split.
      * intros [<-|[Hx Hbx]]; split; (lia || assumption).
      * intros [Hx Hbx]. destruct (Z.eq_dec j x) as [|Hne]; [now left|right].
        split; [|exact Hbx]. destruct (Z.lt_ge_cases j x) as [|Hge]; [assumption|].
        rewrite Hnone in Hbx by lia. discriminate.
Qed.

Lemma each_member_all (cb : Z -> call) set :
  0 <= set ->
  exists ms,
    each_member cb set (turns set) (-1) = Ok tt (map cb ms)
    /\ StronglySorted Z.lt ms
    /\ forall x, In x ms <-> 0 <= x /\ Z.testbit set x = true.
Proof.
  intros Hset.
  destruct (each_member_run cb set Hset (turns set) (-1) ltac:(lia)) as (ms & Hrun & Hs & Hin).
  - unfold turns. pose proof (Z.log2_nonneg set). lia.
  - exists ms. split; [exact Hrun|]. split; [exact Hs|].
    intros x. rewrite Hin. intuition lia.
Qed.

(** X8. [MtmReloadConfig] loads the configuration, hands it to
    [MtmStateFill], and then calls [node_add_cb] once for every node id that
    is in the new configuration and was not in the old one, in ascending
    order, and after that [node_drop_cb] once for every id that was in the
    old configuration and is not in the new one, in ascending order. A node
    that is in both gets no callback; with no old configuration every
    neighbour is added. The old configuration is freed last and the new one
    returned. Node ids are not negative. *)
Theorem reload_calls_back_for_changes (b : build) (cat : catalog)
    (old_cfg : option MtmConfig) (has_add_cb has_drop_cb : bool)
    (new_cfg : MtmConfig) (l0 : list call) :
  nodes_capacity b <= Gid.INT_MAX ->
  MtmLoadConfig b cat = Ok new_cfg l0 ->
  (forall old, old_cfg = Some old -> counted old) ->
  Forall (Z.le 0) (ids new_cfg) ->
  Forall (Z.le 0) (old_ids old_cfg) ->
  exists added dropped,
    MtmReloadConfig b cat old_cfg has_add_cb has_drop_cb
    = Ok new_cfg (l0 ++ [MtmStateFill new_cfg]
                  ++ callbacks new_cfg has_add_cb has_drop_cb added dropped
                  ++ freed old_cfg)
    /\ StronglySorted Z.lt added
    /\ StronglySorted Z.lt dropped
    /\ (forall id, In id added
                   <-> In id (ids new_cfg) /\ ~ In id (old_ids old_cfg))
    /\ (forall id, In id dropped
                   <-> In id (old_ids old_cfg) /\ ~ In id (ids new_cfg)).
Proof.
  intros Hcap Hload Hold Hnew_pos Hold_pos.
  pose proof (MtmLoadConfig_Ok _ _ _ _ Hcap Hload) as (_ & Hc & _ & _).
  (* the two sets *)
  assert (Hob : exists old_bms,
            match old_cfg with
            | Some old => add_members old (Z.to_nat (n_nodes old)) 0 0
            | None => ret 0
            end = Ok old_bms []
            /\ 0 <= old_bms
            /\ forall x, 0 <= x -> (Z.testbit old_bms x = true <-> In x (old_ids old_cfg))).
  { destruct old_cfg as [old|].
    - destruct (add_members_Ok old (Z.to_nat (n_nodes old)) 0 0) as (bms & Hrun & Hb & Hbits).
      + rewrite (Hold old eq_refl), Nat2Z.id. reflexivity.
      + rewrite drop_0. exact Hold_pos.
      + lia.
      + exists bms. split; [exact Hrun|]. split; [exact Hb|].
        intros x Hx. rewrite (Hbits x Hx), drop_0, Z.bits_0. cbn [old_ids]. unfold ids.
        intuition discriminate.
    - exists 0. split; [reflexivity|]. split; [lia|].
      intros x Hx. rewrite Z.bits_0. cbn [old_ids In]. intuition discriminate. }
  destruct Hob as (old_bms & Hrun_old & Hold_nonneg & Hold_bits).
  destruct (add_members_Ok new_cfg (Z.to_nat (n_nodes new_cfg)) 0 0)
    as (new_bms & Hrun_new & Hnew_nonneg & Hnew_bits).
  { rewrite Hc, Nat2Z.id. reflexivity. }
  { rewrite drop_0. exact Hnew_pos. }
  { lia. }
  assert (Hnew_bits' : forall x, 0 <= x ->
            (Z.testbit new_bms x = true <-> In x (ids new_cfg))).
  { intros x Hx. rewrite (Hnew_bits x Hx), drop_0, Z.bits_0. unfold ids.
    intuition discriminate. }
  destruct (each_member_all (fun id => node_add_cb id new_cfg)
              (bms_difference new_bms old_bms)) as (added & Hadd & Hadd_sorted & Hadd_in).
  { apply Z.ldiff_nonneg. now left. }
  destruct (each_member_all (fun id => node_drop_cb id new_cfg)
              (bms_difference old_bms new_bms)) as (dropped & Hdrop & Hdrop_sorted & Hdrop_in).
  { apply Z.ldiff_nonneg. now left. }
  exists added, dropped.
  split.
  { unfold MtmReloadConfig, callbacks, freed.
    eapply bind_Ok_Ok; [exact Hload|]. cbv beta.
    eapply (bind_Ok_Ok _ _ tt [MtmStateFill new_cfg]); [reflexivity|]. cbv beta.
    eapply (bind_Ok_nil _ _ old_bms); [exact Hrun_old|]. cbv beta.
    eapply (bind_Ok_nil _ _ new_bms); [exact Hrun_new|]. cbv beta.
    rewrite <- app_assoc.
    eapply (bind_Ok_Ok _ _ tt); [destruct has_add_cb; [exact Hadd|reflexivity]|].
    cbv beta.
    eapply (bind_Ok_Ok _ _ tt); [destruct has_drop_cb; [exact Hdrop|reflexivity]|].
    cbv beta. destruct old_cfg; reflexivity. }
  split; [exact Hadd_sorted|]. split; [exact Hdrop_sorted|].
  assert (Hpos_new : forall id, In id (ids new_cfg) -> 0 <= id).
  { intros id. now apply List.Forall_forall. }
  assert (Hpos_old : forall id, In id (old_ids old_cfg) -> 0 <= id).
  { intros id. now apply List.Forall_forall. }
  split; intros id.
  - rewrite Hadd_in. unfold bms_difference. rewrite Z.ldiff_spec, andb_true_iff, negb_true_iff.
    split.
    + intros (Hid & Hn & Ho). split; [now apply Hnew_bits'|].
      intros Hin. apply Hold_bits in Hin; [congruence|exact Hid].
    + intros [Hn Ho]. pose proof (Hpos_new id Hn) as Hid.
      split; [exact Hid|]. split; [now apply Hnew_bits'|].
      destruct (Z.testbit old_bms id) eqn:Hb; [|reflexivity].
      exfalso. apply Ho. now apply Hold_bits.
  - rewrite Hdrop_in. unfold bms_difference. rewrite Z.ldiff_spec, andb_true_iff, negb_true_iff.
    split.
    + intros (Hid & Ho & Hn). split; [now apply Hold_bits|].
      intros Hin. apply Hnew_bits' in Hin; [congruence|exact Hid].
    + intros [Ho Hn]. pose proof (Hpos_old id Ho) as Hid.
      split; [exact Hid|]. split; [now apply Hold_bits|].
      destruct (Z.testbit new_bms id) eqn:Hb; [|reflexivity].
      exfalso. apply Hn. now apply Hnew_bits'.
Qed.

Lemma reload_calls_back_for_changes_witness :
  exists added dropped,
    MtmReloadConfig build1 catalog3 (Some config_before) true true
    = Ok config3 (load_calls false ++ [MtmStateFill config3]
                  ++ callbacks config3 true true added dropped
                  ++ freed (Some config_before))
    /\ StronglySorted Z.lt added
    /\ StronglySorted Z.lt dropped
    /\ (forall id, In id added
                   <-> In id (ids config3) /\ ~ In id (old_ids (Some config_before)))
    /\ (forall id, In id dropped
                   <-> In id (old_ids (Some config_before)) /\ ~ In id (ids config3)).
Proof.
  apply (reload_calls_back_for_changes build1 catalog3 (Some config_before) true true
           config3 (load_calls false)).
  - unfold Gid.INT_MAX; cbn; lia.
  - reflexivity.
  - intros old Hold. injection Hold as <-. reflexivity.
  - cbn. repeat constructor; lia.
  - cbn. repeat constructor; lia.
Defined.

Example reload_example :
  MtmReloadConfig build1 catalog3 (Some config_before) true true
  = Ok config3 (load_calls false
                ++ [MtmStateFill config3; node_add_cb 3 config3;
                    node_drop_cb 4 config3; pfree config_before]).
Proof. reflexivity. Qed.

End ConfigFacts.

(* ===================================================================== *)
(** ** The session's settings and the DDL messages *)
(* ===================================================================== *)

Module GucFacts.
Import StdioFacts Calls CallsFacts DdlCalls Guc.

Lemma find_key k tab e :
  List.find (has_key k) tab = Some e -> key e = k /\ In e tab.
Proof.
  intros H. apply find_some in H as [Hin Hk].
  apply String.eqb_eq in Hk. now split.
Qed.

Lemma find_None_key k tab :
  List.find (has_key k) tab = None <-> ~ In k (map key tab).
Proof.
  split.
  - intros H Hin. apply in_map_iff in Hin as (e & <- & Hin).
    pose proof (find_none _ _ H e Hin) as Hk. unfold has_key in Hk.
    now rewrite String.eqb_refl in Hk.
  - intros H. destruct (List.find (has_key k) tab) as [e|] eqn:Hf; [|reflexivity].
    apply find_key in Hf as [<- Hin]. exfalso. apply H. now apply in_map.
Qed.

Lemma find_Some_key k tab :
  In k (map key tab) -> exists e, List.find (has_key k) tab = Some e.
Proof.
  intros Hin. destruct (List.find (has_key k) tab) as [e|] eqn:Hf; [eauto|].
  now apply find_None_key in Hf.
Qed.

(** The entries in the order of a list of keys. *)
Lemma context_cons tab k l :
  context {| MtmGucHash := Some tab; MtmGucList := k :: l |}
  = match List.find (has_key k) tab with Some e => [e] | None => [] end
    ++ context {| MtmGucHash := Some tab; MtmGucList := l |}.
Proof. reflexivity. Qed.

Lemma context_app tab l1 l2 :
  context {| MtmGucHash := Some tab; MtmGucList := l1 ++ l2 |}
  = context {| MtmGucHash := Some tab; MtmGucList := l1 |}
    ++ context {| MtmGucHash := Some tab; MtmGucList := l2 |}.
Proof. unfold context. cbn [MtmGucHash MtmGucList]. apply flat_map_app. Qed.

Lemma context_ext tab tab' l :
  (forall k, In k l -> List.find (has_key k) tab' = List.find (has_key k) tab) ->
  context {| MtmGucHash := Some tab'; MtmGucList := l |}
  = context {| MtmGucHash := Some tab; MtmGucList := l |}.
Proof.
  intros H. unfold context. cbn [MtmGucHash MtmGucList].
  induction l as [|k l IH]; [reflexivity|]. cbn [flat_map].
  rewrite H by now left. f_equal. apply IH. intros k' Hk'. apply H. now right.
Qed.

Lemma context_delete tab l k :
  List.filter (fun e => negb (has_key k e))
    (context {| MtmGucHash := Some tab; MtmGucList := l |})
  = context {| MtmGucHash := Some tab; MtmGucList := dlist_delete l k |}.
Proof.
  induction l as [|k' l IH]; [reflexivity|].
  rewrite context_cons, List.filter_app, IH. unfold dlist_delete at 2.
  cbn [List.filter]. fold (dlist_delete l k).
  destruct (List.find (has_key k') tab) as [e|] eqn:Hf.
  - apply find_key in Hf as Hk. destruct Hk as [Hk _]. cbn [List.filter].
    unfold has_key at 1. rewrite Hk.
    destruct (String.eqb k' k); cbn [negb app].
    + reflexivity.
    + rewrite context_cons, Hf. reflexivity.
  - cbn [List.filter app]. destruct (String.eqb k' k); cbn [negb]; [reflexivity|].
    rewrite context_cons, Hf. reflexivity.
Qed.

Lemma dlist_delete_In l k k' : In k' (dlist_delete l k) <-> In k' l /\ k' <> k.
Proof.
  unfold dlist_delete. rewrite List.filter_In, negb_true_iff.
  split; intros [H1 H2]; (split; [exact H1|]).
  - intros ->. now rewrite String.eqb_refl in H2.
  - now apply String.eqb_neq.
Qed.

Lemma dlist_delete_absent l k : ~ In k l -> dlist_delete l k = l.
Proof.
  intros Hk. unfold dlist_delete. induction l as [|k' l IH]; [reflexivity|].
  cbn [List.filter]. destruct (String.eqb_spec k' k) as [->|Hne]; cbn [negb].
  - exfalso. apply Hk. now left.
  - f_equal. apply IH. intros Hin. apply Hk. now right.
Qed.

Lemma NoDup_filter' {A} (p : A -> bool) (l : list A) :
  NoDup l -> NoDup (List.filter p l).
Proof.
  induction l as [|a l IH]; cbn [List.filter]; [trivial|].
  intros Hnd. apply NoDup_cons in Hnd as [Hnotin Hnd].
  destruct (p a); [|now apply IH]. apply NoDup_cons. split; [|now apply IH].
  rewrite list_elem_of_In in *. intros Hin. apply Hnotin.
  now apply List.filter_In in Hin as [Hin _].
Qed.

Lemma NoDup_snoc {A} (l : list A) (a : A) :
  NoDup l -> ~ In a l -> NoDup (l ++ [a]).
Proof.
  intros Hnd Hnot. apply NoDup_app. split; [exact Hnd|]. split.
  - intros x Hx Hx'. apply list_elem_of_In in Hx, Hx'.
    destruct Hx' as [<-|[]]. contradiction.
  - repeat constructor. intros H. inversion H.
Qed.

(** *** The table under [HASH_ENTER] and [HASH_REMOVE] *)

Lemma hash_enter_found_keys tab k v e :
  hash_find tab k = Some e -> map key (hash_enter tab k v) = map key tab.
Proof.
  intros Hf. unfold hash_enter. rewrite Hf. rewrite map_map.
  apply map_ext. intros a. now destruct (has_key (hash_key k) a).
Qed.

Lemma hash_enter_found_other tab k v e k' :
  hash_find tab k = Some e -> k' <> hash_key k ->
  List.find (has_key k') (hash_enter tab k v) = List.find (has_key k') tab.
Proof.
  intros Hf Hne. unfold hash_enter. rewrite Hf. clear Hf.
  induction tab as [|a tab IH]; [reflexivity|]. cbn [map List.find].
  destruct (has_key (hash_key k) a) eqn:Ha.
  - unfold has_key in *. cbn [key]. apply String.eqb_eq in Ha.
    destruct (String.eqb_spec (key a) k'); [congruence|]. exact IH.
  - destruct (has_key k' a); [reflexivity|exact IH].
Qed.

Lemma hash_enter_found_self tab k v e :
  hash_find tab k = Some e ->
  List.find (has_key (hash_key k)) (hash_enter tab k v)
  = Some {| key := hash_key k; value := v |}.
Proof.
  intros Hf. unfold hash_enter. rewrite Hf. unfold hash_find in Hf.
  induction tab as [|a tab IH]; [discriminate|]. cbn [map List.find] in *.
  destruct (has_key (hash_key k) a) eqn:Ha.
  - unfold has_key in *. cbn [key]. rewrite Ha.
    apply String.eqb_eq in Ha. now rewrite Ha.
  - rewrite Ha. now apply IH.
Qed.

Lemma find_app_l k tab tab' e :
  List.find (has_key k) tab = Some e -> List.find (has_key k) (tab ++ tab') = Some e.
Proof.
  induction tab as [|a tab IH]; [discriminate|]. cbn [app List.find].
  destruct (has_key k a); [trivial|exact IH].
Qed.

Lemma find_app_r k tab tab' :
  List.find (has_key k) tab = None ->
  List.find (has_key k) (tab ++ tab') = List.find (has_key k) tab'.
Proof.
  induction tab as [|a tab IH]; [reflexivity|]. cbn [app List.find].
  destruct (has_key k a); [discriminate|exact IH].
Qed.

Lemma hash_remove_other tab k k' :
  k' <> hash_key k ->
  List.find (has_key k') (hash_remove tab k) = List.find (has_key k') tab.
Proof.
  intros Hne. unfold hash_remove.
  induction tab as [|a tab IH]; [reflexivity|]. cbn [List.filter List.find].
  destruct (has_key (hash_key k) a) eqn:Ha; cbn [negb].
  - unfold has_key in *. apply String.eqb_eq in Ha.
    destruct (String.eqb_spec (key a) k'); [congruence|]. exact IH.
  - cbn [List.find]. destruct (has_key k' a); [reflexivity|exact IH].
Qed.

Lemma hash_remove_keys tab k k' :
  In k' (map key (hash_remove tab k)) <-> In k' (map key tab) /\ k' <> hash_key k.
Proof.
  unfold hash_remove. rewrite !in_map_iff. split.
  - intros (e & <- & Hin). apply List.filter_In in Hin as [Hin Hk].
    split; [eauto|]. unfold has_key in Hk. apply negb_true_iff in Hk.
    now apply String.eqb_neq in Hk.
  - intros [(e & <- & Hin) Hne]. exists e. split; [reflexivity|].
    apply List.filter_In. split; [exact Hin|]. unfold has_key.
    apply negb_true_iff. now apply String.eqb_neq.
Qed.

Lemma NoDup_map_filter_key (p : MtmGucEntry -> bool) tab :
  NoDup (map key tab) -> NoDup (map key (List.filter p tab)).
Proof.
  induction tab as [|a tab IH]; cbn [map List.filter]; [trivial|].
  intros Hnd. apply NoDup_cons in Hnd as [Hnotin Hnd].
  destruct (p a); [|now apply IH]. cbn [map]. apply NoDup_cons.
  split; [|now apply IH].
  rewrite list_elem_of_In in *. intros Hin. apply Hnotin.
  apply in_map_iff in Hin as (x & Hx & Hin). apply List.filter_In in Hin as [Hin _].
  apply in_map_iff. eauto.
Qed.

(** *** The operations on a consistent state *)

Lemma update_entry_run k v tab l :
  linked tab l ->
  exists tab' l',
    update_entry k v {| MtmGucHash := Some tab; MtmGucList := l |}
    = Ok {| MtmGucHash := Some tab'; MtmGucList := l' |} []
    /\ linked tab' l'
    /\ context {| MtmGucHash := Some tab'; MtmGucList := l' |}
       = without k (context {| MtmGucHash := Some tab; MtmGucList := l |})
         ++ [{| key := hash_key k; value := v |}].
Proof.
  intros (Hl & Ht & Hsame). unfold update_entry. cbn [MtmGucHash MtmGucList].
  unfold without. rewrite context_delete.
  destruct (hash_find tab k) as [e|] eqn:Hf.
  - (* the variable is there: its entry moves to the tail *)
    pose proof Hf as Hf'. unfold hash_find in Hf'. apply find_key in Hf' as [Hke Hin].
    assert (Hkl : In (hash_key k) l).
    { apply Hsame. rewrite <- Hke. now apply in_map. }
    eexists. eexists. split; [reflexivity|]. split.
    + split; [|split].
      * apply NoDup_snoc; [now apply NoDup_filter'|].
        rewrite dlist_delete_In. tauto.
      * rewrite (hash_enter_found_keys _ _ _ _ Hf). exact Ht.
      * intros k'. rewrite (hash_enter_found_keys _ _ _ _ Hf), <- Hsame.
        unfold dlist_push_tail. rewrite in_app_iff, dlist_delete_In. cbn [In].
        destruct (String.eqb_spec k' (hash_key k)) as [->|Hne]; [tauto|].
        split; [intros [[? _]|[?|[]]]; congruence || assumption|tauto].
    + unfold dlist_push_tail. rewrite context_app. f_equal.
      * apply context_ext. intros k' Hk'. apply dlist_delete_In in Hk' as [_ Hne].
        now apply hash_enter_found_other with (e := e).
      * rewrite context_cons, (hash_enter_found_self _ _ _ _ Hf). reflexivity.
  - (* a new variable *)
    pose proof Hf as Hf'. unfold hash_find in Hf'.
    assert (Hnk : ~ In (hash_key k) (map key tab)) by now apply find_None_key.
    assert (Hnl : ~ In (hash_key k) l) by now rewrite Hsame.
    rewrite (dlist_delete_absent _ _ Hnl).
    unfold hash_enter. rewrite Hf.
    eexists. eexists. split; [reflexivity|]. split.
    + split; [|split].
      * now apply NoDup_snoc.
      * rewrite map_app. cbn [map key]. now apply NoDup_snoc.
      * intros k'. unfold dlist_push_tail. rewrite map_app, !in_app_iff, Hsame.
        reflexivity.
    + unfold dlist_push_tail. rewrite context_app. f_equal.
      * apply context_ext. intros k' Hk'. apply Hsame in Hk'.
        destruct (find_Some_key _ _ Hk') as [e He]. rewrite He.
        now apply find_app_l.
      * rewrite context_cons, (find_app_r _ _ _ Hf'). cbn [List.find].
        unfold has_key. cbn [key]. now rewrite String.eqb_refl.
Qed.

Lemma remove_entry_run h k tab l :
  linked tab l ->
  exists tab' l',
    MtmGucRemove h k {| MtmGucHash := Some tab; MtmGucList := l |}
    = Ok {| MtmGucHash := Some tab'; MtmGucList := l' |} []
    /\ linked tab' l'
    /\ context {| MtmGucHash := Some tab'; MtmGucList := l' |}
       = without k (context {| MtmGucHash := Some tab; MtmGucList := l |}).
Proof.
  intros (Hl & Ht & Hsame). unfold MtmGucRemove, ensure_init.
  cbn [MtmGucHash MtmGucList ret bind].
  unfold without. rewrite context_delete.
  destruct (hash_find tab k) as [e|] eqn:Hf.
  - eexists. eexists. split; [reflexivity|]. split.
    + split; [|split].
      * now apply NoDup_filter'.
      * now apply NoDup_map_filter_key.
      * intros k'. rewrite dlist_delete_In, hash_remove_keys, Hsame. reflexivity.
    + apply context_ext. intros k' Hk'. apply dlist_delete_In in Hk' as [_ Hne].
      now apply hash_remove_other.
  - unfold hash_find in Hf.
    assert (Hnl : ~ In (hash_key k) l) by (rewrite Hsame; now apply find_None_key).
    rewrite (dlist_delete_absent _ _ Hnl).
    exists tab, l. split; [reflexivity|].
    split; [exact (conj Hl (conj Ht Hsame))|reflexivity].
Qed.

Lemma ensure_init_run h st :
  consistent st ->
  exists tab l,
    ensure_init h st = Ok {| MtmGucHash := Some tab; MtmGucList := l |} []
    /\ linked tab l
    /\ started h st = {| MtmGucHash := Some tab; MtmGucList := l |}.
Proof.
  unfold consistent, started, ensure_init. destruct st as [[tab|] l]; cbn [MtmGucHash MtmGucList].
  - intros Hl. exists tab, l. repeat split; apply Hl.
  - intros ->. unfold MtmGucInit. cbn [MtmGucList].
    assert (Hempty : linked [] []).
    { split; [constructor|]. split; [constructor|]. intros k. reflexivity. }
    destruct (session_authorization h) as [role|].
    2:{ exists [], []. split; [reflexivity|]. split; [exact Hempty|reflexivity]. }
    destruct (negb (String.eqb role "") && negb (String.eqb (MtmDatabaseUser h) role)).
    2:{ exists [], []. split; [reflexivity|]. split; [exact Hempty|reflexivity]. }
    destruct (update_entry_run "session_authorization" role [] [] Hempty)
      as (tab' & l' & Hrun & Hl' & _).
    exists tab', l'. rewrite Hrun. split; [reflexivity|]. split; [exact Hl'|reflexivity].
Qed.

Lemma free_values_run tab l :
  (forall k, In k l -> In k (map key tab)) ->
  free_values (Some tab) l = Ok tt [].
Proof.
  induction l as [|k l IH]; intros Hin; [reflexivity|]. cbn [free_values].
  destruct (find_Some_key k tab) as [e ->]; [apply Hin; now left|].
  apply IH. intros k' Hk'. apply Hin. now right.
Qed.

Lemma MtmGucDiscard_run st :
  consistent st ->
  exists st', MtmGucDiscard st = Ok st' [] /\ consistent st'
              /\ (MtmGucList st <> [] -> st' = fresh)
              /\ (MtmGucList st = [] -> st' = st).
Proof.
  intros Hc. unfold MtmGucDiscard. destruct (MtmGucList st) as [|k l] eqn:Hlist.
  - exists st. split; [reflexivity|]. split; [exact Hc|]. split; [congruence|reflexivity].
  - unfold consistent in Hc. rewrite Hlist in Hc.
    destruct (MtmGucHash st) as [tab|]; [|discriminate].
    rewrite free_values_run by (intros k' Hk'; now apply Hc).
    exists fresh. cbn [bind ret app]. split; [reflexivity|].
    split; [reflexivity|]. split; [reflexivity|discriminate].
Qed.

Lemma consistent_linked tab l :
  consistent {| MtmGucHash := Some tab; MtmGucList := l |} <-> linked tab l.
Proof. reflexivity. Qed.

Lemma MtmGucUpdate_run h k v tab l :
  linked tab l ->
  exists tab' l',
    MtmGucUpdate h k v {| MtmGucHash := Some tab; MtmGucList := l |}
    = Ok {| MtmGucHash := Some tab'; MtmGucList := l' |} []
    /\ linked tab' l'
    /\ context {| MtmGucHash := Some tab'; MtmGucList := l' |}
       = without k (context {| MtmGucHash := Some tab; MtmGucList := l |})
         ++ [entry_of k v].
Proof.
  intros Hl. destruct (update_entry_run k v tab l Hl) as (tab' & l' & Hrun & Hrest).
  exists tab', l'. unfold MtmGucUpdate, ensure_init. cbn [MtmGucHash ret bind].
  rewrite Hrun. split; [reflexivity|exact Hrest].
Qed.

Lemma MtmGucSet_run h stmt st :
  consistent st ->
  exists st',
    MtmGucSet h stmt st = Ok st' []
    /\ consistent st'
    /\ context st' = after_stmt stmt (context (started h st)).
Proof.
  intros Hc. destruct (ensure_init_run h st Hc) as (tab & l & Hinit & Hl & ->).
  unfold MtmGucSet, after_stmt. rewrite Hinit. cbn [bind].
  destruct (kind stmt).
  - destruct (MtmGucUpdate_run h (stmt_name stmt) (ExtractSetVariableArgs stmt) tab l Hl)
      as (tab' & l' & -> & Hl' & Hctx).
    eexists. split; [reflexivity|]. split; [exact Hl'|exact Hctx].
  - destruct (remove_entry_run h (stmt_name stmt) tab l Hl)
      as (tab' & l' & -> & Hl' & Hctx).
    eexists. split; [reflexivity|]. split; [exact Hl'|exact Hctx].
  - eexists. split; [reflexivity|]. split; [exact Hl|reflexivity].
  - eexists. split; [reflexivity|]. split; [exact Hl|reflexivity].
  - destruct (String.eqb (stmt_name stmt) "session_authorization").
    + destruct (remove_entry_run h "role" tab l Hl) as (tab1 & l1 & -> & Hl1 & Hctx1).
      cbn [bind].
      destruct (remove_entry_run h (stmt_name stmt) tab1 l1 Hl1)
        as (tab' & l' & -> & Hl' & Hctx).
      eexists. split; [reflexivity|]. split; [exact Hl'|].
      now rewrite Hctx, Hctx1.
    + cbn [ret bind].
      destruct (remove_entry_run h (stmt_name stmt) tab l Hl)
        as (tab' & l' & -> & Hl' & Hctx).
      eexists. split; [reflexivity|]. split; [exact Hl'|exact Hctx].
  - destruct (MtmGucDiscard_run {| MtmGucHash := Some tab; MtmGucList := l |} Hl)
      as (st' & -> & Hc' & Hfull & Hempty).
    exists st'. split; [reflexivity|]. split; [exact Hc'|].
    cbn [MtmGucList] in *. destruct l as [|k l].
    + now rewrite (Hempty eq_refl).
    + now rewrite Hfull.
Qed.

Lemma context_text_app h es1 es2 :
  context_text h (es1 ++ es2) = context_text h es1 +++ context_text h es2.
Proof.
  induction es1 as [|e es1 IH]; cbn [app context_text]; [reflexivity|].
  now rewrite IH, append_assoc.
Qed.

Lemma serialize_list_run h tab : forall l buf,
  (forall k, In k l -> In k (map key tab)) ->
  serialize_list h tab l buf
  = Ok (buf +++ context_text h (context {| MtmGucHash := Some tab; MtmGucList := l |})) [].
Proof.
  induction l as [|k l IH]; intros buf Hin.
  - cbn [serialize_list context MtmGucHash MtmGucList flat_map context_text].
    now rewrite append_nil_r.
  - cbn [serialize_list]. rewrite context_cons.
    destruct (find_Some_key k tab) as [e He]; [apply Hin; now left|].
    rewrite He. cbn [app context_text]. unfold entry_text.
    destruct (String.eqb (key e) "search_path").
    + rewrite IH by (intros k' Hk'; apply Hin; now right). reflexivity.
    + rewrite IH by (intros k' Hk'; apply Hin; now right).
      destruct (quoted (fing_guc_conf h (key e))); now rewrite !append_assoc.
Qed.

Lemma MtmGucSerialize_run h st :
  consistent st ->
  MtmGucSerialize h st
  = Ok (context_text h (context (started h st)) +++ search_path_text h, started h st) [].
Proof.
  intros Hc. destruct (ensure_init_run h st Hc) as (tab & l & Hinit & Hl & ->).
  unfold MtmGucSerialize. rewrite Hinit. cbn [bind MtmGucHash MtmGucList].
  rewrite serialize_list_run by (intros k Hk; now apply Hl).
  cbn [ret app]. reflexivity.
Qed.

(** X9. The list and the table of the settings stay in step. In a state in
    which the list links every entry of the table exactly once and nothing
    else (or both are empty, as in a backend that has not touched its
    settings), every SET or RESET statement, a discard and a serialisation
    run through without following a pointer to an entry that is gone, and
    leave a state of that kind. *)
Theorem guc_context_consistent (h : host) (st : state) :
  consistent st ->
  (forall stmt, exists st', MtmGucSet h stmt st = Ok st' [] /\ consistent st')
  /\ (exists st', MtmGucDiscard st = Ok st' [] /\ consistent st')
  /\ (exists text st', MtmGucSerialize h st = Ok (text, st') [] /\ consistent st').
Proof.
  intros Hc. split; [|split].
  - intros stmt. destruct (MtmGucSet_run h stmt st Hc) as (st' & Hrun & Hc' & _).
    eauto.
  - destruct (MtmGucDiscard_run st Hc) as (st' & Hrun & Hc' & _). eauto.
  - rewrite (MtmGucSerialize_run h st Hc). eexists. eexists. split; [reflexivity|].
    destruct (ensure_init_run h st Hc) as (tab & l & _ & Hl & ->). exact Hl.
Qed.

Lemma guc_context_consistent_witness :
  consistent fresh
  /\ (forall stmt, exists st', MtmGucSet host1 stmt fresh = Ok st' [] /\ consistent st')
  /\ (exists st', MtmGucDiscard fresh = Ok st' [] /\ consistent st')
  /\ (exists text st', MtmGucSerialize host1 fresh = Ok (text, st') [] /\ consistent st').
Proof.
  split; [reflexivity|]. apply (guc_context_consistent host1 fresh). reflexivity.
Defined.

(** X10. The settings behave as a map that remembers the order of the last
    assignments. [SET name TO v] puts the entry for [name] (its first 254
    characters) at the end with the value [v] and leaves the other entries
    in their order; [SET name TO DEFAULT] and [RESET name] take the entry of
    [name] away, [RESET session_authorization] also that of [role];
    [RESET ALL] leaves no entry; statements of kind [VAR_SET_CURRENT] and
    [VAR_SET_MULTI] change nothing. The entries before the statement are
    those of the backend once its table is there. *)
Theorem guc_set_is_ordered_map (h : host) (stmt : VariableSetStmt) (st : state) :
  consistent st ->
  exists st',
    MtmGucSet h stmt st = Ok st' []
    /\ context st' = after_stmt stmt (context (started h st)).
Proof.
  intros Hc. destruct (MtmGucSet_run h stmt st Hc) as (st' & Hrun & _ & Hctx).
  eauto.
Qed.

Lemma guc_set_is_ordered_map_witness :
  exists st',
    MtmGucSet host1 (set_to "work_mem" "64MB") fresh = Ok st' []
    /\ context st' = after_stmt (set_to "work_mem" "64MB") (context (started host1 fresh)).
Proof. apply (guc_set_is_ordered_map host1 _ fresh). reflexivity. Defined.

(** *** The search for a setting *)

Lemma bsearch_loop_sound {A} (compar : A -> comparison) (base : list A) :
  forall fuel l u p,
    bsearch_loop compar base fuel l u = Some p -> In p base /\ compar p = Eq.
Proof.
  induction fuel as [|fuel IH]; intros l u p; cbn [bsearch_loop]; [discriminate|].
  destruct (l <? u)%nat; [|discriminate].
  destruct (nth_error base ((l + u) / 2)) as [q|] eqn:Hq; [|discriminate].
  destruct (compar q) eqn:Hc.
  - intros H. injection H as <-. split; [|exact Hc].
    now apply nth_error_In in Hq.
  - apply IH.
  - apply IH.
Qed.

Lemma middle_bounds (l u : nat) :
  (l < u)%nat -> (l <= (l + u) / 2 < u)%nat.
Proof.
  intros Hlu.
  pose proof (Nat.div_mod_eq (l + u) 2) as Hd.
  pose proof (Nat.mod_upper_bound (l + u) 2 ltac:(discriminate)) as Hm.
  lia.
Qed.

(** The turns of the loop are fewer than the elements between the bounds. *)
Lemma bsearch_loop_fuel {A} (compar : A -> comparison) (base : list A) :
  forall fuel fuel' l u,
    (u - l < fuel)%nat -> (u - l < fuel')%nat ->
    bsearch_loop compar base fuel l u = bsearch_loop compar base fuel' l u.
Proof.
  induction fuel as [|fuel IH]; intros fuel' l u Hf Hf'; [lia|].
  destruct fuel' as [|fuel']; [lia|]. cbn [bsearch_loop].
  destruct (Nat.ltb_spec l u) as [Hlu|Hlu]; [|reflexivity].
  pose proof (middle_bounds l u Hlu) as Hmid.
  destruct (nth_error base ((l + u) / 2)) as [q|]; [|reflexivity].
  destruct (compar q); [reflexivity|apply IH; lia|apply IH; lia].
Qed.

Lemma bsearch_loop_finds {A} (compar : A -> comparison) (base : list A)
    (i : nat) (g : A) :
  nth_error base i = Some g ->
  compar g = Eq ->
  (forall j p, nth_error base j = Some p -> (j < i)%nat -> compar p = Gt) ->
  (forall j p, nth_error base j = Some p -> (i < j)%nat -> compar p = Lt) ->
  forall fuel l u,
    (l <= i < u)%nat -> (u <= length base)%nat -> (u - l < fuel)%nat ->
    bsearch_loop compar base fuel l u = Some g.
Proof.
  intros Hg Heq Hbelow Habove.
  induction fuel as [|fuel IH]; intros l u Hi Hu Hf; [lia|].
  cbn [bsearch_loop].
  destruct (Nat.ltb_spec l u) as [Hlu|Hlu]; [|lia].
  pose proof (middle_bounds l u Hlu) as Hmid.
  destruct (nth_error base ((l + u) / 2)) as [q|] eqn:Hq.
  2:{ apply nth_error_None in Hq. lia. }
  destruct (Nat.lt_trichotomy ((l + u) / 2) i) as [Hlt|[Heqi|Hgt]].
  - rewrite (Hbelow _ _ Hq Hlt). apply IH; lia.
  - rewrite Heqi in Hq. rewrite Hg in Hq. injection Hq as <-. now rewrite Heq.
  - rewrite (Habove _ _ Hq Hgt). apply IH; lia.
Qed.

Lemma strcmp_refl (a : string) : strcmp a a = Eq.
Proof.
  unfold strcmp. pose proof (String.compare_antisym a a) as H.
  destruct (String.compare a a); [reflexivity|discriminate..].
Qed.

Lemma strcmp_flip (a b : string) : strcmp a b = Lt -> strcmp b a = Gt.
Proof. unfold strcmp. intros H. now rewrite String.compare_antisym, H. Qed.

Lemma strcmp_sorted_nth (vars : list config_generic) :
  strcmp_sorted vars ->
  forall i j a b,
    nth_error vars i = Some a -> nth_error vars j = Some b -> (i < j)%nat ->
    strcmp (name a) (name b) = Lt.
Proof.
  induction 1 as [|x vars Hs IH Hx]; intros i j a b Ha Hb Hij.
  - destruct i; discriminate.
  - destruct j as [|j]; [lia|]. cbn [nth_error] in Hb.
    destruct i as [|i]; cbn [nth_error] in Ha.
    + injection Ha as <-. apply nth_error_In in Hb.
      rewrite List.Forall_forall in Hx. now apply Hx.
    + apply (IH i j); [exact Ha|exact Hb|lia].
Qed.

Lemma fing_guc_conf_sound h k g :
  fing_guc_conf h k = Some g -> In g (guc_variables h) /\ name g = k.
Proof.
  unfold fing_guc_conf, bsearch. intros H.
  apply bsearch_loop_sound in H as [Hin Hc]. split; [exact Hin|].
  unfold _var_name_cmp, strcmp in Hc. symmetry. now apply String.compare_eq_iff.
Qed.

Lemma fing_guc_conf_sorted h g :
  strcmp_sorted (guc_variables h) ->
  In g (guc_variables h) ->
  fing_guc_conf h (name g) = Some g.
Proof.
  intros Hs Hin. apply In_nth_error in Hin as [i Hi].
  unfold fing_guc_conf, bsearch.
  assert (Hlen : (i < length (guc_variables h))%nat).
  { apply nth_error_Some. now rewrite Hi. }
  apply (bsearch_loop_finds _ _ i g Hi).
  - apply strcmp_refl.
  - intros j p Hp Hj. unfold _var_name_cmp. apply strcmp_flip.
    now apply (strcmp_sorted_nth _ Hs j i).
  - intros j p Hp Hj. unfold _var_name_cmp.
    now apply (strcmp_sorted_nth _ Hs i j).
  - lia.
  - lia.
  - lia.
Qed.

(** X11. [MtmGucSerialize] writes one [SET key TO value; ] for every entry
    in the order of the list, never one for an entry named [search_path],
    and ends with [SET search_path TO ] and the session's current search
    path. The value is written between quotes when [fing_guc_conf] finds the
    key in the host's table of settings and the setting found is a string, an
    enum or has a memory or time unit; it is written bare otherwise.
    [fing_guc_conf] is a binary search with [strcmp]: what it finds is a
    setting of the table with that name, and it finds every setting of a
    table that is in the order of [strcmp]. (In a table that is not, a
    setting can be missed, and its value is then written bare:
    [serialize_missed] below.) *)
Theorem guc_serialize_text (h : host) (st : state) :
  consistent st ->
  MtmGucSerialize h st
  = Ok (context_text h (context (started h st)) +++ search_path_text h, started h st) []
  /\ (forall k g,
        fing_guc_conf h k = Some g -> In g (guc_variables h) /\ name g = k)
  /\ (strcmp_sorted (guc_variables h) ->
      forall g, In g (guc_variables h) -> fing_guc_conf h (name g) = Some g).
Proof.
  intros Hc. split; [exact (MtmGucSerialize_run h st Hc)|]. split.
  - intros k g. apply fing_guc_conf_sound.
  - intros Hs g. now apply fing_guc_conf_sorted.
Qed.

Lemma guc_serialize_text_witness :
  MtmGucSerialize host1 fresh
  = Ok (context_text host1 (context (started host1 fresh)) +++ search_path_text host1,
        started host1 fresh) []
  /\ forall g, In g (guc_variables host1) -> fing_guc_conf host1 (name g) = Some g.
Proof.
  destruct (guc_serialize_text host1 fresh eq_refl) as (Hrun & _ & Hfind).
  split; [exact Hrun|]. apply Hfind.
  unfold strcmp_sorted. repeat constructor.
Defined.

(** On a host whose table is in the order of the names without regard to
    case, the search for [application_name] looks at [search_path], at
    [DateStyle] and at [IntervalStyle] and gives up, and the one for
    [session_authorization] ends between [TimeZone] and [work_mem]: the
    values of these string settings are written bare. *)
Example serialize_missed :
  fing_guc_conf host2 "application_name" = None
  /\ fing_guc_conf host2 "session_authorization" = None
  /\ (st <- MtmGucSet host2 (set_to "application_name" "my app") fresh ;;
      MtmGucSerialize host2 st)
     = Ok ("SET session_authorization TO alice; SET application_name TO my app; SET search_path TO public; "%string,
           {| MtmGucHash := Some [entry_of "session_authorization" "alice";
                                  entry_of "application_name" "my app"];
              MtmGucList := ["session_authorization"; "application_name"]%string |})
          [].
Proof. repeat split; reflexivity. Qed.

Example serialize_fresh :
  fst <$> (match MtmGucSerialize host1 fresh with Ok r _ => Some r | _ => None end)
  = Some "SET session_authorization TO 'alice'; SET search_path TO public; "%string.
Proof. reflexivity. Qed.

Lemma started_started h tab l :
  started h {| MtmGucHash := Some tab; MtmGucList := l |}
  = {| MtmGucHash := Some tab; MtmGucList := l |}.
Proof. reflexivity. Qed.

Lemma started_idem h st :
  consistent st -> started h (started h st) = started h st.
Proof.
  intros Hc. destruct (ensure_init_run h st Hc) as (tab & l & _ & _ & ->).
  reflexivity.
Qed.

Lemma started_consistent h st : consistent st -> consistent (started h st).
Proof.
  intros Hc. destruct (ensure_init_run h st Hc) as (tab & l & _ & Hl & ->).
  exact Hl.
Qed.

Lemma MtmProcessDDLCommand_run h queryString containsDML st :
  consistent st ->
  Guc.MtmProcessDDLCommand h queryString true containsDML st
  = Ok (true, started h st)
       [LogLogicalMessage "D" (ddl_text h (context (started h st)) queryString) true].
Proof.
  intros Hc. unfold Guc.MtmProcessDDLCommand. rewrite (MtmGucSerialize_run h st Hc).
  reflexivity.
Qed.

(** X12. A setting made with SET goes out with the next transactional DDL
    statement: after [SET name TO v], [MtmProcessDDLCommand] logs one message
    with prefix [D] whose text resets the session, replays the other
    settings in their order, then [name]'s new value last, then the search
    path, and ends with the statement itself; and it marks the transaction
    as one with changes to replicate. *)
Theorem ddl_carries_settings (h : host) (k v : string) (st : state) :
  consistent st ->
  exists st1,
    MtmGucSet h (set_to k v) st = Ok st1 []
    /\ forall queryString containsDML,
         MtmProcessDDLCommand h queryString true containsDML st1
         = Ok (true, st1)
              [LogLogicalMessage "D"
                 (ddl_text h (without k (context (started h st)) ++ [entry_of k v])
                    queryString) true].
Proof.
  intros Hc. destruct (MtmGucSet_run h (set_to k v) st Hc) as (st1 & Hrun & Hc1 & Hctx).
  exists st1. split; [exact Hrun|]. intros q dml.
  unfold MtmProcessDDLCommand. rewrite (MtmGucSerialize_run h st1 Hc1).
  assert (Hst : started h st1 = st1).
  { destruct st1 as [[tab|] l]; [reflexivity|].
    exfalso. clear -Hrun Hc.
    destruct (ensure_init_run h st Hc) as (tab & l0 & Hinit & Hl & _).
    unfold MtmGucSet in Hrun. rewrite Hinit in Hrun. cbn [bind set_to kind] in Hrun.
    destruct (MtmGucUpdate_run h (stmt_name (set_to k v))
                (ExtractSetVariableArgs (set_to k v)) tab l0 Hl)
      as (tab' & l' & Hu & _).
    rewrite Hu in Hrun. cbn in Hrun. discriminate. }
  rewrite Hst, Hctx. cbn [bind fst snd do_call ret app]. reflexivity.
Qed.

Lemma ddl_carries_settings_witness :
  exists st1,
    MtmGucSet host1 (set_to "work_mem" "64MB") fresh = Ok st1 []
    /\ forall queryString containsDML,
         MtmProcessDDLCommand host1 queryString true containsDML st1
         = Ok (true, st1)
              [LogLogicalMessage "D"
                 (ddl_text host1
                    (without "work_mem" (context (started host1 fresh))
                     ++ [entry_of "work_mem" "64MB"])
                    queryString) true].
Proof. apply (ddl_carries_settings host1 "work_mem" "64MB" fresh). reflexivity. Defined.

Example ddl_text_example :
  ddl_text host1 (context (started host1 fresh) ++ [entry_of "work_mem" "64MB"])
    "create table t (k int primary key);"
  = ("RESET SESSION AUTHORIZATION; reset all; "
     +++ "SET session_authorization TO 'alice'; SET work_mem TO '64MB'; "
     +++ "SET search_path TO public;  create table t (k int primary key);")%string.
Proof. reflexivity. Qed.

End GucFacts.

(* ===================================================================== *)
(** ** Sequences *)
(* ===================================================================== *)

Module SequencesFacts.
Import Sequences.

Lemma scan_options_flags : forall options has_increment has_start,
  scan_options options has_increment has_start
  = (has_increment || has_option "increment" options,
     has_start || has_option "start" options).
Proof.
  induction options as [|d rest IH]; intros hi hs; cbn [scan_options has_option existsb].
  - now rewrite !orb_false_r.
  - destruct (String.eqb_spec (defname d) "increment") as [Hi|Hi].
    + rewrite IH. rewrite Hi. cbn [orb].
      replace (String.eqb "increment" "start") with false by reflexivity.
      cbn [orb]. unfold has_option. now rewrite orb_true_r.
    + destruct (String.eqb (defname d) "start"); rewrite IH; cbn [orb];
        unfold has_option; now rewrite ?orb_true_r.
Qed.

(** X13. [AdjustCreateSequence] leaves the options that CREATE SEQUENCE came
    with as they are and adds, behind them, [increment] with
    [MtmMaxNodes] if no option is named [increment] and [start] with
    [MtmNodeId] if none is named [start]. For a statement without any option
    the caller's list stays empty: what is appended goes to a new list that
    only the local variable points to. *)
Theorem adjust_create_sequence (MtmMaxNodes MtmNodeId : Z) (options : list DefElem) :
  AdjustCreateSequence MtmMaxNodes MtmNodeId options
  = match options with
    | [] => []
    | _ => options ++ missing MtmMaxNodes MtmNodeId options
    end.
Proof.
  unfold AdjustCreateSequence, missing. cbn [parameter cells].
  rewrite scan_options_flags. cbn [orb].
  destruct options as [|d rest].
  - reflexivity.
  - destruct (has_option "increment" (d :: rest)), (has_option "start" (d :: rest));
      cbn [negb lappend parameter cells callers same_list app];
      rewrite ?app_nil_r, <- ?app_assoc; reflexivity.
Qed.

Example create_sequence_with_cache :
  AdjustCreateSequence 6 2 [makeDefElem "cache" (parsed "10")]
  = [makeDefElem "cache" (parsed "10"); makeDefElem "increment" (makeInteger 6);
     makeDefElem "start" (makeInteger 2)].
Proof. reflexivity. Qed.

End SequencesFacts.

(* ===================================================================== *)
(** ** Local tables *)
(* ===================================================================== *)

Module LocalTablesFacts.
Import Calls CallsFacts LocalTables.

Lemma load_rows_quiet cat sh : forall rows,
  Forall (fun t => RangeVarGetRelid cat (fst t) (snd t) = InvalidOid) rows ->
  load_rows cat rows sh = Ok sh [].
Proof.
  induction rows as [|t rest IH]; intros Hall; [reflexivity|].
  apply List.Forall_cons_iff in Hall as [Ht Hall]. cbn [load_rows].
  unfold MtmMakeTableLocal, MtmMakeRelationLocal. rewrite Ht.
  cbn [OidIsValid InvalidOid Z.eqb negb ret bind app]. now rewrite IH.
Qed.

(** A load that finds nothing to enter. *)
Lemma load_quiet cat sh :
  (assert_checking cat = true -> IsTransactionState cat = true) ->
  Forall (fun r => r = InvalidOid) (listed cat) ->
  MtmLoadLocalTables cat sh = Ok sh (quiet_load cat).
Proof.
  intros Htx Hnone.
  unfold MtmLoadLocalTables, quiet_load, listed, Assert in *.
  destruct (assert_checking cat); [rewrite Htx by reflexivity|]; cbn [andb negb];
    (destruct (local_tables cat) as [rows|]; [|reflexivity]);
    cbn [do_call ret bind app];
    (rewrite load_rows_quiet;
       [reflexivity
       |clear -Hnone; induction rows as [|t rows IH]; constructor;
        [now apply List.Forall_cons_iff in Hnone as [? _]
        |apply IH; now apply List.Forall_cons_iff in Hnone as [_ ?]]]).
Qed.

(** X14. When [mtm.local_tables] is missing or names no relation that
    exists, the first call of [MtmIsRelationLocal] reads the catalog once
    under the exclusive lock and sets [localTablesHashLoaded]; every later
    call takes the shared lock only and reads nothing. Both answer whether
    the relation is in the table, change no entry, and leave the lock free. *)
Theorem local_tables_loaded_once (cat : catalog) (relid : Z) (tab : list Z) :
  (assert_checking cat = true -> IsTransactionState cat = true) ->
  Forall (fun r => r = InvalidOid) (listed cat) ->
  MtmIsRelationLocal cat relid (unlocked tab false)
  = Ok (hash_find tab relid, unlocked tab true)
       ([LWLockAcquire LW_SHARED; LWLockRelease; LWLockAcquire LW_EXCLUSIVE]
        ++ quiet_load cat ++ [LWLockRelease])
  /\ MtmIsRelationLocal cat relid (unlocked tab true)
     = Ok (hash_find tab relid, unlocked tab true)
          [LWLockAcquire LW_SHARED; LWLockRelease].
Proof.
  intros Htx Hnone. split; [|reflexivity].
  unfold MtmIsRelationLocal, acquire, release, unlocked.
  cbn [held localTablesHashLoaded MtmLocalTables do_call ret bind negb app].
  rewrite (load_quiet cat _ Htx Hnone).
  cbn [held localTablesHashLoaded MtmLocalTables do_call ret bind app].
  rewrite app_nil_r. reflexivity.
Qed.

Lemma local_tables_loaded_once_witness :
  MtmIsRelationLocal catalog0 16501 (unlocked [16501] false)
  = Ok (hash_find [16501] 16501, unlocked [16501] true)
       ([LWLockAcquire LW_SHARED; LWLockRelease; LWLockAcquire LW_EXCLUSIVE]
        ++ quiet_load catalog0 ++ [LWLockRelease])
  /\ MtmIsRelationLocal catalog0 16501 (unlocked [16501] true)
     = Ok (hash_find [16501] 16501, unlocked [16501] true)
          [LWLockAcquire LW_SHARED; LWLockRelease].
Proof.
  apply (local_tables_loaded_once catalog0 16501 [16501]);
    [reflexivity|constructor].
Defined.

Lemma load_rows_stuck cat sh mode : forall rows,
  held sh = Some mode ->
  Exists (fun t => RangeVarGetRelid cat (fst t) (snd t) <> InvalidOid) rows ->
  load_rows cat rows sh = Fault Stuck [LWLockAcquire LW_EXCLUSIVE].
Proof.
  induction rows as [|t rest IH]; intros Hheld Hex; [inversion Hex|].
  cbn [load_rows]. unfold MtmMakeTableLocal, MtmMakeRelationLocal, OidIsValid.
  destruct (Z.eqb_spec (RangeVarGetRelid cat (fst t) (snd t)) InvalidOid) as [Heq|Hne];
    cbn [negb].
  - cbn [ret bind app]. rewrite IH; [reflexivity|exact Hheld|].
    inversion Hex; subst; [contradiction|assumption].
  - unfold acquire. rewrite Hheld. reflexivity.
Qed.

(** A load that finds a relation to enter, under the exclusive lock. *)
Lemma load_stuck cat sh mode :
  (assert_checking cat = true -> IsTransactionState cat = true) ->
  held sh = Some mode ->
  Exists (fun r => r <> InvalidOid) (listed cat) ->
  MtmLoadLocalTables cat sh
  = Fault Stuck [heap_openrv_extended; systable_beginscan;
                 LWLockAcquire LW_EXCLUSIVE].
Proof.
  intros Htx Hheld Hsome.
  unfold MtmLoadLocalTables, listed, Assert in *.
  destruct (local_tables cat) as [rows|]; [|inversion Hsome].
  assert (Hrows : Exists (fun t => RangeVarGetRelid cat (fst t) (snd t) <> InvalidOid)
                    rows).
  { clear -Hsome. induction rows as [|t rows IH]; [inversion Hsome|].
    cbn [map] in Hsome. inversion Hsome; subst; [now left|right; now apply IH]. }
  destruct (assert_checking cat); [rewrite Htx by reflexivity|]; cbn [andb negb];
    cbn [do_call ret bind app];
    (rewrite (load_rows_stuck cat _ mode rows); [reflexivity|exact Hheld|exact Hrows]).
Qed.

(** X15. When [mtm.local_tables] names a relation that exists, the first
    call of [MtmIsRelationLocal] does not return: it takes
    [MtmLocalTablesMapLock] in exclusive mode, starts to read the catalog,
    and for the first such row [MtmMakeRelationLocal] asks for the same lock
    in exclusive mode again, which the process holds. *)
Theorem local_tables_load_locks_twice (cat : catalog) (relid : Z) (tab : list Z) :
  (assert_checking cat = true -> IsTransactionState cat = true) ->
  Exists (fun r => r <> InvalidOid) (listed cat) ->
  MtmIsRelationLocal cat relid (unlocked tab false)
  = Fault Stuck
      [LWLockAcquire LW_SHARED; LWLockRelease; LWLockAcquire LW_EXCLUSIVE;
       heap_openrv_extended; systable_beginscan; LWLockAcquire LW_EXCLUSIVE].
Proof.
  intros Htx Hsome.
  unfold MtmIsRelationLocal, acquire, release, unlocked.
  cbn [held localTablesHashLoaded MtmLocalTables do_call ret bind negb app].
  rewrite (load_stuck cat _ LW_EXCLUSIVE Htx); [reflexivity|reflexivity|exact Hsome].
Qed.

Lemma local_tables_load_locks_twice_witness :
  MtmIsRelationLocal catalog1 16501 (unlocked [] false)
  = Fault Stuck
      [LWLockAcquire LW_SHARED; LWLockRelease; LWLockAcquire LW_EXCLUSIVE;
       heap_openrv_extended; systable_beginscan; LWLockAcquire LW_EXCLUSIVE].
Proof.
  apply (local_tables_load_locks_twice catalog1 16501 []);
    [reflexivity|left; discriminate].
Defined.

Lemma hash_enter_find tab relid r :
  hash_find (hash_enter tab relid) r = (r =? relid) || hash_find tab r.
Proof.
  unfold hash_enter. destruct (hash_find tab relid) eqn:Hf.
  - destruct (Z.eqb_spec r relid) as [->|]; [now rewrite Hf|reflexivity].
  - unfold hash_find. rewrite existsb_app. cbn [existsb].
    rewrite orb_false_r. apply orb_comm.
Qed.

(** X16. A relation made local is found, where the next call of
    [MtmIsRelationLocal] returns. [MtmMakeRelationLocal] of a valid oid
    enters it under the exclusive lock, whether the table has been loaded or
    not; [InvalidOid] is never entered: for it the call does nothing, takes no
    lock, and a table without it stays without it. The next call of
    [MtmIsRelationLocal] then
    - with the table loaded, says true for that relation and answers for
      every other relation as before;
    - with the table not loaded and [mtm.local_tables] missing or naming no
      relation that exists, gives the same answers after the load;
    - with the table not loaded and [mtm.local_tables] naming a relation
      that exists (such as the row that [mtm_make_table_local] inserts for
      the relation it makes local), does not return: the load asks for the
      lock that the process holds.
    In a build with assertion checking the load is inside a transaction. *)
Theorem made_local_is_local (cat : catalog) (relid : Z) (tab : list Z)
    (loaded : bool) :
  ~ In InvalidOid tab ->
  exists tab',
    MtmMakeRelationLocal relid (unlocked tab loaded)
    = Ok (unlocked tab' loaded)
         (if OidIsValid relid then [LWLockAcquire LW_EXCLUSIVE; LWLockRelease]
          else [])
    /\ ~ In InvalidOid tab'
    /\ (loaded = true ->
        forall r,
          MtmIsRelationLocal cat r (unlocked tab' loaded)
          = Ok ((OidIsValid relid && (r =? relid)) || hash_find tab r,
                unlocked tab' true)
               [LWLockAcquire LW_SHARED; LWLockRelease])
    /\ (loaded = false ->
        (assert_checking cat = true -> IsTransactionState cat = true) ->
        Forall (fun r => r = InvalidOid) (listed cat) ->
        forall r,
          MtmIsRelationLocal cat r (unlocked tab' loaded)
          = Ok ((OidIsValid relid && (r =? relid)) || hash_find tab r,
                unlocked tab' true)
               ([LWLockAcquire LW_SHARED; LWLockRelease; LWLockAcquire LW_EXCLUSIVE]
                ++ quiet_load cat ++ [LWLockRelease]))
    /\ (loaded = false ->
        (assert_checking cat = true -> IsTransactionState cat = true) ->
        Exists (fun r => r <> InvalidOid) (listed cat) ->
        forall r,
          MtmIsRelationLocal cat r (unlocked tab' loaded)
          = Fault Stuck
              [LWLockAcquire LW_SHARED; LWLockRelease; LWLockAcquire LW_EXCLUSIVE;
               heap_openrv_extended; systable_beginscan;
               LWLockAcquire LW_EXCLUSIVE]).
Proof.
  intros Hno.
  set (tab' := if OidIsValid relid then hash_enter tab relid else tab).
  assert (Hfind : forall r,
            hash_find tab' r = (OidIsValid relid && (r =? relid)) || hash_find tab r).
  { intros r. unfold tab'. destruct (OidIsValid relid); cbn [andb orb];
      [apply hash_enter_find|reflexivity]. }
  exists tab'. split; [|split; [|split; [|split]]].
  - unfold MtmMakeRelationLocal, tab'. now destruct (OidIsValid relid).
  - unfold tab', OidIsValid.
    destruct (Z.eqb_spec relid InvalidOid) as [Heq|Hne]; cbn [negb]; [exact Hno|].
    unfold hash_enter. destruct (hash_find tab relid); [exact Hno|].
    rewrite in_app_iff. cbn [In]. intros [H|[H|[]]]; [contradiction|congruence].
  - intros -> r. rewrite <- Hfind. reflexivity.
  - intros -> Htx Hnone r. rewrite <- Hfind.
    unfold MtmIsRelationLocal, acquire, release, unlocked.
    cbn [held localTablesHashLoaded MtmLocalTables do_call ret bind negb app].
    rewrite (load_quiet cat _ Htx Hnone).
    cbn [held localTablesHashLoaded MtmLocalTables do_call ret bind app].
    rewrite app_nil_r. reflexivity.
  - intros -> Htx Hsome r.
    unfold MtmIsRelationLocal, acquire, release, unlocked.
    cbn [held localTablesHashLoaded MtmLocalTables do_call ret bind negb app].
    rewrite (load_stuck cat _ LW_EXCLUSIVE Htx); [reflexivity|reflexivity|exact Hsome].
Qed.

Lemma made_local_is_local_witness :
  (exists tab',
     MtmMakeRelationLocal 16501 (unlocked [] false)
     = Ok (unlocked tab' false) [LWLockAcquire LW_EXCLUSIVE; LWLockRelease]
     /\ (forall r,
           MtmIsRelationLocal catalog0 r (unlocked tab' false)
           = Ok ((r =? 16501) || false, unlocked tab' true)
                [LWLockAcquire LW_SHARED; LWLockRelease; LWLockAcquire LW_EXCLUSIVE;
                 heap_openrv_extended; LWLockRelease]))
  /\ (exists tab',
        MtmMakeRelationLocal 16501 (unlocked [] false)
        = Ok (unlocked tab' false) [LWLockAcquire LW_EXCLUSIVE; LWLockRelease]
        /\ (forall r,
              MtmIsRelationLocal catalog1 r (unlocked tab' false)
              = Fault Stuck
                  [LWLockAcquire LW_SHARED; LWLockRelease;
                   LWLockAcquire LW_EXCLUSIVE; heap_openrv_extended;
                   systable_beginscan; LWLockAcquire LW_EXCLUSIVE]))
  /\ (exists tab',
        MtmMakeRelationLocal 16501 (unlocked [] true)
        = Ok (unlocked tab' true) [LWLockAcquire LW_EXCLUSIVE; LWLockRelease]
        /\ (forall r,
              MtmIsRelationLocal catalog1 r (unlocked tab' true)
              = Ok ((r =? 16501) || false, unlocked tab' true)
                   [LWLockAcquire LW_SHARED; LWLockRelease])).
Proof.
  split; [|split].
  - destruct (made_local_is_local catalog0 16501 [] false ltac:(intros []))
      as (tab' & Hmake & _ & _ & Hquiet & _).
    exists tab'. split; [exact Hmake|].
    apply Hquiet; [reflexivity|reflexivity|constructor].
  - destruct (made_local_is_local catalog1 16501 [] false ltac:(intros []))
      as (tab' & Hmake & _ & _ & _ & Hstuck).
    exists tab'. split; [exact Hmake|].
    apply Hstuck; [reflexivity|reflexivity|left; discriminate].
  - destruct (made_local_is_local catalog1 16501 [] true ltac:(intros []))
      as (tab' & Hmake & _ & Hloaded & _).
    exists tab'. split; [exact Hmake|]. now apply Hloaded.
Defined.

End LocalTablesFacts.

(* ===================================================================== *)
(** ** Start of the shared state, and the locks *)
(* ===================================================================== *)

Module StartupFacts.
Import NodeMask NodeMaskFacts Commit CommitFacts Startup.

Lemma int32_wrap_id z : - 2 ^ 31 <= z < 2 ^ 31 -> int32_wrap z = z.
Proof. intros H. unfold int32_wrap. rewrite Z.mod_small by lia. lia. Qed.

(** X17. The locks of multimaster do not share an LWLock: the state lock,
    the node locks that pass the assertion of [MtmLockNode], the commit
    barrier, the receiver barrier and the syncpoint lock have places in the
    tranche that are all different and all below the number of locks that
    [_PG_init] has asked for. *)
Theorem locks_are_distinct (MtmMaxNodes : Z) (l1 l2 : mtm_lock) :
  0 <= MtmMaxNodes ->
  MtmMaxNodes * 2 + 4 <= Gid.INT_MAX ->
  lock_asserted MtmMaxNodes l1 = true ->
  lock_asserted MtmMaxNodes l2 = true ->
  0 <= lock_index MtmMaxNodes l1 < tranche_size MtmMaxNodes
  /\ (lock_index MtmMaxNodes l1 = lock_index MtmMaxNodes l2 -> l1 = l2).
Proof.
  unfold Gid.INT_MAX. intros Hn Hmax H1 H2.
  unfold tranche_size, lock_index, lock_asserted, MTM_STATE_LOCK_ID in *.
  rewrite (int32_wrap_id (MtmMaxNodes * 2)) in * by lia.
  rewrite !int32_wrap_id by (rewrite ?int32_wrap_id; lia).
  destruct l1 as [|n1| | |], l2 as [|n2| | |];
    repeat match goal with
           | H : _ && _ = true |- _ =>
               apply andb_true_iff in H as [?%Z.ltb_lt ?%Z.leb_le]
           end;
    (split; [lia|]); intros Heq; first [reflexivity|f_equal; lia|exfalso; lia].
Qed.

Lemma locks_are_distinct_witness :
  0 <= lock_index 6 (NodeLock 12) < tranche_size 6
  /\ (lock_index 6 (NodeLock 12) = lock_index 6 CommitBarrier
      -> NodeLock 12 = CommitBarrier).
Proof.
  apply (locks_are_distinct 6 (NodeLock 12) CommitBarrier);
    [lia|unfold Gid.INT_MAX; lia|reflexivity|reflexivity].
Defined.

(** X18. A node whose shared state has just been made is DISABLED, its
    flag [extension_created] is not set, and its mask of disabled nodes holds
    every node. So [MtmBeginTransaction] refuses the transaction of a client
    on it (one that is not admitted for another reason than the status). A
    state that is found is left as it is, and so is the clock; a new clock
    starts at 0. *)
Theorem fresh_node_refuses_clients (MtmMaxNodes : Z) (pool : BgwPool)
    (cfg : config) (h : host) (w : world) (rest : list MtmState) :
  let Mtm0 := snd (MtmStateShmemStartup MtmMaxNodes pool None None) in
  refused_at_start cfg h Mtm0 ->
  mtm_reads w = Mtm0 :: rest ->
  status Mtm0 = MTM_DISABLED
  /\ extension_created Mtm0 = false
  /\ (forall i, 0 <= i < nodemask_bits -> BIT_CHECK (disabledNodeMask Mtm0) i = true)
  /\ (exists w', MtmBeginTransaction cfg h w = Raised (NodeNotOnline MTM_DISABLED) w')
  /\ (forall t m,
        MtmStateShmemStartup MtmMaxNodes pool (Some t) (Some m) = (t, m))
  /\ Clock.last_timestamp (fst (MtmStateShmemStartup MtmMaxNodes pool None None)) = 0.
Proof.
  intros Mtm0 (Huser & _ & Hadm & Hbro & q & Hq & Hcmp) Hreads.
  split; [reflexivity|]. split; [reflexivity|]. split.
  { intros i Hi. rewrite BIT_CHECK_testbit by exact Hi.
    cbn [Mtm0 MtmStateShmemStartup snd disabledNodeMask].
    rewrite wrap64_testbit. unfold nodemask_bits in *.
    destruct (Z.ltb_spec i 64); [|lia]. cbn [andb].
    apply Z.bits_m1. lia. }
  split.
  { cbv beta iota delta [MtmBeginTransaction begin_must_reject bind get_MtmTx
      put_MtmTx emit read_Mtm ret raise isDistributed].
    cbn [mtm_reads set_MtmTx set_trace trace MtmTx].
    rewrite Huser. cbv beta iota. cbn [mtm_reads set_MtmTx set_trace trace MtmTx].
    rewrite Hreads.
    apply strcmp_ne_true in Hadm, Hbro. rewrite Hadm, Hbro, Hq.
    destruct (Z.eqb_spec (pg_strcasecmp q "create extension multimaster;") 0);
      [contradiction|].
    eexists. reflexivity. }
  split; reflexivity.
Qed.

Lemma fresh_node_refuses_clients_witness :
  exists w',
    MtmBeginTransaction Scenario.cfg1 Scenario.user_insert
      (Scenario.backend
         [snd (MtmStateShmemStartup 6 {| active := 0; pending := 0 |} None None)] [])
    = Raised (NodeNotOnline MTM_DISABLED) w'.
Proof.
  destruct (fresh_node_refuses_clients 6 {| active := 0; pending := 0 |}
              Scenario.cfg1 Scenario.user_insert
              (Scenario.backend
                 [snd (MtmStateShmemStartup 6 {| active := 0; pending := 0 |} None None)] [])
              [])
    as (_ & _ & _ & Hrefused & _).
  - split; [reflexivity|]. split; [discriminate|]. split; [discriminate|].
    split; [discriminate|]. eexists. split; [reflexivity|]. vm_compute. discriminate.
  - reflexivity.
  - exact Hrefused.
Defined.

End StartupFacts.

(* ===================================================================== *)
(** ** The transaction callback *)
(* ===================================================================== *)

Module XactFacts.
Import Commit CommitFacts Xact.

Lemma begin_leaves_no_change cfg h w0 w1 :
  MtmBeginTransaction cfg h w0 = Done tt w1 ->
  containsDML (MtmTx w1) = false.
Proof.
  unfold MtmBeginTransaction. intros H.
  bind_inv H. unfold get_MtmTx in Hstep. injection Hstep as <- <-.
  bind_inv H. unfold put_MtmTx in Hstep. injection Hstep as <-.
  bind_inv H. apply emit_inv in Hstep. subst.
  bind_inv H. destruct a as [st|]; [discriminate|]. apply ret_inv in H as [_ <-].
  unfold begin_must_reject in Hstep. cbn [isDistributed] in Hstep.
  destruct (MtmIsUserTransaction h).
  - bind_inv Hstep. apply ret_inv in Hstep as [_ <-].
    unfold read_Mtm in Hstep0.
    cbn [mtm_reads set_trace set_MtmTx] in Hstep0.
    destruct (mtm_reads w0); [discriminate|]. injection Hstep0 as _ <-. reflexivity.
  - apply ret_inv in Hstep as [_ <-]. reflexivity.
Qed.

(** X19. In a logical receiver [MtmXactCallback2] does nothing, whatever
    the event. In a backend, a transaction that [XACT_EVENT_START] has let
    in and in which nothing has marked a change since is left to the host at
    [XACT_EVENT_COMMIT_COMMAND]: the callback returns at once, with no call
    to the DMQ or the host and no look at the shared state. *)
Theorem callback_leaves_unchanged_transactions (cfg : config) (h : host)
    (p : process) (b b1 : backend) :
  (MtmIsLogicalReceiver p = true ->
   forall event, MtmXactCallback2 cfg h p event b = Returned b)
  /\ (MtmXactCallback2 cfg h p XACT_EVENT_START b = Returned b1 ->
      MtmIsLogicalReceiver p = false ->
      forall h' p',
        MtmXactCallback2 cfg h' p' XACT_EVENT_COMMIT_COMMAND b1 = Returned b1).
Proof.
  split.
  - intros Hr event. unfold MtmXactCallback2. now rewrite Hr.
  - intros Hstart Hr h' p'. unfold MtmXactCallback2 in *. rewrite Hr in Hstart.
    cbn [negb] in Hstart. unfold lift in Hstart.
    destruct (MtmBeginTransaction cfg h (w b)) as [[] w1| | |] eqn:Hbegin;
      try discriminate.
    injection Hstart as <-. cbn [w].
    apply begin_leaves_no_change in Hbegin.
    assert (Hcommit : MtmTwoPhaseCommit cfg h' w1 = Done false w1).
    { cbv beta iota delta [MtmTwoPhaseCommit commit_guard bind get_MtmTx ret].
      destruct (isDistributed (MtmTx w1)); cbn [negb]; [|reflexivity].
      now rewrite Hbegin. }
    destruct (negb (MtmIsLogicalReceiver p')); [|reflexivity].
    destruct (IsTransactionOrTransactionBlock p' && negb (IsTransactionBlock h')
              && negb (IsSubTransaction p')); [|reflexivity].
    rewrite Hcommit. reflexivity.
Qed.

Lemma callback_leaves_unchanged_transactions_witness :
  exists b1,
    MtmXactCallback2 Scenario.cfg1 Scenario.user_insert process1 XACT_EVENT_START
      (new_backend Scenario.commit3) = Returned b1
    /\ MtmXactCallback2 Scenario.cfg1 Scenario.user_insert process1
         XACT_EVENT_COMMIT_COMMAND b1 = Returned b1.
Proof.
  eexists. split; [reflexivity|].
  eapply (proj2 (callback_leaves_unchanged_transactions Scenario.cfg1
                   Scenario.user_insert process1 (new_backend Scenario.commit3) _));
    reflexivity.
Defined.

(** X20. [MtmPrePrepareTransaction] lets every transaction pass that is not
    distributed, without looking anything up. For a distributed one it
    raises "Refusing to work" exactly when the database that multimaster is
    configured for is not the database of the backend. The oid of that
    database is looked up once per backend: the first call stores it, and
    no later call asks the host again. *)
Theorem pre_prepare_checks_database (cfg : config) (p : process) (b : backend)
    (oid : Z) :
  (isDistributed (MtmTx (w b)) = false ->
   MtmPrePrepareTransaction cfg p b = Returned b)
  /\ (isDistributed (MtmTx (w b)) = true ->
      get_database_oid p = Some oid -> oid <> 0 -> MtmDatabaseId b = 0 ->
      let r := MtmPrePrepareTransaction cfg p b in
      MtmDatabaseId (backend_of r) = oid
      /\ oid_lookups (backend_of r) = S (oid_lookups b)
      /\ w (backend_of r) = w b
      /\ (r = Raised' (RefusingToWork (MtmDatabaseName p)) (backend_of r)
          <-> oid <> MyDatabaseId p)
      /\ forall p',
           oid_lookups (backend_of (MtmPrePrepareTransaction cfg p' (backend_of r)))
           = oid_lookups (backend_of r)).
Proof.
  split.
  - intros Hd. unfold MtmPrePrepareTransaction. now rewrite Hd.
  - intros Hd Hoid Hvalid Hzero r. subst r.
    set (b1 := {| w := w b; MtmDatabaseId := oid; oid_lookups := S (oid_lookups b) |}).
    assert (Hr : MtmPrePrepareTransaction cfg p b
                 = if negb (oid =? MyDatabaseId p)
                   then Raised' (RefusingToWork (MtmDatabaseName p)) b1
                   else if assert_checking cfg
                           && negb (Gid.TransactionIdIsValid (GetCurrentTransactionId p))
                        then Crashed' AssertFailed b1 else Returned b1).
    { unfold MtmPrePrepareTransaction. rewrite Hd, Hzero, Hoid. reflexivity. }
    rewrite Hr. clear Hr.
    assert (Hb : backend_of
                   (if negb (oid =? MyDatabaseId p)
                    then Raised' (RefusingToWork (MtmDatabaseName p)) b1
                    else if assert_checking cfg
                            && negb (Gid.TransactionIdIsValid (GetCurrentTransactionId p))
                         then Crashed' AssertFailed b1 else Returned b1) = b1).
    { destruct (negb (oid =? MyDatabaseId p)); [reflexivity|].
      now destruct (assert_checking cfg
                    && negb (Gid.TransactionIdIsValid (GetCurrentTransactionId p))). }
    rewrite Hb. split; [reflexivity|]. split; [reflexivity|]. split; [reflexivity|].
    split.
    + destruct (Z.eqb_spec oid (MyDatabaseId p)) as [Heq|Hne]; cbn [negb].
      * split; [|contradiction].
        destruct (assert_checking cfg
                  && negb (Gid.TransactionIdIsValid (GetCurrentTransactionId p)));
          discriminate.
      * split; [intros _; exact Hne|reflexivity].
    + intros p'. unfold MtmPrePrepareTransaction. cbn [w MtmDatabaseId b1].
      destruct (negb (isDistributed (MtmTx (w b)))); [reflexivity|].
      destruct (Z.eqb_spec oid 0); [contradiction|].
      destruct (negb (MtmDatabaseId b1 =? MyDatabaseId p')); [reflexivity|].
      now destruct (assert_checking cfg
                    && negb (Gid.TransactionIdIsValid (GetCurrentTransactionId p'))).
Qed.

Lemma pre_prepare_checks_database_witness :
  let r := MtmPrePrepareTransaction Scenario.cfg1 process1
             (new_backend Scenario.commit3) in
  MtmDatabaseId (backend_of r) = 16384
  /\ oid_lookups (backend_of r) = 1%nat
  /\ w (backend_of r) = Scenario.commit3
  /\ (r = Raised' (RefusingToWork "app") (backend_of r) <-> 16384 <> 16384)
  /\ forall p',
       oid_lookups (backend_of (MtmPrePrepareTransaction Scenario.cfg1 p' (backend_of r)))
       = oid_lookups (backend_of r).
Proof.
  apply (proj2 (pre_prepare_checks_database Scenario.cfg1 process1
                  (new_backend Scenario.commit3) 16384));
    [reflexivity|reflexivity|discriminate|reflexivity].
Defined.

End XactFacts.

(* ===================================================================== *)
(** ** The hooks of [ddl.c] *)
(* ===================================================================== *)

Module HooksFacts.
Import StdioFacts Calls CallsFacts DdlCalls Hooks.

(** *** The list of function names *)

Lemma strchr_comma_join p :
  match strchr_comma p with
  | (name, Some q) => p = String.append name (String "," q)
                      /\ (String.length q < String.length p)%nat
  | (name, None) => p = name
  end.
Proof.
  induction p as [|c p IH]; cbn [strchr_comma]; [reflexivity|].
  destruct (Ascii.eqb_spec c ",") as [->|Hc].
  - cbn [String.append String.length]. split; [reflexivity|lia].
  - destruct (strchr_comma p) as [name [q|]]; cbn [String.append String.length].
    + destruct IH as [-> Hlen]. split; [reflexivity|].
      cbn [String.length]. lia.
    + now rewrite IH.
Qed.

Lemma join_names : forall fuel p,
  (String.length p < fuel)%nat -> join (names_of fuel p) = p.
Proof.
  induction fuel as [|fuel IH]; intros p Hlen; [lia|].
  cbn [names_of]. pose proof (strchr_comma_join p) as Hp.
  destruct (strchr_comma p) as [name [q|]].
  - destruct Hp as [-> Hq]. specialize (IH q ltac:(lia)).
    cbn [join]. destruct (names_of fuel q) as [|n ns] eqn:Hn.
    + destruct fuel; [lia|]. cbn [names_of] in Hn.
      destruct (strchr_comma q) as [? [?|]]; discriminate.
    + now rewrite IH.
  - subst. reflexivity.
Qed.

(** *** The table of the functions that run on every node *)

Lemma hash_find_true tab oid : hash_find tab oid = true <-> In oid tab.
Proof.
  unfold hash_find. rewrite existsb_exists. split.
  - intros (x & Hx & Heq). apply Z.eqb_eq in Heq. now subst.
  - intros Hin. exists oid. split; [exact Hin|apply Z.eqb_refl].
Qed.

Lemma hash_enter_In tab oid x : In x (hash_enter tab oid) <-> In x tab \/ x = oid.
Proof.
  unfold hash_enter. destruct (hash_find tab oid) eqn:Hf.
  - apply hash_find_true in Hf. split; [now left|].
    intros [H| ->]; assumption.
  - rewrite in_app_iff. cbn [In]. split.
    + intros [H|[H|[]]]; [now left|now right].
    + intros [H|H]; [now left|right; now left].
Qed.

Lemma hash_enter_NoDup tab oid : List.NoDup tab -> List.NoDup (hash_enter tab oid).
Proof.
  intros Hnd. unfold hash_enter. destruct (hash_find tab oid) eqn:Hf; [exact Hnd|].
  apply NoDup_ListNoDup. apply NoDup_ListNoDup in Hnd.
  apply NoDup_app. split; [exact Hnd|]. split; [|apply NoDup_singleton].
  intros x Hx Hx'. apply list_elem_of_singleton in Hx'. subst x.
  apply list_elem_of_In, hash_find_true in Hx. congruence.
Qed.

Lemma table_after_In e : forall names tab x,
  In x (table_after e names tab)
  <-> In x tab \/ exists name, In name names /\ FuncnameGetCandidates e name = [x].
Proof.
  unfold table_after.
  induction names as [|name names IH]; intros tab x; cbn [fold_left].
  - split; [now left|]. intros [H|(name & [] & _)]. exact H.
  - rewrite IH. split.
    + intros [H|(n & Hn & Hc)].
      * destruct (FuncnameGetCandidates e name) as [|oid [|]] eqn:Hcand;
          [now left| |now left].
        apply hash_enter_In in H as [H| ->]; [now left|].
        right. exists name. split; [now left|exact Hcand].
      * right. exists n. split; [now right|exact Hc].
    + intros [H|(n & [<-|Hn] & Hc)].
      * left. destruct (FuncnameGetCandidates e name) as [|oid [|]];
          [exact H| |exact H].
        apply hash_enter_In. now left.
      * left. rewrite Hc. apply hash_enter_In. now right.
      * right. exists n. now split.
Qed.

Lemma table_after_NoDup e : forall names tab,
  List.NoDup tab -> List.NoDup (table_after e names tab).
Proof.
  unfold table_after.
  induction names as [|name names IH]; intros tab Hnd; cbn [fold_left]; [exact Hnd|].
  apply IH. destruct (FuncnameGetCandidates e name) as [|oid [|]]; [exact Hnd| |exact Hnd].
  now apply hash_enter_NoDup.
Qed.

Lemma enter_functions_run e : forall fuel p s0 tab,
  (forall name, In name (names_of fuel p) ->
                (length (FuncnameGetCandidates e name) <= 1)%nat) ->
  enter_functions e fuel p (set_MtmRemoteFunctions (Some tab) s0)
  = Ok (set_MtmRemoteFunctions (Some (table_after e (names_of fuel p) tab)) s0)
       (map mtm_log_WARNING_lookup (unknown_names e (names_of fuel p))).
Proof.
  induction fuel as [|fuel IH]; intros p s0 tab Hone; [reflexivity|].
  cbn [enter_functions names_of] in *.
  destruct (strchr_comma p) as [name q].
  assert (Hrest : forall tab',
    match q with
    | Some p' => enter_functions e fuel p' (set_MtmRemoteFunctions (Some tab') s0)
    | None => ret (set_MtmRemoteFunctions (Some tab') s0)
    end
    = Ok (set_MtmRemoteFunctions
            (Some (table_after e match q with
                                 | Some p' => names_of fuel p'
                                 | None => []
                                 end tab')) s0)
         (map mtm_log_WARNING_lookup
            (unknown_names e match q with
                             | Some p' => names_of fuel p'
                             | None => []
                             end))).
  { intros tab'. destruct q as [p'|]; [|reflexivity].
    apply IH. intros n Hn. apply Hone. now right. }
  specialize (Hone name (or_introl eq_refl)).
  unfold enter_function. cbn [MtmRemoteFunctions set_MtmRemoteFunctions].
  unfold table_after, unknown_names in *. cbn [fold_left List.filter].
  destruct (FuncnameGetCandidates e name) as [|oid [|]] eqn:Hcand.
  - cbn [bind do_call ret app]. rewrite Hrest. reflexivity.
  - eapply bind_Ok_nil; [reflexivity|]. cbv beta.
    change (set_MtmRemoteFunctions (Some (hash_enter tab oid))
              (set_MtmRemoteFunctions (Some tab) s0))
      with (set_MtmRemoteFunctions (Some (hash_enter tab oid)) s0).
    apply Hrest.
  - cbn [length] in Hone. lia.
Qed.

Lemma enter_functions_ambiguous e : forall fuel p s0 tab pre name post,
  names_of fuel p = pre ++ name :: post ->
  (forall n, In n pre -> (length (FuncnameGetCandidates e n) <= 1)%nat) ->
  (2 <= length (FuncnameGetCandidates e name))%nat ->
  enter_functions e fuel p (set_MtmRemoteFunctions (Some tab) s0)
  = Error (AmbiguousFunction name,
           set_MtmRemoteFunctions (Some (table_after e pre tab)) s0)
          (map mtm_log_WARNING_lookup (unknown_names e pre)).
Proof.
  induction fuel as [|fuel IH]; intros p s0 tab pre name post Hnames Hone Htwo.
  - cbn [names_of] in Hnames. now destruct pre.
  - cbn [enter_functions names_of] in *.
    destruct (strchr_comma p) as [name0 q].
    unfold enter_function. cbn [MtmRemoteFunctions set_MtmRemoteFunctions].
    destruct pre as [|n pre]; cbn [app] in Hnames; injection Hnames as -> Hrest.
    + destruct (FuncnameGetCandidates e name) as [|oid [|]] eqn:Hcand;
        cbn [length] in Htwo; [lia|lia|]. reflexivity.
    + specialize (IH match q with Some p' => p' | None => EmptyString end
                     s0).
      destruct q as [p'|]; [|now destruct pre].
      pose proof (Hone n (or_introl eq_refl)) as Hn.
      unfold table_after, unknown_names in *. cbn [fold_left List.filter].
      destruct (FuncnameGetCandidates e n) as [|oid [|]] eqn:Hcand.
      * cbn [bind do_call ret app].
        rewrite (IH tab pre name post Hrest); [reflexivity| |exact Htwo].
        intros m Hm. apply Hone. now right.
      * unfold bind at 1. unfold ret at 1.
        change (set_MtmRemoteFunctions (Some (hash_enter tab oid))
                  (set_MtmRemoteFunctions (Some tab) s0))
          with (set_MtmRemoteFunctions (Some (hash_enter tab oid)) s0).
        rewrite (IH (hash_enter tab oid) pre name post Hrest); [reflexivity| |exact Htwo].
        intros m Hm. apply Hone. now right.
      * cbn [length] in Hn. lia.
Qed.

(** X21. In a backend that has no table yet, and when no name of
    [multimaster.remote_functions] stands for more than one function,
    [MtmInitializeRemoteFunctionsMap] takes the rights of the database user,
    warns once for every name of the list that stands for no function, in
    the order of the list, and gives the rights back. The names are the
    pieces of the setting between its commas. The table then holds, each
    once, the functions of the names that stand for one function and the
    first function named [mtm.alter_sequences], and nothing else. *)
Theorem remote_functions_map (e : env) (s : session) :
  MtmRemoteFunctions s = None ->
  (forall name, In name (listed_names e) ->
                (length (FuncnameGetCandidates e name) <= 1)%nat) ->
  exists tab,
    MtmInitializeRemoteFunctionsMap e s
    = Ok (set_MtmRemoteFunctions (Some tab) s)
         ([SetUserIdAndSecContext true]
          ++ map mtm_log_WARNING_lookup (unknown_names e (listed_names e))
          ++ [SetUserIdAndSecContext false])
    /\ join (listed_names e) = MtmRemoteFunctionsList e
    /\ List.NoDup tab
    /\ forall oid,
         In oid tab
         <-> (exists name, In name (listed_names e)
                           /\ FuncnameGetCandidates e name = [oid])
             \/ (exists rest,
                   FuncnameGetCandidates e "mtm.alter_sequences" = oid :: rest).
Proof.
  intros Hnone Hone.
  exists (with_alter_sequences e (table_after e (listed_names e) [])).
  split; [|split; [|split]].
  - unfold MtmInitializeRemoteFunctionsMap. rewrite Hnone.
    cbn [is_null]. rewrite Assert_true.
    eapply bind_Ok_nil; [reflexivity|]. cbv beta.
    eapply bind_Ok_Ok; [reflexivity|]. cbv beta.
    eapply bind_Ok_Ok; [apply (enter_functions_run e _ _ s []); exact Hone|].
    cbv beta. cbn [MtmRemoteFunctions set_MtmRemoteFunctions].
    unfold with_alter_sequences. fold (listed_names e).
    destruct (FuncnameGetCandidates e "mtm.alter_sequences") as [|oid rest];
      reflexivity.
  - apply join_names. lia.
  - unfold with_alter_sequences.
    pose proof (table_after_NoDup e (listed_names e) [] (List.NoDup_nil _)) as Hnd.
    destruct (FuncnameGetCandidates e "mtm.alter_sequences") as [|oid rest];
      [exact Hnd|now apply hash_enter_NoDup].
  - intros oid. unfold with_alter_sequences.
    destruct (FuncnameGetCandidates e "mtm.alter_sequences") as [|x rest].
    + rewrite table_after_In. split.
      * intros [[]|H]. now left.
      * intros [H|(r & Hr)]; [now right|discriminate].
    + rewrite hash_enter_In, table_after_In. split.
      * intros [[[]|H]| ->]; [now left|right; now exists rest].
      * intros [H|(r & Hr)]; [left; now right|].
        right. now injection Hr as ->.
Qed.

Lemma remote_functions_map_witness :
  exists tab,
    MtmInitializeRemoteFunctionsMap env1 session1
    = Ok (set_MtmRemoteFunctions (Some tab) session1)
         ([SetUserIdAndSecContext true]
          ++ map mtm_log_WARNING_lookup (unknown_names env1 (listed_names env1))
          ++ [SetUserIdAndSecContext false])
    /\ join (listed_names env1) = MtmRemoteFunctionsList env1
    /\ List.NoDup tab
    /\ forall oid,
         In oid tab
         <-> (exists name, In name (listed_names env1)
                           /\ FuncnameGetCandidates env1 name = [oid])
             \/ (exists rest,
                   FuncnameGetCandidates env1 "mtm.alter_sequences" = oid :: rest).
Proof.
  apply (remote_functions_map env1 session1); [reflexivity|].
  intros name [<-|[<-|[]]]; vm_compute; lia.
Defined.

(** *** The executor start hook *)

Lemma session_eta s :
  set_guc (guc s) (set_containsDML (containsDML (MtmTx s)) s) = s.
Proof. destruct s as [? ? ? [? ? ? ?] ? ? ? ? ? ?]. reflexivity. Qed.

Lemma DDLCommand_transactional e queryString s :
  Guc.consistent (guc s) ->
  MtmProcessDDLCommand e queryString true s
  = Ok (set_guc (Guc.started (guc_host e) (guc s)) (set_containsDML true s))
       [ddl_message e s queryString].
Proof.
  intros Hc. unfold MtmProcessDDLCommand.
  rewrite (GucFacts.MtmProcessDDLCommand_run _ _ _ _ Hc). reflexivity.
Qed.

Lemma DDLCommand_concurrent e queryString s :
  MtmProcessDDLCommand e queryString false s
  = Ok s [LogLogicalMessage "C" queryString false; XLogFlush].
Proof.
  unfold MtmProcessDDLCommand, Guc.MtmProcessDDLCommand.
  cbn [bind do_call ret of_guc app fst snd]. now rewrite session_eta.
Qed.

Lemma remote_call_run e tab s : forall tl,
  functions_known e tl ->
  remote_call e tab tl s = Ok (existsb (runs_everywhere e tab) tl) [].
Proof.
  induction tl as [|tle tl IH]; intros Hk; [reflexivity|].
  assert (Hk' : functions_known e tl).
  { intros oid Hin. apply Hk. now right. }
  cbn [remote_call existsb]. destruct tle as [[oid|]|]; [|exact (IH Hk')..].
  cbn [runs_everywhere]. destruct (hash_find tab oid); [reflexivity|].
  cbn [negb orb]. specialize (Hk oid (or_introl eq_refl)).
  destruct (prosecdef e oid) as [[|]|]; [reflexivity|exact (IH Hk')|congruence].
Qed.

Lemma MtmExecutorStart_run e q s tab :
  MtmRemoteFunctions s = Some tab ->
  functions_known e (targetlist q) ->
  Guc.consistent (guc s) ->
  MtmExecutorStart e q s
  = if negb (MtmIsLogicalReceiver e) && is_null (MtmDDLStatement s)
       && existsb (runs_everywhere e tab) (targetlist q)
    then Ok (set_MtmDDLStatement (Some (QueryDescRef (id q)))
               (set_guc (Guc.started (guc_host e) (guc s)) (set_containsDML true s)))
            [ddl_message e s (sourceText q); standard_ExecutorStart (sourceText q)]
    else Ok s [standard_ExecutorStart (sourceText q)].
Proof.
  intros Htab Hk Hc. unfold MtmExecutorStart.
  destruct (negb (MtmIsLogicalReceiver e) && is_null (MtmDDLStatement s));
    [|reflexivity].
  rewrite Htab. cbn [is_null andb].
  unfold ret at 1. rewrite bind_ret_l, Htab, (remote_call_run e tab s _ Hk), bind_ret_l.
  destruct (existsb (runs_everywhere e tab) (targetlist q)); [|reflexivity].
  rewrite (DDLCommand_transactional e _ s Hc). reflexivity.
Qed.

Lemma MtmExecutorStart_inside e q s r :
  MtmDDLStatement s = Some r ->
  MtmExecutorStart e q s = Ok s [standard_ExecutorStart (sourceText q)].
Proof.
  intros Hr. unfold MtmExecutorStart. rewrite Hr. cbn [is_null].
  now rewrite andb_false_r.
Qed.

Lemma run_queries_inside e q s : forall inner,
  MtmDDLStatement s = Some (QueryDescRef (id q)) ->
  Forall (fun q' => id q' <> id q) inner ->
  run_queries e inner s
  = Ok s (map (fun q' => standard_ExecutorStart (sourceText q')) inner).
Proof.
  induction inner as [|q' inner IH]; intros Hs Hin; [reflexivity|].
  apply Forall_cons in Hin as [Hq' Hin].
  cbn [run_queries map].
  eapply (bind_Ok_Ok _ _ _ [_]); [exact (MtmExecutorStart_inside e q' s _ Hs)|].
  cbv beta. eapply bind_Ok_nil; [|exact (IH Hs Hin)].
  unfold finish_ddl_statement. rewrite Hs. cbn [ref_eqb].
  destruct (Z.eqb_spec (id q) (id q')) as [Heq|_]; [now symmetry in Heq|].
  reflexivity.
Qed.

(** X23. In a backend whose table of functions is there, the executor start
    hook sends the text of a query as one transactional DDL message, before
    the host starts the query, exactly when the backend is not a logical
    receiver, no DDL statement is being sent already, and the target list of
    the query has a function call whose function is in the table or is
    declared SECURITY DEFINER. It then remembers the query as the DDL
    statement and marks the transaction as one with changes. In every other
    case it only lets the host start the query and changes nothing. *)
Theorem executor_start_sends_remote_calls (e : env) (q : QueryDesc) (s : session)
    (tab : list Z) :
  MtmRemoteFunctions s = Some tab ->
  functions_known e (targetlist q) ->
  Guc.consistent (guc s) ->
  MtmExecutorStart e q s
  = if negb (MtmIsLogicalReceiver e) && is_null (MtmDDLStatement s)
       && existsb (runs_everywhere e tab) (targetlist q)
    then Ok (set_MtmDDLStatement (Some (QueryDescRef (id q)))
               (set_guc (Guc.started (guc_host e) (guc s)) (set_containsDML true s)))
            [ddl_message e s (sourceText q); standard_ExecutorStart (sourceText q)]
    else Ok s [standard_ExecutorStart (sourceText q)].
Proof. exact (MtmExecutorStart_run e q s tab). Qed.

Lemma executor_start_sends_remote_calls_witness :
  let s := set_MtmRemoteFunctions (Some [715; 964; 16500]) session1 in
  MtmExecutorStart env1 query1 s
  = if negb (MtmIsLogicalReceiver env1) && is_null (MtmDDLStatement s)
       && existsb (runs_everywhere env1 [715; 964; 16500]) (targetlist query1)
    then Ok (set_MtmDDLStatement (Some (QueryDescRef (id query1)))
               (set_guc (Guc.started (guc_host env1) (guc s)) (set_containsDML true s)))
            [ddl_message env1 s (sourceText query1);
             standard_ExecutorStart (sourceText query1)]
    else Ok s [standard_ExecutorStart (sourceText query1)].
Proof.
  apply (executor_start_sends_remote_calls env1 query1 _ [715; 964; 16500]).
  - reflexivity.
  - intros oid _. discriminate.
  - reflexivity.
Defined.

(** X24. A query that is sent as DDL is sent once, and the queries that run
    inside it (other query descriptors, started and finished before it
    finishes) are not sent: from the start of such a query to its finish the
    hooks log the message with prefix [D], let the host start the query and
    every inner query, and log the message with prefix [E] when the outer
    query finishes, whatever functions the inner queries call. Afterwards no
    DDL statement is open. *)
Theorem remote_call_is_bracketed (e : env) (q : QueryDesc) (inner : list QueryDesc)
    (s : session) (tab : list Z) :
  MtmRemoteFunctions s = Some tab ->
  functions_known e (targetlist q) ->
  Guc.consistent (guc s) ->
  MtmIsLogicalReceiver e = false ->
  MtmDDLStatement s = None ->
  existsb (runs_everywhere e tab) (targetlist q) = true ->
  Forall (fun q' => id q' <> id q) inner ->
  run_query_with e q inner s
  = Ok (set_MtmDDLStatement None
          (set_guc (Guc.started (guc_host e) (guc s)) (set_containsDML true s)))
       ([ddl_message e s (sourceText q); standard_ExecutorStart (sourceText q)]
        ++ map (fun q' => standard_ExecutorStart (sourceText q')) inner
        ++ [LogLogicalMessage "E" "" true]).
Proof.
  intros Htab Hk Hc Hrecv Hnone Hrem Hinner. unfold run_query_with.
  rewrite (MtmExecutorStart_run e q s tab Htab Hk Hc), Hrecv, Hnone, Hrem.
  cbn [negb is_null andb].
  eapply bind_Ok_Ok; [reflexivity|]. cbv beta.
  eapply bind_Ok_Ok; [apply (run_queries_inside e q); [reflexivity|exact Hinner]|].
  cbv beta. unfold finish_ddl_statement.
  cbn [MtmDDLStatement set_MtmDDLStatement ref_eqb]. rewrite Z.eqb_refl.
  reflexivity.
Qed.

Lemma remote_call_is_bracketed_witness :
  let s := set_MtmRemoteFunctions (Some [715; 964; 16500]) session1 in
  run_query_with env1 query1 [query2] s
  = Ok (set_MtmDDLStatement None
          (set_guc (Guc.started (guc_host env1) (guc s)) (set_containsDML true s)))
       ([ddl_message env1 s (sourceText query1);
         standard_ExecutorStart (sourceText query1)]
        ++ map (fun q' => standard_ExecutorStart (sourceText q')) [query2]
        ++ [LogLogicalMessage "E" "" true]).
Proof.
  apply (remote_call_is_bracketed env1 query1 [query2] _ [715; 964; 16500]).
  - reflexivity.
  - intros oid _. discriminate.
  - reflexivity.
  - reflexivity.
  - reflexivity.
  - reflexivity.
  - repeat constructor. discriminate.
Defined.

(** X22. When a name of the list stands for more than one function,
    [MtmInitializeRemoteFunctionsMap] raises the ERROR for the first such
    name, after the warnings for the names before it, and does not give the
    rights back itself; so the first query of a backend that is not a
    receiver fails with that ERROR. The table stays behind with the functions
    of the names before that one only: neither the later names nor
    [mtm.alter_sequences] are entered, and as the table is not NULL the
    later queries do not fill it either. A query whose functions are not in
    that table and not SECURITY DEFINER is then started without being sent.
    Assigning the setting again takes the table away. *)
Theorem ambiguous_function_leaves_table (e : env) (s : session)
    (pre : list string) (name : string) (post : list string) :
  MtmRemoteFunctions s = None ->
  listed_names e = pre ++ name :: post ->
  (forall n, In n pre -> (length (FuncnameGetCandidates e n) <= 1)%nat) ->
  (2 <= length (FuncnameGetCandidates e name))%nat ->
  let s' := set_MtmRemoteFunctions (Some (table_after e pre [])) s in
  let calls := [SetUserIdAndSecContext true]
               ++ map mtm_log_WARNING_lookup (unknown_names e pre) in
  MtmInitializeRemoteFunctionsMap e s = Error (AmbiguousFunction name, s') calls
  /\ (forall q,
        MtmIsLogicalReceiver e = false ->
        MtmDDLStatement s = None ->
        MtmExecutorStart e q s = Error (AmbiguousFunction name, s') calls)
  /\ (forall q,
        functions_known e (targetlist q) ->
        existsb (runs_everywhere e (table_after e pre [])) (targetlist q) = false ->
        MtmExecutorStart e q s' = Ok s' [standard_ExecutorStart (sourceText q)])
  /\ MtmRemoteFunctions (MtmSetRemoteFunction s') = None.
Proof.
  intros Hnone Hnames Hone Htwo s' calls.
  assert (Hinit : MtmInitializeRemoteFunctionsMap e s
                  = Error (AmbiguousFunction name, s') calls).
  { unfold MtmInitializeRemoteFunctionsMap. rewrite Hnone.
    cbn [is_null]. rewrite Assert_true.
    unfold bind at 1. unfold bind at 1. unfold do_call at 1.
    unfold bind at 1.
    rewrite (enter_functions_ambiguous e _ _ s [] pre name post Hnames Hone Htwo).
    reflexivity. }
  split; [exact Hinit|]. split; [|split].
  - intros q Hrecv Hddl. unfold MtmExecutorStart.
    rewrite Hnone, Hrecv, Hddl. cbn [is_null negb andb].
    rewrite Hinit. reflexivity.
  - intros q Hk Hnot. unfold MtmExecutorStart.
    destruct (negb (MtmIsLogicalReceiver e) && is_null (MtmDDLStatement s'));
      [|reflexivity].
    subst s'. cbn [MtmRemoteFunctions set_MtmRemoteFunctions is_null].
    unfold ret at 1. rewrite bind_ret_l.
    cbn [MtmRemoteFunctions set_MtmRemoteFunctions].
    rewrite (remote_call_run e _ _ _ Hk), Hnot. reflexivity.
  - reflexivity.
Qed.

Lemma ambiguous_function_leaves_table_witness :
  let e := with_list "lo_create,audit,lo_unlink" env1 in
  let s' := set_MtmRemoteFunctions (Some (table_after e ["lo_create"%string] []))
              session1 in
  let calls := [SetUserIdAndSecContext true]
               ++ map mtm_log_WARNING_lookup (unknown_names e ["lo_create"%string]) in
  MtmInitializeRemoteFunctionsMap e session1
  = Error (AmbiguousFunction "audit", s') calls
  /\ (forall q,
        MtmIsLogicalReceiver e = false ->
        MtmDDLStatement session1 = None ->
        MtmExecutorStart e q session1 = Error (AmbiguousFunction "audit", s') calls)
  /\ (forall q,
        functions_known e (targetlist q) ->
        existsb (runs_everywhere e (table_after e ["lo_create"%string] []))
          (targetlist q) = false ->
        MtmExecutorStart e q s' = Ok s' [standard_ExecutorStart (sourceText q)])
  /\ MtmRemoteFunctions (MtmSetRemoteFunction s') = None.
Proof.
  apply (ambiguous_function_leaves_table
           (with_list "lo_create,audit,lo_unlink" env1) session1
           ["lo_create"%string] "audit" ["lo_unlink"%string]).
  - reflexivity.
  - reflexivity.
  - intros n [<-|[]]. vm_compute. lia.
  - vm_compute. lia.
Defined.

(** *** The utility hook *)

Lemma after_execution_skipped e parsetree prev s :
  (forall returnType parameters, parsetree <> T_CreateFunctionStmt returnType parameters) ->
  (forall created has_primary_key, parsetree <> T_CreateStmt created has_primary_key) ->
  after_execution e parsetree prev false s
  = Ok (if accessed_temp_rel s then set_isDistributed false s else s) [].
Proof.
  intros Hf Hc. unfold after_execution.
  destruct parsetree; try reflexivity; [now elim (Hf returnType parameters)|].
  now elim (Hc created has_primary_key).
Qed.

(** X25. CREATE DATABASE and DROP DATABASE are refused before anything is
    sent or run, whatever the host would do with them and whatever the
    state, which is left as it was. The statements that the switch only
    marks as skipped (FETCH, PREPARE, EXECUTE, LISTEN, LOCK, CHECKPOINT,
    REINDEX and the others of that list) go to the host unchanged and the
    hook logs nothing of its own for them: all it does afterwards is to take
    the transaction out of the distributed ones when it has touched a
    temporary relation. *)
Theorem statements_never_sent (e : env)
    (twopc : session -> result (bool * session))
    (run : utility -> session -> result session)
    (pstmt : PlannedStmt) (queryString : string) (context : ProcessUtilityContext)
    (s : session) :
  (utilityStmt pstmt = T_CreatedbStmt \/ utilityStmt pstmt = T_DropdbStmt ->
   MtmProcessUtility e twopc run pstmt queryString context s
   = Error (DatabasesNotSupported, s) [])
  /\ (forall tag,
        utilityStmt pstmt = T_skipped tag ->
        MtmProcessUtility e twopc run pstmt queryString context s
        = (s1 <- run (T_skipped tag) s ;;
           ret (if accessed_temp_rel s1 then set_isDistributed false s1 else s1))).
Proof.
  split.
  - intros [H|H]; unfold MtmProcessUtility; rewrite H; reflexivity.
  - intros tag H. unfold MtmProcessUtility. rewrite H.
    cbn [before_execution]. unfold ret at 1. rewrite bind_ret_l.
    cbn [negb andb]. unfold ret at 1. rewrite bind_ret_l.
    apply bind_ext. intros s1.
    apply after_execution_skipped; intros; discriminate.
Qed.

Lemma statements_never_sent_witness :
  MtmProcessUtility env1 no_commit (plain_run "drop database d")
    (whole T_DropdbStmt) "drop database d" PROCESS_UTILITY_TOPLEVEL session1
  = Error (DatabasesNotSupported, session1) []
  /\ MtmProcessUtility env1 no_commit (plain_run "checkpoint")
       (whole (T_skipped T_CheckPointStmt)) "checkpoint" PROCESS_UTILITY_TOPLEVEL
       session1
     = (s1 <- plain_run "checkpoint" (T_skipped T_CheckPointStmt) session1 ;;
        ret (if accessed_temp_rel s1 then set_isDistributed false s1 else s1)).
Proof.
  split.
  - apply (statements_never_sent env1 no_commit (plain_run "drop database d")
             (whole T_DropdbStmt) "drop database d" PROCESS_UTILITY_TOPLEVEL session1).
    right. reflexivity.
  - apply (statements_never_sent env1 no_commit (plain_run "checkpoint")
             (whole (T_skipped T_CheckPointStmt)) "checkpoint"
             PROCESS_UTILITY_TOPLEVEL session1).
    reflexivity.
Defined.

Lemma plain_ddl_before e twopc context parsetree stmt_string s :
  plain_ddl parsetree = true ->
  exists s0,
    before_execution e twopc context parsetree stmt_string s
    = Ok (Proceed false, parsetree, s0) []
    /\ MtmDDLStatement s0 = MtmDDLStatement s
    /\ guc s0 = guc s
    /\ MtmTx s0 = MtmTx s
    /\ (accessed_temp_rel s = true -> accessed_temp_rel s0 = true).
Proof.
  intros Hp. destruct parsetree; try discriminate Hp; cbn [before_execution].
  - exists (if over_temporary then set_accessed_temp_rel true s else s).
    split; [reflexivity|]. destruct over_temporary; repeat split; auto.
  - destruct concurrent; [discriminate Hp|]. exists s. repeat split; auto.
  - exists s. repeat split; auto.
  - exists s. repeat split; auto.
  - exists s. repeat split; auto.
Qed.

Lemma plain_ddl_after e parsetree prev s :
  plain_ddl parsetree = true ->
  after_execution e parsetree prev true s
  = Ok (set_MtmDDLStatement None
          (if accessed_temp_rel s then set_isDistributed false s else s))
       ([LogLogicalMessage "E" "" true] ++ pk_warning e parsetree).
Proof.
  intros Hp. unfold after_execution.
  destruct parsetree; try discriminate Hp; try reflexivity.
  unfold pk_warning.
  destruct created, has_primary_key, (MtmVolksWagenMode e),
    (MtmIgnoreTablesWithoutPk e); reflexivity.
Qed.

Lemma plain_ddl_run e twopc run pstmt queryString context s :
  plain_ddl (utilityStmt pstmt) = true ->
  MtmDDLStatement s = None ->
  Guc.consistent (guc s) ->
  exists s0,
    MtmProcessUtility e twopc run pstmt queryString context s
    = (do_call (ddl_message e s (stmt_string_of pstmt queryString)) ;;
       s1 <- run (utilityStmt pstmt) s0 ;;
       after_execution e (utilityStmt pstmt) (accessed_temp_rel s0) true s1)
    /\ MtmDDLStatement s0 = Some StmtStringRef
    /\ guc s0 = Guc.started (guc_host e) (guc s)
    /\ containsDML (MtmTx s0) = true
    /\ isDistributed (MtmTx s0) = isDistributed (MtmTx s).
Proof.
  intros Hp Hnone Hc.
  destruct (plain_ddl_before e twopc context _ (stmt_string_of pstmt queryString) s Hp)
    as (s0 & Hb & Hddl & Hguc & Htx & Htemp).
  exists (set_MtmDDLStatement (Some StmtStringRef)
            (set_guc (Guc.started (guc_host e) (guc s0)) (set_containsDML true s0))).
  split.
  - unfold MtmProcessUtility. rewrite Hb, bind_ret_l.
    rewrite Hddl, Hnone. cbn [negb is_null andb].
    assert (Hc0 : Guc.consistent (guc s0)) by now rewrite Hguc.
    rewrite (DDLCommand_transactional e _ s0 Hc0).
    unfold ddl_message. rewrite Hguc. reflexivity.
  - cbn. rewrite Hguc, Htx. repeat split.
Qed.

Lemma plain_ddl_sent (e : env)
    (twopc : session -> result (bool * session))
    (pstmt : PlannedStmt) (queryString : string) (context : ProcessUtilityContext)
    (s : session) :
  plain_ddl (utilityStmt pstmt) = true ->
  MtmDDLStatement s = None ->
  Guc.consistent (guc s) ->
  exists s',
    MtmProcessUtility e twopc (plain_run queryString) pstmt queryString context s
    = Ok s' ([ddl_message e s (stmt_string_of pstmt queryString);
              standard_ProcessUtility queryString;
              LogLogicalMessage "E" "" true]
             ++ pk_warning e (utilityStmt pstmt))
    /\ MtmDDLStatement s' = None
    /\ containsDML (MtmTx s') = true
    /\ guc s' = Guc.started (guc_host e) (guc s)
    /\ isDistributed (MtmTx s')
       = isDistributed (MtmTx s) && negb (accessed_temp_rel s').
Proof.
  intros Hp Hnone Hc.
  destruct (plain_ddl_run e twopc (plain_run queryString) pstmt queryString context s
              Hp Hnone Hc) as (s0 & -> & Hddl & Hguc & Hdml & Hdist).
  exists (set_MtmDDLStatement None
            (if accessed_temp_rel s0 then set_isDistributed false s0 else s0)).
  split.
  - unfold plain_run.
    eapply (bind_Ok_Ok _ _ _ [_]); [reflexivity|]. cbv beta.
    eapply (bind_Ok_Ok _ _ _ [_]); [reflexivity|]. cbv beta.
    apply (plain_ddl_after e _ _ s0 Hp).
  - destruct (accessed_temp_rel s0) eqn:Ht;
      cbn [MtmDDLStatement MtmTx guc accessed_temp_rel containsDML isDistributed
           set_MtmDDLStatement set_isDistributed set_MtmTx];
      rewrite ?Ht, ?Hdist, ?andb_false_r, ?andb_true_r; auto.
Qed.

(** X26. A statement that the switch lets through as DDL (TRUNCATE,
    CREATE TABLE, CREATE DOMAIN, CREATE INDEX without CONCURRENTLY, and every
    statement the switch does not name), met when no DDL statement is being
    sent, goes out between two messages: the hook logs the message with
    prefix [D], whose text carries the settings of the session and the text
    of the statement cut out of the query string, then the host runs the
    statement, then the hook logs the message with prefix [E]; a CREATE
    TABLE that left a table without primary key is followed by the warning
    when such tables are ignored. Afterwards no DDL statement is open, the
    transaction counts as one with changes, and it is no longer distributed
    if it touched a temporary relation. *)
Theorem plain_ddl_is_bracketed (e : env)
    (twopc : session -> result (bool * session))
    (pstmt : PlannedStmt) (queryString : string) (context : ProcessUtilityContext)
    (s : session) :
  plain_ddl (utilityStmt pstmt) = true ->
  MtmDDLStatement s = None ->
  Guc.consistent (guc s) ->
  exists s',
    MtmProcessUtility e twopc (plain_run queryString) pstmt queryString context s
    = Ok s' ([ddl_message e s (stmt_string_of pstmt queryString);
              standard_ProcessUtility queryString;
              LogLogicalMessage "E" "" true]
             ++ pk_warning e (utilityStmt pstmt))
    /\ MtmDDLStatement s' = None
    /\ containsDML (MtmTx s') = true
    /\ guc s' = Guc.started (guc_host e) (guc s)
    /\ isDistributed (MtmTx s')
       = isDistributed (MtmTx s) && negb (accessed_temp_rel s').
Proof. exact (plain_ddl_sent e twopc pstmt queryString context s). Qed.

Lemma plain_ddl_is_bracketed_witness :
  exists s',
    MtmProcessUtility env1 no_commit (plain_run "create table t(i int)")
      (whole (T_CreateStmt true false)) "create table t(i int)"
      PROCESS_UTILITY_TOPLEVEL session1
    = Ok s' ([ddl_message env1 session1
                (stmt_string_of (whole (T_CreateStmt true false))
                   "create table t(i int)");
              standard_ProcessUtility "create table t(i int)";
              LogLogicalMessage "E" "" true]
             ++ pk_warning env1 (utilityStmt (whole (T_CreateStmt true false))))
    /\ MtmDDLStatement s' = None
    /\ containsDML (MtmTx s') = true
    /\ guc s' = Guc.started (guc_host env1) (guc session1)
    /\ isDistributed (MtmTx s')
       = isDistributed (MtmTx session1) && negb (accessed_temp_rel s').
Proof.
  apply (plain_ddl_is_bracketed env1 no_commit (whole (T_CreateStmt true false))
           "create table t(i int)" PROCESS_UTILITY_TOPLEVEL session1);
    reflexivity.
Defined.

Lemma not_transactional_C q :
  Forall (fun c => ~ transactional_message c) [LogLogicalMessage "C" q false; XLogFlush].
Proof. repeat constructor; intros []. Qed.

Lemma before_execution_inside e context parsetree stmt_string s r :
  MtmDDLStatement s = Some r ->
  Guc.consistent (guc s) ->
  match before_execution e no_commit context parsetree stmt_string s with
  | Ok (_, _, s0) l => MtmDDLStatement s0 = Some r
                       /\ Forall (fun c => ~ transactional_message c) l
  | Error x l => x = (DatabasesNotSupported, s) /\ l = []
  | Fault f l => f = AssertFailed /\ l = []
  end.
Proof.
  intros Hr Hc.
  destruct parsetree; cbn [before_execution]; unfold concurrently, no_commit.
  all: try (split; [exact Hr|constructor]).
  all: try (split; reflexivity).
  all: try match goal with
       | |- context [Guc.MtmGucDiscard] =>
           destruct (GucFacts.MtmGucDiscard_run _ Hc) as (st' & -> & _)
       | |- context [Guc.MtmGucSet ?h ?stmt] =>
           destruct (GucFacts.MtmGucSet_run h stmt _ Hc) as (st' & -> & _)
       | |- context [Assert ?a ?c] =>
           destruct (@Assert_cases call (ddl_error * session) a c) as [-> | ->]
       end.
  all: repeat first
         [ rewrite DDLCommand_concurrent
         | match goal with
           | |- context [if ?c then _ else _] => destruct c
           | |- context [match ?k with TRANS_STMT_BEGIN => _ | _ => _ end] => destruct k
           | |- context [match ?k with OBJECT_INDEX => _ | _ => _ end] => destruct k
           | |- context [match ?k with Some _ => _ | None => _ end] => destruct k
           end
         | progress cbn [bind ret do_call app fst snd of_guc] ].
  all: try (split; reflexivity).
  all: try (split; [exact Hr|repeat constructor; cbn; tauto]).
Qed.

Lemma after_execution_not_executed e parsetree prev s :
  exists s' l,
    after_execution e parsetree prev false s = Ok s' l
    /\ MtmDDLStatement s' = MtmDDLStatement s
    /\ Forall (fun c => ~ transactional_message c) l.
Proof.
  unfold after_execution.
  destruct parsetree;
    repeat match goal with
           | |- context [if ?c then _ else _] => destruct c eqn:?
           end;
    cbn [bind ret do_call app];
    do 2 eexists; (split; [reflexivity|]);
    (split; [reflexivity|repeat constructor; cbn; tauto]).
Qed.

(** X27. While a DDL statement is being sent, a utility statement that the
    host runs inside it is never sent as transactional DDL: whatever the
    statement, the context and the settings of the process, the hook logs no
    transactional message for it and leaves the open statement as it is. The
    only messages it may log are those of concurrent DDL, and the only ways
    it fails are the ERROR for CREATE and DROP DATABASE and the assertion of
    COMMIT PREPARED and ROLLBACK PREPARED. *)
Theorem nested_utility_is_not_sent (e : env) (pstmt : PlannedStmt)
    (queryString : string) (context : ProcessUtilityContext) (s : session)
    (r : stmt_ref) :
  MtmDDLStatement s = Some r ->
  Guc.consistent (guc s) ->
  match MtmProcessUtility e no_commit (plain_run queryString) pstmt queryString
          context s with
  | Ok s' l => MtmDDLStatement s' = Some r
               /\ Forall (fun c => ~ transactional_message c) l
  | Error x l => x = (DatabasesNotSupported, s) /\ l = []
  | Fault f l => f = AssertFailed /\ l = []
  end.
Proof.
  intros Hr Hc. unfold MtmProcessUtility.
  pose proof (before_execution_inside e context (utilityStmt pstmt)
                (stmt_string_of pstmt queryString) s r Hr Hc) as Hb.
  destruct (before_execution e no_commit context (utilityStmt pstmt)
              (stmt_string_of pstmt queryString) s)
    as [[[fl parsetree] s0] l| |]; cbn [bind]; [|exact Hb..].
  destruct Hb as [Hr0 Hl]. destruct fl as [skipCommand|].
  - rewrite Hr0. cbn [is_null]. rewrite andb_false_r. cbn [ret bind plain_run do_call].
    destruct (after_execution_not_executed e parsetree (accessed_temp_rel s0) s0)
      as (s' & l' & -> & Hs' & Hl').
    split; [congruence|].
    rewrite !Forall_app. repeat split; try assumption; repeat constructor; cbn; tauto.
  - cbn [ret]. rewrite app_nil_r. now split.
Qed.

Lemma nested_utility_is_not_sent_witness :
  let s := set_MtmDDLStatement (Some (QueryDescRef 1)) session1 in
  match MtmProcessUtility env1 no_commit (plain_run "truncate t") (whole T_TruncateStmt)
          "truncate t" PROCESS_UTILITY_QUERY s with
  | Ok s' l => MtmDDLStatement s' = Some (QueryDescRef 1)
               /\ Forall (fun c => ~ transactional_message c) l
  | Error x l => x = (DatabasesNotSupported, s) /\ l = []
  | Fault f l => f = AssertFailed /\ l = []
  end.
Proof.
  apply (nested_utility_is_not_sent env1 (whole T_TruncateStmt) "truncate t"
           PROCESS_UTILITY_QUERY _ (QueryDescRef 1)); reflexivity.
Defined.

Lemma plain_ddl_after_inside e parsetree prev s :
  plain_ddl parsetree = true ->
  after_execution e parsetree prev false s
  = Ok (if accessed_temp_rel s then set_isDistributed false s else s)
       (pk_warning e parsetree).
Proof.
  intros Hp. unfold after_execution.
  destruct parsetree; try discriminate Hp; try reflexivity.
  unfold pk_warning.
  destruct created, has_primary_key, (MtmVolksWagenMode e),
    (MtmIgnoreTablesWithoutPk e); reflexivity.
Qed.

(** X28. The hook does not catch an ERROR. When the host raises one while
    it runs a statement that the hook has sent as DDL, the message with
    prefix [D] has been logged, the one with prefix [E] is not, and the
    statement stays open in the state that is left behind. As long as it is
    open, the next DDL statement goes to the host without being sent. After
    [MtmDDLResetStatement], which [MtmBeginTransaction] calls, the next DDL
    statement is sent between its two messages again. *)
Theorem failed_ddl_stays_open (e : env)
    (twopc : session -> result (bool * session))
    (pstmt : PlannedStmt) (queryString : string) (context : ProcessUtilityContext)
    (s : session) :
  plain_ddl (utilityStmt pstmt) = true ->
  MtmDDLStatement s = None ->
  Guc.consistent (guc s) ->
  exists s1,
    MtmProcessUtility e twopc (failing_run queryString) pstmt queryString context s
    = Error (RaisedByHost, s1)
            [ddl_message e s (stmt_string_of pstmt queryString);
             standard_ProcessUtility queryString]
    /\ MtmDDLStatement s1 = Some StmtStringRef
    /\ forall pstmt2 queryString2 context2,
         plain_ddl (utilityStmt pstmt2) = true ->
         (exists s2,
            MtmProcessUtility e twopc (plain_run queryString2) pstmt2 queryString2
              context2 s1
            = Ok s2 ([standard_ProcessUtility queryString2]
                     ++ pk_warning e (utilityStmt pstmt2))
            /\ MtmDDLStatement s2 = Some StmtStringRef)
         /\ (exists s2,
               MtmProcessUtility e twopc (plain_run queryString2) pstmt2 queryString2
                 context2 (MtmDDLResetStatement s1)
               = Ok s2 ([ddl_message e s1 (stmt_string_of pstmt2 queryString2);
                         standard_ProcessUtility queryString2;
                         LogLogicalMessage "E" "" true]
                        ++ pk_warning e (utilityStmt pstmt2))
               /\ MtmDDLStatement s2 = None).
Proof.
  intros Hp Hnone Hc.
  destruct (plain_ddl_run e twopc (failing_run queryString) pstmt queryString context s
              Hp Hnone Hc) as (s1 & Hrun & Hddl & Hguc & Hdml & Hdist).
  exists s1. split; [rewrite Hrun; reflexivity|]. split; [exact Hddl|].
  intros pstmt2 queryString2 context2 Hp2. split.
  - destruct (plain_ddl_before e twopc context2 _ (stmt_string_of pstmt2 queryString2)
                s1 Hp2) as (s0 & Hb & Hddl0 & _).
    exists (if accessed_temp_rel s0 then set_isDistributed false s0 else s0).
    split.
    + unfold MtmProcessUtility. rewrite Hb, bind_ret_l, Hddl0, Hddl.
      cbn [negb is_null andb]. unfold ret at 1. rewrite bind_ret_l.
      unfold plain_run.
      eapply (bind_Ok_Ok _ _ _ [_]); [reflexivity|]. cbv beta.
      apply (plain_ddl_after_inside e _ _ s0 Hp2).
    + rewrite <- Hddl, <- Hddl0. now destruct (accessed_temp_rel s0).
  - assert (Hc1 : Guc.consistent (guc (MtmDDLResetStatement s1))).
    { cbn [guc MtmDDLResetStatement set_MtmDDLStatement]. rewrite Hguc.
      now apply GucFacts.started_consistent. }
    destruct (plain_ddl_sent e twopc pstmt2 queryString2 context2
                (MtmDDLResetStatement s1) Hp2 eq_refl Hc1)
      as (s2 & Hrun2 & Hddl2 & _).
    exists s2. split; [exact Hrun2|exact Hddl2].
Qed.

Lemma failed_ddl_stays_open_witness :
  exists s1,
    MtmProcessUtility env1 no_commit (failing_run "truncate t") (whole T_TruncateStmt)
      "truncate t" PROCESS_UTILITY_TOPLEVEL session1
    = Error (RaisedByHost, s1)
            [ddl_message env1 session1
               (stmt_string_of (whole T_TruncateStmt) "truncate t");
             standard_ProcessUtility "truncate t"]
    /\ MtmDDLStatement s1 = Some StmtStringRef
    /\ forall pstmt2 queryString2 context2,
         plain_ddl (utilityStmt pstmt2) = true ->
         (exists s2,
            MtmProcessUtility env1 no_commit (plain_run queryString2) pstmt2
              queryString2 context2 s1
            = Ok s2 ([standard_ProcessUtility queryString2]
                     ++ pk_warning env1 (utilityStmt pstmt2))
            /\ MtmDDLStatement s2 = Some StmtStringRef)
         /\ (exists s2,
               MtmProcessUtility env1 no_commit (plain_run queryString2) pstmt2
                 queryString2 context2 (MtmDDLResetStatement s1)
               = Ok s2 ([ddl_message env1 s1 (stmt_string_of pstmt2 queryString2);
                         standard_ProcessUtility queryString2;
                         LogLogicalMessage "E" "" true]
                        ++ pk_warning env1 (utilityStmt pstmt2))
               /\ MtmDDLStatement s2 = None).
Proof.
  apply (failed_ddl_stays_open env1 no_commit (whole T_TruncateStmt) "truncate t"
           PROCESS_UTILITY_TOPLEVEL session1); reflexivity.
Defined.

(** X29. A SET or RESET statement is handled in one of two ways. Outside a
    transaction block the hook records it in the settings of the session,
    sends nothing, and lets the host run it: the later DDL statements carry
    it. Inside a transaction block (and unless it is SET TRANSACTION and the
    like) the hook sends it as a DDL statement of the transaction, between
    the two messages, and does not record it: the settings of the session
    stay as they were. *)
Theorem set_statement_recorded_or_sent (e : env)
    (twopc : session -> result (bool * session))
    (pstmt : PlannedStmt) (queryString : string) (context : ProcessUtilityContext)
    (s : session) (stmt : Guc.VariableSetStmt) :
  utilityStmt pstmt = T_VariableSetStmt stmt ->
  Guc.kind stmt <> Guc.VAR_SET_MULTI ->
  MtmDDLStatement s = None ->
  Guc.consistent (guc s) ->
  exists s',
    MtmProcessUtility e twopc (plain_run queryString) pstmt queryString context s
    = Ok s' (if IsTransactionBlock e
             then [ddl_message e s (stmt_string_of pstmt queryString);
                   standard_ProcessUtility queryString;
                   LogLogicalMessage "E" "" true]
             else [standard_ProcessUtility queryString])
    /\ Guc.context (guc s')
       = (if IsTransactionBlock e
          then Guc.context (Guc.started (guc_host e) (guc s))
          else Guc.after_stmt stmt (Guc.context (Guc.started (guc_host e) (guc s))))
    /\ MtmDDLStatement s' = None
    /\ containsDML (MtmTx s') = IsTransactionBlock e || containsDML (MtmTx s).
Proof.
  intros Hstmt Hkind Hnone Hc. unfold MtmProcessUtility. rewrite Hstmt.
  cbn [before_execution]. destruct (IsTransactionBlock e); cbn [negb orb].
  - destruct (Guc.kind stmt); try (now elim Hkind);
      (unfold ret at 1; rewrite bind_ret_l, Hnone;
       cbn [negb is_null andb]; rewrite (DDLCommand_transactional e _ s Hc);
       eexists; (split; [reflexivity|]);
       cbn -[Guc.context Guc.started];
       destruct (accessed_temp_rel s); cbn -[Guc.context Guc.started]; auto).
  - destruct (GucFacts.MtmGucSet_run (guc_host e) stmt _ Hc) as (st' & Hset & _ & Hctx).
    rewrite Hset. cbn [of_guc]. rewrite bind_ret_l. unfold ret at 1.
    rewrite bind_ret_l. cbn [negb andb]. unfold ret at 1. rewrite bind_ret_l.
    eexists. split; [reflexivity|].
    cbn -[Guc.context Guc.started Guc.after_stmt].
    destruct (accessed_temp_rel s); cbn -[Guc.context Guc.started Guc.after_stmt]; auto.
Qed.

Lemma set_statement_recorded_or_sent_witness :
  exists s',
    MtmProcessUtility env1 no_commit (plain_run "set work_mem to '64MB'")
      (whole (T_VariableSetStmt (Guc.set_to "work_mem" "64MB")))
      "set work_mem to '64MB'" PROCESS_UTILITY_TOPLEVEL session1
    = Ok s' (if IsTransactionBlock env1
             then [ddl_message env1 session1
                     (stmt_string_of
                        (whole (T_VariableSetStmt (Guc.set_to "work_mem" "64MB")))
                        "set work_mem to '64MB'");
                   standard_ProcessUtility "set work_mem to '64MB'";
                   LogLogicalMessage "E" "" true]
             else [standard_ProcessUtility "set work_mem to '64MB'"])
    /\ Guc.context (guc s')
       = (if IsTransactionBlock env1
          then Guc.context (Guc.started (guc_host env1) (guc session1))
          else Guc.after_stmt (Guc.set_to "work_mem" "64MB")
                 (Guc.context (Guc.started (guc_host env1) (guc session1))))
    /\ MtmDDLStatement s' = None
    /\ containsDML (MtmTx s') = IsTransactionBlock env1 || containsDML (MtmTx session1).
Proof.
  apply (set_statement_recorded_or_sent env1 no_commit
           (whole (T_VariableSetStmt (Guc.set_to "work_mem" "64MB")))
           "set work_mem to '64MB'" PROCESS_UTILITY_TOPLEVEL session1
           (Guc.set_to "work_mem" "64MB")).
  - reflexivity.
  - discriminate.
  - reflexivity.
  - reflexivity.
Defined.

(** X30. CREATE INDEX CONCURRENTLY, DROP INDEX CONCURRENTLY and, unless
    the Volkswagen mode is on, VACUUM do not go through a transaction. At
    top level the hook logs the text of the statement as one message with
    prefix [C] that is not transactional and flushes the log, takes the
    transaction out of the distributed ones, waits a second after CREATE
    INDEX, and lets the host run the statement; no message with prefix [D]
    or [E] is logged and an open DDL statement stays as it is. Below top
    level in a process that has an apply context, the hook keeps a copy of
    the statement and returns: the host does not run it there. *)
Theorem concurrent_ddl_is_not_transactional (e : env)
    (twopc : session -> result (bool * session))
    (run : utility -> session -> result session)
    (pstmt : PlannedStmt) (queryString : string) (context : ProcessUtilityContext)
    (s : session) :
  concurrent_stmt e (utilityStmt pstmt) = true ->
  (is_toplevel context = true ->
   exists s',
     MtmProcessUtility e twopc (plain_run queryString) pstmt queryString context s
     = Ok s' ([LogLogicalMessage "C" (stmt_string_of pstmt queryString) false;
               XLogFlush]
              ++ nap (utilityStmt pstmt)
              ++ [standard_ProcessUtility queryString])
     /\ isDistributed (MtmTx s') = false
     /\ containsDML (MtmTx s') = containsDML (MtmTx s)
     /\ MtmDDLStatement s' = MtmDDLStatement s)
  /\ (is_toplevel context = false ->
      MtmApplyContext e = true ->
      exists s',
        MtmProcessUtility e twopc run pstmt queryString context s = Ok s' []
        /\ In (Some (utilityStmt pstmt)) (saved s')
        /\ MtmTx s' = MtmTx s
        /\ MtmDDLStatement s' = MtmDDLStatement s).
Proof.
  intros Hconc. unfold MtmProcessUtility. split.
  - intros Htop.
    destruct (utilityStmt pstmt) as
      [| | | | | | | | | | | |concurrent| |[| |] concurrent missing_ok| | | |];
      try discriminate Hconc; cbn [before_execution concurrent_stmt] in *.
    + rewrite Hconc. unfold concurrently. rewrite Htop, DDLCommand_concurrent.
      cbn [bind ret do_call app fst snd negb andb plain_run nap].
      unfold after_execution. cbn [bind ret app].
      eexists. split; [reflexivity|].
      cbn. destruct (accessed_temp_rel s); cbn; auto.
    + destruct concurrent; [|discriminate Hconc].
      unfold concurrently. rewrite Htop, DDLCommand_concurrent.
      cbn [bind ret do_call app fst snd negb andb plain_run nap].
      unfold after_execution. cbn [bind ret app].
      eexists. split; [reflexivity|].
      cbn. destruct (accessed_temp_rel s); cbn; auto.
    + destruct concurrent; [|discriminate Hconc].
      unfold concurrently. rewrite Htop, DDLCommand_concurrent.
      cbn [bind ret do_call app fst snd negb andb plain_run nap].
      unfold after_execution. cbn [bind ret app].
      eexists. split; [reflexivity|].
      cbn. destruct (accessed_temp_rel s); cbn; auto.
  - intros Htop Happly.
    destruct (utilityStmt pstmt) as
      [| | | | | | | | | | | |concurrent| |[| |] concurrent missing_ok| | | |];
      try discriminate Hconc; cbn [before_execution concurrent_stmt] in *.
    + rewrite Hconc. unfold concurrently. rewrite Htop, Happly.
      cbn [bind ret app fst snd].
      eexists. split; [reflexivity|]. unfold saved. cbn. auto.
    + destruct concurrent; [|discriminate Hconc].
      unfold concurrently. rewrite Htop, Happly.
      cbn [bind ret app fst snd].
      eexists. split; [reflexivity|]. unfold saved. cbn. auto.
    + destruct concurrent; [|discriminate Hconc].
      unfold concurrently. rewrite Htop, Happly.
      cbn [bind ret app fst snd].
      eexists. split; [reflexivity|]. unfold saved. cbn. auto.
Qed.

Lemma concurrent_ddl_is_not_transactional_witness :
  (is_toplevel PROCESS_UTILITY_TOPLEVEL = true ->
   exists s',
     MtmProcessUtility env1 no_commit (plain_run "create index concurrently on t(i)")
       (whole (T_IndexStmt true)) "create index concurrently on t(i)"
       PROCESS_UTILITY_TOPLEVEL session1
     = Ok s' ([LogLogicalMessage "C"
                 (stmt_string_of (whole (T_IndexStmt true))
                    "create index concurrently on t(i)") false;
               XLogFlush]
              ++ nap (utilityStmt (whole (T_IndexStmt true)))
              ++ [standard_ProcessUtility "create index concurrently on t(i)"])
     /\ isDistributed (MtmTx s') = false
     /\ containsDML (MtmTx s') = containsDML (MtmTx session1)
     /\ MtmDDLStatement s' = MtmDDLStatement session1)
  /\ (is_toplevel PROCESS_UTILITY_TOPLEVEL = false ->
      MtmApplyContext env1 = true ->
      exists s',
        MtmProcessUtility env1 no_commit
          (plain_run "create index concurrently on t(i)")
          (whole (T_IndexStmt true)) "create index concurrently on t(i)"
          PROCESS_UTILITY_TOPLEVEL session1 = Ok s' []
        /\ In (Some (utilityStmt (whole (T_IndexStmt true)))) (saved s')
        /\ MtmTx s' = MtmTx session1
        /\ MtmDDLStatement s' = MtmDDLStatement session1).
Proof.
  apply (concurrent_ddl_is_not_transactional env1 no_commit
           (plain_run "create index concurrently on t(i)")
           (whole (T_IndexStmt true)) "create index concurrently on t(i)"
           PROCESS_UTILITY_TOPLEVEL session1).
  reflexivity.
Defined.

End HooksFacts.

(* ===================================================================== *)
(** ** The phases of a commit *)
(* ===================================================================== *)

Module PhasesFacts.
Import NodeMask Stdio Gid Commit CommitFacts Peers Phases.

(** *** One turn of a gather loop *)

Ltac app_norm := cbn [app]; repeat (rewrite <- !app_assoc; cbn [app]).

Ltac turn_done s rest Hs Hn :=
  intros [= <- <-];
  match goal with
  | Hin : dmq_input _ = ?a :: _ |- _ => exists a, rest
  end;
  unfold turn_ok, mask_after; cbn [node_of clears existsb];
  rewrite ?Hs, ?Hn;
  cbn [dmq_input set_dmq_input set_trace trace sender_to_node MtmTx mtm_reads
       DmqSubscribed turn_events];
  repeat match goal with
         | H : _ = true |- _ => rewrite H
         | H : _ = false |- _ => rewrite H
         end;
  cbn [andb negb orb]; rewrite <- ?app_assoc; repeat split.

Lemma GatherPrecommits_body_Done cfg expected mask w m' w' :
  GatherPrecommits_body cfg expected mask w = Done m' w' ->
  exists a rest,
    dmq_input w = a :: rest /\ dmq_input w' = rest
    /\ turn_ok cfg (sender_to_node w) (xid (MtmTx w)) [expected] mask a = true
    /\ m' = mask_after (sender_to_node w) mask a
    /\ trace w' = trace w ++ turn_events mask a
    /\ sender_to_node w' = sender_to_node w /\ MtmTx w' = MtmTx w
    /\ mtm_reads w' = mtm_reads w /\ DmqSubscribed w' = DmqSubscribed w.
Proof.
  cbv beta iota delta [GatherPrecommits_body bind dmq_pop emit sender_to_node_at
    get_MtmTx Assert shift_guard ret raise crash].
  cbn [dmq_input set_trace sender_to_node set_dmq_input].
  destruct (dmq_input w) as [|[s msg|s Mtm] rest] eqn:Hin; [discriminate| |];
    cbn [dmq_input set_trace sender_to_node set_dmq_input MtmTx];
    (destruct (s <? 0) eqn:Hs; [discriminate|]);
    (destruct (sender_to_node w !! Z.to_nat s) as [n|] eqn:Hn; [|discriminate]);
    cbv beta iota; cbn [MtmTx set_dmq_input set_trace].
  - destruct (assert_checking cfg) eqn:Hac; cbn [andb negb orb].
    + destruct (node msg =? n) eqn:H1; cbn [andb negb]; [|discriminate].
      destruct (code_eqb (code msg) expected) eqn:H2; cbn [andb negb orb];
        [|discriminate].
      destruct (dxid msg =? xid (MtmTx w)) eqn:H3; cbn [andb negb]; [|discriminate].
      destruct (shift_ok (n - 1)) eqn:H4; cbn [andb]; [|discriminate].
      destruct (BIT_CHECK mask (n - 1)) eqn:H5; cbn [andb negb]; [|discriminate].
      turn_done s rest Hs Hn.
    + destruct (shift_ok (n - 1)) eqn:H4; cbn [andb]; [|discriminate].
      turn_done s rest Hs Hn.
  - destruct (shift_ok (n - 1)) eqn:H4; cbn [andb]; [|discriminate].
    destruct (BIT_CHECK (disabledNodeMask Mtm) (n - 1)) eqn:H5; cbn [negb orb].
    + destruct (status_eqb (status Mtm) MTM_ONLINE) eqn:H6; cbn [negb];
        [|discriminate].
      turn_done s rest Hs Hn.
    + turn_done s rest Hs Hn.
Qed.

Lemma GatherPrepares_body_Done cfg st w st' w' :
  GatherPrepares_body cfg st w = Done st' w' ->
  exists a rest,
    dmq_input w = a :: rest /\ dmq_input w' = rest
    /\ turn_ok cfg (sender_to_node w) (xid (MtmTx w)) [MSG_PREPARED; MSG_ABORTED]
         (participantsMask st) a = true
    /\ participantsMask st' = mask_after (sender_to_node w) (participantsMask st) a
    /\ prepared st' = prepared st && negb (fails (sender_to_node w) a)
    /\ failed_at st' = (if fails (sender_to_node w) a
                        then failure_node (sender_to_node w) a else failed_at st)
    /\ trace w' = trace w ++ turn_events (participantsMask st) a
    /\ sender_to_node w' = sender_to_node w /\ MtmTx w' = MtmTx w
    /\ mtm_reads w' = mtm_reads w /\ DmqSubscribed w' = DmqSubscribed w.
Proof.
  cbv beta iota delta [GatherPrepares_body bind dmq_pop emit sender_to_node_at
    get_MtmTx Assert shift_guard ret raise crash].
  cbn [dmq_input set_trace sender_to_node set_dmq_input].
  destruct (dmq_input w) as [|[s msg|s Mtm] rest] eqn:Hin; [discriminate| |];
    cbn [dmq_input set_trace sender_to_node set_dmq_input MtmTx];
    (destruct (s <? 0) eqn:Hs; [discriminate|]);
    (destruct (sender_to_node w !! Z.to_nat s) as [n|] eqn:Hn; [|discriminate]);
    cbv beta iota; cbn [MtmTx set_dmq_input set_trace].
  - destruct (assert_checking cfg) eqn:Hac; cbn [andb negb orb].
    + destruct (node msg =? n) eqn:H1; cbn [andb negb]; [|discriminate].
      destruct (code_eqb (code msg) MSG_PREPARED || code_eqb (code msg) MSG_ABORTED)
        eqn:H2; cbn [andb negb orb]; [|discriminate].
      destruct (dxid msg =? xid (MtmTx w)) eqn:H3; cbn [andb negb]; [|discriminate].
      destruct (shift_ok (n - 1)) eqn:H4; cbn [andb]; [|discriminate].
      destruct (BIT_CHECK (participantsMask st) (n - 1)) eqn:H5; cbn [andb negb];
        [|discriminate].
      destruct (code_eqb (code msg) MSG_ABORTED) eqn:H6;
        intros [= <- <-]; exists (DmqMessage s msg), rest;
        unfold turn_ok, mask_after; cbn [node_of clears existsb fails failure_node];
        rewrite Hs, Hn, Hac, H1, H3, H4, H5, H6;
        rewrite ?orb_false_r in H2; rewrite ?orb_false_r, ?orb_true_r, ?H2;
        cbn [dmq_input set_dmq_input set_trace trace sender_to_node MtmTx mtm_reads
             DmqSubscribed turn_events participantsMask prepared failed_at
             andb negb orb];
        rewrite ?andb_true_r, ?andb_false_r; repeat split.
    + destruct (shift_ok (n - 1)) eqn:H4; cbn [andb]; [|discriminate].
      destruct (code_eqb (code msg) MSG_ABORTED) eqn:H6;
        intros [= <- <-]; exists (DmqMessage s msg), rest;
        unfold turn_ok, mask_after; cbn [node_of clears existsb fails failure_node];
        rewrite Hs, Hn, Hac, H4, H6;
        cbn [dmq_input set_dmq_input set_trace trace sender_to_node MtmTx mtm_reads
             DmqSubscribed turn_events participantsMask prepared failed_at
             andb negb orb];
        rewrite ?andb_true_r, ?andb_false_r; repeat split.
  - destruct (shift_ok (n - 1)) eqn:H4; cbn [andb]; [|discriminate].
    destruct (BIT_CHECK (disabledNodeMask Mtm) (n - 1)) eqn:H5; cbn [negb orb].
    + destruct (status_eqb (status Mtm) MTM_ONLINE) eqn:H6; cbn [negb];
        [|discriminate].
      intros [= <- <-]. exists (DmqDetached s Mtm), rest.
      unfold turn_ok, mask_after. cbn [node_of clears existsb fails failure_node].
      rewrite Hs, Hn, H4, H5, H6.
      cbn [dmq_input set_dmq_input set_trace trace sender_to_node MtmTx mtm_reads
           DmqSubscribed turn_events participantsMask prepared failed_at
           andb negb orb].
      rewrite <- ?app_assoc, ?andb_false_r. repeat split.
    + intros [= <- <-]. exists (DmqDetached s Mtm), rest.
      unfold turn_ok, mask_after. cbn [node_of clears existsb fails failure_node].
      rewrite Hs, Hn, H4, H5.
      cbn [dmq_input set_dmq_input set_trace trace sender_to_node MtmTx mtm_reads
           DmqSubscribed turn_events participantsMask prepared failed_at
           andb negb orb].
      rewrite <- ?app_assoc, ?andb_true_r. repeat split.
Qed.

(** The other way round: a turn that [turn_ok] accepts comes to its end. *)
Lemma GatherPrecommits_body_go cfg expected mask w a rest :
  dmq_input w = a :: rest ->
  turn_ok cfg (sender_to_node w) (xid (MtmTx w)) [expected] mask a = true ->
  exists w',
    GatherPrecommits_body cfg expected mask w
    = Done (mask_after (sender_to_node w) mask a) w'
    /\ dmq_input w' = rest
    /\ trace w' = trace w ++ turn_events mask a
    /\ sender_to_node w' = sender_to_node w /\ MtmTx w' = MtmTx w
    /\ mtm_reads w' = mtm_reads w /\ DmqSubscribed w' = DmqSubscribed w.
Proof.
  intros Hin Hok.
  cbv beta iota delta [GatherPrecommits_body bind dmq_pop emit sender_to_node_at
    get_MtmTx Assert shift_guard ret raise crash].
  cbn [dmq_input set_trace sender_to_node set_dmq_input]. rewrite Hin.
  unfold turn_ok in Hok. unfold mask_after.
  destruct a as [s msg|s Mtm]; cbn [node_of clears existsb] in *;
    (destruct (s <? 0) eqn:Hs; [discriminate|]);
    (destruct (sender_to_node w !! Z.to_nat s) as [n|] eqn:Hn; [|discriminate]);
    cbv beta iota; cbn [MtmTx set_dmq_input set_trace sender_to_node];
    rewrite ?Hs, ?Hn; cbv beta iota;
    apply andb_true_iff in Hok as [Hsh Hok]; rewrite Hsh.
  - rewrite orb_false_r in Hok.
    destruct (assert_checking cfg); cbn [negb orb andb] in *.
    + apply andb_true_iff in Hok as [Hok H5].
      apply andb_true_iff in Hok as [Hok H3].
      apply andb_true_iff in Hok as [H1 H2].
      cbn [MtmTx set_dmq_input set_trace]. rewrite H1, H2, H3, H5. cbn [negb].
      eexists. split; [reflexivity|].
      cbn [dmq_input set_dmq_input set_trace trace sender_to_node MtmTx mtm_reads
           DmqSubscribed turn_events]. repeat split.
    + eexists. split; [reflexivity|].
      cbn [dmq_input set_dmq_input set_trace trace sender_to_node MtmTx mtm_reads
           DmqSubscribed turn_events]. repeat split.
  - destruct (BIT_CHECK (disabledNodeMask Mtm) (n - 1)); cbn [negb orb] in *.
    + rewrite Hok. cbn [negb]. eexists. split; [reflexivity|].
      cbn [dmq_input set_dmq_input set_trace trace sender_to_node MtmTx mtm_reads
           DmqSubscribed turn_events]. rewrite <- !app_assoc. repeat split.
    + eexists. split; [reflexivity|].
      cbn [dmq_input set_dmq_input set_trace trace sender_to_node MtmTx mtm_reads
           DmqSubscribed turn_events]. rewrite <- !app_assoc. repeat split.
Qed.

Lemma GatherPrepares_body_go cfg st w a rest :
  dmq_input w = a :: rest ->
  turn_ok cfg (sender_to_node w) (xid (MtmTx w)) [MSG_PREPARED; MSG_ABORTED]
    (participantsMask st) a = true ->
  exists st' w',
    GatherPrepares_body cfg st w = Done st' w'
    /\ participantsMask st' = mask_after (sender_to_node w) (participantsMask st) a
    /\ prepared st' = prepared st && negb (fails (sender_to_node w) a)
    /\ failed_at st' = (if fails (sender_to_node w) a
                        then failure_node (sender_to_node w) a else failed_at st)
    /\ dmq_input w' = rest
    /\ trace w' = trace w ++ turn_events (participantsMask st) a
    /\ sender_to_node w' = sender_to_node w /\ MtmTx w' = MtmTx w
    /\ mtm_reads w' = mtm_reads w /\ DmqSubscribed w' = DmqSubscribed w.
Proof.
  intros Hin Hok.
  cbv beta iota delta [GatherPrepares_body bind dmq_pop emit sender_to_node_at
    get_MtmTx Assert shift_guard ret raise crash].
  cbn [dmq_input set_trace sender_to_node set_dmq_input]. rewrite Hin.
  unfold turn_ok in Hok. unfold mask_after.
  destruct a as [s msg|s Mtm]; cbn [node_of clears existsb fails failure_node] in *;
    (destruct (s <? 0) eqn:Hs; [discriminate|]);
    (destruct (sender_to_node w !! Z.to_nat s) as [n|] eqn:Hn; [|discriminate]);
    cbv beta iota; cbn [MtmTx set_dmq_input set_trace sender_to_node];
    rewrite ?Hs, ?Hn; cbv beta iota;
    apply andb_true_iff in Hok as [Hsh Hok]; rewrite Hsh.
  - rewrite orb_false_r in Hok.
    destruct (assert_checking cfg); cbn [negb orb andb] in *.
    + apply andb_true_iff in Hok as [Hok H5].
      apply andb_true_iff in Hok as [Hok H3].
      apply andb_true_iff in Hok as [H1 H2].
      cbn [MtmTx set_dmq_input set_trace]. rewrite H1, H2, H3, H5. cbn [negb].
      destruct (code_eqb (code msg) MSG_ABORTED);
        do 2 eexists; (split; [reflexivity|]);
        cbn [dmq_input set_dmq_input set_trace trace sender_to_node MtmTx mtm_reads
             DmqSubscribed turn_events participantsMask prepared failed_at negb];
        rewrite ?andb_true_r, ?andb_false_r; repeat split.
    + destruct (code_eqb (code msg) MSG_ABORTED);
        do 2 eexists; (split; [reflexivity|]);
        cbn [dmq_input set_dmq_input set_trace trace sender_to_node MtmTx mtm_reads
             DmqSubscribed turn_events participantsMask prepared failed_at negb];
        rewrite ?andb_true_r, ?andb_false_r; repeat split.
  - destruct (BIT_CHECK (disabledNodeMask Mtm) (n - 1)); cbn [negb orb] in *.
    + rewrite Hok. cbn [negb]. do 2 eexists. split; [reflexivity|].
      cbn [dmq_input set_dmq_input set_trace trace sender_to_node MtmTx mtm_reads
           DmqSubscribed turn_events participantsMask prepared failed_at negb].
      rewrite <- ?app_assoc, ?andb_false_r. repeat split.
    + do 2 eexists. split; [reflexivity|].
      cbn [dmq_input set_dmq_input set_trace trace sender_to_node MtmTx mtm_reads
           DmqSubscribed turn_events participantsMask prepared failed_at negb].
      rewrite <- ?app_assoc, ?andb_true_r. repeat split.
Qed.

(** *** The gather loops *)

Lemma precommits_loop_Done cfg expected fuel : forall mask w m' w',
  while_fuel fuel (fun m => ret (negb (m =? 0)))
    (GatherPrecommits_body cfg expected) mask w = Done m' w' ->
  exists consumed,
    dmq_input w = consumed ++ dmq_input w'
    /\ gather_ok cfg (sender_to_node w) (xid (MtmTx w)) [expected] mask consumed
       = true
    /\ trace w' = trace w ++ gather_events (sender_to_node w) mask consumed
    /\ sender_to_node w' = sender_to_node w /\ MtmTx w' = MtmTx w
    /\ mtm_reads w' = mtm_reads w /\ DmqSubscribed w' = DmqSubscribed w.
Proof.
  induction fuel as [|fuel IH]; intros mask w m' w' H; cbn [while_fuel] in H;
    [discriminate|].
  bind_inv H. apply ret_inv in Hstep as [<- <-].
  destruct (mask =? 0) eqn:Hz; cbn [negb] in H.
  - apply ret_inv in H as [<- <-]. exists [].
    cbn [app gather_ok gather_events]. rewrite app_nil_r. now repeat split.
  - bind_inv H.
    apply GatherPrecommits_body_Done in Hstep
      as (a0 & rest & Hin & Hin' & Hok & -> & Htr & Hs2n & Htx & Hreads & Hsub).
    apply IH in H as (consumed & Hc & Hgo & Htr' & Hs2n' & Htx' & Hreads' & Hsub').
    rewrite Hs2n, Htx in *.
    exists (a0 :: consumed). cbn [app gather_ok gather_events].
    rewrite Hz, Hok, Hgo. cbn [negb andb].
    split; [rewrite Hin, <- Hin', Hc; reflexivity|].
    split; [reflexivity|].
    split; [rewrite Htr', Htr, <- app_assoc; reflexivity|].
    repeat split; congruence.
Qed.

Lemma precommits_loop_go cfg expected : forall consumed mask w rest fuel,
  dmq_input w = consumed ++ rest ->
  gather_ok cfg (sender_to_node w) (xid (MtmTx w)) [expected] mask consumed = true ->
  (length consumed < fuel)%nat ->
  exists w',
    while_fuel fuel (fun m => ret (negb (m =? 0)))
      (GatherPrecommits_body cfg expected) mask w = Done 0 w'
    /\ dmq_input w' = rest
    /\ trace w' = trace w ++ gather_events (sender_to_node w) mask consumed
    /\ sender_to_node w' = sender_to_node w /\ MtmTx w' = MtmTx w
    /\ mtm_reads w' = mtm_reads w /\ DmqSubscribed w' = DmqSubscribed w.
Proof.
  induction consumed as [|a consumed IH]; intros mask w rest fuel Hin Hok Hfuel;
    (destruct fuel as [|fuel]; [cbn [length] in Hfuel; lia|]);
    cbn [while_fuel gather_ok gather_events] in *.
  - apply Z.eqb_eq in Hok. subst mask. exists w.
    unfold bind, ret. cbn [Z.eqb negb]. rewrite app_nil_r. now repeat split.
  - apply andb_true_iff in Hok as [Hok Hrest].
    apply andb_true_iff in Hok as [Hnz Hturn].
    destruct (GatherPrecommits_body_go cfg expected mask w a (consumed ++ rest)
                Hin Hturn)
      as (w1 & Hbody & Hin1 & Htr1 & Hs2n1 & Htx1 & Hreads1 & Hsub1).
    destruct (IH (mask_after (sender_to_node w) mask a) w1 rest fuel Hin1)
      as (w' & Hloop & Hin' & Htr' & Hs2n' & Htx' & Hreads' & Hsub').
    { now rewrite Hs2n1, Htx1. }
    { cbn [length] in Hfuel. lia. }
    exists w'. unfold bind at 1. unfold ret at 1. rewrite Hnz.
    rewrite (bind_Done _ _ _ _ _ Hbody). split; [exact Hloop|].
    split; [exact Hin'|].
    split; [rewrite Htr', Htr1, Hs2n1, <- app_assoc; reflexivity|].
    repeat split; congruence.
Qed.

Lemma GatherPrecommits_Done cfg mask expected w u w' :
  GatherPrecommits cfg mask expected w = Done u w' ->
  start_ok cfg mask = true
  /\ exists consumed,
       dmq_input w = consumed ++ dmq_input w'
       /\ gather_ok cfg (sender_to_node w) (xid (MtmTx w)) [expected] mask consumed
          = true
       /\ trace w' = trace w ++ gather_events (sender_to_node w) mask consumed
       /\ sender_to_node w' = sender_to_node w /\ MtmTx w' = MtmTx w
       /\ mtm_reads w' = mtm_reads w /\ DmqSubscribed w' = DmqSubscribed w.
Proof.
  unfold GatherPrecommits. intros H.
  bind_inv H. unfold Assert, start_ok in *.
  destruct (assert_checking cfg && negb (negb (mask =? 0))) eqn:Ha; [discriminate|].
  apply ret_inv in Hstep as [_ <-].
  bind_inv H. apply ret_inv in H as [_ <-].
  split.
  - destruct (assert_checking cfg), (mask =? 0); cbn in *; congruence.
  - unfold while in Hstep. now apply precommits_loop_Done in Hstep.
Qed.

Lemma GatherPrecommits_go cfg mask expected w consumed rest :
  dmq_input w = consumed ++ rest ->
  start_ok cfg mask = true ->
  gather_ok cfg (sender_to_node w) (xid (MtmTx w)) [expected] mask consumed = true ->
  exists w',
    GatherPrecommits cfg mask expected w = Done tt w'
    /\ dmq_input w' = rest
    /\ trace w' = trace w ++ gather_events (sender_to_node w) mask consumed
    /\ sender_to_node w' = sender_to_node w /\ MtmTx w' = MtmTx w
    /\ mtm_reads w' = mtm_reads w /\ DmqSubscribed w' = DmqSubscribed w.
Proof.
  intros Hin Hstart Hok.
  destruct (precommits_loop_go cfg expected consumed mask w rest (fuel_of w) Hin Hok)
    as (w' & Hloop & Hrest).
  { unfold fuel_of. rewrite Hin, length_app. lia. }
  exists w'. split; [|exact Hrest].
  unfold GatherPrecommits, Assert, start_ok in *.
  assert (Ha : assert_checking cfg && negb (negb (mask =? 0)) = false)
    by (destruct (assert_checking cfg), (mask =? 0); cbn in *; congruence).
  rewrite Ha. unfold bind at 1. unfold ret at 1.
  unfold while. unfold bind. rewrite Hloop. reflexivity.
Qed.

Lemma prepares_loop_Done cfg fuel : forall st w st' w',
  while_fuel fuel mask_not_empty (GatherPrepares_body cfg) st w = Done st' w' ->
  exists consumed,
    dmq_input w = consumed ++ dmq_input w'
    /\ gather_ok cfg (sender_to_node w) (xid (MtmTx w)) [MSG_PREPARED; MSG_ABORTED]
         (participantsMask st) consumed = true
    /\ prepared st'
       = prepared st && negb (existsb (fails (sender_to_node w)) consumed)
    /\ failed_at st' = failed_at_after (sender_to_node w) consumed (failed_at st)
    /\ trace w'
       = trace w ++ gather_events (sender_to_node w) (participantsMask st) consumed
    /\ sender_to_node w' = sender_to_node w /\ MtmTx w' = MtmTx w
    /\ mtm_reads w' = mtm_reads w /\ DmqSubscribed w' = DmqSubscribed w.
Proof.
  induction fuel as [|fuel IH]; intros st w st' w' H; cbn [while_fuel] in H;
    [discriminate|].
  bind_inv H. unfold mask_not_empty in Hstep. apply ret_inv in Hstep as [<- <-].
  destruct (participantsMask st =? 0) eqn:Hz; cbn [negb] in H.
  - apply ret_inv in H as [<- <-]. exists [].
    cbn [app gather_ok gather_events existsb failed_at_after negb].
    rewrite app_nil_r, andb_true_r. now repeat split.
  - bind_inv H.
    apply GatherPrepares_body_Done in Hstep
      as (a0 & rest & Hin & Hin' & Hok & Hmask & Hprep & Hfa & Htr & Hs2n & Htx
          & Hreads & Hsub).
    apply IH in H
      as (consumed & Hc & Hgo & Hprep' & Hfa' & Htr' & Hs2n' & Htx' & Hreads' & Hsub').
    rewrite Hs2n, Htx, Hmask in *.
    exists (a0 :: consumed).
    cbn [app gather_ok gather_events existsb failed_at_after].
    rewrite Hz, Hok, Hgo. cbn [negb andb].
    split; [rewrite Hin, <- Hin', Hc; reflexivity|].
    split; [reflexivity|].
    split; [rewrite Hprep', Hprep, negb_orb, andb_assoc; reflexivity|].
    split; [rewrite Hfa', Hfa; reflexivity|].
    split; [rewrite Htr', Htr, <- app_assoc; reflexivity|].
    repeat split; congruence.
Qed.

Lemma prepares_loop_go cfg : forall consumed st w rest fuel,
  dmq_input w = consumed ++ rest ->
  gather_ok cfg (sender_to_node w) (xid (MtmTx w)) [MSG_PREPARED; MSG_ABORTED]
    (participantsMask st) consumed = true ->
  (length consumed < fuel)%nat ->
  exists st' w',
    while_fuel fuel mask_not_empty (GatherPrepares_body cfg) st w = Done st' w'
    /\ prepared st'
       = prepared st && negb (existsb (fails (sender_to_node w)) consumed)
    /\ failed_at st' = failed_at_after (sender_to_node w) consumed (failed_at st)
    /\ dmq_input w' = rest
    /\ trace w'
       = trace w ++ gather_events (sender_to_node w) (participantsMask st) consumed
    /\ sender_to_node w' = sender_to_node w /\ MtmTx w' = MtmTx w
    /\ mtm_reads w' = mtm_reads w /\ DmqSubscribed w' = DmqSubscribed w.
Proof.
  induction consumed as [|a consumed IH]; intros st w rest fuel Hin Hok Hfuel;
    (destruct fuel as [|fuel]; [cbn [length] in Hfuel; lia|]);
    cbn [while_fuel gather_ok gather_events existsb failed_at_after] in *.
  - exists st, w. unfold bind, ret, mask_not_empty. rewrite Hok. cbn [negb].
    rewrite app_nil_r, andb_true_r. now repeat split.
  - apply andb_true_iff in Hok as [Hok Hrest].
    apply andb_true_iff in Hok as [Hnz Hturn].
    destruct (GatherPrepares_body_go cfg st w a (consumed ++ rest) Hin Hturn)
      as (st1 & w1 & Hbody & Hmask1 & Hprep1 & Hfa1 & Hin1 & Htr1 & Hs2n1 & Htx1
          & Hreads1 & Hsub1).
    destruct (IH st1 w1 rest fuel Hin1)
      as (st' & w' & Hloop & Hprep' & Hfa' & Hin' & Htr' & Hs2n' & Htx' & Hreads'
          & Hsub').
    { now rewrite Hs2n1, Htx1, Hmask1. }
    { cbn [length] in Hfuel. lia. }
    exists st', w'. unfold bind at 1. unfold mask_not_empty at 1. unfold ret at 1.
    rewrite Hnz. rewrite (bind_Done _ _ _ _ _ Hbody). split; [exact Hloop|].
    rewrite Hs2n1, Hmask1 in *.
    split; [rewrite Hprep', Hprep1, negb_orb, andb_assoc; reflexivity|].
    split; [rewrite Hfa', Hfa1; reflexivity|].
    split; [exact Hin'|].
    split; [rewrite Htr', Htr1, <- app_assoc; reflexivity|].
    repeat split; congruence.
Qed.

Lemma GatherPrepares_Done cfg mask w r w' :
  GatherPrepares cfg mask w = Done r w' ->
  start_ok cfg mask = true
  /\ exists consumed,
       dmq_input w = consumed ++ dmq_input w'
       /\ gather_ok cfg (sender_to_node w) (xid (MtmTx w))
            [MSG_PREPARED; MSG_ABORTED] mask consumed = true
       /\ fst r = negb (existsb (fails (sender_to_node w)) consumed)
       /\ snd r = failed_at_after (sender_to_node w) consumed None
       /\ trace w' = trace w ++ gather_events (sender_to_node w) mask consumed
       /\ sender_to_node w' = sender_to_node w /\ MtmTx w' = MtmTx w
       /\ mtm_reads w' = mtm_reads w /\ DmqSubscribed w' = DmqSubscribed w.
Proof.
  unfold GatherPrepares. intros H.
  bind_inv H. unfold Assert, start_ok in *.
  destruct (assert_checking cfg && negb (negb (mask =? 0))) eqn:Ha; [discriminate|].
  apply ret_inv in Hstep as [_ <-].
  bind_inv H. apply ret_inv in H as [<- <-].
  split.
  - destruct (assert_checking cfg), (mask =? 0); cbn in *; congruence.
  - unfold while in Hstep. apply prepares_loop_Done in Hstep.
    cbn [participantsMask prepared failed_at fst snd andb] in Hstep.
    exact Hstep.
Qed.

Lemma GatherPrepares_go cfg mask w consumed rest :
  dmq_input w = consumed ++ rest ->
  start_ok cfg mask = true ->
  gather_ok cfg (sender_to_node w) (xid (MtmTx w)) [MSG_PREPARED; MSG_ABORTED]
    mask consumed = true ->
  exists w',
    GatherPrepares cfg mask w
    = Done (negb (existsb (fails (sender_to_node w)) consumed),
            failed_at_after (sender_to_node w) consumed None) w'
    /\ dmq_input w' = rest
    /\ trace w' = trace w ++ gather_events (sender_to_node w) mask consumed
    /\ sender_to_node w' = sender_to_node w /\ MtmTx w' = MtmTx w
    /\ mtm_reads w' = mtm_reads w /\ DmqSubscribed w' = DmqSubscribed w.
Proof.
  intros Hin Hstart Hok.
  destruct (prepares_loop_go cfg consumed
              {| participantsMask := mask; prepared := true; failed_at := None |}
              w rest (fuel_of w) Hin Hok)
    as (st' & w' & Hloop & Hprep & Hfa & Hrest).
  { unfold fuel_of. rewrite Hin, length_app. lia. }
  exists w'. split; [|exact Hrest].
  unfold GatherPrepares, Assert, start_ok in *.
  assert (Ha : assert_checking cfg && negb (negb (mask =? 0)) = false)
    by (destruct (assert_checking cfg), (mask =? 0); cbn in *; congruence).
  rewrite Ha. unfold bind at 1. unfold ret at 1.
  unfold while. unfold bind. rewrite Hloop. unfold ret.
  cbn [prepared failed_at andb] in Hprep, Hfa. now rewrite Hprep, Hfa.
Qed.

(** *** From the guard to the participants *)

Lemma commit_guard_Done w w0 :
  commit_guard w = Done true w0 ->
  isDistributed (MtmTx w) = true /\ containsDML (MtmTx w) = true
  /\ exists guard rest,
       mtm_reads w = guard :: rest /\ extension_created guard = true
       /\ w0 = set_trace (set_mtm_reads w rest) (trace w ++ [EvMtmRead guard]).
Proof.
  cbv beta iota delta [commit_guard bind get_MtmTx read_Mtm ret].
  destruct (isDistributed (MtmTx w)); cbn [negb]; [|discriminate].
  destruct (containsDML (MtmTx w)); cbn [negb]; [|discriminate].
  cbv beta iota.
  destruct (mtm_reads w) as [|guard rest]; [discriminate|].
  intros [= Hext <-]. split; [reflexivity|]. split; [reflexivity|].
  exists guard, rest. now repeat split.
Qed.

Lemma commit_guard_go w guard rest :
  isDistributed (MtmTx w) = true -> containsDML (MtmTx w) = true ->
  mtm_reads w = guard :: rest ->
  commit_guard w
  = Done (extension_created guard)
      (set_trace (set_mtm_reads w rest) (trace w ++ [EvMtmRead guard])).
Proof.
  intros Hd Hc Hr.
  cbv beta iota delta [commit_guard bind get_MtmTx read_Mtm ret].
  rewrite Hd, Hc. cbn [negb]. cbv beta iota. now rewrite Hr.
Qed.

Lemma attach_loop_keeps cfg : forall n i s w u w',
  attach_loop cfg n i s w = Done u w' ->
  dmq_input w' = dmq_input w /\ MtmTx w' = MtmTx w /\ mtm_reads w' = mtm_reads w.
Proof.
  induction n as [|n IH]; intros i s w u w' H; cbn [attach_loop] in H.
  - apply ret_inv in H as [_ <-]. now repeat split.
  - bind_inv H. destruct (negb (i + 1 =? MtmNodeId cfg)).
    + bind_inv Hstep. apply emit_inv in Hstep0. subst.
      bind_inv Hstep. apply ret_inv in Hstep as [<- <-].
      unfold sender_to_node_store in Hstep0.
      match type of Hstep0 with
      | (if ?c then _ else _) = _ => destruct c; [|discriminate]
      end.
      injection Hstep0 as <-. apply IH in H as (H1 & H2 & H3).
      now rewrite H1, H2, H3.
    + apply ret_inv in Hstep as [<- <-]. now apply IH in H.
Qed.

Lemma attach_receivers_keeps cfg w u w' :
  attach_receivers cfg w = Done u w' ->
  dmq_input w' = dmq_input w /\ MtmTx w' = MtmTx w.
Proof.
  unfold attach_receivers. destruct (negb (DmqSubscribed w)).
  - intros H. bind_inv H. unfold read_Mtm in Hstep.
    destruct (mtm_reads w) as [|Mtm rest]; [discriminate|].
    injection Hstep as <- <-. bind_inv H.
    apply attach_loop_keeps in Hstep as (H1 & H2 & _).
    injection H as _ <-. cbn [dmq_input MtmTx set_DmqSubscribed].
    split; [exact H1|exact H2].
  - intros H. injection H as _ <-. now split.
Qed.

Lemma begin_block_keeps h w u w' :
  begin_block h w = Done u w' ->
  dmq_input w' = dmq_input w /\ MtmTx w' = MtmTx w
  /\ sender_to_node w' = sender_to_node w /\ mtm_reads w' = mtm_reads w
  /\ DmqSubscribed w' = DmqSubscribed w.
Proof.
  unfold begin_block. destruct (negb (IsTransactionBlock h)).
  - cbv beta iota delta [bind emit]. intros H. injection H as _ <-.
    now repeat split.
  - intros H. apply ret_inv in H as [_ <-]. now repeat split.
Qed.

Lemma wait_keeps fuel : forall w u w',
  while_fuel fuel (fun _ => Mtm <- read_Mtm ;; ret (stop_new_commits Mtm))
             (fun _ => emit (EvMtmSleep USECS_PER_SEC)) tt w = Done u w' ->
  dmq_input w' = dmq_input w /\ MtmTx w' = MtmTx w
  /\ sender_to_node w' = sender_to_node w.
Proof.
  induction fuel as [|fuel IH]; intros w u w' H; cbn [while_fuel] in H;
    [discriminate|].
  bind_inv H. bind_inv Hstep. apply ret_inv in Hstep as [<- <-].
  unfold read_Mtm in Hstep0.
  destruct (mtm_reads w) as [|Mtm rest]; [discriminate|].
  injection Hstep0 as <- <-.
  destruct (stop_new_commits Mtm).
  - bind_inv H. apply emit_inv in Hstep. subst.
    apply IH in H as (H1 & H2 & H3). now rewrite H1, H2, H3.
  - apply ret_inv in H as [_ <-]. now repeat split.
Qed.

(** The prologue leaves the answers of the DMQ alone and stores the xid. *)
Lemma commit_prologue_keeps cfg h w gs w' :
  commit_prologue cfg h w = Done gs w' ->
  dmq_input w' = dmq_input w /\ xid (MtmTx w') = GetTopTransactionId h.
Proof.
  unfold commit_prologue. intros H.
  bind_inv H. apply attach_receivers_keeps in Hstep as (Ha1 & Ha2).
  bind_inv H. apply begin_block_keeps in Hstep as (Hb1 & Hb2 & _).
  bind_inv H. apply emit_inv in Hstep.
  bind_inv H. unfold get_MtmTx in Hstep0. injection Hstep0 as <- <-.
  bind_inv H. unfold put_MtmTx in Hstep0. injection Hstep0 as <-.
  bind_inv H. unfold wait_stop_new_commits, while in Hstep0.
  apply wait_keeps in Hstep0 as (Hw1 & Hw2 & _).
  bind_inv H. apply emit_inv in Hstep0.
  apply ret_inv in H as [_ <-]. subst.
  cbn [dmq_input MtmTx set_trace set_MtmTx xid] in *.
  rewrite Hw1, Hw2. cbn [xid]. split; [congruence|reflexivity].
Qed.

Lemma snapshot_participants_keeps cfg w mask w' :
  snapshot_participants cfg w = Done mask w' ->
  dmq_input w' = dmq_input w /\ MtmTx w' = MtmTx w
  /\ sender_to_node w' = sender_to_node w.
Proof.
  unfold snapshot_participants. intros H.
  bind_inv H. apply emit_inv in Hstep.
  bind_inv H. unfold read_Mtm in Hstep0.
  destruct (mtm_reads w0) as [|snap rest] eqn:Hreads; [discriminate|].
  injection Hstep0 as <- <-.
  bind_inv H. apply shift_guard_inv in Hstep0 as [-> _].
  bind_inv H. apply shift_guard_inv in Hstep0 as [-> _].
  bind_inv H.
  destruct (negb (status_eqb (status snap) MTM_ONLINE)); [discriminate|].
  apply ret_inv in Hstep0 as [_ <-].
  bind_inv H. apply emit_inv in Hstep0.
  apply ret_inv in H as [_ <-]. subst. now repeat split.
Qed.

(** *** A run that returns *)

Lemma commit_after_prepares_Done cfg gid stream mask w r w' :
  commit_after_prepares cfg gid stream mask w = Done r w' ->
  r = true
  /\ exists c2 c3,
       dmq_input w = c2 ++ c3 ++ dmq_input w'
       /\ gather_ok cfg (sender_to_node w) (xid (MtmTx w)) [MSG_PRECOMMITTED]
            mask c2 = true
       /\ gather_ok cfg (sender_to_node w) (xid (MtmTx w)) [MSG_COMMITTED]
            mask c3 = true
       /\ trace w'
          = trace w
            ++ [EvSetPreparedTransactionState gid MULTIMASTER_PRECOMMITTED]
            ++ gather_events (sender_to_node w) mask c2
            ++ [EvStartTransactionCommand; EvFinishPreparedTransaction gid true]
            ++ gather_events (sender_to_node w) mask c3
            ++ [EvLWLockRelease MtmCommitBarrier; EvDmqStreamUnsubscribe stream;
                EvMaybeLogSyncpoint]
       /\ sender_to_node w' = sender_to_node w.
Proof.
  unfold commit_after_prepares. intros H.
  bind_inv H. apply emit_inv in Hstep.
  bind_inv H.
  apply GatherPrecommits_Done in Hstep0
    as (_ & c2 & Hin2 & Hok2 & Ht2 & Hs2 & Hx2 & _).
  bind_inv H. apply emit_inv in Hstep0.
  bind_inv H. apply emit_inv in Hstep1.
  bind_inv H.
  apply GatherPrecommits_Done in Hstep2
    as (_ & c3 & Hin3 & Hok3 & Ht3 & Hs3 & Hx3 & _).
  bind_inv H. apply emit_inv in Hstep2.
  bind_inv H. apply emit_inv in Hstep3.
  bind_inv H. apply emit_inv in Hstep4.
  apply ret_inv in H as [<- <-]. split; [reflexivity|].
  subst. cbn [trace set_trace dmq_input sender_to_node MtmTx] in *.
  rewrite Hs2, Hx2 in *.
  exists c2, c3. split; [rewrite Hin2, Hin3; reflexivity|].
  split; [exact Hok2|]. split; [exact Hok3|].
  split; [|congruence].
  rewrite Ht3. cbn [trace set_trace]. rewrite Ht2. cbn [trace set_trace].
  rewrite <- !app_assoc. reflexivity.
Qed.

Lemma commit_epilogue_Done cfg h gid stream mask w r w' :
  commit_epilogue cfg h gid stream mask w = Done r w' ->
  r = true
  /\ if PrepareTransactionBlock h then
       exists c1 c2 c3,
         dmq_input w = c1 ++ c2 ++ c3 ++ dmq_input w'
         /\ gather_ok cfg (sender_to_node w) (xid (MtmTx w))
              [MSG_PREPARED; MSG_ABORTED] mask c1 = true
         /\ existsb (fails (sender_to_node w)) c1 = false
         /\ gather_ok cfg (sender_to_node w) (xid (MtmTx w)) [MSG_PRECOMMITTED]
              mask c2 = true
         /\ gather_ok cfg (sender_to_node w) (xid (MtmTx w)) [MSG_COMMITTED]
              mask c3 = true
         /\ trace w'
            = trace w
              ++ [EvPrepareTransactionBlock gid; EvCommitTransactionCommand]
              ++ gather_events (sender_to_node w) mask c1
              ++ [EvSetPreparedTransactionState gid MULTIMASTER_PRECOMMITTED]
              ++ gather_events (sender_to_node w) mask c2
              ++ [EvStartTransactionCommand; EvFinishPreparedTransaction gid true]
              ++ gather_events (sender_to_node w) mask c3
              ++ [EvLWLockRelease MtmCommitBarrier; EvDmqStreamUnsubscribe stream;
                  EvMaybeLogSyncpoint]
         /\ sender_to_node w' = sender_to_node w
     else
       trace w' = trace w ++ [EvPrepareTransactionBlock gid]
       /\ dmq_input w' = dmq_input w.
Proof.
  unfold commit_epilogue. intros H.
  bind_inv H. apply emit_inv in Hstep.
  destruct (PrepareTransactionBlock h); cbn [negb] in H.
  - bind_inv H. apply emit_inv in Hstep0.
    bind_inv H.
    apply GatherPrepares_Done in Hstep1
      as (_ & c1 & Hin1 & Hok1 & Hfst & _ & Ht1 & Hs1 & Hx1 & _).
    destruct (fst a) eqn:Hok; cbn [negb] in H.
    2:{ exfalso. eapply failure_branch_not_done. exact H. }
    apply commit_after_prepares_Done in H
      as (-> & c2 & c3 & Hin & Hok2 & Hok3 & Ht & Hs).
    split; [reflexivity|].
    subst. cbn [trace set_trace dmq_input sender_to_node MtmTx] in *.
    rewrite Hs1, Hx1 in *.
    exists c1, c2, c3. split; [rewrite Hin1, Hin; reflexivity|].
    split; [exact Hok1|].
    split; [symmetry in Hfst; now apply negb_true_iff in Hfst|].
    split; [exact Hok2|]. split; [exact Hok3|]. split; [|exact Hs].
    rewrite Ht, Ht1. cbn [trace set_trace]. rewrite <- !app_assoc. reflexivity.
  - apply ret_inv in H as [<- <-]. subst. now repeat split.
Qed.

Lemma commit_run_Done cfg h w w0 r w' :
  commit_guard w = Done true w0 ->
  MtmTwoPhaseCommit cfg h w = Done r w' ->
  r = true
  /\ if PrepareTransactionBlock h then completed cfg h w w'
     else stopped_at_prepare cfg h w w'.
Proof.
  intros Hguard H. unfold MtmTwoPhaseCommit in H.
  rewrite (bind_Done _ _ _ _ _ Hguard) in H. cbn [negb] in H.
  apply commit_guard_Done in Hguard as (_ & _ & guard & rest0 & Hr0 & _ & ->).
  bind_inv H.
  pose proof (commit_prologue_keeps _ _ _ _ _ Hstep) as (Hpin & Hpx).
  apply commit_prologue_run in Hstep
    as (-> & pre & ms & last & Ht1 & Hpre & Hms & Hlast).
  bind_inv H.
  pose proof (snapshot_participants_keeps _ _ _ _ Hstep) as (Hsin & Hsx & Hss).
  apply snapshot_participants_run in Hstep
    as (snap & rest & _ & Hon & _ & _ & -> & Ht2).
  cbn [fst snd] in H.
  apply commit_epilogue_Done in H as (-> & H). split; [reflexivity|].
  cbn [trace set_trace set_mtm_reads dmq_input] in *.
  destruct (PrepareTransactionBlock h).
  - destruct H as (c1 & c2 & c3 & Hin & Hok1 & Hf & Hok2 & Hok3 & Ht3 & Hs3).
    exists (EvMtmRead guard :: pre), ms, last, snap, c1, c2, c3.
    cbv zeta. rewrite Hs3. rewrite Hsx, Hpx in *.
    split.
    { rewrite Ht3, Ht2, Ht1. unfold commit_events. app_norm. reflexivity. }
    split; [constructor; [exact I|exact Hpre]|].
    split; [now split|]. split; [exact Hon|].
    split; [rewrite <- Hin; congruence|].
    now repeat split.
  - destruct H as (Ht3 & Hin).
    exists (EvMtmRead guard :: pre), ms, last, snap.
    split.
    { rewrite Ht3, Ht2, Ht1. unfold before_prepare. app_norm. reflexivity. }
    split; [constructor; [exact I|exact Hpre]|].
    split; [now split|]. split; [exact Hon|]. congruence.
Qed.

(** *** The ERRORs of the stages *)

Lemma raises_nothing {A} P (m : M A) :
  (forall w e w', m w <> Raised e w') -> raises_only P m.
Proof. intros H w e w' Hr. now apply H in Hr. Qed.

Lemma raises_ret {A} P (a : A) : raises_only P (ret a).
Proof. apply raises_nothing. discriminate. Qed.

Lemma raises_crash {A} P f : raises_only P (@crash A f).
Proof. apply raises_nothing. discriminate. Qed.

Lemma raises_raise {A} (P : mtm_error -> Prop) e : P e -> raises_only P (@raise A e).
Proof. intros He w e' w' [= <- _]. exact He. Qed.

Lemma raises_emit P e : raises_only P (emit e).
Proof. apply raises_nothing. discriminate. Qed.

Lemma raises_bind {A B} P (m : M A) (f : A -> M B) :
  raises_only P m -> (forall a, raises_only P (f a)) -> raises_only P (bind m f).
Proof.
  intros Hm Hf w e w' H.
  apply bind_Raised_inv in H as [H|(a & w1 & _ & H)]; [now apply Hm in H|].
  now apply Hf in H.
Qed.

Lemma raises_read_Mtm P : raises_only P read_Mtm.
Proof.
  apply raises_nothing. intros w e w'. unfold read_Mtm.
  now destruct (mtm_reads w).
Qed.

Lemma raises_dmq_pop P mask : raises_only P (dmq_pop mask).
Proof.
  apply raises_nothing. intros w e w'. unfold dmq_pop, bind, emit.
  cbn [dmq_input set_trace]. now destruct (dmq_input w).
Qed.

Lemma raises_get_MtmTx P : raises_only P get_MtmTx.
Proof. apply raises_nothing. discriminate. Qed.

Lemma raises_put_MtmTx P x : raises_only P (put_MtmTx x).
Proof. apply raises_nothing. discriminate. Qed.

Lemma raises_Assert P cfg c : raises_only P (Assert cfg c).
Proof.
  unfold Assert. destruct (assert_checking cfg && negb c);
    [apply raises_crash|apply raises_ret].
Qed.

Lemma raises_shift_guard P bit : raises_only P (shift_guard bit).
Proof.
  unfold shift_guard. destruct (shift_ok bit); [apply raises_ret|apply raises_crash].
Qed.

Lemma raises_sender_to_node_at P s : raises_only P (sender_to_node_at s).
Proof.
  apply raises_nothing. intros w e w'. unfold sender_to_node_at.
  destruct (s <? 0); [discriminate|].
  now destruct (sender_to_node w !! Z.to_nat s).
Qed.

Lemma raises_sender_to_node_store P s v : raises_only P (sender_to_node_store s v).
Proof.
  apply raises_nothing. intros w e w'. unfold sender_to_node_store.
  now destruct ((0 <=? s) && (s <? Z.of_nat (length (sender_to_node w)))).
Qed.

Lemma raises_while_fuel {S} P (cond : S -> M bool) (body : S -> M S) fuel :
  (forall s, raises_only P (cond s)) -> (forall s, raises_only P (body s)) ->
  forall s, raises_only P (while_fuel fuel cond body s).
Proof.
  intros Hc Hb. induction fuel as [|fuel IH]; intros s; cbn [while_fuel].
  - apply raises_nothing. discriminate.
  - apply raises_bind; [apply Hc|]. intros [|]; [|apply raises_ret].
    apply raises_bind; [apply Hb|]. exact IH.
Qed.

Lemma raises_while {S} P (cond : S -> M bool) (body : S -> M S) s :
  (forall s, raises_only P (cond s)) -> (forall s, raises_only P (body s)) ->
  raises_only P (while cond body s).
Proof. intros Hc Hb w. unfold while. now apply raises_while_fuel. Qed.

Ltac raises_step :=
  first
    [ apply raises_ret | apply raises_crash | apply raises_emit
    | apply raises_get_MtmTx | apply raises_put_MtmTx | apply raises_Assert
    | apply raises_shift_guard | apply raises_sender_to_node_at
    | apply raises_sender_to_node_store | apply raises_read_Mtm
    | apply raises_dmq_pop
    | apply raises_raise; reflexivity
    | apply raises_bind; [|intros ?]
    | match goal with
      | |- raises_only _ (if ?c then _ else _) => destruct c
      | |- raises_only _ (match ?x with _ => _ end) => destruct x
      end ].

Ltac raises_tac := repeat raises_step.

Lemma raises_GatherPrepares cfg mask :
  raises_only (eq NodeDisabledDuringCommit) (GatherPrepares cfg mask).
Proof.
  unfold GatherPrepares. apply raises_bind; [apply raises_Assert|intros _].
  apply raises_bind; [|intros; apply raises_ret].
  apply raises_while; [intros s; apply raises_ret|].
  intros st. unfold GatherPrepares_body. raises_tac.
Qed.

Lemma raises_GatherPrecommits cfg mask expected :
  raises_only (eq NodeDisabledDuringCommit) (GatherPrecommits cfg mask expected).
Proof.
  unfold GatherPrecommits. apply raises_bind; [apply raises_Assert|intros _].
  apply raises_bind; [|intros; apply raises_ret].
  apply raises_while; [intros s; apply raises_ret|].
  intros m. unfold GatherPrecommits_body. raises_tac.
Qed.

Lemma raises_attach_loop cfg n : forall i s,
  raises_only (fun _ => False) (attach_loop cfg n i s).
Proof.
  induction n as [|n IH]; intros i s; cbn [attach_loop]; [apply raises_ret|].
  apply raises_bind; [raises_tac|]. intros s'. apply IH.
Qed.

Lemma raises_commit_prologue cfg h :
  raises_only (fun _ => False) (commit_prologue cfg h).
Proof.
  unfold commit_prologue.
  apply raises_bind.
  { intros w e w'. unfold attach_receivers. destruct (negb (DmqSubscribed w));
      [|discriminate].
    apply (raises_bind (fun _ => False)); [apply raises_read_Mtm|]. intros Mtm.
    apply raises_bind; [apply raises_attach_loop|]. intros _.
    apply raises_nothing. discriminate. }
  intros _. apply raises_bind; [unfold begin_block; raises_tac|]. intros _.
  apply raises_bind; [apply raises_emit|]. intros _.
  apply raises_bind; [apply raises_get_MtmTx|]. intros x.
  apply raises_bind; [apply raises_put_MtmTx|]. intros _.
  apply raises_bind.
  { unfold wait_stop_new_commits. apply raises_while; intros; raises_tac. }
  intros _. raises_tac.
Qed.

(** *** A run that raises an ERROR *)

Lemma snapshot_participants_Raised cfg w e w' :
  snapshot_participants cfg w = Raised e w' ->
  e = WentOffline
  /\ exists snap,
       status snap <> MTM_ONLINE
       /\ trace w' = trace w ++ [EvLWLockAcquire MtmStateLock LW_SHARED;
                                 EvMtmRead snap].
Proof.
  cbv beta iota delta [snapshot_participants bind emit read_Mtm shift_guard ret
    raise crash].
  cbn [mtm_reads set_trace].
  destruct (mtm_reads w) as [|snap rest]; [discriminate|].
  destruct (shift_ok (nAllNodes snap)); [|discriminate].
  destruct (shift_ok (MtmNodeId cfg - 1)); [|discriminate].
  destruct (status_eqb_spec (status snap) MTM_ONLINE) as [Hon|Hoff]; cbn [negb];
    [discriminate|].
  intros [= <- <-]. split; [reflexivity|]. exists snap. split; [exact Hoff|].
  cbn [trace set_trace set_mtm_reads]. now rewrite <- app_assoc.
Qed.

Lemma gather_raised {A} (m : M A) w e w' :
  emits gather_event m ->
  raises_only (eq NodeDisabledDuringCommit) m ->
  m w = Raised e w' ->
  e = NodeDisabledDuringCommit
  /\ exists evs, trace w' = trace w ++ evs /\ Forall gather_event evs.
Proof.
  intros Hm Hr Hrun. split; [symmetry; now apply (Hr w e w')|].
  destruct (Hm w) as (evs & Ht & Hall). rewrite Hrun in Ht. eauto.
Qed.

Lemma gather_events_are_gather s2n : forall answers mask,
  Forall gather_event (gather_events s2n mask answers).
Proof.
  induction answers as [|a answers IH]; intros mask; cbn [gather_events];
    [constructor|].
  apply Forall_app. split; [|apply IH].
  destruct a; repeat constructor.
Qed.

Lemma commit_after_prepares_Raised cfg gid stream mask w e w' :
  commit_after_prepares cfg gid stream mask w = Raised e w' ->
  e = NodeDisabledDuringCommit
  /\ exists g2 g3 evs,
       trace w' = trace w ++ evs
       /\ evs `prefix_of`
            ([EvSetPreparedTransactionState gid MULTIMASTER_PRECOMMITTED]
             ++ g2
             ++ [EvStartTransactionCommand; EvFinishPreparedTransaction gid true]
             ++ g3
             ++ [EvLWLockRelease MtmCommitBarrier; EvDmqStreamUnsubscribe stream;
                 EvMaybeLogSyncpoint])
       /\ List.filter is_barrier_event evs = []
       /\ Forall gather_event g2 /\ Forall gather_event g3.
Proof.
  unfold commit_after_prepares. intros H.
  apply bind_Raised_inv in H as [H|(u & w1 & Hs1 & H)]; [discriminate|].
  apply emit_inv in Hs1. subst w1.
  apply bind_Raised_inv in H as [H|(u1 & w2 & Hs2 & H)].
  { apply (gather_raised _ _ _ _ (emits_GatherPrecommits _ _ _)
             (raises_GatherPrecommits _ _ _)) in H as (-> & evs & Ht & Hg).
    split; [reflexivity|].
    exists evs, [], (EvSetPreparedTransactionState gid MULTIMASTER_PRECOMMITTED
                     :: evs).
    cbn [trace set_trace] in Ht. split; [rewrite Ht; now app_norm|].
    split; [eexists; app_norm; reflexivity|].
    split; [cbn [List.filter is_barrier_event];
            apply (filter_none _ _ _ gather_not_barrier Hg)|].
    split; [exact Hg|constructor]. }
  apply (gather_run _ _ _ _ (emits_GatherPrecommits _ _ _)) in Hs2
    as (g2 & Ht2 & Hg2).
  cbn [trace set_trace] in Ht2.
  apply bind_Raised_inv in H as [H|(u2 & w3 & Hs3 & H)]; [discriminate|].
  apply emit_inv in Hs3. subst w3.
  apply bind_Raised_inv in H as [H|(u3 & w4 & Hs4 & H)]; [discriminate|].
  apply emit_inv in Hs4. subst w4.
  apply bind_Raised_inv in H as [H|(u4 & w5 & Hs5 & H)].
  { apply (gather_raised _ _ _ _ (emits_GatherPrecommits _ _ _)
             (raises_GatherPrecommits _ _ _)) in H as (-> & evs & Ht & Hg).
    split; [reflexivity|].
    exists g2, evs,
      ([EvSetPreparedTransactionState gid MULTIMASTER_PRECOMMITTED] ++ g2
       ++ [EvStartTransactionCommand; EvFinishPreparedTransaction gid true] ++ evs).
    cbn [trace set_trace] in Ht.
    split; [rewrite Ht, Ht2; now app_norm|].
    split; [eexists; app_norm; reflexivity|].
    split; [|now split].
    rewrite !List.filter_app.
    rewrite (filter_none _ _ g2 gather_not_barrier Hg2).
    rewrite (filter_none _ _ evs gather_not_barrier Hg). reflexivity. }
  apply bind_Raised_inv in H as [H|(u5 & w6 & Hs6 & H)]; [discriminate|].
  apply bind_Raised_inv in H as [H|(u6 & w7 & Hs7 & H)]; [discriminate|].
  apply bind_Raised_inv in H as [H|(u7 & w8 & Hs8 & H)]; [discriminate|].
  discriminate.
Qed.

Lemma commit_epilogue_Raised cfg h gid stream mask w e w' :
  commit_epilogue cfg h gid stream mask w = Raised e w' ->
  (exists n c1,
     e = PrepareFailed gid n
     /\ dmq_input w = c1 ++ dmq_input w'
     /\ gather_ok cfg (sender_to_node w) (xid (MtmTx w))
          [MSG_PREPARED; MSG_ABORTED] mask c1 = true
     /\ existsb (fails (sender_to_node w)) c1 = true
     /\ failed_at_after (sender_to_node w) c1 None = Some n
     /\ trace w'
        = trace w ++ [EvPrepareTransactionBlock gid; EvCommitTransactionCommand]
          ++ gather_events (sender_to_node w) mask c1
          ++ [EvDmqStreamUnsubscribe stream; EvFinishPreparedTransaction gid false]
     /\ sender_to_node w' = sender_to_node w)
  \/ (e = NodeDisabledDuringCommit
      /\ exists g1 g2 g3 evs,
           trace w' = trace w ++ evs
           /\ evs `prefix_of`
                ([EvPrepareTransactionBlock gid; EvCommitTransactionCommand]
                 ++ g1
                 ++ [EvSetPreparedTransactionState gid MULTIMASTER_PRECOMMITTED]
                 ++ g2
                 ++ [EvStartTransactionCommand;
                     EvFinishPreparedTransaction gid true]
                 ++ g3
                 ++ [EvLWLockRelease MtmCommitBarrier;
                     EvDmqStreamUnsubscribe stream; EvMaybeLogSyncpoint])
           /\ In (EvPrepareTransactionBlock gid) evs
           /\ List.filter is_barrier_event evs = []
           /\ Forall gather_event g1 /\ Forall gather_event g2
           /\ Forall gather_event g3).
Proof.
  unfold commit_epilogue. intros H.
  apply bind_Raised_inv in H as [H|(u & w1 & Hs1 & H)]; [discriminate|].
  apply emit_inv in Hs1. subst w1.
  destruct (PrepareTransactionBlock h); cbn [negb] in H; [|discriminate].
  apply bind_Raised_inv in H as [H|(u1 & w2 & Hs2 & H)]; [discriminate|].
  apply emit_inv in Hs2. subst w2.
  apply bind_Raised_inv in H as [H|(r & w3 & Hs3 & H)].
  { right.
    apply (gather_raised _ _ _ _ (emits_GatherPrepares _ _)
             (raises_GatherPrepares _ _)) in H as (-> & evs & Ht & Hg).
    split; [reflexivity|].
    exists evs, [], [],
      ([EvPrepareTransactionBlock gid; EvCommitTransactionCommand] ++ evs).
    cbn [trace set_trace] in Ht.
    split; [rewrite Ht; now app_norm|].
    split; [eexists; app_norm; reflexivity|].
    split; [now left|].
    split; [cbn [app List.filter is_barrier_event];
            apply (filter_none _ _ _ gather_not_barrier Hg)|].
    split; [exact Hg|split; constructor]. }
  pose proof (gather_run _ _ _ _ (emits_GatherPrepares _ _) Hs3) as (g1 & Ht1 & Hg1).
  apply GatherPrepares_Done in Hs3
    as (_ & c1 & Hin1 & Hok1 & Hfst & Hsnd & Ht1' & Hs1 & Hx1 & _).
  cbn [trace set_trace dmq_input sender_to_node MtmTx] in *.
  destruct (fst r) eqn:Hok; cbn [negb] in H.
  - right. apply commit_after_prepares_Raised in H
      as (-> & g2 & g3 & evs & Ht & Hpre & Hfil & Hg2 & Hg3).
    split; [reflexivity|].
    exists g1, g2, g3,
      ([EvPrepareTransactionBlock gid; EvCommitTransactionCommand] ++ g1 ++ evs).
    split; [rewrite Ht, Ht1; now app_norm|].
    split.
    { destruct Hpre as (tail & Htail). exists tail. rewrite Htail.
      app_norm. reflexivity. }
    split; [now left|].
    split; [|now repeat split].
    cbn [app List.filter is_barrier_event]. rewrite List.filter_app, Hfil.
    rewrite (filter_none _ _ g1 gather_not_barrier Hg1). reflexivity.
  - left.
    apply bind_Raised_inv in H as [H|(u4 & w4 & Hs4 & H)]; [discriminate|].
    apply emit_inv in Hs4. subst w4.
    apply bind_Raised_inv in H as [H|(u5 & w5 & Hs5 & H)]; [discriminate|].
    apply emit_inv in Hs5. subst w5.
    apply bind_Raised_inv in H as [H|(n & w6 & Hs6 & H)].
    { unfold read_failed_at in H. destruct (snd r); discriminate. }
    unfold read_failed_at in Hs6. destruct (snd r) as [n'|] eqn:Hfa; [|discriminate].
    apply ret_inv in Hs6 as [<- <-]. injection H as <- <-.
    exists n', c1. cbn [trace set_trace dmq_input sender_to_node].
    split; [reflexivity|]. split; [exact Hin1|]. split; [exact Hok1|].
    split; [symmetry in Hfst; now apply negb_false_iff in Hfst|].
    split; [now rewrite <- Hsnd|].
    split; [rewrite Ht1'; now app_norm|exact Hs1].
Qed.

Lemma commit_run_Raised cfg h w w0 e w' :
  commit_guard w = Done true w0 ->
  MtmTwoPhaseCommit cfg h w = Raised e w' ->
  commit_outcome cfg h w (Raised e w').
Proof.
  intros Hguard H. unfold MtmTwoPhaseCommit in H.
  rewrite (bind_Done _ _ _ _ _ Hguard) in H. cbn [negb] in H.
  apply commit_guard_Done in Hguard as (_ & _ & guard & rest0 & Hr0 & _ & ->).
  apply bind_Raised_inv in H as [H|(gs & w1 & Hs1 & H)].
  { now apply raises_commit_prologue in H. }
  pose proof (commit_prologue_keeps _ _ _ _ _ Hs1) as (Hpin & Hpx).
  apply commit_prologue_run in Hs1
    as (-> & pre & ms & last & Ht1 & Hpre & Hms & Hlast).
  cbn [trace set_trace set_mtm_reads dmq_input] in *.
  apply bind_Raised_inv in H as [H|(mask & w2 & Hs2 & H)].
  { apply snapshot_participants_Raised in H as (-> & snap & Hoff & Ht2).
    cbn [commit_outcome]. exists (EvMtmRead guard :: pre), ms, last, snap.
    split; [rewrite Ht2, Ht1; now app_norm|].
    split; [constructor; [exact I|exact Hpre]|]. now repeat split. }
  pose proof (snapshot_participants_keeps _ _ _ _ Hs2) as (Hsin & Hsx & Hss).
  apply snapshot_participants_run in Hs2
    as (snap & rest & _ & Hon & _ & _ & -> & Ht2).
  cbn [fst snd] in H.
  apply commit_epilogue_Raised in H
    as [(n & c1 & -> & Hin & Hok & Hf & Hfa & Ht3 & Hs3)
       |(-> & g1 & g2 & g3 & evs & Ht3 & Hprefix & Hprep & Hfil & Hg1 & Hg2 & Hg3)].
  - cbn [commit_outcome]. split; [reflexivity|].
    exists (EvMtmRead guard :: pre), ms, last, snap, c1. cbv zeta.
    rewrite Hs3. rewrite Hsx, Hpx in *.
    split; [rewrite Ht3, Ht2, Ht1; unfold before_prepare; now app_norm|].
    split; [constructor; [exact I|exact Hpre]|].
    split; [now split|]. split; [exact Hon|].
    split; [rewrite <- Hin; congruence|]. now repeat split.
  - cbn [commit_outcome].
    exists (EvMtmRead guard :: pre), ms, last, snap, g1, g2, g3,
      (before_prepare (stream_of h) (EvMtmRead guard :: pre) ms last snap ++ evs).
    split; [rewrite Ht3, Ht2, Ht1; unfold before_prepare; now app_norm|].
    split.
    { destruct Hprefix as (tail & Htail). exists tail.
      rewrite <- app_assoc, <- Htail.
      unfold commit_events, before_prepare. now app_norm. }
    split; [apply in_or_app; now right|].
    split.
    { rewrite List.filter_app, Hfil, app_nil_r. unfold before_prepare.
      rewrite !List.filter_app. cbn [List.filter is_barrier_event].
      rewrite (filter_none _ _ pre setup_not_barrier Hpre), polls_not_barrier.
      reflexivity. }
    split; [constructor; [exact I|exact Hpre]|].
    split; [now split|]. now repeat split.
Qed.

(** *** An environment that lets the commit through *)

Lemma attach_receivers_go cfg w attach rest :
  mtm_reads w = attach ++ rest ->
  (if DmqSubscribed w then attach = []
   else exists Mtm,
          attach = [Mtm]
          /\ (length (peers (MtmNodeId cfg) (nAllNodes Mtm))
              <= length (sender_to_node w))%nat) ->
  exists w',
    attach_receivers cfg w = Done tt w'
    /\ sender_to_node w' = senders_after cfg w attach
    /\ mtm_reads w' = rest
    /\ dmq_input w' = dmq_input w /\ MtmTx w' = MtmTx w.
Proof.
  intros Hreads Hsub. unfold attach_receivers.
  destruct (DmqSubscribed w) eqn:Hs; cbn [negb].
  - subst attach. exists w. now repeat split.
  - destruct Hsub as (Mtm & -> & Hroom). cbn [app senders_after] in *.
    set (ps := peers (MtmNodeId cfg) (nAllNodes Mtm)) in *.
    set (w1 := set_trace (set_mtm_reads w rest) (trace w ++ [EvMtmRead Mtm])).
    assert (Hread : read_Mtm w = Done Mtm w1)
      by (unfold read_Mtm; now rewrite Hreads).
    destruct (PeersFacts.attach_loop_run cfg (Z.to_nat (nAllNodes Mtm)) 0 []
                (take (length ps) (sender_to_node w))
                (drop (length ps) (sender_to_node w)) w1) with (s := 0)
      as (w2 & Hrun & Harr & Htr & Hsub2 & Hreads2 & Hin2 & Htx2).
    { unfold w1. cbn [sender_to_node set_trace set_mtm_reads app].
      now rewrite take_drop. }
    { rewrite length_take. change (0 + 1) with 1.
      fold (peers (MtmNodeId cfg) (nAllNodes Mtm)). fold ps. lia. }
    { reflexivity. }
    change (peers_from (MtmNodeId cfg) (Z.to_nat (nAllNodes Mtm)) (0 + 1))
      with ps in *.
    cbn [app] in Harr.
    exists (set_DmqSubscribed w2 true).
    rewrite (bind_Done _ _ _ _ _ Hread), (bind_Done _ _ _ _ _ Hrun).
    split; [reflexivity|].
    cbn [sender_to_node mtm_reads dmq_input MtmTx set_DmqSubscribed].
    now repeat split.
Qed.

Lemma wait_go : forall ms w last rest fuel,
  mtm_reads w = ms ++ last :: rest ->
  Forall (fun Mtm => stop_new_commits Mtm = true) ms ->
  stop_new_commits last = false ->
  (length ms < fuel)%nat ->
  exists w',
    while_fuel fuel (fun _ => Mtm <- read_Mtm ;; ret (stop_new_commits Mtm))
               (fun _ => emit (EvMtmSleep USECS_PER_SEC)) tt w = Done tt w'
    /\ mtm_reads w' = rest
    /\ dmq_input w' = dmq_input w /\ MtmTx w' = MtmTx w
    /\ sender_to_node w' = sender_to_node w.
Proof.
  induction ms as [|Mtm ms IH]; intros w last rest fuel Hreads Hms Hlast Hfuel;
    (destruct fuel as [|fuel]; [cbn [length] in Hfuel; lia|]);
    cbn [while_fuel app] in *.
  - set (wa := set_trace (set_mtm_reads w rest) (trace w ++ [EvMtmRead last])).
    assert (Hc : (Mtm0 <- read_Mtm ;; ret (stop_new_commits Mtm0)) w = Done false wa)
      by (cbv beta iota delta [bind read_Mtm ret]; rewrite Hreads, Hlast;
          reflexivity).
    exists wa. rewrite (bind_Done _ _ _ _ _ Hc). now repeat split.
  - apply Forall_cons in Hms as [HMtm Hms].
    set (wa := set_trace (set_mtm_reads w (ms ++ last :: rest))
                 (trace w ++ [EvMtmRead Mtm])).
    assert (Hc : (Mtm0 <- read_Mtm ;; ret (stop_new_commits Mtm0)) w = Done true wa)
      by (cbv beta iota delta [bind read_Mtm ret]; rewrite Hreads, HMtm;
          reflexivity).
    set (w1 := set_trace wa (trace wa ++ [EvMtmSleep USECS_PER_SEC])).
    destruct (IH w1 last rest fuel) as (w' & Hrun & Hr & Hin & Htx & Hs2n);
      [reflexivity|exact Hms|exact Hlast|cbn [length] in Hfuel; lia|].
    exists w'. rewrite (bind_Done _ _ _ _ _ Hc).
    rewrite (bind_Done _ _ _ _ w1 (eq_refl : emit (EvMtmSleep USECS_PER_SEC) wa
                                             = Done tt w1)).
    split; [exact Hrun|]. now repeat split.
Qed.

Lemma commit_prologue_go cfg h w attach ms last rest :
  mtm_reads w = attach ++ ms ++ last :: rest ->
  (if DmqSubscribed w then attach = []
   else exists Mtm,
          attach = [Mtm]
          /\ (length (peers (MtmNodeId cfg) (nAllNodes Mtm))
              <= length (sender_to_node w))%nat) ->
  barrier_wait ms last ->
  exists w',
    commit_prologue cfg h w = Done (gid_of cfg h, stream_of h) w'
    /\ sender_to_node w' = senders_after cfg w attach
    /\ mtm_reads w' = rest
    /\ dmq_input w' = dmq_input w.
Proof.
  intros Hreads Hsub [Hms Hlast]. unfold commit_prologue.
  destruct (attach_receivers_go cfg w attach _ Hreads Hsub)
    as (w1 & Hrun1 & Hs1 & Hr1 & Hin1 & Htx1).
  rewrite (bind_Done _ _ _ _ _ Hrun1).
  assert (Hb : exists w2, begin_block h w1 = Done tt w2
                 /\ sender_to_node w2 = sender_to_node w1
                 /\ mtm_reads w2 = mtm_reads w1 /\ dmq_input w2 = dmq_input w1).
  { unfold begin_block. destruct (negb (IsTransactionBlock h));
      eexists; (split; [reflexivity|]); now repeat split. }
  destruct Hb as (w2 & Hrun2 & Hs2 & Hr2 & Hin2).
  rewrite (bind_Done _ _ _ _ _ Hrun2).
  cbv beta iota delta [bind emit get_MtmTx put_MtmTx].
  match goal with
  | |- context [wait_stop_new_commits ?wx] => set (w3 := wx)
  end.
  destruct (wait_go ms w3 last rest (fuel_of w3))
    as (w4 & Hrun4 & Hr4 & Hin4 & Htx4 & Hs4).
  { unfold w3. cbn [mtm_reads set_MtmTx set_trace]. now rewrite Hr2, Hr1. }
  { exact Hms. } { exact Hlast. }
  { unfold fuel_of, w3. cbn [mtm_reads set_MtmTx set_trace].
    rewrite Hr2, Hr1, length_app. lia. }
  unfold wait_stop_new_commits, while. rewrite Hrun4.
  eexists. split; [reflexivity|].
  cbn [sender_to_node mtm_reads dmq_input set_trace].
  rewrite Hs4, Hr4, Hin4. unfold w3.
  cbn [sender_to_node mtm_reads dmq_input set_trace set_MtmTx].
  repeat split; congruence.
Qed.

Lemma snapshot_participants_go cfg w snap rest :
  mtm_reads w = snap :: rest ->
  shift_ok (nAllNodes snap) = true -> shift_ok (MtmNodeId cfg - 1) = true ->
  status snap = MTM_ONLINE ->
  exists w',
    snapshot_participants cfg w = Done (participants_of cfg snap) w'
    /\ sender_to_node w' = sender_to_node w /\ MtmTx w' = MtmTx w
    /\ mtm_reads w' = rest /\ dmq_input w' = dmq_input w.
Proof.
  intros Hreads H1 H2 Hon.
  cbv beta iota delta [snapshot_participants bind emit read_Mtm shift_guard ret
    raise crash].
  cbn [mtm_reads set_trace]. rewrite Hreads, H1, H2, Hon. cbn [status_eqb negb].
  eexists. split; [reflexivity|]. now repeat split.
Qed.

Lemma bind_emit {B} e (f : unit -> M B) w :
  bind (emit e) f w = f tt (set_trace w (trace w ++ [e])).
Proof. reflexivity. Qed.

Lemma commit_after_prepares_go cfg gid stream mask w c2 c3 rest :
  dmq_input w = c2 ++ c3 ++ rest ->
  start_ok cfg mask = true ->
  gather_ok cfg (sender_to_node w) (xid (MtmTx w)) [MSG_PRECOMMITTED] mask c2 = true ->
  gather_ok cfg (sender_to_node w) (xid (MtmTx w)) [MSG_COMMITTED] mask c3 = true ->
  exists w', commit_after_prepares cfg gid stream mask w = Done true w'.
Proof.
  intros Hin Hstart Hok2 Hok3. unfold commit_after_prepares.
  rewrite bind_emit.
  match goal with
  | |- context [bind (GatherPrecommits cfg mask MSG_PRECOMMITTED) _ ?wx] =>
      set (w1 := wx)
  end.
  destruct (GatherPrecommits_go cfg mask MSG_PRECOMMITTED w1 c2 (c3 ++ rest))
    as (w2 & Hrun2 & Hin2 & _ & Hs2 & Hx2 & _);
    [exact Hin|exact Hstart|exact Hok2|].
  rewrite (bind_Done _ _ _ _ _ Hrun2), !bind_emit.
  match goal with
  | |- context [bind (GatherPrecommits cfg mask MSG_COMMITTED) _ ?wx] =>
      set (w3 := wx)
  end.
  destruct (GatherPrecommits_go cfg mask MSG_COMMITTED w3 c3 rest)
    as (w4 & Hrun4 & _).
  { exact Hin2. } { exact Hstart. }
  { unfold w3. cbn [sender_to_node MtmTx set_trace]. rewrite Hs2, Hx2. exact Hok3. }
  rewrite (bind_Done _ _ _ _ _ Hrun4), !bind_emit.
  eexists. reflexivity.
Qed.

Lemma commit_epilogue_go cfg h gid stream mask w c1 c2 c3 rest :
  PrepareTransactionBlock h = true ->
  dmq_input w = c1 ++ c2 ++ c3 ++ rest ->
  start_ok cfg mask = true ->
  gather_ok cfg (sender_to_node w) (xid (MtmTx w)) [MSG_PREPARED; MSG_ABORTED]
    mask c1 = true ->
  existsb (fails (sender_to_node w)) c1 = false ->
  gather_ok cfg (sender_to_node w) (xid (MtmTx w)) [MSG_PRECOMMITTED] mask c2 = true ->
  gather_ok cfg (sender_to_node w) (xid (MtmTx w)) [MSG_COMMITTED] mask c3 = true ->
  exists w', commit_epilogue cfg h gid stream mask w = Done true w'.
Proof.
  intros Hprep Hin Hstart Hok1 Hf Hok2 Hok3. unfold commit_epilogue.
  rewrite Hprep. cbn [negb]. rewrite !bind_emit.
  match goal with
  | |- context [bind (GatherPrepares cfg mask) _ ?wx] => set (w1 := wx)
  end.
  destruct (GatherPrepares_go cfg mask w1 c1 (c2 ++ c3 ++ rest))
    as (w2 & Hrun2 & Hin2 & _ & Hs2 & Hx2 & _);
    [exact Hin|exact Hstart|exact Hok1|].
  rewrite (bind_Done _ _ _ _ _ Hrun2). cbn [fst snd sender_to_node set_trace w1].
  unfold w1. cbn [sender_to_node set_trace].
  rewrite Hf. cbn [negb].
  apply (commit_after_prepares_go cfg gid stream mask w2 c2 c3 rest Hin2 Hstart).
  - rewrite Hs2, Hx2. exact Hok2.
  - rewrite Hs2, Hx2. exact Hok3.
Qed.

Lemma cooperative_completes cfg h w guard attach ms last snap c1 c2 c3 :
  cooperative cfg h w guard attach ms last snap c1 c2 c3 ->
  exists w',
    MtmTwoPhaseCommit cfg h w = Done true w' /\ completed cfg h w w'.
Proof.
  intros (Hd & Hc & Hext & Hsub & Hwait & Hon & Hsh1 & Hsh2 & Hprep & Hstart
          & Hok1 & Hf & Hok2 & Hok3 & reads & input & Hreads & Hin).
  pose proof (commit_guard_go w guard _ Hd Hc Hreads) as Hguard.
  rewrite Hext in Hguard.
  set (w0 := set_trace (set_mtm_reads w (attach ++ ms ++ [last; snap] ++ reads))
               (trace w ++ [EvMtmRead guard])) in *.
  destruct (commit_prologue_go cfg h w0 attach ms last (snap :: reads))
    as (w1 & Hrun1 & Hs1 & Hr1 & Hin1).
  { reflexivity. } { exact Hsub. } { exact Hwait. }
  pose proof (commit_prologue_keeps _ _ _ _ _ Hrun1) as (_ & Hx1).
  destruct (snapshot_participants_go cfg w1 snap reads Hr1 Hsh1 Hsh2 Hon)
    as (w2 & Hrun2 & Hs2 & Hx2 & Hr2 & Hin2).
  change (senders_after cfg w0 attach) with (senders_after cfg w attach) in Hs1.
  destruct (commit_epilogue_go cfg h (gid_of cfg h) (stream_of h)
              (participants_of cfg snap) w2 c1 c2 c3 input Hprep)
    as (w' & Hrun3).
  { rewrite Hin2, Hin1. exact Hin. }
  { exact Hstart. }
  { rewrite Hs2, Hs1, Hx2, Hx1. exact Hok1. }
  { rewrite Hs2, Hs1. exact Hf. }
  { rewrite Hs2, Hs1, Hx2, Hx1. exact Hok2. }
  { rewrite Hs2, Hs1, Hx2, Hx1. exact Hok3. }
  assert (Hrun : MtmTwoPhaseCommit cfg h w = Done true w').
  { unfold MtmTwoPhaseCommit. rewrite (bind_Done _ _ _ _ _ Hguard). cbn [negb].
    rewrite (bind_Done _ _ _ _ _ Hrun1), (bind_Done _ _ _ _ _ Hrun2).
    exact Hrun3. }
  exists w'. split; [exact Hrun|].
  pose proof (commit_run_Done cfg h w w0 true w' Hguard Hrun) as [_ Hdone].
  now rewrite Hprep in Hdone.
Qed.

(** What a run comes to, whatever its outcome. *)
Lemma commit_outcome_holds cfg h w w0 :
  commit_guard w = Done true w0 ->
  commit_outcome cfg h w (MtmTwoPhaseCommit cfg h w).
Proof.
  intros Hguard.
  destruct (MtmTwoPhaseCommit cfg h w) as [r w'|e w'|f w'|w'] eqn:Hrun.
  - cbn [commit_outcome]. now apply (commit_run_Done cfg h w w0).
  - now apply (commit_run_Raised cfg h w w0).
  - exact I.
  - exact I.
Qed.

Lemma completed_holds_barrier cfg h w w' :
  completed cfg h w w' ->
  exists evs,
    trace w' = trace w ++ evs
    /\ List.filter is_barrier_event evs
       = [EvLWLockAcquire MtmCommitBarrier LW_SHARED;
          EvLWLockRelease MtmCommitBarrier].
Proof.
  intros (pre & ms & last & snap & c1 & c2 & c3 & Ht & Hpre & _).
  eexists. split; [exact Ht|].
  unfold commit_events. rewrite !List.filter_app.
  rewrite (filter_none _ _ pre setup_not_barrier Hpre), polls_not_barrier.
  rewrite !(filter_none _ _ _ gather_not_barrier (gather_events_are_gather _ _ _)).
  reflexivity.
Qed.

(** *** The order of the phases *)

Import Scenario.

(** C4 as stated fails: a distributed commit whose local PREPARE fails
    returns without committing locally (and without any gather). *)
Lemma failed_prepare_skips_phases :
  ~ (forall cfg h w guard rest b w',
       isDistributed (MtmTx w) = true ->
       containsDML (MtmTx w) = true ->
       mtm_reads w = guard :: rest ->
       extension_created guard = true ->
       MtmTwoPhaseCommit cfg h w = Done b w' ->
       In (EvFinishPreparedTransaction (gid_of cfg h) true) (trace w')).
Proof.
  intros H.
  specialize (H cfg1 failed_block commit3 online3 [online3; online3; online3] true
                (world_of (MtmTwoPhaseCommit cfg1 failed_block commit3))
                eq_refl eq_refl eq_refl eq_refl).
  assert (Hrun : MtmTwoPhaseCommit cfg1 failed_block commit3
                 = Done true
                     (world_of (MtmTwoPhaseCommit cfg1 failed_block commit3)))
    by (vm_compute; reflexivity).
  specialize (H Hrun). vm_compute in H.
  repeat (destruct H as [H|H]; [discriminate|]). exact H.
Qed.

(** C4, as the code has it. A distributed commit (one that passes the
    guard of [MtmTwoPhaseCommit]) does its steps in this order, as far as it
    gets: subscribe to the stream of the xid; look at [stop_new_commits] and
    sleep one second while it is set; take [MtmCommitBarrier] shared; take
    the participants under the state lock; PREPARE locally; gather the
    PREPAREDs; set the state to precommitted; gather the PRECOMMITTEDs; commit
    locally; gather the COMMITTEDs; release the barrier; unsubscribe. Each
    gather is the loop over the answers of the DMQ, to the answer that empties
    the awaited mask.
    - A run that returns after a successful local PREPARE has done all of
      them, and the barrier was taken once, before the participants, and
      released once, after the last gather.
    - When the local PREPARE fails the run returns true right after it.
    - When the node is not ONLINE as the participants are taken, the ERROR
      is raised there, before any PREPARE.
    - When the gather of the PREPAREDs fails, the run unsubscribes, finishes
      the prepared transaction with [isCommit = false] and raises the ERROR
      that names the node.
    - When a gather finds this node disabled, the ERROR is raised inside
      that gather, the barrier being held.
    And an environment that answers as a commit needs it (see
    [cooperative]) does get the commit through all the phases. *)
Theorem three_phase_order (cfg : config) (h : host) (w : world)
    (guard : MtmState) (rest : list MtmState) :
  isDistributed (MtmTx w) = true ->
  containsDML (MtmTx w) = true ->
  mtm_reads w = guard :: rest ->
  extension_created guard = true ->
  commit_outcome cfg h w (MtmTwoPhaseCommit cfg h w)
  /\ (forall w',
        MtmTwoPhaseCommit cfg h w = Done true w' ->
        PrepareTransactionBlock h = true ->
        exists evs,
          trace w' = trace w ++ evs
          /\ List.filter is_barrier_event evs
             = [EvLWLockAcquire MtmCommitBarrier LW_SHARED;
                EvLWLockRelease MtmCommitBarrier])
  /\ (forall attach ms last snap c1 c2 c3,
        cooperative cfg h w guard attach ms last snap c1 c2 c3 ->
        exists w',
          MtmTwoPhaseCommit cfg h w = Done true w' /\ completed cfg h w w').
Proof.
  intros Hd Hc Hreads Hext.
  pose proof (commit_guard_go w guard rest Hd Hc Hreads) as Hguard.
  rewrite Hext in Hguard.
  split; [exact (commit_outcome_holds cfg h w _ Hguard)|]. split.
  - intros w' Hrun Hprep.
    pose proof (commit_run_Done cfg h w _ true w' Hguard Hrun) as [_ Hdone].
    rewrite Hprep in Hdone. now apply (completed_holds_barrier cfg h).
  - intros attach ms last snap c1 c2 c3. apply cooperative_completes.
Qed.

Lemma commit3_cooperative :
  cooperative cfg1 user_insert commit3 online3 [online3] [] online3 online3
    [DmqMessage 0 (reply MSG_PREPARED 2); DmqMessage 1 (reply MSG_PREPARED 3)]
    [DmqMessage 1 (reply MSG_PRECOMMITTED 3); DmqMessage 0 (reply MSG_PRECOMMITTED 2)]
    [DmqMessage 0 (reply MSG_COMMITTED 2); DmqMessage 1 (reply MSG_COMMITTED 3)].
Proof.
  unfold cooperative. cbv zeta.
  do 3 (split; [reflexivity|]).
  split; [exists online3; split; [reflexivity|vm_compute; lia]|].
  split; [split; [constructor|reflexivity]|].
  do 9 (split; [vm_compute; reflexivity|]).
  exists [], []. split; reflexivity.
Defined.

Lemma three_phase_order_witness :
  commit_outcome cfg1 user_insert commit3
    (MtmTwoPhaseCommit cfg1 user_insert commit3)
  /\ exists w',
       MtmTwoPhaseCommit cfg1 user_insert commit3 = Done true w'
       /\ completed cfg1 user_insert commit3 w'.
Proof.
  destruct (three_phase_order cfg1 user_insert commit3 online3
              [online3; online3; online3] eq_refl eq_refl eq_refl eq_refl)
    as (Hout & _ & Hgo).
  split; [exact Hout|].
  exact (Hgo _ _ _ _ _ _ _ commit3_cooperative).
Defined.

(** C7, as the code has it. [MtmTwoPhaseCommit] returns false at once,
    doing nothing, when [isDistributed] or [containsDML] is false; with both
    set it looks at [Mtm->extension_created] and returns false if that is
    not set, having called nothing. With all three set it runs the 3PC
    sequence: it never returns false; what it returns with or raises is one
    of the ends of the sequence ([commit_outcome]: all phases done, or the
    local PREPARE failed, or one of the three ERRORs); and an environment
    that answers as a commit needs it gets the commit through all the
    phases. [MtmExecutorFinish] sets [containsDML] when an INSERT, UPDATE or
    DELETE has processed rows and one of its result relations is WAL-logged
    and, if tables without primary key are ignored, has a replica identity
    index. *)
Theorem commit_runs_3pc_iff (cfg : config) (h : host) (w : world) :
  (isDistributed (MtmTx w) && containsDML (MtmTx w) = false ->
   MtmTwoPhaseCommit cfg h w = Done false w)
  /\ (forall Mtm rest,
        isDistributed (MtmTx w) && containsDML (MtmTx w) = true ->
        mtm_reads w = Mtm :: rest ->
        (extension_created Mtm = false ->
         MtmTwoPhaseCommit cfg h w
         = Done false (set_trace (set_mtm_reads w rest)
                                 (trace w ++ [EvMtmRead Mtm])))
        /\ (extension_created Mtm = true ->
            commit_outcome cfg h w (MtmTwoPhaseCommit cfg h w)
            /\ (forall w', MtmTwoPhaseCommit cfg h w <> Done false w')
            /\ (forall attach ms last snap c1 c2 c3,
                  cooperative cfg h w Mtm attach ms last snap c1 c2 c3 ->
                  exists w',
                    MtmTwoPhaseCommit cfg h w = Done true w'
                    /\ completed cfg h w w')))
  /\ (forall queryDesc wq,
        exists wq',
          MtmExecutorFinish cfg queryDesc wq = Done tt wq'
          /\ containsDML (MtmTx wq')
             = containsDML (MtmTx wq)
               || (negb (es_processed queryDesc =? 0)
                   && is_dml (operation queryDesc)
                   && existsb (replicated cfg) (es_result_relations queryDesc))).
Proof.
  split; [|split].
  - intros Hflags.
    cbv beta iota delta [MtmTwoPhaseCommit commit_guard bind get_MtmTx ret].
    destruct (isDistributed (MtmTx w)); cbn [negb]; [|reflexivity].
    cbn [andb] in Hflags. now rewrite Hflags.
  - intros Mtm rest Hflags Hreads.
    apply andb_true_iff in Hflags as [Hdist Hdml].
    pose proof (commit_guard_go w Mtm rest Hdist Hdml Hreads) as Hguard.
    split; intros Hext; rewrite Hext in Hguard.
    + unfold MtmTwoPhaseCommit. now rewrite (bind_Done _ _ _ _ _ Hguard).
    + split; [exact (commit_outcome_holds cfg h w _ Hguard)|]. split.
      * intros w' Hrun.
        now pose proof (commit_run_Done cfg h w _ false w' Hguard Hrun) as [? _].
      * intros attach ms last snap c1 c2 c3. apply cooperative_completes.
  - intros q wq. unfold MtmExecutorFinish.
    assert (Htail : forall w1 : world,
              exists w2,
                (emit EvExecutorFinish ;;
                 (if is_MtmDDLStatement q then emit EvMtmFinishDDLCommand
                  else ret tt)) w1 = Done tt w2
                /\ MtmTx w2 = MtmTx w1).
    { intros w1. unfold bind, emit, ret.
      destruct (is_MtmDDLStatement q); eexists; split; reflexivity. }
    destruct (negb (es_processed q =? 0) && is_dml (operation q)); cbn [andb].
    + destruct (executor_finish_scan_run cfg (es_result_relations q) wq)
        as (w1 & Hrun & Hdml & _).
      destruct (Htail w1) as (w2 & Hrun2 & Htx).
      exists w2. rewrite (bind_Done _ _ _ _ _ Hrun).
      split; [exact Hrun2|]. now rewrite Htx.
    + rewrite orb_false_r. destruct (Htail wq) as (w2 & Hrun2 & Htx).
      exists w2. unfold bind at 1. unfold ret at 1.
      split; [exact Hrun2|]. now rewrite Htx.
Qed.

Lemma commit_runs_3pc_iff_witness :
  MtmTwoPhaseCommit cfg1 user_insert unconfigured3
  = Done false (set_trace (set_mtm_reads unconfigured3 [])
                  (trace unconfigured3 ++ [EvMtmRead (not_configured 3)]))
  /\ exists w',
       MtmTwoPhaseCommit cfg1 user_insert commit3 = Done true w'
       /\ completed cfg1 user_insert commit3 w'.
Proof.
  split.
  - destruct (commit_runs_3pc_iff cfg1 user_insert unconfigured3) as (_ & Hb & _).
    destruct (Hb (not_configured 3) [] eq_refl eq_refl) as [Hno _].
    apply Hno. reflexivity.
  - destruct (commit_runs_3pc_iff cfg1 user_insert commit3) as (_ & Hb & _).
    destruct (Hb online3 [online3; online3; online3] eq_refl eq_refl)
      as [_ Hyes].
    destruct (Hyes eq_refl) as (_ & _ & Hgo).
    exact (Hgo _ _ _ _ _ _ _ commit3_cooperative).
Defined.

End PhasesFacts.
